(** * AluQuote budget engine: correlation, line pricing and aggregation

    A shallow embedding of [backend/budget_calculator.py] and
    [backend/cost_database.py], and of the parts of [backend/dxf_parser.py]
    and [backend/main.py] that feed the engine, followed by the properties
    of the engine.

    Conventions of the embedding

    - Python [float] and [int] values are exact rationals ([Q]) and integers
      ([Z]); equalities between computed amounts are stated with [==], that
      is, up to the rounding the floating-point unit would add.
    - Python [str] is [string]; text is taken to be ASCII, so [upper],
      [lower], [strip] and the classes [\s] and [\d] act on ASCII only.
    - A [dict] built by the extractors is a record; a key read with
      [d.get(k)] or [d.get(k, default)] is an [option] field when the
      default matters, and dict-shaped records are non-empty (truthy).
    - A [dict] whose iteration order is observed is an association list
      that keeps insertion order.
    - [self] is an explicit state record threaded through the methods, and
      a raised exception is a value of [PyResult].
    - The records of the payloads hold finite numbers, and on them only a
      zero divisor raises.  The module [Received] embeds the run once more
      with the quantities as a payload can hold them, where [int] and
      the conversion of an integer to a float raise as well.

    Embedded: the calculator ([correlate_data], [calculate_budget] and
    every method they call, the cladding rules, the recommendations and
    the quick estimate); the cost database (the steel catalog, the
    cladding tables, their lookups and the two cost functions); of the
    extractor, the records of a profile and of a material quantity with
    their [to_dict], the complexity score and the scale correction; of
    the service, the parameters of a request.  Left out: reading a DXF
    or PDF file, the HTTP endpoints and the exports. *)

From Stdlib Require Import ZArith QArith Qround Qabs Lqa Lia.
From Stdlib Require Import List String Ascii Bool.
Import ListNotations.

Set Implicit Arguments.

(* ====================================================================== *)
(** * Python strings *)
(* ====================================================================== *)

Module PyStr.

Local Open Scope string_scope.
Local Open Scope N_scope.

Definition code (c : ascii) : N := N_of_ascii c.

(** [str.isspace] and the regex class [\s], on ASCII. *)
Definition is_space (c : ascii) : bool :=
  let n := code c in
  ((9 <=? n) && (n <=? 13)) || ((28 <=? n) && (n <=? 32)).

(** The regex class [\d], on ASCII. *)
Definition is_digit (c : ascii) : bool :=
  let n := code c in (48 <=? n) && (n <=? 57).

Definition upper_char (c : ascii) : ascii :=
  let n := code c in
  if (97 <=? n) && (n <=? 122) then ascii_of_N (n - 32) else c.

Definition lower_char (c : ascii) : ascii :=
  let n := code c in
  if (65 <=? n) && (n <=? 90) then ascii_of_N (n + 32) else c.

Fixpoint map_chars (f : ascii -> ascii) (s : string) : string :=
  match s with
  | EmptyString => EmptyString
  | String c r => String (f c) (map_chars f r)
  end.

(** [s.upper()] and [s.lower()]. *)
Definition upper (s : string) : string := map_chars upper_char s.
Definition lower (s : string) : string := map_chars lower_char s.

Definition is_empty (s : string) : bool :=
  match s with EmptyString => true | _ => false end.

(** Truth value of a string: [bool(s)]. *)
Definition truthy (s : string) : bool := negb (is_empty s).

Fixpoint lstrip (s : string) : string :=
  match s with
  | EmptyString => EmptyString
  | String c r => if is_space c then lstrip r else s
  end.

Fixpoint rstrip (s : string) : string :=
  match s with
  | EmptyString => EmptyString
  | String c r =>
      let r' := rstrip r in
      if is_empty r' && is_space c then EmptyString else String c r'
  end.

(** [s.strip()]. *)
Definition strip (s : string) : string := rstrip (lstrip s).

Fixpoint starts_with (p s : string) : bool :=
  match p, s with
  | EmptyString, _ => true
  | String a p', String b s' => Ascii.eqb a b && starts_with p' s'
  | String _ _, EmptyString => false
  end.

(** [a in b] for two strings. *)
Fixpoint str_in (a b : string) : bool :=
  starts_with a b ||
  match b with
  | EmptyString => false
  | String _ b' => str_in a b'
  end.

(** [s[:n]]. *)
Fixpoint take (n : nat) (s : string) : string :=
  match n, s with
  | O, _ => EmptyString
  | S n', String c r => String c (take n' r)
  | S _, EmptyString => EmptyString
  end.

Fixpoint filter_chars (keep : ascii -> bool) (s : string) : string :=
  match s with
  | EmptyString => EmptyString
  | String c r =>
      if keep c then String c (filter_chars keep r) else filter_chars keep r
  end.

(** [re.sub(r'\s+', ' ', s)]: every maximal run of whitespace becomes one
    blank.  [in_run] tells that the previous character was whitespace. *)
Fixpoint collapse_ws_from (in_run : bool) (s : string) : string :=
  match s with
  | EmptyString => EmptyString
  | String c r =>
      if is_space c
      then if in_run then collapse_ws_from true r
           else String " " (collapse_ws_from true r)
      else String c (collapse_ws_from false r)
  end.

Definition collapse_ws (s : string) : string := collapse_ws_from false s.

(** [s.replace(a, b)] for single characters. *)
Definition replace_char (a b : ascii) (s : string) : string :=
  map_chars (fun c => if Ascii.eqb c a then b else c) s.

Fixpoint concat_all (l : list string) : string :=
  match l with
  | [] => EmptyString
  | s :: r => s ++ concat_all r
  end.

(** Decimal text of a natural number, [str(n)]. *)
Definition digit_char (d : nat) : ascii := ascii_of_nat (48 + d).

Fixpoint nat_digits (fuel n : nat) (acc : string) : string :=
  match fuel with
  | O => acc
  | S fuel' =>
      let acc' := String (digit_char (Nat.modulo n 10)) acc in
      if Nat.ltb n 10 then acc' else nat_digits fuel' (Nat.div n 10) acc'
  end.

Definition str_of_nat (n : nat) : string := nat_digits (S n) n EmptyString.

(** [f"{n:02d}"]. *)
Definition fmt_02d (n : nat) : string :=
  if Nat.ltb n 10 then String "0" (str_of_nat n) else str_of_nat n.

(** [s.split()]: the words of a text, that is, its maximal runs of
    characters that are not whitespace.  [word] is the word being read. *)
Fixpoint split_from (word : string) (s : string) : list string :=
  match s with
  | EmptyString => if is_empty word then [] else [word]
  | String c r =>
      if is_space c
      then if is_empty word then split_from EmptyString r
           else word :: split_from EmptyString r
      else split_from (word ++ String c EmptyString) r
  end.

Definition split (s : string) : list string := split_from EmptyString s.

(** [s.replace(old, new)] for a non-empty [old]: the occurrences are
    taken from the left and do not overlap.  [skip] counts the characters
    of an occurrence that are still to be passed over. *)
Fixpoint replace_from (skip : nat) (old new : string) (s : string) : string :=
  match s with
  | EmptyString => EmptyString
  | String c r =>
      match skip with
      | S k => replace_from k old new r
      | O =>
          if starts_with old s
          then new ++ replace_from (Nat.pred (String.length old)) old new r
          else String c (replace_from O old new r)
      end
  end.

Definition replace (old new : string) (s : string) : string :=
  replace_from O old new s.

End PyStr.

(* ====================================================================== *)
(** * The fragment of [re] the engine uses *)
(* ====================================================================== *)

(** Every pattern of the source is a sequence of character classes, each
    with a quantifier.  Matching is the backtracking of Python's [re]:
    a quantified class takes as many characters as it can and gives them
    back one at a time. *)

Module Re.

Inductive quant := One | Opt | Star | Plus.

Record item := Item { cls : ascii -> bool; q : quant }.

Definition pattern := list item.

Definition lit_char (c : ascii) : item := Item (Ascii.eqb c) One.

Fixpoint lit (s : string) : pattern :=
  match s with
  | EmptyString => []
  | String c r => lit_char c :: lit r
  end.

Definition one_of (s : string) (c : ascii) : bool :=
  PyStr.str_in (String c EmptyString) s.

Definition space : ascii -> bool := PyStr.is_space.
Definition digit : ascii -> bool := PyStr.is_digit.
Definition either (f g : ascii -> bool) (c : ascii) : bool := f c || g c.

(** As many characters of the class as possible, then the continuation
    [k]; on failure one character fewer.  The result is the text taken by
    the class and the texts taken by the rest. *)
Fixpoint greedy (c : ascii -> bool) (k : string -> option (list string))
  (s : string) : option (string * list string) :=
  let stop := option_map (fun l => (EmptyString, l)) (k s) in
  match s with
  | EmptyString => stop
  | String a r =>
      if c a then
        match greedy c k r with
        | Some (m, l) => Some (String a m, l)
        | None => stop
        end
      else stop
  end.

Definition cons_pair (x : option (string * list string)) : option (list string) :=
  option_map (fun '(m, l) => m :: l) x.

(** [match_here p s]: the pattern matched at the start of [s]; one text
    per item of the pattern. *)
Fixpoint match_here (p : pattern) (s : string) : option (list string) :=
  match p with
  | [] => Some []
  | Item c One :: p' =>
      match s with
      | String a r =>
          if c a then option_map (cons (String a EmptyString)) (match_here p' r)
          else None
      | EmptyString => None
      end
  | Item c Opt :: p' =>
      let skip := option_map (cons EmptyString) (match_here p' s) in
      match s with
      | String a r =>
          if c a then
            match match_here p' r with
            | Some l => Some (String a EmptyString :: l)
            | None => skip
            end
          else skip
      | EmptyString => skip
      end
  | Item c Star :: p' => cons_pair (greedy c (match_here p') s)
  | Item c Plus :: p' =>
      match s with
      | String a r =>
          if c a then
            option_map (fun '(m, l) => String a m :: l) (greedy c (match_here p') r)
          else None
      | EmptyString => None
      end
  end.

(** [re.match(p, s)]. *)
Definition re_match (p : pattern) (s : string) : option (list string) :=
  match_here p s.

(** [re.search(p, s)]: the leftmost position at which the pattern matches. *)
Fixpoint re_search (p : pattern) (s : string) : option (list string) :=
  match match_here p s with
  | Some l => Some l
  | None =>
      match s with
      | EmptyString => None
      | String _ r => re_search p r
      end
  end.

(** The whole matched text. *)
Definition matched (l : list string) : string := PyStr.concat_all l.

End Re.

(* ====================================================================== *)
(** * Insertion-ordered dictionaries with string keys *)
(* ====================================================================== *)

Module Dict.

Section Ops.
Variable V : Type.

Definition t := list (string * V).

(** [d.get(k)]. *)
Fixpoint get (k : string) (d : t) : option V :=
  match d with
  | [] => None
  | (k', v) :: r => if String.eqb k k' then Some v else get k r
  end.

(** [k in d]. *)
Definition mem (k : string) (d : t) : bool :=
  match get k d with Some _ => true | None => false end.

(** [d[k] = v]: an existing key keeps its place, a new key goes last. *)
Fixpoint set (k : string) (v : V) (d : t) : t :=
  match d with
  | [] => [(k, v)]
  | (k', v') :: r =>
      if String.eqb k k' then (k', v) :: r else (k', v') :: set k v r
  end.

End Ops.

End Dict.

(* ====================================================================== *)
(** * [cost_database.py]: the steel profile catalog *)
(* ====================================================================== *)

Module CostDatabase.

Local Open Scope string_scope.
Local Open Scope Q_scope.

Record SteelProfile := {
  code : string;
  designation : string;
  weight_per_meter : Q;
  area_per_meter : Q;
  price_material : Q;
  price_fabrication : Q;
  price_assembly : Q;
  price_painting : Q;
  price_lifting : Q;
  price_consumables : Q;
  price_transport : Q;
  is_galvanized : bool
}.

(** The dictionary [SteelProfile.calculate_cost] returns. *)
Record CostData := {
  cd_designation : string;
  length_m : Q;
  cd_weight_kg : Q;
  area_m2 : Q;
  cost_material : Q;
  cost_fabrication : Q;
  cost_assembly : Q;
  cost_painting : Q;
  cost_lifting : Q;
  cost_consumables : Q;
  cost_transport : Q;
  cd_total_cost : Q
}.

Definition calculate_cost (self : SteelProfile) (length_meters : Q) : CostData :=
  let weight_kg := length_meters * weight_per_meter self in
  let area := length_meters * area_per_meter self in
  let c_material := weight_kg * price_material self in
  let c_fabrication := weight_kg * price_fabrication self in
  let c_assembly := weight_kg * price_assembly self in
  let c_lifting := weight_kg * price_lifting self in
  let c_consumables := weight_kg * price_consumables self in
  let c_transport := weight_kg * price_transport self in
  let c_painting := area * price_painting self in
  let total := c_material + c_fabrication + c_assembly + c_painting
               + c_lifting + c_consumables + c_transport in
  {| cd_designation := designation self;
     length_m := length_meters;
     cd_weight_kg := weight_kg;
     area_m2 := area;
     cost_material := c_material;
     cost_fabrication := c_fabrication;
     cost_assembly := c_assembly;
     cost_painting := c_painting;
     cost_lifting := c_lifting;
     cost_consumables := c_consumables;
     cost_transport := c_transport;
     cd_total_cost := total |}.

(** [_normalize_profile_name].  The source also replaces the
    multiplication sign, which ASCII text does not contain. *)
Definition _normalize_profile_name (name : string) : string :=
  let name := PyStr.strip (PyStr.upper name) in
  let name := PyStr.collapse_ws name in
  PyStr.replace_char "*" "X" name.

(** One tuple of [profiles_data], as the loop of [_init_steel_profiles]
    turns it into a [SteelProfile]. *)
Definition row (code designation : string)
  (kg_ml m2_ml pr_unit fabrico montagem pintura m_elev consum transp : Q)
  : SteelProfile :=
  {| code := code;
     designation := designation;
     weight_per_meter := kg_ml;
     area_per_meter := m2_ml;
     price_material := pr_unit;
     price_fabrication := fabrico;
     price_assembly := montagem;
     price_painting := pintura;
     price_lifting := m_elev;
     price_consumables := consum;
     price_transport := transp;
     is_galvanized :=
       PyStr.str_in "GALVANIZADA" (PyStr.upper designation)
       || PyStr.str_in "MADRE" (PyStr.upper designation) |}.

Definition profiles_data : list SteelProfile :=
  [
    row "0480040011" "IPE 300" 42.2 1.16 0.85 0.25 0.2 13 0.05 0.04 0.03;
    row "0480040009" "IPE 240" 30.7 0.922 0.85 0.25 0.2 13 0.05 0.04 0.03;
    row "0480040015" "IPE 450" 77.6 1.61 0.9 0.25 0.2 13 0.05 0.04 0.03;
    row "0480040008" "IPE 220" 26.2 0.848 0.85 0.25 0.2 13 0.05 0.04 0.03;
    row "0480040010" "IPE 270" 30.7 0.92 0.85 0.25 0.2 13 0.05 0.04 0.03;
    row "0480040004" "IPE 140" 12.9 0.551 0.85 0.25 0.2 13 0.05 0.04 0.03;
    row "0480040003" "IPE 120" 10.4 0.475 0.85 0.25 0.2 13 0.05 0.04 0.03;
    row "0480040005" "IPE 160" 15.8 0.623 0.85 0.25 0.2 13 0.05 0.04 0.03;
    row "0480040006" "IPE 180" 18.8 0.699 0.85 0.25 0.2 13 0.05 0.04 0.03;
    row "0480040007" "IPE 200" 22.4 0.773 0.85 0.25 0.2 13 0.05 0.04 0.03;
    row "0480040012" "IPE 330" 49.1 1.252 0.85 0.25 0.2 13 0.05 0.04 0.03;
    row "0480040013" "IPE 360" 57.1 1.356 0.85 0.25 0.2 13 0.05 0.04 0.03;
    row "0480040014" "IPE 400" 66.3 1.467 0.9 0.25 0.2 13 0.05 0.04 0.03;
    row "0480040016" "IPE 500" 90.7 1.782 0.9 0.25 0.2 13 0.05 0.04 0.03;
    row "0480040017" "IPE 550" 106.0 1.944 0.9 0.25 0.2 13 0.05 0.04 0.03;
    row "0480040018" "IPE 600" 122.0 2.106 0.9 0.25 0.2 13 0.05 0.04 0.03;
    (* HEB profiles *)
    row "0480030010" "HEB 100" 20.4 0.567 0.85 0.25 0.2 13 0.05 0.04 0.03;
    row "0480030011" "HEB 120" 26.7 0.686 0.85 0.25 0.2 13 0.05 0.04 0.03;
    row "0480030012" "HEB 140" 33.7 0.805 0.85 0.25 0.2 13 0.05 0.04 0.03;
    row "0480030013" "HEB 160" 42.6 0.924 0.85 0.25 0.2 13 0.05 0.04 0.03;
    row "0480030014" "HEB 180" 51.2 1.043 0.85 0.25 0.2 13 0.05 0.04 0.03;
    row "0480030015" "HEB 200" 61.3 1.162 0.85 0.25 0.2 13 0.05 0.04 0.03;
    row "0480030016" "HEB 220" 71.5 1.294 0.85 0.25 0.2 13 0.05 0.04 0.03;
    row "0480030017" "HEB 240" 83.2 1.426 0.85 0.25 0.2 13 0.05 0.04 0.03;
    row "0480030018" "HEB 260" 93.0 1.545 0.85 0.25 0.2 13 0.05 0.04 0.03;
    row "0480030019" "HEB 280" 103.0 1.664 0.85 0.25 0.2 13 0.05 0.04 0.03;
    row "0480030020" "HEB 300" 117.0 1.783 0.85 0.25 0.2 13 0.05 0.04 0.03;
    row "0480030021" "HEB 320" 127.0 1.889 0.9 0.25 0.2 13 0.05 0.04 0.03;
    row "0480030022" "HEB 340" 134.0 1.969 0.9 0.25 0.2 13 0.05 0.04 0.03;
    row "0480030023" "HEB 360" 142.0 2.049 0.9 0.25 0.2 13 0.05 0.04 0.03;
    row "0480030024" "HEB 400" 155.0 2.196 0.9 0.25 0.2 13 0.05 0.04 0.03;
    row "0480030025" "HEB 450" 171.0 2.396 0.9 0.25 0.2 13 0.05 0.04 0.03;
    row "0480030026" "HEB 500" 187.0 2.596 0.9 0.25 0.2 13 0.05 0.04 0.03;
    (* HEA profiles *)
    row "0480020010" "HEA 100" 16.7 0.560 0.85 0.25 0.2 13 0.05 0.04 0.03;
    row "0480020011" "HEA 120" 19.9 0.666 0.85 0.25 0.2 13 0.05 0.04 0.03;
    row "0480020012" "HEA 140" 24.7 0.772 0.85 0.25 0.2 13 0.05 0.04 0.03;
    row "0480020013" "HEA 160" 30.4 0.878 0.85 0.25 0.2 13 0.05 0.04 0.03;
    row "0480020014" "HEA 180" 35.5 0.984 0.85 0.25 0.2 13 0.05 0.04 0.03;
    row "0480020015" "HEA 200" 42.3 1.090 0.85 0.25 0.2 13 0.05 0.04 0.03;
    row "0480020016" "HEA 220" 50.5 1.209 0.85 0.25 0.2 13 0.05 0.04 0.03;
    row "0480020017" "HEA 240" 60.3 1.328 0.85 0.25 0.2 13 0.05 0.04 0.03;
    row "0480020018" "HEA 260" 68.2 1.447 0.85 0.25 0.2 13 0.05 0.04 0.03;
    row "0480020019" "HEA 280" 76.4 1.566 0.85 0.25 0.2 13 0.05 0.04 0.03;
    row "0480020020" "HEA 300" 88.3 1.685 0.85 0.25 0.2 13 0.05 0.04 0.03;
    (* UPN profiles *)
    row "0480050005" "UPN 80" 8.64 0.362 0.85 0.25 0.2 13 0.05 0.04 0.03;
    row "0480050006" "UPN 100" 10.6 0.424 0.85 0.25 0.2 13 0.05 0.04 0.03;
    row "0480050007" "UPN 120" 13.4 0.494 0.85 0.25 0.2 13 0.05 0.04 0.03;
    row "0480050008" "UPN 140" 16.0 0.564 0.85 0.25 0.2 13 0.05 0.04 0.03;
    row "0480050009" "UPN 160" 18.8 0.634 0.85 0.25 0.2 13 0.05 0.04 0.03;
    row "0480050010" "UPN 180" 22.0 0.710 0.85 0.25 0.2 13 0.05 0.04 0.03;
    row "0480050011" "UPN 200" 25.3 0.786 0.85 0.25 0.2 13 0.05 0.04 0.03;
    row "0480050012" "UPN 220" 29.4 0.862 0.85 0.25 0.2 13 0.05 0.04 0.03;
    row "0480050013" "UPN 240" 33.2 0.938 0.85 0.25 0.2 13 0.05 0.04 0.03;
    row "0480050014" "UPN 260" 37.9 1.014 0.85 0.25 0.2 13 0.05 0.04 0.03;
    row "0480050015" "UPN 280" 41.8 1.090 0.85 0.25 0.2 13 0.05 0.04 0.03;
    row "0480050016" "UPN 300" 46.2 1.166 0.85 0.25 0.2 13 0.05 0.04 0.03;
    (* Tubos redondos *)
    row "0550010060" "TUBO RED. 88.9*3.2" 6.76 0.28 1.25 0.25 0.2 13 0.05 0.04 0.03;
    row "0550010050" "TUBO RED. 60.3*3.2" 4.51 0.19 1.25 0.25 0.2 13 0.05 0.04 0.03;
    row "0550010070" "TUBO RED. 114.3*3.6" 9.83 0.36 1.25 0.25 0.2 13 0.05 0.04 0.03;
    row "0550010080" "TUBO RED. 139.7*4.0" 13.4 0.44 1.25 0.25 0.2 13 0.05 0.04 0.03;
    row "0550010090" "TUBO RED. 168.3*4.5" 18.2 0.53 1.25 0.25 0.2 13 0.05 0.04 0.03;
    (* Tubos rectangulares (RHS) *)
    row "0550020040" "RHS 100x50x3" 6.71 0.30 1.25 0.25 0.2 13 0.05 0.04 0.03;
    row "0550020050" "RHS 100x50x4" 8.59 0.30 1.25 0.25 0.2 13 0.05 0.04 0.03;
    row "0550020060" "RHS 120x60x4" 10.7 0.36 1.25 0.25 0.2 13 0.05 0.04 0.03;
    row "0550020070" "RHS 150x100x5" 18.6 0.50 1.25 0.25 0.2 13 0.05 0.04 0.03;
    row "0550020080" "RHS 200x100x5" 23.2 0.60 1.25 0.25 0.2 13 0.05 0.04 0.03;
    row "0550020090" "RHS 200x100x6" 27.4 0.60 1.25 0.25 0.2 13 0.05 0.04 0.03;
    row "0550020100" "RHS 250x150x6" 36.6 0.80 1.25 0.25 0.2 13 0.05 0.04 0.03;
    row "0550020110" "RHS 300x200x8" 60.5 1.00 1.25 0.25 0.2 13 0.05 0.04 0.03;
    (* Tubos quadrados (SHS) *)
    row "0550030040" "SHS 60x60x3" 5.29 0.24 1.25 0.25 0.2 13 0.05 0.04 0.03;
    row "0550030050" "SHS 80x80x4" 9.22 0.32 1.25 0.25 0.2 13 0.05 0.04 0.03;
    row "0550030060" "SHS 100x100x4" 11.7 0.40 1.25 0.25 0.2 13 0.05 0.04 0.03;
    row "0550030070" "SHS 100x100x5" 14.4 0.40 1.25 0.25 0.2 13 0.05 0.04 0.03;
    row "0550030080" "SHS 120x120x5" 17.5 0.48 1.25 0.25 0.2 13 0.05 0.04 0.03;
    row "0550030090" "SHS 150x150x6" 26.4 0.60 1.25 0.25 0.2 13 0.05 0.04 0.03;
    row "0550030100" "SHS 200x200x8" 47.7 0.80 1.25 0.25 0.2 13 0.05 0.04 0.03;
    (* Madres galvanizadas (preços diferentes - sem montagem pesada) *)
    row "0410010013" "MADRE Z 170*56*15 ESP. 1.5MM" 3.54 0.604 1.15 0 0.2 0 0.05 0.04 0.03;
    row "0410010005" "MADRE C 170*56*15 ESP. 1.5MM" 3.54 0.604 1.15 0 0.2 0 0.05 0.04 0.03;
    row "0410010015" "MADRE C 220*68*18 ESP. 2MM" 5.85 0.75 1.15 0 0.2 0 0.05 0.04 0.03;
    row "0410010016" "MADRE Z 200*60*15 ESP. 2MM" 5.10 0.68 1.15 0 0.2 0 0.05 0.04 0.03;
    row "0410010017" "MADRE Z 250*70*20 ESP. 2.5MM" 7.85 0.82 1.15 0 0.2 0 0.05 0.04 0.03;
    (* Omegas *)
    row "0410020001" "OMEGA 50" 2.27 0.388 1.2 0 0.2 0 0.05 0.04 0.03;
    row "0410020002" "OMEGA 80" 3.15 0.45 1.2 0 0.2 0 0.05 0.04 0.03;
    (* Chapas *)
    row "0240120008" "CHAPA PRETA 8MM" 62.8 1.0 1.8 0.25 0.2 13 0.05 0.04 0.03;
    row "0240120010" "CHAPA PRETA 10MM" 78.5 1.0 1.8 0.25 0.2 13 0.05 0.04 0.03;
    row "0240120012" "CHAPA PRETA 12MM" 94.2 1.0 1.8 0.25 0.2 13 0.05 0.04 0.03;
    row "0240120013" "CHAPA PRETA 15MM" 120.0 2.0 1.8 0.25 0.2 13 0.05 0.04 0.03;
    row "0240120020" "CHAPA PRETA 20MM" 157.0 2.0 1.8 0.25 0.2 13 0.05 0.04 0.03;
    row "0240120025" "CHAPA PRETA 25MM" 196.0 2.0 1.8 0.25 0.2 13 0.05 0.04 0.03
  ].

(** [_init_steel_profiles]: each profile is indexed by its normalized
    designation and by its code. *)
Definition index_profile (d : Dict.t SteelProfile) (p : SteelProfile)
  : Dict.t SteelProfile :=
  let key := _normalize_profile_name (designation p) in
  Dict.set (code p) p (Dict.set key p d).

Definition steel_profiles : Dict.t SteelProfile :=
  Eval vm_compute in fold_left index_profile profiles_data [].

(** The first entry, in insertion order, whose key contains the term or
    is contained in it. *)
Fixpoint partial_search (normalized : string) (d : Dict.t SteelProfile)
  : option SteelProfile :=
  match d with
  | [] => None
  | (key, profile) :: r =>
      if PyStr.str_in normalized key || PyStr.str_in key normalized
      then Some profile
      else partial_search normalized r
  end.

Definition profile_types : list string :=
  ["IPE"; "HEB"; "HEA"; "UPN"; "RHS"; "SHS"].

(** [re.match(r'(IPE|HEB|HEA|UPN|RHS|SHS)[\s]?(\d+)', s)]: the two groups. *)
Fixpoint match_type_size (types : list string) (s : string)
  : option (string * string) :=
  match types with
  | [] => None
  | ty :: r =>
      match Re.re_match
              (Re.lit ty ++ [Re.Item Re.space Re.Opt; Re.Item Re.digit Re.Plus])%list s
      with
      | Some groups => Some (ty, last groups EmptyString)
      | None => match_type_size r s
      end
  end.

(** [find_profile], on the catalog [db]. *)
Definition find_profile_in (db : Dict.t SteelProfile) (search_term : string)
  : option SteelProfile :=
  let normalized := _normalize_profile_name search_term in
  match Dict.get normalized db with
  | Some p => Some p
  | None =>
      match partial_search normalized db with
      | Some p => Some p
      | None =>
          match match_type_size profile_types normalized with
          | Some (profile_type, size) =>
              Dict.get (profile_type ++ " " ++ size) db
          | None => None
          end
      end
  end.

(** [cost_db.find_profile]: the lookup on the global instance. *)
Definition find_profile (search_term : string) : option SteelProfile :=
  find_profile_in steel_profiles search_term.

End CostDatabase.

(* ====================================================================== *)
(** * Python numbers and exceptions *)
(* ====================================================================== *)

Module PyNum.

Local Open Scope Q_scope.

Definition leb (a b : Q) : bool := Qle_bool a b.
Definition ltb (a b : Q) : bool := negb (Qle_bool b a).
Definition gtb (a b : Q) : bool := ltb b a.
Definition eqb (a b : Q) : bool := Qeq_bool a b.

(** [max(a, b)] and [min(a, b)] on numbers: the first argument wins a tie. *)
Definition max (a b : Q) : Q := if ltb a b then b else a.
Definition min (a b : Q) : Q := if ltb b a then b else a.

(** [int(x)]: truncation towards zero. *)
Definition int (x : Q) : Z := Z.quot (Qnum x) (Zpos (Qden x)).

(** [x or d] on numbers: zero is falsy. *)
Definition or_else (x d : Q) : Q := if eqb x 0 then d else x.

(** [x or d] on an optional number: [None] and zero are falsy. *)
Definition opt_or (x : option Q) (d : Q) : Q :=
  match x with
  | Some v => or_else v d
  | None => d
  end.

(** Rounding half to even, the rule of [round]. *)
Definition round_half_even (x : Q) : Z :=
  let f := Qfloor x in
  let r := x - inject_Z f in
  if ltb r (1 # 2) then f
  else if ltb (1 # 2) r then (f + 1)%Z
  else if Z.even f then f else (f + 1)%Z.

(** [round(x, ndigits)]. *)
Definition round (x : Q) (ndigits : nat) : Q :=
  let scale := inject_Z (10 ^ Z.of_nat ndigits) in
  inject_Z (round_half_even (x * scale)) / scale.

(** [sum(...)] over numbers. *)
Definition sum (l : list Q) : Q := fold_left Qplus l 0.

Definition of_nat (n : nat) : Q := inject_Z (Z.of_nat n).

End PyNum.

(** The exceptions the engine can raise: [ZeroDivisionError] from a zero
    divisor; [TypeError], [ValueError] and [OverflowError] from [int] on
    a value that is not a finite number, and [OverflowError] from the
    conversion of an integer too large for a float. *)
Inductive PyExc := ZeroDivisionError | TypeError | ValueError | OverflowError.

Inductive PyResult (A : Type) : Type :=
| Return (a : A)
| Raise (e : PyExc).

Arguments Return {A} a.
Arguments Raise {A} e.

(** [a / b], which raises on a zero divisor. *)
Definition py_div (a b : Q) : PyResult Q :=
  if PyNum.eqb b 0 then Raise ZeroDivisionError else Return (a / b)%Q.

Definition bind {A B : Type} (m : PyResult A) (k : A -> PyResult B)
  : PyResult B :=
  match m with
  | Return a => k a
  | Raise e => Raise e
  end.

Declare Scope py_scope.
Delimit Scope py_scope with py.
Notation "x <- m ;; k" := (bind m (fun x => k))
  (at level 61, m at next level, right associativity) : py_scope.

(* ====================================================================== *)
(** * [cost_database.py]: cladding tables and cost functions *)
(* ====================================================================== *)

(** The rest of the cost database: the two price properties of a steel
    profile, the cladding items with their three tables and their lookup,
    the listings, and the two module-level cost functions. *)

Module CostTables.

Import CostDatabase.

Local Open Scope string_scope.
Local Open Scope Q_scope.

(** [SteelProfile.weight_based_price_per_kg]. *)
Definition weight_based_price_per_kg (self : SteelProfile) : Q :=
  price_material self + price_fabrication self
  + price_assembly self + price_lifting self
  + price_consumables self + price_transport self.

(** [SteelProfile.painting_price_per_m2]. *)
Definition painting_price_per_m2 (self : SteelProfile) : Q :=
  price_painting self.

(** ** [CladdingItem] *)

Record CladdingItem := {
  ci_designation : string;
  ci_unit : string;
  ci_price_material : Q;
  ci_price_fabrication : Q;
  ci_price_assembly : Q;
  ci_price_painting : Q;
  ci_price_lifting : Q;
  ci_price_consumables : Q;
  ci_price_transport : Q
}.

(** [CladdingItem.total_price_per_unit]. *)
Definition total_price_per_unit (self : CladdingItem) : Q :=
  ci_price_material self + ci_price_fabrication self
  + ci_price_assembly self + ci_price_painting self
  + ci_price_lifting self + ci_price_consumables self
  + ci_price_transport self.

(** The dictionary [CladdingItem.calculate_cost] returns. *)
Record CladdingCost := {
  cc_designation : string;
  cc_quantity : Q;
  cc_unit : string;
  cc_cost_material : Q;
  cc_cost_fabrication : Q;
  cc_cost_assembly : Q;
  cc_cost_painting : Q;
  cc_cost_lifting : Q;
  cc_cost_consumables : Q;
  cc_cost_transport : Q;
  cc_total_cost : Q
}.

(** [CladdingItem.calculate_cost]. *)
Definition item_calculate_cost (self : CladdingItem) (quantity : Q)
  : CladdingCost :=
  {| cc_designation := ci_designation self;
     cc_quantity := quantity;
     cc_unit := ci_unit self;
     cc_cost_material := quantity * ci_price_material self;
     cc_cost_fabrication := quantity * ci_price_fabrication self;
     cc_cost_assembly := quantity * ci_price_assembly self;
     cc_cost_painting := quantity * ci_price_painting self;
     cc_cost_lifting := quantity * ci_price_lifting self;
     cc_cost_consumables := quantity * ci_price_consumables self;
     cc_cost_transport := quantity * ci_price_transport self;
     cc_total_cost := quantity * total_price_per_unit self |}.

(** ** The tables *)

(** One tuple of [items_data], as the loops of the three initializers
    turn it into a [CladdingItem]. *)
Definition item_row (designation unit : string)
  (pr_unit fabrico montagem pintura m_elev consum transp : Q) : CladdingItem :=
  {| ci_designation := designation;
     ci_unit := unit;
     ci_price_material := pr_unit;
     ci_price_fabrication := fabrico;
     ci_price_assembly := montagem;
     ci_price_painting := pintura;
     ci_price_lifting := m_elev;
     ci_price_consumables := consum;
     ci_price_transport := transp |}.

(** [items_data] of [_init_facade_cladding]. *)
Definition facade_data : list CladdingItem :=
  [ item_row "PAINEL FACHADA LA ROCHA 50MM" "m²" 23 0 5 0 1.3 0 0;
    item_row "PAINEL FACHADA PIR 50MM" "m²" 22 0 5 0 1.3 0 0;
    item_row "PAINEL FACHADA POLIURETANO 30MM" "m²" 18 0 5 0 1.3 0 0;
    item_row "CHAPA SIMPLES FACHADA" "m²" 12 0 4 0 1 0 0;
    item_row "CHAPA SIMPLES PRELACADA" "m²" 14 0 4 0 1 0 0;
    item_row "REMATES FACHADA" "ml" 9 0 0 0 0 0 0;
    item_row "PARAFUSOS FACHADA" "un" 1 0 0 0 0 0 0;
    item_row "CONTRA FACHADA CHAPA SIMPLES" "m²" 10 0 3 0 1 0 0 ].

(** [items_data] of [_init_roof_cladding]. *)
Definition roof_data : list CladdingItem :=
  [ item_row "PAINEL COBERTURA LA ROCHA 50MM" "m²" 23.5 0 5 0 1 0 0;
    item_row "PAINEL COBERTURA LA ROCHA 80MM" "m²" 28 0 5 0 1 0 0;
    item_row "PAINEL COBERTURA PIR 50MM" "m²" 22 0 5 0 1 0 0;
    item_row "PAINEL COBERTURA POLIURETANO 30MM" "m²" 18 0 5 0 1 0 0;
    item_row "CHAPA SIMPLES COBERTURA" "m²" 10 0 4 0 1 0 0;
    item_row "ANTICUME" "ml" 7 0 0 0 0 0 0;
    item_row "CUME" "ml" 12 0 0 0 0 0 0;
    item_row "PARAFUSOS COBERTURA" "un" 1 0 0 0 0 0 0;
    item_row "CLARABOIA FIXA 1.0X1.0" "un" 19 0 2 0 0 0 0;
    item_row "CLARABOIA FIXA 1.5X1.5" "un" 35 0 3 0 0 0 0;
    item_row "AREA DE LUZ" "m²" 19 0 2 0 0 0 0;
    item_row "CALEIRA DUPLA ISOLADA" "ml" 35 0 5 0 0 0 0;
    item_row "CALEIRA SIMPLES GALVANIZADA" "ml" 18 0 3 0 0 0 0 ].

(** [items_data] of [_init_accessories]. *)
Definition accessories_data : list CladdingItem :=
  [ item_row "PORTA EMERGENCIA 900X2150" "un" 280 0 50 0 0 0 0;
    item_row "PORTA EMERGENCIA 1200X2150" "un" 350 0 50 0 0 0 0;
    item_row "PORTA SECTORIAL 3000X3000" "un" 1800 0 200 0 50 0 0;
    item_row "PORTA SECTORIAL 4000X4000" "un" 2400 0 250 0 50 0 0;
    item_row "PORTAO BASCULANTE 3000X3000" "un" 1200 0 150 0 30 0 0;
    item_row "JANELA ALUMINIO" "m²" 150 0 30 0 0 0 0;
    item_row "PINTURA INTUMESCENTE R30" "m²" 18 0 0 0 0 0 0;
    item_row "PINTURA INTUMESCENTE R60" "m²" 28 0 0 0 0 0 0;
    item_row "PINTURA INTUMESCENTE R90" "m²" 40 0 0 0 0 0 0;
    item_row "GALVANIZACAO" "kg" 0.45 0 0 0 0 0 0 ].

(** The accented capitals [_normalize_item_name] replaces, in the order
    of the dictionary. *)
Definition replacements : list (string * string) :=
  [ ("Ã", "A"); ("Á", "A"); ("À", "A"); ("Â", "A");
    ("É", "E"); ("È", "E"); ("Ê", "E");
    ("Í", "I"); ("Ì", "I"); ("Î", "I");
    ("Ó", "O"); ("Ò", "O"); ("Ô", "O"); ("Õ", "O");
    ("Ú", "U"); ("Ù", "U"); ("Û", "U");
    ("Ç", "C") ].

(** [_normalize_item_name]. *)
Definition _normalize_item_name (name : string) : string :=
  let name := PyStr.strip (PyStr.upper name) in
  let name := PyStr.collapse_ws name in
  fold_left (fun name '(old, new) => PyStr.replace old new name)
    replacements name.

(** The body of the three loops: [items[key] = item]. *)
Definition index_item (d : Dict.t CladdingItem) (item : CladdingItem)
  : Dict.t CladdingItem :=
  Dict.set (_normalize_item_name (ci_designation item)) item d.

Definition facade_items : Dict.t CladdingItem :=
  Eval vm_compute in fold_left index_item facade_data [].

Definition roof_items : Dict.t CladdingItem :=
  Eval vm_compute in fold_left index_item roof_data [].

Definition accessories : Dict.t CladdingItem :=
  Eval vm_compute in fold_left index_item accessories_data [].

(** ** [find_cladding] *)

(** The inner loop over one table: the first entry whose key contains
    the term, is contained in it, or contains every word of it. *)
Fixpoint partial_cladding (normalized : string) (source : Dict.t CladdingItem)
  : option CladdingItem :=
  match source with
  | [] => None
  | (key, item) :: r =>
      if PyStr.str_in normalized key || PyStr.str_in key normalized
      then Some item
      else
        let keywords := PyStr.split normalized in
        if forallb (fun kw => PyStr.str_in kw key) keywords
        then Some item
        else partial_cladding normalized r
  end.

(** The loop over the tables: in each the exact key first, then the
    partial search. *)
Fixpoint search_sources (normalized : string)
  (sources : list (Dict.t CladdingItem)) : option CladdingItem :=
  match sources with
  | [] => None
  | source :: r =>
      match Dict.get normalized source with
      | Some item => Some item
      | None =>
          match partial_cladding normalized source with
          | Some item => Some item
          | None => search_sources normalized r
          end
      end
  end.

Definition category_in (category : string) (l : list string) : bool :=
  existsb (String.eqb category) l.

(** [cost_db.find_cladding]; the default of [category] is ['all']. *)
Definition find_cladding (search_term : string) (category : string)
  : option CladdingItem :=
  let normalized := _normalize_item_name search_term in
  let sources := [] in
  let sources :=
    if category_in category ["all"; "facade"]
    then (sources ++ [facade_items])%list else sources in
  let sources :=
    if category_in category ["all"; "roof"]
    then (sources ++ [roof_items])%list else sources in
  let sources :=
    if category_in category ["all"; "accessories"]
    then (sources ++ [accessories])%list else sources in
  search_sources normalized sources.

(** ** The listings *)

(** The loop of [get_all_profiles] and of [unique_items]: the values of
    a table whose designation was not seen before. *)
Fixpoint unique_by {A : Type} (key : A -> string) (seen : list string)
  (values : list A) : list A :=
  match values with
  | [] => []
  | v :: r =>
      if existsb (String.eqb (key v)) seen then unique_by key seen r
      else v :: unique_by key (key v :: seen) r
  end.

(** [sorted(l, key=...)] on text keys: a stable sort by code points. *)
Fixpoint insert_by {A : Type} (key : A -> string) (x : A) (l : list A)
  : list A :=
  match l with
  | [] => [x]
  | y :: r =>
      if String.leb (key x) (key y) then x :: l
      else y :: insert_by key x r
  end.

Definition sorted_by {A : Type} (key : A -> string) (l : list A) : list A :=
  fold_right (insert_by key) [] l.

(** [get_all_profiles], on the catalog [db]. *)
Definition get_all_profiles_in (db : Dict.t SteelProfile) : list SteelProfile :=
  sorted_by designation (unique_by designation [] (map snd db)).

(** [cost_db.get_all_profiles]. *)
Definition get_all_profiles : list SteelProfile :=
  get_all_profiles_in steel_profiles.

Record AllCladding := {
  ac_facade : list CladdingItem;
  ac_roof : list CladdingItem;
  ac_accessories : list CladdingItem
}.

(** [cost_db.get_all_cladding]. *)
Definition get_all_cladding : AllCladding :=
  let unique_items (items_dict : Dict.t CladdingItem) :=
    unique_by ci_designation [] (map snd items_dict) in
  {| ac_facade := unique_items facade_items;
     ac_roof := unique_items roof_items;
     ac_accessories := unique_items accessories |}.

(** ** [calculate_steel_structure_cost] *)

(** One entry of the argument, [{"profile": ..., "length": ...}]; an
    absent key is [None]. *)
Record SteelEntry := {
  se_profile : option string;
  se_length : option Q
}.

Record SteelStructureCost := {
  ss_items : list CostData;
  ss_total_weight_kg : Q;
  ss_total_weight_ton : Q;
  ss_total_cost : Q
}.

(** The state of the loop: [items], [total_weight], [total_cost]. *)
Definition steel_step (acc : list CostData * Q * Q) (p : SteelEntry)
  : list CostData * Q * Q :=
  let '(items, total_weight, total_cost) := acc in
  let profile :=
    find_profile (match se_profile p with Some v => v | None => "" end) in
  let length := match se_length p with Some v => v | None => 0 end in
  match profile with
  | Some profile =>
      if PyNum.gtb length 0 then
        let cost_detail := calculate_cost profile length in
        ((items ++ [cost_detail])%list,
         total_weight + cd_weight_kg cost_detail,
         total_cost + cd_total_cost cost_detail)
      else acc
  | None => acc
  end.

Definition calculate_steel_structure_cost (profiles : list SteelEntry)
  : SteelStructureCost :=
  let '(items, total_weight, total_cost) :=
    fold_left steel_step profiles ([], 0, 0) in
  {| ss_items := items;
     ss_total_weight_kg := total_weight;
     ss_total_weight_ton := total_weight / 1000;
     ss_total_cost := total_cost |}.

(** ** [calculate_cladding_cost] *)

(** One entry of the argument, [{"item": ..., "quantity": ...}]. *)
Record CladdingEntry := {
  ce_item : option string;
  ce_quantity : option Q
}.

Record CladdingTotal := {
  ct_items : list CladdingCost;
  ct_total_cost : Q
}.

Definition cladding_step (acc : list CladdingCost * Q) (i : CladdingEntry)
  : list CladdingCost * Q :=
  let '(calculated_items, total_cost) := acc in
  let item :=
    find_cladding (match ce_item i with Some v => v | None => "" end) "all" in
  let quantity := match ce_quantity i with Some v => v | None => 0 end in
  match item with
  | Some item =>
      if PyNum.gtb quantity 0 then
        let cost_detail := item_calculate_cost item quantity in
        ((calculated_items ++ [cost_detail])%list,
         total_cost + cc_total_cost cost_detail)
      else acc
  | None => acc
  end.

Definition calculate_cladding_cost (items : list CladdingEntry)
  : CladdingTotal :=
  let '(calculated_items, total_cost) :=
    fold_left cladding_step items ([], 0) in
  {| ct_items := calculated_items; ct_total_cost := total_cost |}.

End CostTables.

(* ====================================================================== *)
(** * [budget_calculator.py]: data model *)
(* ====================================================================== *)

Module BudgetCalculator.

Local Open Scope string_scope.
Local Open Scope Q_scope.

(** ** Pricing parameters *)

Record PricingParameters := {
  lme_price_usd_kg : Q;
  lme_hedging_buffer_pct : Q;
  billet_premium_usd_kg : Q;
  alloy_6063_premium_pct : Q;
  alloy_6060_premium_pct : Q;
  alloy_6082_premium_pct : Q;
  anodizing_natural_eur_m2 : Q;
  anodizing_colored_eur_m2 : Q;
  powder_coating_standard_eur_m2 : Q;
  powder_coating_qualicoat_eur_m2 : Q;
  powder_coating_seaside_eur_m2 : Q;
  labor_rate_eur_hr : Q;
  cutting_time_mins : Q;
  machining_time_per_hole_mins : Q;
  assembly_time_per_component_mins : Q;
  base_waste_factor_pct : Q;
  complexity_waste_factor_pct : Q;
  overhead_factor_pct : Q;
  profit_margin_pct : Q;
  eur_to_usd : Q
}.

(** [PricingParameters()]: the documented defaults. *)
Definition default_params : PricingParameters := {|
  lme_price_usd_kg := 2.35;
  lme_hedging_buffer_pct := 5.0;
  billet_premium_usd_kg := 0.45;
  alloy_6063_premium_pct := 0.0;
  alloy_6060_premium_pct := 2.0;
  alloy_6082_premium_pct := 8.0;
  anodizing_natural_eur_m2 := 12.0;
  anodizing_colored_eur_m2 := 18.0;
  powder_coating_standard_eur_m2 := 15.0;
  powder_coating_qualicoat_eur_m2 := 22.0;
  powder_coating_seaside_eur_m2 := 35.0;
  labor_rate_eur_hr := 35.0;
  cutting_time_mins := 2.0;
  machining_time_per_hole_mins := 5.0;
  assembly_time_per_component_mins := 8.0;
  base_waste_factor_pct := 8.0;
  complexity_waste_factor_pct := 4.0;
  overhead_factor_pct := 15.0;
  profit_margin_pct := 20.0;
  eur_to_usd := 1.08
|}.

(** ** Extractor payloads

    A field of type [option] is a key that may be missing (or hold
    [None]); a plain field is a key whose only default in the engine is
    the empty value of its type. *)

Record Feature := { feature_type : option string }.

Record BoundingBox := { width : Q; height : Q }.

(** One entry of [dxf_data['profiles']]. *)
Record DxfProfile := {
  dp_profile_id : option string;
  dp_layer : string;
  dp_material_hint : option string;
  dp_quantity : option Q;
  dp_entity_type : option string;
  dp_perimeter_mm : Q;
  dp_area_mm2 : Q;
  dp_length_mm : Q;
  dp_bounding_box : BoundingBox;
  dp_weight_kg : Q;
  dp_complexity_score : option Q;
  dp_features : list Feature
}.

(** One entry of [dxf_data['material_quantities']]. *)
Record MaterialQty := {
  mq_source : string;
  mq_profile_reference : string;
  mq_description : option string;
  mq_quantity : option Q;
  mq_unit_length_mm : Q;
  mq_unit_area_mm2 : Q
}.

(** One bill-of-materials row, [pdf_data['bom_items']]; the rows the
    fallback path synthesizes have the same shape. *)
Record PdfItem := {
  pi_reference : string;
  pi_description : string;
  pi_quantity : option Q;
  pi_length_mm : option Q;
  pi_material : option string;
  pi_finish : option string;
  pi_thickness_mm : option Q;
  pi_notes : option string
}.

(** One entry of [pdf_data['constraints']]. *)
Record Constraint := {
  tc_constraint_type : option string;
  tc_value : option string;
  tc_context : string;
  tc_importance : string
}.

(** One entry of [pdf_data['dimension_specs']]. *)
Record DimensionSpec := { ds_raw : string; ds_dimensions : string }.

(** The geometry payload; a missing [success] key reads as [False]. *)
Record DxfData := {
  dxf_success : bool;
  dxf_profiles : list DxfProfile;
  dxf_material_quantities : list MaterialQty
}.

(** The document payload.  The fallback path also fetches
    [material_specs], which it never reads. *)
Record PdfData := {
  pdf_success : bool;
  pdf_bom_items : list PdfItem;
  pdf_constraints : list Constraint;
  pdf_dimension_specs : list DimensionSpec
}.

(** ** Linkage records *)

(** The merged specification of [_extract_specifications]; the fallback
    path builds smaller dictionaries, whose missing keys read as [None]. *)
Record HighConstraint := {
  hc_type : string;
  hc_value : option string;
  hc_context : string
}.

Record Specs := {
  sp_material : option string;
  sp_finish : option string;
  sp_thickness_mm : option Q;
  sp_certifications : list (option string);
  sp_constraints : list HighConstraint
}.

(** [{}] read as a specification. *)
Definition empty_specs : Specs := {|
  sp_material := None;
  sp_finish := None;
  sp_thickness_mm := None;
  sp_certifications := [];
  sp_constraints := []
|}.

(** One correlation dictionary. *)
Record Correlation := {
  co_dxf_profile : option DxfProfile;
  co_material_quantity : option MaterialQty;
  co_pdf_item : option PdfItem;
  co_correlation_confidence : Q;
  co_correlation_method : string;
  co_quantity_source : string;
  co_specifications : option Specs
}.

(** The entries of the correlation audit log. *)
Inductive LogEntry :=
| using_dxf_as_primary (dxf_profiles dxf_materials : nat)
| using_pdf_as_fallback (pdf_items : nat)
| creating_fallback_items.

(** ** Budget lines *)

Record BudgetLineItem := {
  line_id : Z;
  reference : string;
  description : string;
  quantity : Z;
  quantity_source : string;
  specs_source : string;
  profile_id : option string;
  perimeter_mm : Q;
  area_mm2 : Q;
  length_mm : Q;
  weight_kg : Q;
  complexity_score : Q;
  holes_count : nat;
  entity_type : string;
  material : option string;
  finish : option string;
  thickness_mm : option Q;
  raw_material_cost : Q;
  transformation_cost : Q;
  surface_treatment_cost : Q;
  labor_cost : Q;
  accessories_cost : Q;
  unit_cost : Q;
  total_cost : Q;
  correlation_confidence : Q;
  correlation_method : string;
  notes : string
}.

(** Assignments to the attributes of a line. *)

Definition set_profile_id (v : option string) (l : BudgetLineItem) : BudgetLineItem :=
  {| line_id := line_id l; reference := reference l;
     description := description l; quantity := quantity l;
     quantity_source := quantity_source l; specs_source := specs_source l;
     profile_id := v; perimeter_mm := perimeter_mm l; area_mm2 := area_mm2 l;
     length_mm := length_mm l; weight_kg := weight_kg l;
     complexity_score := complexity_score l; holes_count := holes_count l;
     entity_type := entity_type l; material := material l;
     finish := finish l; thickness_mm := thickness_mm l;
     raw_material_cost := raw_material_cost l;
     transformation_cost := transformation_cost l;
     surface_treatment_cost := surface_treatment_cost l;
     labor_cost := labor_cost l; accessories_cost := accessories_cost l;
     unit_cost := unit_cost l; total_cost := total_cost l;
     correlation_confidence := correlation_confidence l;
     correlation_method := correlation_method l; notes := notes l |}.

Definition set_perimeter_mm (v : Q) (l : BudgetLineItem) : BudgetLineItem :=
  {| line_id := line_id l; reference := reference l;
     description := description l; quantity := quantity l;
     quantity_source := quantity_source l; specs_source := specs_source l;
     profile_id := profile_id l; perimeter_mm := v; area_mm2 := area_mm2 l;
     length_mm := length_mm l; weight_kg := weight_kg l;
     complexity_score := complexity_score l; holes_count := holes_count l;
     entity_type := entity_type l; material := material l;
     finish := finish l; thickness_mm := thickness_mm l;
     raw_material_cost := raw_material_cost l;
     transformation_cost := transformation_cost l;
     surface_treatment_cost := surface_treatment_cost l;
     labor_cost := labor_cost l; accessories_cost := accessories_cost l;
     unit_cost := unit_cost l; total_cost := total_cost l;
     correlation_confidence := correlation_confidence l;
     correlation_method := correlation_method l; notes := notes l |}.

Definition set_area_mm2 (v : Q) (l : BudgetLineItem) : BudgetLineItem :=
  {| line_id := line_id l; reference := reference l;
     description := description l; quantity := quantity l;
     quantity_source := quantity_source l; specs_source := specs_source l;
     profile_id := profile_id l; perimeter_mm := perimeter_mm l;
     area_mm2 := v; length_mm := length_mm l; weight_kg := weight_kg l;
     complexity_score := complexity_score l; holes_count := holes_count l;
     entity_type := entity_type l; material := material l;
     finish := finish l; thickness_mm := thickness_mm l;
     raw_material_cost := raw_material_cost l;
     transformation_cost := transformation_cost l;
     surface_treatment_cost := surface_treatment_cost l;
     labor_cost := labor_cost l; accessories_cost := accessories_cost l;
     unit_cost := unit_cost l; total_cost := total_cost l;
     correlation_confidence := correlation_confidence l;
     correlation_method := correlation_method l; notes := notes l |}.

Definition set_length_mm (v : Q) (l : BudgetLineItem) : BudgetLineItem :=
  {| line_id := line_id l; reference := reference l;
     description := description l; quantity := quantity l;
     quantity_source := quantity_source l; specs_source := specs_source l;
     profile_id := profile_id l; perimeter_mm := perimeter_mm l;
     area_mm2 := area_mm2 l; length_mm := v; weight_kg := weight_kg l;
     complexity_score := complexity_score l; holes_count := holes_count l;
     entity_type := entity_type l; material := material l;
     finish := finish l; thickness_mm := thickness_mm l;
     raw_material_cost := raw_material_cost l;
     transformation_cost := transformation_cost l;
     surface_treatment_cost := surface_treatment_cost l;
     labor_cost := labor_cost l; accessories_cost := accessories_cost l;
     unit_cost := unit_cost l; total_cost := total_cost l;
     correlation_confidence := correlation_confidence l;
     correlation_method := correlation_method l; notes := notes l |}.

Definition set_weight_kg (v : Q) (l : BudgetLineItem) : BudgetLineItem :=
  {| line_id := line_id l; reference := reference l;
     description := description l; quantity := quantity l;
     quantity_source := quantity_source l; specs_source := specs_source l;
     profile_id := profile_id l; perimeter_mm := perimeter_mm l;
     area_mm2 := area_mm2 l; length_mm := length_mm l; weight_kg := v;
     complexity_score := complexity_score l; holes_count := holes_count l;
     entity_type := entity_type l; material := material l;
     finish := finish l; thickness_mm := thickness_mm l;
     raw_material_cost := raw_material_cost l;
     transformation_cost := transformation_cost l;
     surface_treatment_cost := surface_treatment_cost l;
     labor_cost := labor_cost l; accessories_cost := accessories_cost l;
     unit_cost := unit_cost l; total_cost := total_cost l;
     correlation_confidence := correlation_confidence l;
     correlation_method := correlation_method l; notes := notes l |}.

Definition set_complexity_score (v : Q) (l : BudgetLineItem) : BudgetLineItem :=
  {| line_id := line_id l; reference := reference l;
     description := description l; quantity := quantity l;
     quantity_source := quantity_source l; specs_source := specs_source l;
     profile_id := profile_id l; perimeter_mm := perimeter_mm l;
     area_mm2 := area_mm2 l; length_mm := length_mm l;
     weight_kg := weight_kg l; complexity_score := v;
     holes_count := holes_count l; entity_type := entity_type l;
     material := material l; finish := finish l;
     thickness_mm := thickness_mm l;
     raw_material_cost := raw_material_cost l;
     transformation_cost := transformation_cost l;
     surface_treatment_cost := surface_treatment_cost l;
     labor_cost := labor_cost l; accessories_cost := accessories_cost l;
     unit_cost := unit_cost l; total_cost := total_cost l;
     correlation_confidence := correlation_confidence l;
     correlation_method := correlation_method l; notes := notes l |}.

Definition set_holes_count (v : nat) (l : BudgetLineItem) : BudgetLineItem :=
  {| line_id := line_id l; reference := reference l;
     description := description l; quantity := quantity l;
     quantity_source := quantity_source l; specs_source := specs_source l;
     profile_id := profile_id l; perimeter_mm := perimeter_mm l;
     area_mm2 := area_mm2 l; length_mm := length_mm l;
     weight_kg := weight_kg l; complexity_score := complexity_score l;
     holes_count := v; entity_type := entity_type l; material := material l;
     finish := finish l; thickness_mm := thickness_mm l;
     raw_material_cost := raw_material_cost l;
     transformation_cost := transformation_cost l;
     surface_treatment_cost := surface_treatment_cost l;
     labor_cost := labor_cost l; accessories_cost := accessories_cost l;
     unit_cost := unit_cost l; total_cost := total_cost l;
     correlation_confidence := correlation_confidence l;
     correlation_method := correlation_method l; notes := notes l |}.

Definition set_entity_type (v : string) (l : BudgetLineItem) : BudgetLineItem :=
  {| line_id := line_id l; reference := reference l;
     description := description l; quantity := quantity l;
     quantity_source := quantity_source l; specs_source := specs_source l;
     profile_id := profile_id l; perimeter_mm := perimeter_mm l;
     area_mm2 := area_mm2 l; length_mm := length_mm l;
     weight_kg := weight_kg l; complexity_score := complexity_score l;
     holes_count := holes_count l; entity_type := v; material := material l;
     finish := finish l; thickness_mm := thickness_mm l;
     raw_material_cost := raw_material_cost l;
     transformation_cost := transformation_cost l;
     surface_treatment_cost := surface_treatment_cost l;
     labor_cost := labor_cost l; accessories_cost := accessories_cost l;
     unit_cost := unit_cost l; total_cost := total_cost l;
     correlation_confidence := correlation_confidence l;
     correlation_method := correlation_method l; notes := notes l |}.

Definition set_raw_material_cost (v : Q) (l : BudgetLineItem) : BudgetLineItem :=
  {| line_id := line_id l; reference := reference l;
     description := description l; quantity := quantity l;
     quantity_source := quantity_source l; specs_source := specs_source l;
     profile_id := profile_id l; perimeter_mm := perimeter_mm l;
     area_mm2 := area_mm2 l; length_mm := length_mm l;
     weight_kg := weight_kg l; complexity_score := complexity_score l;
     holes_count := holes_count l; entity_type := entity_type l;
     material := material l; finish := finish l;
     thickness_mm := thickness_mm l; raw_material_cost := v;
     transformation_cost := transformation_cost l;
     surface_treatment_cost := surface_treatment_cost l;
     labor_cost := labor_cost l; accessories_cost := accessories_cost l;
     unit_cost := unit_cost l; total_cost := total_cost l;
     correlation_confidence := correlation_confidence l;
     correlation_method := correlation_method l; notes := notes l |}.

Definition set_transformation_cost (v : Q) (l : BudgetLineItem) : BudgetLineItem :=
  {| line_id := line_id l; reference := reference l;
     description := description l; quantity := quantity l;
     quantity_source := quantity_source l; specs_source := specs_source l;
     profile_id := profile_id l; perimeter_mm := perimeter_mm l;
     area_mm2 := area_mm2 l; length_mm := length_mm l;
     weight_kg := weight_kg l; complexity_score := complexity_score l;
     holes_count := holes_count l; entity_type := entity_type l;
     material := material l; finish := finish l;
     thickness_mm := thickness_mm l;
     raw_material_cost := raw_material_cost l; transformation_cost := v;
     surface_treatment_cost := surface_treatment_cost l;
     labor_cost := labor_cost l; accessories_cost := accessories_cost l;
     unit_cost := unit_cost l; total_cost := total_cost l;
     correlation_confidence := correlation_confidence l;
     correlation_method := correlation_method l; notes := notes l |}.

Definition set_surface_treatment_cost (v : Q) (l : BudgetLineItem) : BudgetLineItem :=
  {| line_id := line_id l; reference := reference l;
     description := description l; quantity := quantity l;
     quantity_source := quantity_source l; specs_source := specs_source l;
     profile_id := profile_id l; perimeter_mm := perimeter_mm l;
     area_mm2 := area_mm2 l; length_mm := length_mm l;
     weight_kg := weight_kg l; complexity_score := complexity_score l;
     holes_count := holes_count l; entity_type := entity_type l;
     material := material l; finish := finish l;
     thickness_mm := thickness_mm l;
     raw_material_cost := raw_material_cost l;
     transformation_cost := transformation_cost l;
     surface_treatment_cost := v; labor_cost := labor_cost l;
     accessories_cost := accessories_cost l; unit_cost := unit_cost l;
     total_cost := total_cost l;
     correlation_confidence := correlation_confidence l;
     correlation_method := correlation_method l; notes := notes l |}.

Definition set_labor_cost (v : Q) (l : BudgetLineItem) : BudgetLineItem :=
  {| line_id := line_id l; reference := reference l;
     description := description l; quantity := quantity l;
     quantity_source := quantity_source l; specs_source := specs_source l;
     profile_id := profile_id l; perimeter_mm := perimeter_mm l;
     area_mm2 := area_mm2 l; length_mm := length_mm l;
     weight_kg := weight_kg l; complexity_score := complexity_score l;
     holes_count := holes_count l; entity_type := entity_type l;
     material := material l; finish := finish l;
     thickness_mm := thickness_mm l;
     raw_material_cost := raw_material_cost l;
     transformation_cost := transformation_cost l;
     surface_treatment_cost := surface_treatment_cost l; labor_cost := v;
     accessories_cost := accessories_cost l; unit_cost := unit_cost l;
     total_cost := total_cost l;
     correlation_confidence := correlation_confidence l;
     correlation_method := correlation_method l; notes := notes l |}.

Definition set_accessories_cost (v : Q) (l : BudgetLineItem) : BudgetLineItem :=
  {| line_id := line_id l; reference := reference l;
     description := description l; quantity := quantity l;
     quantity_source := quantity_source l; specs_source := specs_source l;
     profile_id := profile_id l; perimeter_mm := perimeter_mm l;
     area_mm2 := area_mm2 l; length_mm := length_mm l;
     weight_kg := weight_kg l; complexity_score := complexity_score l;
     holes_count := holes_count l; entity_type := entity_type l;
     material := material l; finish := finish l;
     thickness_mm := thickness_mm l;
     raw_material_cost := raw_material_cost l;
     transformation_cost := transformation_cost l;
     surface_treatment_cost := surface_treatment_cost l;
     labor_cost := labor_cost l; accessories_cost := v;
     unit_cost := unit_cost l; total_cost := total_cost l;
     correlation_confidence := correlation_confidence l;
     correlation_method := correlation_method l; notes := notes l |}.

Definition set_unit_cost (v : Q) (l : BudgetLineItem) : BudgetLineItem :=
  {| line_id := line_id l; reference := reference l;
     description := description l; quantity := quantity l;
     quantity_source := quantity_source l; specs_source := specs_source l;
     profile_id := profile_id l; perimeter_mm := perimeter_mm l;
     area_mm2 := area_mm2 l; length_mm := length_mm l;
     weight_kg := weight_kg l; complexity_score := complexity_score l;
     holes_count := holes_count l; entity_type := entity_type l;
     material := material l; finish := finish l;
     thickness_mm := thickness_mm l;
     raw_material_cost := raw_material_cost l;
     transformation_cost := transformation_cost l;
     surface_treatment_cost := surface_treatment_cost l;
     labor_cost := labor_cost l; accessories_cost := accessories_cost l;
     unit_cost := v; total_cost := total_cost l;
     correlation_confidence := correlation_confidence l;
     correlation_method := correlation_method l; notes := notes l |}.

Definition set_total_cost (v : Q) (l : BudgetLineItem) : BudgetLineItem :=
  {| line_id := line_id l; reference := reference l;
     description := description l; quantity := quantity l;
     quantity_source := quantity_source l; specs_source := specs_source l;
     profile_id := profile_id l; perimeter_mm := perimeter_mm l;
     area_mm2 := area_mm2 l; length_mm := length_mm l;
     weight_kg := weight_kg l; complexity_score := complexity_score l;
     holes_count := holes_count l; entity_type := entity_type l;
     material := material l; finish := finish l;
     thickness_mm := thickness_mm l;
     raw_material_cost := raw_material_cost l;
     transformation_cost := transformation_cost l;
     surface_treatment_cost := surface_treatment_cost l;
     labor_cost := labor_cost l; accessories_cost := accessories_cost l;
     unit_cost := unit_cost l; total_cost := v;
     correlation_confidence := correlation_confidence l;
     correlation_method := correlation_method l; notes := notes l |}.

Definition set_notes (v : string) (l : BudgetLineItem) : BudgetLineItem :=
  {| line_id := line_id l; reference := reference l;
     description := description l; quantity := quantity l;
     quantity_source := quantity_source l; specs_source := specs_source l;
     profile_id := profile_id l; perimeter_mm := perimeter_mm l;
     area_mm2 := area_mm2 l; length_mm := length_mm l;
     weight_kg := weight_kg l; complexity_score := complexity_score l;
     holes_count := holes_count l; entity_type := entity_type l;
     material := material l; finish := finish l;
     thickness_mm := thickness_mm l;
     raw_material_cost := raw_material_cost l;
     transformation_cost := transformation_cost l;
     surface_treatment_cost := surface_treatment_cost l;
     labor_cost := labor_cost l; accessories_cost := accessories_cost l;
     unit_cost := unit_cost l; total_cost := total_cost l;
     correlation_confidence := correlation_confidence l;
     correlation_method := correlation_method l; notes := v |}.

(** ** Summary *)

Record BudgetSummary := {
  project_name : string;
  created_at : string;
  has_dxf : bool;
  has_pdf : bool;
  dxf_files_count : nat;
  pdf_files_count : nat;
  total_profiles : nat;
  total_quantity : Z;
  total_weight_kg : Q;
  total_length_mm : Q;
  raw_material_total : Q;
  transformation_total : Q;
  surface_treatment_total : Q;
  labor_total : Q;
  accessories_total : Q;
  waste_cost : Q;
  overhead_cost : Q;
  subtotal : Q;
  profit_margin : Q;
  total_quote : Q;
  waste_percentage_applied : Q;
  average_complexity : Q;
  estimated_production_hours : Q
}.

Definition set_estimated_production_hours (v : Q) (s : BudgetSummary)
  : BudgetSummary :=
  {| project_name := project_name s; created_at := created_at s;
     has_dxf := has_dxf s; has_pdf := has_pdf s;
     dxf_files_count := dxf_files_count s;
     pdf_files_count := pdf_files_count s;
     total_profiles := total_profiles s; total_quantity := total_quantity s;
     total_weight_kg := total_weight_kg s;
     total_length_mm := total_length_mm s;
     raw_material_total := raw_material_total s;
     transformation_total := transformation_total s;
     surface_treatment_total := surface_treatment_total s;
     labor_total := labor_total s; accessories_total := accessories_total s;
     waste_cost := waste_cost s; overhead_cost := overhead_cost s;
     subtotal := subtotal s; profit_margin := profit_margin s;
     total_quote := total_quote s;
     waste_percentage_applied := waste_percentage_applied s;
     average_complexity := average_complexity s;
     estimated_production_hours := v |}.

(** ** The calculator object *)

Record Self := {
  params : PricingParameters;
  line_items : list BudgetLineItem;
  summary : option BudgetSummary;
  correlation_log : list LogEntry
}.

(** [BudgetCalculator(params)]. *)
Definition __init__ (p : option PricingParameters) : Self := {|
  params := match p with Some p => p | None => default_params end;
  line_items := [];
  summary := None;
  correlation_log := []
|}.

(** [self.correlation_log.append(e)]. *)
Definition log_append (e : LogEntry) (self : Self) : Self := {|
  params := params self;
  line_items := line_items self;
  summary := summary self;
  correlation_log := correlation_log self ++ [e]
|}.

(** [self.line_items = l]. *)
Definition set_line_items (l : list BudgetLineItem) (self : Self) : Self := {|
  params := params self;
  line_items := l;
  summary := summary self;
  correlation_log := correlation_log self
|}.

(** [self.summary = s]. *)
Definition set_summary (s : BudgetSummary) (self : Self) : Self := {|
  params := params self;
  line_items := line_items self;
  summary := Some s;
  correlation_log := correlation_log self
|}.

(* ====================================================================== *)
(** * Correlator *)
(* ====================================================================== *)

Definition str_or_empty (x : option string) : string :=
  match x with Some v => v | None => EmptyString end.

(** Truth value of an optional string: [None] and [''] are falsy. *)
Definition opt_truthy (x : option string) : bool :=
  match x with Some v => PyStr.truthy v | None => false end.

(** ** [_build_pdf_lookup] *)

Record PdfLookup := {
  by_reference : Dict.t PdfItem;
  by_description : Dict.t PdfItem;
  all_items : list PdfItem
}.

(** The class [[\-_\s]]. *)
Definition is_separator (c : ascii) : bool :=
  Ascii.eqb c "-" || Ascii.eqb c "_" || PyStr.is_space c.

Definition index_pdf_item (lookup : PdfLookup) (item : PdfItem) : PdfLookup :=
  let ref := PyStr.strip (PyStr.upper (pi_reference item)) in
  let desc := PyStr.strip (PyStr.lower (pi_description item)) in
  let refs :=
    if PyStr.truthy ref then
      let ref_clean := PyStr.filter_chars (fun c => negb (is_separator c)) ref in
      Dict.set ref_clean item (Dict.set ref item (by_reference lookup))
    else by_reference lookup in
  let descs :=
    if PyStr.truthy desc then
      let desc_key := PyStr.take 30 desc in
      Dict.set desc_key item (by_description lookup)
    else by_description lookup in
  {| by_reference := refs; by_description := descs;
     all_items := all_items lookup |}.

Definition _build_pdf_lookup (pdf_items : list PdfItem) : PdfLookup :=
  fold_left index_pdf_item pdf_items
    {| by_reference := []; by_description := []; all_items := pdf_items |}.

(** ** [_index_constraints] *)

Definition constraint_key (c : Constraint) : string :=
  match tc_constraint_type c with Some t => t | None => "other" end.

(** [indexed[ctype].append(c)], after [indexed[ctype] = []] for a new key. *)
Definition dict_append (k : string) (c : Constraint)
  (d : Dict.t (list Constraint)) : Dict.t (list Constraint) :=
  match Dict.get k d with
  | Some l => Dict.set k (l ++ [c])%list d
  | None => Dict.set k [c] d
  end.

Definition _index_constraints (constraints : list Constraint)
  : Dict.t (list Constraint) :=
  fold_left (fun indexed c => dict_append (constraint_key c) c indexed)
    constraints [].

(** ** [_extract_specifications] *)

Definition first_value (l : list Constraint) : option string :=
  match l with
  | c :: _ => tc_value c
  | [] => None
  end.

(** [d[k][0].get('value')] when [k in d and d[k]], for a slot that is
    still falsy. *)
Definition fill_from (k : string) (constraints : Dict.t (list Constraint))
  (slot : option string) : option string :=
  match Dict.get k constraints with
  | Some (c :: r) => if opt_truthy slot then slot else first_value (c :: r)
  | _ => slot
  end.

Definition high_of (ctype : string) (c : Constraint) : HighConstraint :=
  {| hc_type := ctype; hc_value := tc_value c;
     hc_context := PyStr.take 100 (tc_context c) |}.

Definition high_constraints (constraints : Dict.t (list Constraint))
  : list HighConstraint :=
  flat_map
    (fun '(ctype, clist) =>
       map (high_of ctype)
         (filter (fun c => String.eqb (tc_importance c) "high") clist))
    constraints.

Definition _extract_specifications (pdf_item : option PdfItem)
  (constraints : Dict.t (list Constraint)) : Specs :=
  let material := match pdf_item with Some i => pi_material i | None => None end in
  let finish := match pdf_item with Some i => pi_finish i | None => None end in
  let thickness :=
    match pdf_item with Some i => pi_thickness_mm i | None => None end in
  let material := fill_from "material_grade" constraints material in
  let finish := fill_from "surface_treatment" constraints finish in
  let certifications :=
    match Dict.get "certification" constraints with
    | Some l => map tc_value l
    | None => []
    end in
  {| sp_material := material;
     sp_finish := finish;
     sp_thickness_mm := thickness;
     sp_certifications := certifications;
     sp_constraints := high_constraints constraints |}.

(** ** [_correlate_profile_with_pdf] *)

(** Strategy 2: the first reference, in insertion order, that contains
    the profile identifier or is contained in it. *)
Fixpoint match_profile_id (profile_id_upper : string) (refs : Dict.t PdfItem)
  : option PdfItem :=
  match refs with
  | [] => None
  | (ref, item) :: r =>
      if PyStr.str_in ref profile_id_upper || PyStr.str_in profile_id_upper ref
      then Some item
      else match_profile_id profile_id_upper r
  end.

(** Strategy 3: the first row whose description contains the hint. *)
Definition match_material_hint (material_hint : string) (items : list PdfItem)
  : option PdfItem :=
  find (fun item =>
          PyStr.str_in material_hint (PyStr.lower (pi_description item)))
       items.

Definition _correlate_profile_with_pdf (profile : DxfProfile)
  (pdf_lookup : PdfLookup) (constraints : Dict.t (list Constraint))
  : Correlation :=
  let profile_id := str_or_empty (dp_profile_id profile) in
  let layer := dp_layer profile in
  let layer_upper := PyStr.upper layer in
  let m1 : option PdfItem * Q * string :=
    match Dict.get layer_upper (by_reference pdf_lookup) with
    | Some item => (Some item, 0.9, "layer_to_reference")
    | None => (None, 0.0, "none")
    end in
  let m2 : option PdfItem * Q * string :=
    match m1 with
    | (Some _, _, _) => m1
    | (None, _, _) =>
        match match_profile_id (PyStr.upper profile_id) (by_reference pdf_lookup) with
        | Some item => (Some item, 0.8, "profile_id_match")
        | None => m1
        end
    end in
  let m3 : option PdfItem * Q * string :=
    match m2 with
    | (Some _, _, _) => m2
    | (None, _, _) =>
        if opt_truthy (dp_material_hint profile) then
          let material_hint :=
            PyStr.lower (str_or_empty (dp_material_hint profile)) in
          match match_material_hint material_hint (all_items pdf_lookup) with
          | Some item => (Some item, 0.6, "material_hint")
          | None => m2
          end
        else m2
    end in
  let '(matched_pdf, confidence, method) := m3 in
  let specs := _extract_specifications matched_pdf constraints in
  {| co_dxf_profile := Some profile;
     co_material_quantity := None;
     co_pdf_item := matched_pdf;
     co_correlation_confidence := confidence;
     co_correlation_method := method;
     co_quantity_source := "dxf";
     co_specifications := Some specs |}.

(** ** [_create_material_correlation] *)

Definition _create_material_correlation (material_qty : MaterialQty)
  (pdf_lookup : PdfLookup) (constraints : Dict.t (list Constraint))
  : Correlation :=
  let ref := mq_profile_reference material_qty in
  let matched_pdf := Dict.get (PyStr.upper ref) (by_reference pdf_lookup) in
  let specs := _extract_specifications matched_pdf constraints in
  {| co_dxf_profile := None;
     co_material_quantity := Some material_qty;
     co_pdf_item := matched_pdf;
     co_correlation_confidence :=
       match matched_pdf with Some _ => 0.7 | None => 0.5 end;
     co_correlation_method := "block_count";
     co_quantity_source := "dxf";
     co_specifications := Some specs |}.

(** ** [_parse_dimension] *)

(** [re.findall(r'(\d+(?:[.,]\d+)?)', s)] followed by [float] on each
    token (with the comma read as a point): a scanner over the text.  The
    state holds the token being read: its integer part, and its fraction
    with the number of fraction digits. *)
Inductive scan_state :=
| Idle
| InInt (n : Z)
| SawSep (n : Z)
| InFrac (n f : Z) (k : nat).

Definition digit_value (c : ascii) : Z := Z.of_N (PyStr.code c) - 48.

Definition number_value (n f : Z) (k : nat) : Q :=
  inject_Z n + inject_Z f / inject_Z (10 ^ Z.of_nat k).

(** The token a state stands for when the text cannot extend it. *)
Definition flush (st : scan_state) : list Q :=
  match st with
  | Idle => []
  | InInt n => [inject_Z n]
  | SawSep n => [inject_Z n]
  | InFrac n f k => [number_value n f k]
  end.

Definition is_decimal_mark (c : ascii) : bool :=
  Ascii.eqb c "." || Ascii.eqb c ",".

Fixpoint scan_numbers (st : scan_state) (s : string) : list Q :=
  match s with
  | EmptyString => flush st
  | String c r =>
      if PyStr.is_digit c then
        let d := digit_value c in
        match st with
        | Idle => scan_numbers (InInt d) r
        | InInt n => scan_numbers (InInt (10 * n + d)) r
        | SawSep n => scan_numbers (InFrac n d 1) r
        | InFrac n f k => scan_numbers (InFrac n (10 * f + d) (S k)) r
        end
      else
        match st with
        | InInt n =>
            if is_decimal_mark c then scan_numbers (SawSep n) r
            else (flush st ++ scan_numbers Idle r)%list
        | _ => (flush st ++ scan_numbers Idle r)%list
        end
  end.

Definition _parse_dimension (dim_str : string) : option Q :=
  if PyStr.is_empty dim_str then None
  else
    match scan_numbers Idle dim_str with
    | [] => None
    | v :: values => Some (fold_left PyNum.max values v)
    end.

(** ** [_create_fallback_correlations] *)

Definition material_correlation (i : nat) (mat : Constraint) : Correlation :=
  {| co_dxf_profile := None;
     co_material_quantity := None;
     co_pdf_item := Some
       {| pi_reference := "MAT-" ++ PyStr.fmt_02d (i + 1);
          pi_description :=
            "Material: " ++
            match tc_value mat with Some v => v | None => "Alumínio" end;
          pi_quantity := Some 1;
          pi_length_mm := None;
          pi_material := None;
          pi_finish := None;
          pi_thickness_mm := None;
          pi_notes := Some (PyStr.take 100 (tc_context mat)) |};
     co_correlation_confidence := 0.3;
     co_correlation_method := "constraint_extraction";
     co_quantity_source := "estimated";
     co_specifications := Some
       {| sp_material := tc_value mat; sp_finish := None;
          sp_thickness_mm := None; sp_certifications := [];
          sp_constraints := [] |} |}.

Definition treatment_correlation (i : nat) (treat : Constraint) : Correlation :=
  {| co_dxf_profile := None;
     co_material_quantity := None;
     co_pdf_item := Some
       {| pi_reference := "TRAT-" ++ PyStr.fmt_02d (i + 1);
          pi_description :=
            "Tratamento: " ++
            match tc_value treat with Some v => v | None => "Lacagem" end;
          pi_quantity := Some 1;
          pi_length_mm := None;
          pi_material := None;
          pi_finish := None;
          pi_thickness_mm := None;
          pi_notes := Some (PyStr.take 100 (tc_context treat)) |};
     co_correlation_confidence := 0.3;
     co_correlation_method := "constraint_extraction";
     co_quantity_source := "estimated";
     co_specifications := Some
       {| sp_material := None; sp_finish := tc_value treat;
          sp_thickness_mm := None; sp_certifications := [];
          sp_constraints := [] |} |}.

Definition dimension_correlation (n : nat) (dim_raw : string) (length : Q)
  : Correlation :=
  {| co_dxf_profile := None;
     co_material_quantity := None;
     co_pdf_item := Some
       {| pi_reference := "DIM-" ++ PyStr.fmt_02d (n + 1);
          pi_description := "Elemento " ++ dim_raw;
          pi_quantity := Some 1;
          pi_length_mm := Some length;
          pi_material := None;
          pi_finish := None;
          pi_thickness_mm := None;
          pi_notes := None |};
     co_correlation_confidence := 0.25;
     co_correlation_method := "dimension_extraction";
     co_quantity_source := "estimated";
     co_specifications := None |}.

Definition placeholder_correlation (total_constraints total_dims : nat)
  : Correlation :=
  {| co_dxf_profile := None;
     co_material_quantity := None;
     co_pdf_item := Some
       {| pi_reference := "PROJ-01";
          pi_description :=
            "Projeto (análise automática: " ++ PyStr.str_of_nat total_constraints
            ++ " specs, " ++ PyStr.str_of_nat total_dims ++ " dimensões)";
          pi_quantity := Some 1;
          pi_length_mm := None;
          pi_material := None;
          pi_finish := None;
          pi_thickness_mm := None;
          pi_notes := Some
            "Dados extraídos de desenhos técnicos. Revisão manual recomendada." |};
     co_correlation_confidence := 0.1;
     co_correlation_method := "placeholder";
     co_quantity_source := "estimated";
     co_specifications := None |}.

(** [for i, x in enumerate(l)], collecting [f i x]. *)
Fixpoint map_enumerate {A B : Type} (f : nat -> A -> B) (i : nat) (l : list A)
  : list B :=
  match l with
  | [] => []
  | x :: r => f i x :: map_enumerate f (S i) r
  end.

Definition group_items (k : string) (groups : Dict.t (list Constraint))
  : list Constraint :=
  match Dict.get k groups with Some l => l | None => [] end.

(** The loop over [pdf_dimensions[:20]]: [unique_dims] is the set of
    texts seen, [correlations] the list built so far. *)
Fixpoint dimension_loop (dims : list DimensionSpec) (unique_dims : list string)
  (correlations : list Correlation) : list Correlation :=
  match dims with
  | [] => correlations
  | dim :: r =>
      let dim_raw :=
        if PyStr.truthy (ds_raw dim) then ds_raw dim else ds_dimensions dim in
      if PyStr.truthy dim_raw
         && negb (existsb (String.eqb dim_raw) unique_dims)
      then
        let unique_dims := dim_raw :: unique_dims in
        match _parse_dimension dim_raw with
        | Some length =>
            if PyNum.gtb length 50 then
              dimension_loop r unique_dims
                (correlations
                 ++ [dimension_correlation (List.length correlations) dim_raw length])%list
            else dimension_loop r unique_dims correlations
        | None => dimension_loop r unique_dims correlations
        end
      else dimension_loop r unique_dims correlations
  end.

Definition _create_fallback_correlations (self : Self) (pdf_data : PdfData)
  (dxf_data : DxfData) : list Correlation * Self :=
  let self := log_append creating_fallback_items self in
  let pdf_constraints := pdf_constraints pdf_data in
  let pdf_dimensions := pdf_dimension_specs pdf_data in
  let constraint_groups := _index_constraints pdf_constraints in
  let material_items := group_items "material_grade" constraint_groups in
  let correlations :=
    map_enumerate material_correlation 0 (firstn 10 material_items) in
  let treatment_items := group_items "surface_treatment" constraint_groups in
  let correlations :=
    (correlations
     ++ map_enumerate treatment_correlation 0 (firstn 5 treatment_items))%list in
  let correlations :=
    dimension_loop (firstn 20 pdf_dimensions) [] correlations in
  let correlations :=
    match correlations with
    | [] =>
        let total_constraints := List.length pdf_constraints in
        let total_dims := List.length pdf_dimensions in
        [placeholder_correlation total_constraints total_dims]
    | _ => correlations
    end in
  (correlations, self).

(** ** [correlate_data] *)

Definition pdf_only_correlation (pdf_item : PdfItem) : Correlation :=
  {| co_dxf_profile := None;
     co_material_quantity := None;
     co_pdf_item := Some pdf_item;
     co_correlation_confidence := 0.5;
     co_correlation_method := "pdf_only";
     co_quantity_source := "pdf";
     co_specifications := None |}.

Definition correlate_data (self : Self) (dxf_data : DxfData)
  (pdf_data : PdfData) : list Correlation * Self :=
  let has_dxf :=
    dxf_success dxf_data
    && Nat.ltb 0 (List.length (dxf_profiles dxf_data)) in
  let has_pdf :=
    pdf_success pdf_data
    && Nat.ltb 0 (List.length (pdf_bom_items pdf_data)) in
  let dxf_profiles := dxf_profiles dxf_data in
  let dxf_materials := dxf_material_quantities dxf_data in
  let pdf_items := pdf_bom_items pdf_data in
  let pdf_constraints := pdf_constraints pdf_data in
  let pdf_lookup := _build_pdf_lookup pdf_items in
  let constraints_by_type := _index_constraints pdf_constraints in
  let '(correlations, self) :=
    if has_dxf then
      let self :=
        log_append
          (using_dxf_as_primary (List.length dxf_profiles)
             (List.length dxf_materials)) self in
      let from_profiles :=
        map (fun profile =>
               _correlate_profile_with_pdf profile pdf_lookup constraints_by_type)
            dxf_profiles in
      let from_blocks :=
        map (fun material_qty =>
               _create_material_correlation material_qty pdf_lookup
                 constraints_by_type)
            (filter (fun material_qty =>
                       String.eqb (mq_source material_qty) "block_count")
                    dxf_materials) in
      ((from_profiles ++ from_blocks)%list, self)
    else if has_pdf then
      let self := log_append (using_pdf_as_fallback (List.length pdf_items)) self in
      (map pdf_only_correlation pdf_items, self)
    else ([], self) in
  match correlations with
  | [] => _create_fallback_correlations self pdf_data dxf_data
  | _ => (correlations, self)
  end.

(* ====================================================================== *)
(** * Line pricer *)
(* ====================================================================== *)

Definition ALUMINUM_DENSITY_KG_M3 : Q := 2700.

(** ** [_try_calculate_from_cost_db] *)

Definition dot_or_space : ascii -> bool := Re.either (Ascii.eqb ".") Re.space.
Definition digit_or_dot : ascii -> bool := Re.either Re.digit (Ascii.eqb ".").

(** [TYPE\s*\d+]. *)
Definition section_pattern (ty : string) : Re.pattern :=
  (Re.lit ty ++ [Re.Item Re.space Re.Star; Re.Item Re.digit Re.Plus])%list.

(** [TYPE\s*[\d]+[xX][\d]+[xX][\d]+]. *)
Definition hollow_pattern (ty : string) : Re.pattern :=
  (Re.lit ty
   ++ [Re.Item Re.space Re.Star; Re.Item Re.digit Re.Plus;
       Re.Item (Re.one_of "xX") Re.One; Re.Item Re.digit Re.Plus;
       Re.Item (Re.one_of "xX") Re.One; Re.Item Re.digit Re.Plus])%list.

(** Each pattern of the source is one group around the whole expression,
    so [match.group(1)] is the matched text. *)
Definition profile_patterns : list Re.pattern :=
  [ section_pattern "IPE";
    section_pattern "HEB";
    section_pattern "HEA";
    section_pattern "UPN";
    hollow_pattern "RHS";
    hollow_pattern "SHS";
    (* TUBO\s+RED[.\s]+[\d.]+[*xX][\d.]+ *)
    (Re.lit "TUBO" ++ [Re.Item Re.space Re.Plus] ++ Re.lit "RED"
     ++ [Re.Item dot_or_space Re.Plus; Re.Item digit_or_dot Re.Plus;
         Re.Item (Re.one_of "*xX") Re.One; Re.Item digit_or_dot Re.Plus])%list;
    (* MADRE\s+[CZ]\s+[\d]+ *)
    (Re.lit "MADRE"
     ++ [Re.Item Re.space Re.Plus; Re.Item (Re.one_of "CZ") Re.One;
         Re.Item Re.space Re.Plus; Re.Item Re.digit Re.Plus])%list;
    (* OMEGA\s*\d+ *)
    section_pattern "OMEGA";
    (* CHAPA\s+PRETA\s+\d+MM *)
    (Re.lit "CHAPA" ++ [Re.Item Re.space Re.Plus] ++ Re.lit "PRETA"
     ++ [Re.Item Re.space Re.Plus; Re.Item Re.digit Re.Plus] ++ Re.lit "MM")%list ].

(** The inner loop: the first pattern, in list order, found in the term. *)
Fixpoint first_pattern_match (patterns : list Re.pattern) (term_upper : string)
  : option string :=
  match patterns with
  | [] => None
  | pattern :: r =>
      match Re.re_search pattern term_upper with
      | Some groups => Some (Re.matched groups)
      | None => first_pattern_match r term_upper
      end
  end.

(** The outer loop: the first term, in list order, in which a pattern is
    found; empty terms are skipped. *)
Fixpoint find_profile_name (search_terms : list string) : option string :=
  match search_terms with
  | [] => None
  | term :: r =>
      if PyStr.is_empty term then find_profile_name r
      else
        match first_pattern_match profile_patterns (PyStr.upper term) with
        | Some profile_name => Some profile_name
        | None => find_profile_name r
        end
  end.

Definition search_terms (line : BudgetLineItem) : list string :=
  [description line; reference line; str_or_empty (profile_id line)].

(** The assignments made once a catalog entry is found. *)
Definition apply_catalog (profile : CostDatabase.SteelProfile)
  (line : BudgetLineItem) : BudgetLineItem :=
  let length_m :=
    if PyNum.gtb (length_mm line) 0 then length_mm line / 1000 else 1.0 in
  let cost_data := CostDatabase.calculate_cost profile length_m in
  let qty := inject_Z (Z.max 1 (quantity line)) in
  let line := set_weight_kg (CostDatabase.cd_weight_kg cost_data) line in
  let line :=
    set_raw_material_cost (CostDatabase.cost_material cost_data * qty) line in
  let line :=
    set_transformation_cost (CostDatabase.cost_fabrication cost_data * qty) line in
  let line :=
    set_surface_treatment_cost (CostDatabase.cost_painting cost_data * qty) line in
  let line :=
    set_labor_cost
      ((CostDatabase.cost_assembly cost_data
        + CostDatabase.cost_lifting cost_data) * qty) line in
  let line :=
    set_accessories_cost
      ((CostDatabase.cost_consumables cost_data
        + CostDatabase.cost_transport cost_data) * qty) line in
  let line := set_unit_cost (CostDatabase.cd_total_cost cost_data) line in
  let line := set_total_cost (unit_cost line * qty) line in
  set_notes ("Custos FLYSTEEL: " ++ CostDatabase.designation profile) line.

(** [None] is the source's [False]: the line is left as it was.  The
    import of [cost_database] succeeds, so [HAS_COST_DB] holds. *)
Definition _try_calculate_from_cost_db (line : BudgetLineItem)
  : option BudgetLineItem :=
  match find_profile_name (search_terms line) with
  | None => None
  | Some profile_name =>
      match CostDatabase.find_profile profile_name with
      | None => None
      | Some profile => Some (apply_catalog profile line)
      end
  end.

(** ** [_calculate_line_costs] *)

(** The block "Calculate weight if not provided". *)
Definition estimate_weight (line : BudgetLineItem) : BudgetLineItem :=
  if PyNum.leb (weight_kg line) 0 && PyNum.gtb (area_mm2 line) 0 then
    let thickness := PyNum.opt_or (thickness_mm line) 2.0 in
    let volume_mm3 :=
      perimeter_mm line * thickness * PyNum.max (length_mm line) 1000 in
    set_weight_kg ((volume_mm3 / 1e9) * ALUMINUM_DENSITY_KG_M3) line
  else if PyNum.leb (weight_kg line) 0 && PyNum.gtb (perimeter_mm line) 0 then
    let thickness := PyNum.opt_or (thickness_mm line) 2.0 in
    let volume_mm3 := perimeter_mm line * thickness * thickness in
    set_weight_kg ((volume_mm3 / 1e9) * ALUMINUM_DENSITY_KG_M3) line
  else if PyNum.leb (weight_kg line) 0 && PyNum.gtb (length_mm line) 0 then
    let line := set_weight_kg ((length_mm line / 1000) * 0.5) line in
    set_perimeter_mm (length_mm line * 0.1) line
  else if PyNum.leb (weight_kg line) 0 then
    let line := set_weight_kg 0.5 line in
    let line := set_length_mm 1000 line in
    set_perimeter_mm 100 line
  else line.

(** [treatment_rates.get(surface_treatment, p.powder_coating_standard_eur_m2)]. *)
Definition treatment_rate (p : PricingParameters) (surface_treatment : string)
  : Q :=
  if String.eqb surface_treatment "anodizing_natural"
  then anodizing_natural_eur_m2 p
  else if String.eqb surface_treatment "anodizing_colored"
  then anodizing_colored_eur_m2 p
  else if String.eqb surface_treatment "powder_coating_standard"
  then powder_coating_standard_eur_m2 p
  else if String.eqb surface_treatment "powder_coating_qualicoat"
  then powder_coating_qualicoat_eur_m2 p
  else if String.eqb surface_treatment "powder_coating_seaside"
  then powder_coating_seaside_eur_m2 p
  else if String.eqb surface_treatment "none"
  then 0.0
  else powder_coating_standard_eur_m2 p.

(** The formula path, from "1. Raw Material Cost" to the totals. *)
Definition formula_costs (p : PricingParameters) (line : BudgetLineItem)
  (surface_treatment : string) : PyResult BudgetLineItem :=
  let effective_lme :=
    lme_price_usd_kg p * (1 + lme_hedging_buffer_pct p / 100) in
  (material_price_kg <-
     py_div (effective_lme + billet_premium_usd_kg p) (eur_to_usd p) ;;
   let line := estimate_weight line in
   let qty := inject_Z (quantity line) in
   let line :=
     set_raw_material_cost (weight_kg line * material_price_kg * qty) line in
   let extrusion_rate := 1.50 * complexity_score line in
   let line :=
     set_transformation_cost (weight_kg line * extrusion_rate * qty) line in
   let rate := treatment_rate p surface_treatment in
   let surface_area_m2 :=
     (perimeter_mm line * PyNum.max (length_mm line) 1000) / 1e6 in
   let line := set_surface_treatment_cost (surface_area_m2 * rate * qty) line in
   let cutting_time := cutting_time_mins p in
   let machining_time :=
     PyNum.of_nat (holes_count line) * machining_time_per_hole_mins p in
   let complexity_time := (complexity_score line - 1) * 5 in
   let assembly_time := assembly_time_per_component_mins p in
   let total_labor_mins :=
     (cutting_time + machining_time + complexity_time + assembly_time) * qty in
   let line := set_labor_cost ((total_labor_mins / 60) * labor_rate_eur_hr p) line in
   let line := set_accessories_cost (raw_material_cost line * 0.08) line in
   let line :=
     set_unit_cost
       ((raw_material_cost line + transformation_cost line
         + surface_treatment_cost line + labor_cost line
         + accessories_cost line)
        / inject_Z (Z.max (quantity line) 1)) line in
   Return (set_total_cost (unit_cost line * qty) line))%py.

Definition _calculate_line_costs (p : PricingParameters) (line : BudgetLineItem)
  (surface_treatment : string) : PyResult BudgetLineItem :=
  match _try_calculate_from_cost_db line with
  | Some line => Return line
  | None => formula_costs p line surface_treatment
  end.

(* ====================================================================== *)
(** * Aggregator *)
(* ====================================================================== *)

Definition sum_Z (l : list Z) : Z := fold_left Z.add l 0%Z.

Definition count_if (b : bool) : nat := if b then 1%nat else 0%nat.

(** [_calculate_summary].  [now] is [datetime.now().isoformat()]; the two
    payload arguments of the source are not read and are left out.  The
    summary object is assigned before its fields are filled, so a raising
    division leaves it in place with the fields set so far. *)
Definition _calculate_summary (self : Self) (name : string)
  (has_dxf has_pdf : bool) (now : string) : PyResult unit * Self :=
  let p := params self in
  let items := line_items self in
  let raw_total := PyNum.sum (map raw_material_cost items) in
  let transformation := PyNum.sum (map transformation_cost items) in
  let surface := PyNum.sum (map surface_treatment_cost items) in
  let labor := PyNum.sum (map labor_cost items) in
  let accessories := PyNum.sum (map accessories_cost items) in
  let avg_complexity :=
    match items with
    | [] => 0.0
    | _ => PyNum.sum (map complexity_score items)
           / PyNum.of_nat (List.length items)
    end in
  let waste_pct :=
    base_waste_factor_pct p
    + (avg_complexity - 1) * complexity_waste_factor_pct p in
  let waste_applied := PyNum.min waste_pct 20.0 in
  let waste := raw_total * (waste_applied / 100) in
  let direct_costs :=
    raw_total + transformation + surface + labor + accessories + waste in
  let overhead := direct_costs * (overhead_factor_pct p / 100) in
  let sub := direct_costs + overhead in
  let margin := sub * (profit_margin_pct p / 100) in
  let s :=
    {| project_name := name;
       created_at := now;
       has_dxf := has_dxf;
       has_pdf := has_pdf;
       dxf_files_count := count_if has_dxf;
       pdf_files_count := count_if has_pdf;
       total_profiles := List.length items;
       total_quantity := sum_Z (map quantity items);
       total_weight_kg :=
         PyNum.sum (map (fun item => weight_kg item * inject_Z (quantity item)) items);
       total_length_mm :=
         PyNum.sum (map (fun item => length_mm item * inject_Z (quantity item)) items);
       raw_material_total := raw_total;
       transformation_total := transformation;
       surface_treatment_total := surface;
       labor_total := labor;
       accessories_total := accessories;
       waste_cost := waste;
       overhead_cost := overhead;
       subtotal := sub;
       profit_margin := margin;
       total_quote := sub + margin;
       waste_percentage_applied := waste_applied;
       average_complexity := avg_complexity;
       estimated_production_hours := 0.0 |} in
  match py_div labor (labor_rate_eur_hr p) with
  | Raise e => (Raise e, set_summary s self)
  | Return hours =>
      (Return tt, set_summary (set_estimated_production_hours hours s) self)
  end.

(* ====================================================================== *)
(** * [calculate_budget] *)
(* ====================================================================== *)

Definition _treatment_to_finish (treatment : string) : string :=
  if String.eqb treatment "none" then "Sem acabamento"
  else if String.eqb treatment "anodizing_natural" then "Anodização natural"
  else if String.eqb treatment "anodizing_colored" then "Anodização colorida"
  else if String.eqb treatment "powder_coating_standard" then "Lacagem standard"
  else if String.eqb treatment "powder_coating_qualicoat" then "Lacagem Qualicoat"
  else if String.eqb treatment "powder_coating_seaside" then "Lacagem Seaside"
  else treatment.

Definition is_some {A : Type} (x : option A) : bool :=
  match x with Some _ => true | None => false end.

Definition opt_default {A : Type} (x : option A) (d : A) : A :=
  match x with Some v => v | None => d end.

(** The constructor call [BudgetLineItem(...)] of the loop; the
    attributes it does not name take the defaults of the dataclass. *)
Definition make_line (correlation : Correlation) (id : Z)
  (qty : Q) (ref desc : string) (surface_treatment : string)
  : BudgetLineItem :=
  let dxf_profile := co_dxf_profile correlation in
  let pdf_item := co_pdf_item correlation in
  let specs := opt_default (co_specifications correlation) empty_specs in
  {| line_id := id;
     reference := ref;
     description := desc;
     quantity := Z.max 1 (PyNum.int qty);
     quantity_source := co_quantity_source correlation;
     specs_source :=
       if is_some pdf_item && is_some dxf_profile then "both"
       else if is_some dxf_profile then "dxf" else "pdf";
     profile_id := None;
     perimeter_mm := 0.0;
     area_mm2 := 0.0;
     length_mm := 0.0;
     weight_kg := 0.0;
     complexity_score := 1.0;
     holes_count := 0;
     entity_type := "";
     material := sp_material specs;
     finish :=
       if opt_truthy (sp_finish specs) then sp_finish specs
       else Some (_treatment_to_finish surface_treatment);
     thickness_mm := sp_thickness_mm specs;
     raw_material_cost := 0.0;
     transformation_cost := 0.0;
     surface_treatment_cost := 0.0;
     labor_cost := 0.0;
     accessories_cost := 0.0;
     unit_cost := 0.0;
     total_cost := 0.0;
     correlation_confidence := co_correlation_confidence correlation;
     correlation_method := co_correlation_method correlation;
     notes := "" |}.

Definition is_hole (f : Feature) : bool :=
  match feature_type f with
  | Some t => String.eqb t "hole"
  | None => false
  end.

(** "Apply geometry from DXF if available". *)
Definition apply_geometry (correlation : Correlation) (line : BudgetLineItem)
  : BudgetLineItem :=
  match co_dxf_profile correlation, co_material_quantity correlation with
  | Some dxf_profile, _ =>
      let line := set_profile_id (dp_profile_id dxf_profile) line in
      let line := set_perimeter_mm (dp_perimeter_mm dxf_profile) line in
      let line := set_area_mm2 (dp_area_mm2 dxf_profile) line in
      let line :=
        set_length_mm
          (PyNum.or_else (dp_length_mm dxf_profile)
             (PyNum.max (width (dp_bounding_box dxf_profile))
                (height (dp_bounding_box dxf_profile)))) line in
      let line := set_weight_kg (dp_weight_kg dxf_profile) line in
      let line :=
        set_complexity_score
          (opt_default (dp_complexity_score dxf_profile) 1.0) line in
      let line :=
        set_entity_type (str_or_empty (dp_entity_type dxf_profile)) line in
      set_holes_count
        (List.length (filter is_hole (dp_features dxf_profile))) line
  | None, Some material_qty =>
      let line := set_perimeter_mm (mq_unit_length_mm material_qty) line in
      let line := set_area_mm2 (mq_unit_area_mm2 material_qty) line in
      set_length_mm (mq_unit_length_mm material_qty) line
  | None, None => line
  end.

(** "Use length from PDF if DXF doesn't have it". *)
Definition apply_pdf_length (correlation : Correlation) (line : BudgetLineItem)
  : BudgetLineItem :=
  match co_pdf_item correlation with
  | Some pdf_item =>
      if PyNum.eqb (length_mm line) 0
      then set_length_mm (PyNum.opt_or (pi_length_mm pdf_item) 0) line
      else line
  | None => line
  end.

(** The line of one correlation before its costs are computed; [None] is
    the [continue] of the loop. *)
Definition new_line (correlation : Correlation) (id : Z)
  (surface_treatment : string) : option BudgetLineItem :=
  let start :=
    match co_dxf_profile correlation, co_material_quantity correlation,
          co_pdf_item correlation with
    | Some dxf_profile, _, _ =>
        let qty := opt_default (dp_quantity dxf_profile) 1 in
        let ref :=
          if PyStr.truthy (dp_layer dxf_profile) then dp_layer dxf_profile
          else str_or_empty (dp_profile_id dxf_profile) in
        let desc :=
          opt_default (dp_entity_type dxf_profile) "Perfil"
          ++ " - " ++ dp_layer dxf_profile in
        Some (qty, ref, desc)
    | None, Some material_qty, _ =>
        let qty := opt_default (mq_quantity material_qty) 1 in
        let ref := mq_profile_reference material_qty in
        let desc := opt_default (mq_description material_qty) "Bloco DXF" in
        Some (qty, ref, desc)
    | None, None, Some pdf_item =>
        let qty := inject_Z (PyNum.int (opt_default (pi_quantity pdf_item) 1)) in
        Some (qty, pi_reference pdf_item, pi_description pdf_item)
    | None, None, None => None
    end in
  match start with
  | None => None
  | Some (qty, ref, desc) =>
      let line := make_line correlation id qty ref desc surface_treatment in
      let line := apply_geometry correlation line in
      Some (apply_pdf_length correlation line)
  end.

(** The loop over the correlations: [line_id] counts every correlation,
    each priced line is appended to [self.line_items], and an exception
    leaves the lines appended so far. *)
Fixpoint price_correlations (self : Self) (surface_treatment : string)
  (id : Z) (correlations : list Correlation) : PyResult unit * Self :=
  match correlations with
  | [] => (Return tt, self)
  | correlation :: r =>
      let id := (id + 1)%Z in
      match new_line correlation id surface_treatment with
      | None => price_correlations self surface_treatment id r
      | Some line =>
          match _calculate_line_costs (params self) line surface_treatment with
          | Raise e => (Raise e, self)
          | Return line =>
              price_correlations
                (set_line_items (line_items self ++ [line])%list self)
                surface_treatment id r
          end
      end
  end.

(** ** Serialization: the [to_dict] methods *)

Record LineGeometry := {
  g_perimeter_mm : Q;
  g_area_mm2 : Q;
  g_length_mm : Q;
  g_weight_kg : Q;
  g_complexity_score : Q;
  g_holes_count : nat;
  g_entity_type : string
}.

Record LineSpecifications := {
  s_material : option string;
  s_finish : option string;
  s_thickness_mm : option Q
}.

Record LineCosts := {
  c_raw_material : Q;
  c_transformation : Q;
  c_surface_treatment : Q;
  c_labor : Q;
  c_accessories : Q
}.

Record LineDict := {
  d_line_id : Z;
  d_reference : string;
  d_description : string;
  d_quantity : Z;
  d_quantity_source : string;
  d_specs_source : string;
  d_profile_id : option string;
  d_geometry : LineGeometry;
  d_specifications : LineSpecifications;
  d_costs : LineCosts;
  d_unit_cost : Q;
  d_total_cost : Q;
  d_correlation_confidence : Q;
  d_correlation_method : string;
  d_notes : string
}.

(** [BudgetLineItem.to_dict]. *)
Definition line_to_dict (self : BudgetLineItem) : LineDict := {|
  d_line_id := line_id self;
  d_reference := reference self;
  d_description := description self;
  d_quantity := quantity self;
  d_quantity_source := quantity_source self;
  d_specs_source := specs_source self;
  d_profile_id := profile_id self;
  d_geometry :=
    {| g_perimeter_mm := PyNum.round (perimeter_mm self) 2;
       g_area_mm2 := PyNum.round (area_mm2 self) 2;
       g_length_mm := PyNum.round (length_mm self) 2;
       g_weight_kg := PyNum.round (weight_kg self) 4;
       g_complexity_score := PyNum.round (complexity_score self) 2;
       g_holes_count := holes_count self;
       g_entity_type := entity_type self |};
  d_specifications :=
    {| s_material := material self;
       s_finish := finish self;
       s_thickness_mm := thickness_mm self |};
  d_costs :=
    {| c_raw_material := PyNum.round (raw_material_cost self) 2;
       c_transformation := PyNum.round (transformation_cost self) 2;
       c_surface_treatment := PyNum.round (surface_treatment_cost self) 2;
       c_labor := PyNum.round (labor_cost self) 2;
       c_accessories := PyNum.round (accessories_cost self) 2 |};
  d_unit_cost := PyNum.round (unit_cost self) 2;
  d_total_cost := PyNum.round (total_cost self) 2;
  d_correlation_confidence := PyNum.round (correlation_confidence self) 2;
  d_correlation_method := correlation_method self;
  d_notes := notes self
|}.

(** [BudgetSummary.to_dict]: the same fields, rounded for display. *)
Definition summary_to_dict (self : BudgetSummary) : BudgetSummary := {|
  project_name := project_name self;
  created_at := created_at self;
  has_dxf := has_dxf self;
  has_pdf := has_pdf self;
  dxf_files_count := dxf_files_count self;
  pdf_files_count := pdf_files_count self;
  total_profiles := total_profiles self;
  total_quantity := total_quantity self;
  total_weight_kg := PyNum.round (total_weight_kg self) 2;
  total_length_mm := PyNum.round (total_length_mm self) 2;
  raw_material_total := PyNum.round (raw_material_total self) 2;
  transformation_total := PyNum.round (transformation_total self) 2;
  surface_treatment_total := PyNum.round (surface_treatment_total self) 2;
  labor_total := PyNum.round (labor_total self) 2;
  accessories_total := PyNum.round (accessories_total self) 2;
  waste_cost := PyNum.round (waste_cost self) 2;
  overhead_cost := PyNum.round (overhead_cost self) 2;
  subtotal := PyNum.round (subtotal self) 2;
  profit_margin := PyNum.round (profit_margin self) 2;
  total_quote := PyNum.round (total_quote self) 2;
  waste_percentage_applied := PyNum.round (waste_percentage_applied self) 1;
  average_complexity := PyNum.round (average_complexity self) 2;
  estimated_production_hours :=
    PyNum.round (estimated_production_hours self) 1
|}.

Record DataSources := {
  dxf_used : bool;
  pdf_used : bool;
  ds_quantity_source : string
}.

(** The dictionary [calculate_budget] returns; [parameters] echoes the
    parameters of the calculator. *)
Record BudgetResult := {
  r_success : bool;
  r_line_items : list LineDict;
  r_summary : option BudgetSummary;
  r_parameters : PricingParameters;
  r_correlation_log : list LogEntry;
  r_data_sources : DataSources
}.

(** [calculate_budget].  The value of [correlation_log] in the result is
    the log as it stands when the call returns. *)
Definition calculate_budget (self : Self) (dxf_data : DxfData)
  (pdf_data : PdfData) (surface_treatment : string) (name : string)
  (now : string) : PyResult BudgetResult * Self :=
  let has_dxf :=
    dxf_success dxf_data
    && Nat.ltb 0 (List.length (dxf_profiles dxf_data)) in
  let has_pdf := pdf_success pdf_data in
  let '(correlations, self) := correlate_data self dxf_data pdf_data in
  let self := set_line_items [] self in
  match price_correlations self surface_treatment 0 correlations with
  | (Raise e, self) => (Raise e, self)
  | (Return _, self) =>
      match _calculate_summary self name has_dxf has_pdf now with
      | (Raise e, self) => (Raise e, self)
      | (Return _, self) =>
          (Return
             {| r_success := true;
                r_line_items := map line_to_dict (line_items self);
                r_summary := option_map summary_to_dict (summary self);
                r_parameters := params self;
                r_correlation_log := correlation_log self;
                r_data_sources :=
                  {| dxf_used := has_dxf;
                     pdf_used := has_pdf;
                     ds_quantity_source := if has_dxf then "dxf" else "pdf" |} |},
           self)
      end
  end.

(* ====================================================================== *)
(** * Cladding rules, recommendations and the quick estimate *)
(* ====================================================================== *)

(** ** [_try_calculate_cladding_from_cost_db] *)

(** The patterns of the cladding rules are made of literal characters,
    of [.] (any character but a newline), of [.*] and of [|] between two
    alternatives; a rule only asks whether its pattern is found, which is
    so when one of the alternatives is. *)
Definition any_char (c : ascii) : bool := negb (Ascii.eqb c "010").

Fixpoint compile (s : string) : Re.pattern :=
  match s with
  | EmptyString => []
  | String "." (String "*" r) => Re.Item any_char Re.Star :: compile r
  | String "." r => Re.Item any_char Re.One :: compile r
  | String c r => Re.lit_char c :: compile r
  end.

(** The alternatives of a pattern: its text cut at every [|]. *)
Fixpoint alternatives_from (alt : string) (s : string) : list string :=
  match s with
  | EmptyString => [alt]
  | String c r =>
      if Ascii.eqb c "|" then alt :: alternatives_from EmptyString r
      else alternatives_from (alt ++ String c EmptyString) r
  end.

Definition alternatives (s : string) : list string :=
  alternatives_from EmptyString s.

(** [re.search(pattern, text)] as a truth value. *)
Definition found (pattern text : string) : bool :=
  existsb (fun alt => is_some (Re.re_search (compile alt) text))
    (alternatives pattern).

Definition cladding_patterns : list (string * string) :=
  [ ("painel.*fachada.*la.*rocha.*50", "PAINEL FACHADA LA ROCHA 50MM");
    ("painel.*fachada.*pir.*50", "PAINEL FACHADA PIR 50MM");
    ("painel.*fachada.*poliuretano.*30", "PAINEL FACHADA POLIURETANO 30MM");
    ("painel.*cobertura.*la.*rocha.*50", "PAINEL COBERTURA LA ROCHA 50MM");
    ("painel.*cobertura.*la.*rocha.*80", "PAINEL COBERTURA LA ROCHA 80MM");
    ("painel.*cobertura.*poliuretano.*30", "PAINEL COBERTURA POLIURETANO 30MM");
    ("caleira.*dupla", "CALEIRA DUPLA ISOLADA");
    ("caleira.*simples", "CALEIRA SIMPLES GALVANIZADA");
    ("claraboia.*1.0|claraboia.*1x1", "CLARABOIA FIXA 1.0X1.0");
    ("claraboia.*1.5|claraboia.*1,5", "CLARABOIA FIXA 1.5X1.5");
    ("area.*luz", "AREA DE LUZ");
    ("anticume", "ANTICUME");
    ("cume", "CUME");
    ("porta.*emergencia.*900|porta.*emergencia.*0.9",
     "PORTA EMERGENCIA 900X2150");
    ("porta.*emergencia.*1200|porta.*emergencia.*1.2",
     "PORTA EMERGENCIA 1200X2150");
    ("porta.*sectorial.*3|portao.*3", "PORTA SECTORIAL 3000X3000");
    ("porta.*sectorial.*4|portao.*4", "PORTA SECTORIAL 4000X4000");
    ("pintura.*intumescente.*r60|intumescente.*r60", "PINTURA INTUMESCENTE R60");
    ("pintura.*intumescente.*r30|intumescente.*r30", "PINTURA INTUMESCENTE R30");
    ("pintura.*intumescente.*r90|intumescente.*r90", "PINTURA INTUMESCENTE R90");
    ("contra.*fachada", "CONTRA FACHADA CHAPA SIMPLES");
    ("chapa.*simples.*fachada", "CHAPA SIMPLES FACHADA");
    ("remates", "REMATES FACHADA") ].

(** The loop over the rules: the name of the first rule whose pattern is
    found. *)
Fixpoint first_rule (rules : list (string * string)) (desc_lower : string)
  : option string :=
  match rules with
  | [] => None
  | (pattern, name) :: r =>
      if found pattern desc_lower then Some name else first_rule r desc_lower
  end.

(** [unit] is an argument of the source that it does not read. *)
Definition _try_calculate_cladding_from_cost_db (description : string)
  (quantity : Q) (unit : string) : option CostTables.CladdingCost :=
  let desc_lower := PyStr.lower description in
  match first_rule cladding_patterns desc_lower with
  | None => None
  | Some item_name =>
      match CostTables.find_cladding item_name "all" with
      | None => None
      | Some item => Some (CostTables.item_calculate_cost item quantity)
      end
  end.

(** ** [get_ai_recommendations] *)

(** The texts of a recommendation are f-strings; they are kept as the
    template with the numbers it is filled with. *)
Inductive Suggestion :=
| waste_factor_high (waste_percentage_applied : Q)
| labor_cost_high
| hedging_buffer (lme_hedging_buffer_pct : Q)
| volume_pricing (total_weight_kg : Q)
| low_confidence_items (low_confidence : nat).

Inductive Savings :=
| euros (amount : Q)
| variable
| not_applicable.

Record Recommendation := {
  category : string;
  priority : string;
  suggestion : Suggestion;
  potential_savings : Savings
}.

Definition get_ai_recommendations (self : Self) : list Recommendation :=
  match summary self with
  | None => []
  | Some s =>
      let recommendations := [] in
      let recommendations :=
        if PyNum.gtb (waste_percentage_applied s) 12 then
          (recommendations ++
           [ {| category := "Otimização de Material";
                priority := "high";
                suggestion := waste_factor_high (waste_percentage_applied s);
                potential_savings := euros (waste_cost s * 0.3) |} ])%list
        else recommendations in
      let avg_labor :=
        labor_total s / inject_Z (Z.max (total_quantity s) 1) in
      let recommendations :=
        if PyNum.gtb avg_labor 15 then
          (recommendations ++
           [ {| category := "Eficiência de Mão-de-Obra";
                priority := "medium";
                suggestion := labor_cost_high;
                potential_savings := euros (labor_total s * 0.2) |} ])%list
        else recommendations in
      let recommendations :=
        (recommendations ++
         [ {| category := "Proteção de Preço";
              priority := "low";
              suggestion :=
                hedging_buffer (lme_hedging_buffer_pct (params self));
              potential_savings := variable |} ])%list in
      let recommendations :=
        if PyNum.gtb (total_weight_kg s) 1000 then
          (recommendations ++
           [ {| category := "Desconto de Volume";
                priority := "medium";
                suggestion := volume_pricing (total_weight_kg s);
                potential_savings := euros (raw_material_total s * 0.06) |} ])%list
        else recommendations in
      let low_confidence :=
        List.length
          (filter (fun i => PyNum.ltb (correlation_confidence i) 0.5)
             (line_items self)) in
      let recommendations :=
        if Nat.ltb 0 low_confidence then
          (recommendations ++
           [ {| category := "Qualidade de Dados";
                priority := "high";
                suggestion := low_confidence_items low_confidence;
                potential_savings := not_applicable |} ])%list
        else recommendations in
      recommendations
  end.

(** ** [calculate_quick_estimate] *)



End BudgetCalculator.

(* ====================================================================== *)
(** * [dxf_parser.py]: what the extractor hands to the engine *)
(* ====================================================================== *)

(** The last steps of [DXFParser.parse] for the profiles and the material
    quantities it has collected: the complexity score, the unit
    conversion, and the dictionaries [calculate_budget] reads.  The
    reading of the drawing itself is not embedded. *)

Module DxfParser.

Import BudgetCalculator.

Local Open Scope string_scope.
Local Open Scope Q_scope.

(** [GeometricFeature], with the attributes read below. *)
Record GeometricFeature := {
  gf_feature_type : string;
  gf_position : Q * Q;
  gf_layer : string;
  gf_machining_time_mins : Q
}.

(** [ProfileData]; of the bounding box the width and the height. *)
Record ProfileData := {
  pd_profile_id : string;
  pd_layer : string;
  pd_is_closed : bool;
  pd_perimeter_mm : Q;
  pd_area_mm2 : Q;
  pd_bounding_box : BoundingBox;
  pd_centroid : Q * Q;
  pd_vertex_count : Z;
  pd_entity_type : string;
  pd_features : list GeometricFeature;
  pd_complexity_score : Q;
  pd_material_hint : option string;
  pd_thickness_hint : option Q;
  pd_quantity : Z;
  pd_length_mm : Q
}.

(** [thickness_mm or self.thickness_hint or 2.0]. *)
Definition thickness_or_hint (thickness_mm : option Q) (self : ProfileData)
  : Q :=
  match thickness_mm with
  | Some v =>
      if PyNum.eqb v 0 then PyNum.opt_or (pd_thickness_hint self) 2.0 else v
  | None => PyNum.opt_or (pd_thickness_hint self) 2.0
  end.

(** [ProfileData.calculate_weight]; the defaults are a density of 2700
    and no thickness. *)
Definition calculate_weight (self : ProfileData) (density_kg_m3 : Q)
  (thickness_mm : option Q) : Q :=
  if negb (pd_is_closed self) || PyNum.leb (pd_area_mm2 self) 0 then
    if PyNum.gtb (pd_perimeter_mm self) 0 then
      let t := thickness_or_hint thickness_mm self in
      let volume_mm3 := pd_perimeter_mm self * t * t in
      PyNum.round ((volume_mm3 / 1e9) * density_kg_m3) 4
    else 0.0
  else
    let t := thickness_or_hint thickness_mm self in
    let volume_m3 := (pd_area_mm2 self * t) / 1e9 in
    PyNum.round (volume_m3 * density_kg_m3) 4.

(** [ProfileData.calculate_machining_time]. *)
Definition calculate_machining_time (self : ProfileData) : Q :=
  let base_time := 2.0 in
  let feature_time :=
    PyNum.sum (map gf_machining_time_mins (pd_features self)) in
  let complexity_factor := pd_complexity_score self in
  PyNum.round (base_time * complexity_factor + feature_time) 1.

(** [GeometricFeature.to_dict], as the engine reads it. *)
Definition feature_to_dict (self : GeometricFeature) : Feature :=
  {| feature_type := Some (gf_feature_type self) |}.

(** [ProfileData.to_dict], with the keys the engine reads. *)
Definition to_dict (self : ProfileData) : DxfProfile :=
  {| dp_profile_id := Some (pd_profile_id self);
     dp_layer := pd_layer self;
     dp_material_hint := pd_material_hint self;
     dp_quantity := Some (inject_Z (pd_quantity self));
     dp_entity_type := Some (pd_entity_type self);
     dp_perimeter_mm := PyNum.round (pd_perimeter_mm self) 2;
     dp_area_mm2 := PyNum.round (pd_area_mm2 self) 2;
     dp_length_mm := PyNum.round (pd_length_mm self) 2;
     dp_bounding_box := pd_bounding_box self;
     dp_weight_kg := calculate_weight self 2700 None;
     dp_complexity_score := Some (PyNum.round (pd_complexity_score self) 2);
     dp_features := map feature_to_dict (pd_features self) |}.

(** [MaterialQuantity], with the attributes the engine reads. *)
Record MaterialQuantity := {
  mt_profile_reference : string;
  mt_description : string;
  mt_quantity : Z;
  mt_unit_length_mm : Q;
  mt_source : string;
  mt_unit_area_mm2 : Q
}.

(** [MaterialQuantity.to_dict], with the keys the engine reads. *)
Definition material_to_dict (self : MaterialQuantity) : MaterialQty :=
  {| mq_source := mt_source self;
     mq_profile_reference := mt_profile_reference self;
     mq_description := Some (mt_description self);
     mq_quantity := Some (inject_Z (mt_quantity self));
     mq_unit_length_mm := PyNum.round (mt_unit_length_mm self) 2;
     mq_unit_area_mm2 := PyNum.round (mt_unit_area_mm2 self) 2 |}.

(** ** [_calculate_complexity] *)

(** The features counted for a profile: those of its layer and those
    less than 100 away from its centroid on both axes. *)
Definition near_profile (profile : ProfileData) (f : GeometricFeature) : bool :=
  String.eqb (gf_layer f) (pd_layer profile)
  || (PyNum.ltb (Qabs (fst (gf_position f) - fst (pd_centroid profile))) 100
      && PyNum.ltb (Qabs (snd (gf_position f) - snd (pd_centroid profile))) 100).

(** The body of the loop: the profile with its score and its features. *)
Definition with_complexity (features : list GeometricFeature)
  (profile : ProfileData) : ProfileData :=
  let vertex_factor := 1.0 + (inject_Z (pd_vertex_count profile) - 4) * 0.05 in
  let vertex_factor := PyNum.max 1.0 (PyNum.min vertex_factor 2.0) in
  let profile_features := filter (near_profile profile) features in
  let feature_factor :=
    1.0 + PyNum.of_nat (List.length profile_features) * 0.15 in
  let bbox := pd_bounding_box profile in
  let aspect_factor :=
    if PyNum.gtb (height bbox) 0 && PyNum.gtb (width bbox) 0 then
      let aspect :=
        PyNum.max (width bbox) (height bbox)
        / PyNum.min (width bbox) (height bbox) in
      let aspect_factor := 1.0 + (aspect - 1) * 0.03 in
      PyNum.min aspect_factor 1.3
    else 1.0 in
  {| pd_profile_id := pd_profile_id profile;
     pd_layer := pd_layer profile;
     pd_is_closed := pd_is_closed profile;
     pd_perimeter_mm := pd_perimeter_mm profile;
     pd_area_mm2 := pd_area_mm2 profile;
     pd_bounding_box := pd_bounding_box profile;
     pd_centroid := pd_centroid profile;
     pd_vertex_count := pd_vertex_count profile;
     pd_entity_type := pd_entity_type profile;
     pd_features := profile_features;
     pd_complexity_score :=
       PyNum.min 3.0 (vertex_factor * feature_factor * aspect_factor);
     pd_material_hint := pd_material_hint profile;
     pd_thickness_hint := pd_thickness_hint profile;
     pd_quantity := pd_quantity profile;
     pd_length_mm := pd_length_mm profile |}.

Definition _calculate_complexity (profiles : list ProfileData)
  (features : list GeometricFeature) : list ProfileData :=
  map (with_complexity features) profiles.

(** ** [_apply_scale_corrections] *)

Definition scale_profile (factor : Q) (profile : ProfileData) : ProfileData :=
  {| pd_profile_id := pd_profile_id profile;
     pd_layer := pd_layer profile;
     pd_is_closed := pd_is_closed profile;
     pd_perimeter_mm := pd_perimeter_mm profile * factor;
     pd_area_mm2 := pd_area_mm2 profile * (factor * factor);
     pd_bounding_box :=
       {| width := width (pd_bounding_box profile) * factor;
          height := height (pd_bounding_box profile) * factor |};
     pd_centroid := pd_centroid profile;
     pd_vertex_count := pd_vertex_count profile;
     pd_entity_type := pd_entity_type profile;
     pd_features := pd_features profile;
     pd_complexity_score := pd_complexity_score profile;
     pd_material_hint := pd_material_hint profile;
     pd_thickness_hint := pd_thickness_hint profile;
     pd_quantity := pd_quantity profile;
     pd_length_mm := pd_length_mm profile * factor |}.

Definition scale_material (factor : Q) (mq : MaterialQuantity)
  : MaterialQuantity :=
  {| mt_profile_reference := mt_profile_reference mq;
     mt_description := mt_description mq;
     mt_quantity := mt_quantity mq;
     mt_unit_length_mm := mt_unit_length_mm mq * factor;
     mt_source := mt_source mq;
     mt_unit_area_mm2 := mt_unit_area_mm2 mq * (factor * factor) |}.

(** [factor] is [self.scale_info.unit_factor]. *)
Definition _apply_scale_corrections (factor : Q)
  (profiles : list ProfileData) (material_quantities : list MaterialQuantity)
  : list ProfileData * list MaterialQuantity :=
  if PyNum.eqb factor 1.0 then (profiles, material_quantities)
  else (map (scale_profile factor) profiles,
        map (scale_material factor) material_quantities).

(** The part of the dictionary [parse] returns that the engine reads,
    from the profiles, the features and the material quantities
    collected: the steps from [_calculate_complexity] on, without
    [_compile_material_quantities]. *)
Definition parse_result (factor : Q) (profiles : list ProfileData)
  (features : list GeometricFeature)
  (material_quantities : list MaterialQuantity) : DxfData :=
  let profiles := _calculate_complexity profiles features in
  let '(profiles, material_quantities) :=
    _apply_scale_corrections factor profiles material_quantities in
  {| dxf_success := true;
     dxf_profiles := map to_dict profiles;
     dxf_material_quantities := map material_to_dict material_quantities |}.

End DxfParser.

(* ====================================================================== *)
(** * The run on quantities as received *)
(* ====================================================================== *)

(** The records of the payloads hold a quantity as a finite number or
    nothing, and on them a run can only fail by a zero divisor.  A
    payload is a dictionary, though, and can hold any value under
    ['quantity']: the loop of [calculate_budget] passes it to [int], which
    raises on a value that is not a finite number, and both paths of the
    pricer multiply floats by the integer [int] returned, which raises
    when that integer is too large for a float.  [calculate_budget] has
    no [try] statement, so each of these exceptions reaches its caller.

    This part embeds the run once more with the quantities as received:
    [None], an integer of any size, a finite float, an infinity or a NaN.
    Text under ['quantity'] is left out, as are values of the wrong type
    in the other fields. *)

Module Received.

Import BudgetCalculator.

Local Open Scope string_scope.
Local Open Scope Q_scope.
Local Open Scope py_scope.

Inductive PyValue :=
| PyNone
| PyInt (n : Z)
| PyFloat (x : Q)
| PyInf
| PyNan.

(** [int(v)]: [TypeError] on [None], [OverflowError] on an infinity of
    either sign, [ValueError] on a NaN; a finite float is truncated
    towards zero. *)
Definition py_int (v : PyValue) : PyResult Z :=
  match v with
  | PyNone => Raise TypeError
  | PyInt n => Return n
  | PyFloat x => Return (PyNum.int x)
  | PyInf => Raise OverflowError
  | PyNan => Raise ValueError
  end.

(** The least magnitude of an integer that no float holds: rounded to
    the nearest float, an integer from [2**1024 - 2**970] on would be
    [2**1024]. *)
Definition float_limit : Z := (2 ^ 1024 - 2 ^ 970)%Z.

(** The conversion of the integer operand in a product or quotient of a
    float and an integer: [OverflowError] from [float_limit] on. *)
Definition py_float (n : Z) : PyResult Q :=
  if (Z.abs n <? float_limit)%Z then Return (inject_Z n)
  else Raise OverflowError.

(** ** Payloads *)

(** An entry is paired with the value under its ['quantity'] key, [None]
    when the key is missing; the quantity field of the entry itself is
    not read here. *)
Record DxfPayload := {
  rd_success : bool;
  rd_profiles : list (DxfProfile * option PyValue);
  rd_material_quantities : list (MaterialQty * option PyValue)
}.

Record PdfPayload := {
  rp_success : bool;
  rp_bom_items : list (PdfItem * option PyValue);
  rp_constraints : list Constraint;
  rp_dimension_specs : list DimensionSpec
}.

Definition typed_dxf (dxf_data : DxfPayload) : DxfData :=
  {| dxf_success := rd_success dxf_data;
     dxf_profiles := map fst (rd_profiles dxf_data);
     dxf_material_quantities := map fst (rd_material_quantities dxf_data) |}.

Definition typed_pdf (pdf_data : PdfPayload) : PdfData :=
  {| pdf_success := rp_success pdf_data;
     pdf_bom_items := map fst (rp_bom_items pdf_data);
     pdf_constraints := rp_constraints pdf_data;
     pdf_dimension_specs := rp_dimension_specs pdf_data |}.

(** ** [correlate_data] *)

(** No strategy of the correlator reads a quantity: each correlation is
    made from one entry and is paired here with the quantity of that
    entry.  The rows the fallback path synthesizes carry the integer 1. *)
Definition correlate_data (self : Self) (dxf_data : DxfPayload)
  (pdf_data : PdfPayload) : list (Correlation * option PyValue) * Self :=
  let has_dxf :=
    rd_success dxf_data
    && Nat.ltb 0 (List.length (rd_profiles dxf_data)) in
  let has_pdf :=
    rp_success pdf_data
    && Nat.ltb 0 (List.length (rp_bom_items pdf_data)) in
  let dxf_profiles := rd_profiles dxf_data in
  let dxf_materials := rd_material_quantities dxf_data in
  let pdf_items := rp_bom_items pdf_data in
  let pdf_constraints := rp_constraints pdf_data in
  let pdf_lookup := _build_pdf_lookup (map fst pdf_items) in
  let constraints_by_type := _index_constraints pdf_constraints in
  let '(correlations, self) :=
    if has_dxf then
      let self :=
        log_append
          (using_dxf_as_primary (List.length dxf_profiles)
             (List.length dxf_materials)) self in
      let from_profiles :=
        map (fun profile =>
               (_correlate_profile_with_pdf (fst profile) pdf_lookup
                  constraints_by_type,
                snd profile))
            dxf_profiles in
      let from_blocks :=
        map (fun material_qty =>
               (_create_material_correlation (fst material_qty) pdf_lookup
                  constraints_by_type,
                snd material_qty))
            (filter (fun material_qty =>
                       String.eqb (mq_source (fst material_qty)) "block_count")
                    dxf_materials) in
      ((from_profiles ++ from_blocks)%list, self)
    else if has_pdf then
      let self := log_append (using_pdf_as_fallback (List.length pdf_items)) self in
      (map (fun pdf_item => (pdf_only_correlation (fst pdf_item), snd pdf_item))
           pdf_items,
       self)
    else ([], self) in
  match correlations with
  | [] =>
      let '(correlations, self) :=
        _create_fallback_correlations self (typed_pdf pdf_data)
          (typed_dxf dxf_data) in
      (map (fun correlation => (correlation, Some (PyInt 1))) correlations, self)
  | _ => (correlations, self)
  end.

(** ** The loop of [calculate_budget] *)

(** The line of one correlation before its costs are computed.  The
    quantity of a row goes through [int] twice, that of a profile or a
    block aggregate once, in the constructor of the line. *)
Definition new_line (correlation : Correlation) (received : option PyValue)
  (id : Z) (surface_treatment : string) : PyResult (option BudgetLineItem) :=
  start <-
    match co_dxf_profile correlation, co_material_quantity correlation,
          co_pdf_item correlation with
    | Some dxf_profile, _, _ =>
        let quantity := opt_default received (PyInt 1) in
        let ref :=
          if PyStr.truthy (dp_layer dxf_profile) then dp_layer dxf_profile
          else str_or_empty (dp_profile_id dxf_profile) in
        let desc :=
          opt_default (dp_entity_type dxf_profile) "Perfil"
          ++ " - " ++ dp_layer dxf_profile in
        Return (Some (quantity, ref, desc))
    | None, Some material_qty, _ =>
        let quantity := opt_default received (PyInt 1) in
        let ref := mq_profile_reference material_qty in
        let desc := opt_default (mq_description material_qty) "Bloco DXF" in
        Return (Some (quantity, ref, desc))
    | None, None, Some pdf_item =>
        quantity <- py_int (opt_default received (PyInt 1));;
        Return (Some (PyInt quantity, pi_reference pdf_item,
                      pi_description pdf_item))
    | None, None, None => Return None
    end;;
  match start with
  | None => Return None
  | Some (quantity, ref, desc) =>
      quantity <- py_int quantity;;
      let line :=
        make_line correlation id (inject_Z quantity) ref desc
          surface_treatment in
      let line := apply_geometry correlation line in
      Return (Some (apply_pdf_length correlation line))
  end.

(** [_calculate_line_costs] with the conversion of the quantity.  The
    first product with the quantity converts it: on the catalog path
    [cost_data['cost_material'] * qty], which nothing that can raise
    precedes; on the formula path
    [line.weight_kg * material_price_kg * line.quantity], after the
    division by the conversion factor.  The pricer above computes with
    exact numbers and returns a new line, so the conversion is checked
    once it has returned. *)
Definition _calculate_line_costs (p : PricingParameters)
  (line : BudgetLineItem) (surface_treatment : string)
  : PyResult BudgetLineItem :=
  priced <- BudgetCalculator._calculate_line_costs p line surface_treatment;;
  _ <- py_float (quantity line);;
  Return priced.

Fixpoint price_correlations (self : Self) (surface_treatment : string)
  (id : Z) (correlations : list (Correlation * option PyValue))
  : PyResult unit * Self :=
  match correlations with
  | [] => (Return tt, self)
  | (correlation, received) :: r =>
      let id := (id + 1)%Z in
      match new_line correlation received id surface_treatment with
      | Raise e => (Raise e, self)
      | Return None => price_correlations self surface_treatment id r
      | Return (Some line) =>
          match _calculate_line_costs (params self) line surface_treatment with
          | Raise e => (Raise e, self)
          | Return line =>
              price_correlations
                (set_line_items (line_items self ++ [line])%list self)
                surface_treatment id r
          end
      end
  end.

(** [calculate_budget]. *)
Definition calculate_budget (self : Self) (dxf_data : DxfPayload)
  (pdf_data : PdfPayload) (surface_treatment : string) (name : string)
  (now : string) : PyResult BudgetResult * Self :=
  let has_dxf :=
    rd_success dxf_data
    && Nat.ltb 0 (List.length (rd_profiles dxf_data)) in
  let has_pdf := rp_success pdf_data in
  let '(correlations, self) := correlate_data self dxf_data pdf_data in
  let self := set_line_items [] self in
  match price_correlations self surface_treatment 0 correlations with
  | (Raise e, self) => (Raise e, self)
  | (Return _, self) =>
      match _calculate_summary self name has_dxf has_pdf now with
      | (Raise e, self) => (Raise e, self)
      | (Return _, self) =>
          (Return
             {| r_success := true;
                r_line_items := map line_to_dict (line_items self);
                r_summary := option_map summary_to_dict (summary self);
                r_parameters := params self;
                r_correlation_log := correlation_log self;
                r_data_sources :=
                  {| dxf_used := has_dxf;
                     pdf_used := has_pdf;
                     ds_quantity_source := if has_dxf then "dxf" else "pdf" |} |},
           self)
      end
  end.

End Received.

(* ====================================================================== *)
(** * [main.py]: the parameters of a request *)
(* ====================================================================== *)

Module Service.

Import BudgetCalculator.

Local Open Scope Q_scope.

(** [PricingParametersUpdate]: the six parameters a request can set,
    each optional. *)
Record PricingParametersUpdate := {
  up_lme_price_usd_kg : option Q;
  up_lme_hedging_buffer_pct : option Q;
  up_labor_rate_eur_hr : option Q;
  up_base_waste_factor_pct : option Q;
  up_overhead_factor_pct : option Q;
  up_profit_margin_pct : option Q
}.

(** "Create pricing parameters" in [/api/calculate]: the defaults, with
    every value the request gives set over them. *)
Definition request_params (parameters : option PricingParametersUpdate)
  : PricingParameters :=
  let params := default_params in
  match parameters with
  | None => params
  | Some u =>
      {| lme_price_usd_kg :=
           opt_default (up_lme_price_usd_kg u) (lme_price_usd_kg params);
         lme_hedging_buffer_pct :=
           opt_default (up_lme_hedging_buffer_pct u)
             (lme_hedging_buffer_pct params);
         billet_premium_usd_kg := billet_premium_usd_kg params;
         alloy_6063_premium_pct := alloy_6063_premium_pct params;
         alloy_6060_premium_pct := alloy_6060_premium_pct params;
         alloy_6082_premium_pct := alloy_6082_premium_pct params;
         anodizing_natural_eur_m2 := anodizing_natural_eur_m2 params;
         anodizing_colored_eur_m2 := anodizing_colored_eur_m2 params;
         powder_coating_standard_eur_m2 := powder_coating_standard_eur_m2 params;
         powder_coating_qualicoat_eur_m2 :=
           powder_coating_qualicoat_eur_m2 params;
         powder_coating_seaside_eur_m2 := powder_coating_seaside_eur_m2 params;
         labor_rate_eur_hr :=
           opt_default (up_labor_rate_eur_hr u) (labor_rate_eur_hr params);
         cutting_time_mins := cutting_time_mins params;
         machining_time_per_hole_mins := machining_time_per_hole_mins params;
         assembly_time_per_component_mins :=
           assembly_time_per_component_mins params;
         base_waste_factor_pct :=
           opt_default (up_base_waste_factor_pct u) (base_waste_factor_pct params);
         complexity_waste_factor_pct := complexity_waste_factor_pct params;
         overhead_factor_pct :=
           opt_default (up_overhead_factor_pct u) (overhead_factor_pct params);
         profit_margin_pct :=
           opt_default (up_profit_margin_pct u) (profit_margin_pct params);
         eur_to_usd := eur_to_usd params |}
  end.

End Service.

(* ====================================================================== *)
(** * Properties of the engine *)
(* ====================================================================== *)

Import BudgetCalculator.

Local Open Scope string_scope.
Local Open Scope Q_scope.

(** ** Sample data used by the examples *)

(** A line as the constructor of the loop leaves it, with the geometry
    given. *)
Definition sample_line (desc ref : string) (qty : Z)
  (perimeter area length weight complexity : Q) (thickness : option Q)
  : BudgetLineItem :=
  {| line_id := 1; reference := ref; description := desc; quantity := qty;
     quantity_source := "dxf"; specs_source := "dxf"; profile_id := None;
     perimeter_mm := perimeter; area_mm2 := area; length_mm := length;
     weight_kg := weight; complexity_score := complexity;
     holes_count := 0; entity_type := ""; material := None;
     finish := None; thickness_mm := thickness;
     raw_material_cost := 0; transformation_cost := 0;
     surface_treatment_cost := 0; labor_cost := 0; accessories_cost := 0;
     unit_cost := 0; total_cost := 0; correlation_confidence := 0;
     correlation_method := "none"; notes := "" |}.

Definition sample_profile (layer : string) (qty : option Q)
  (perimeter area length weight : Q) (complexity : option Q) : DxfProfile :=
  {| dp_profile_id := Some "P1"; dp_layer := layer; dp_material_hint := None;
     dp_quantity := qty; dp_entity_type := Some "LWPOLYLINE";
     dp_perimeter_mm := perimeter; dp_area_mm2 := area;
     dp_length_mm := length;
     dp_bounding_box := {| width := 0; height := 0 |};
     dp_weight_kg := weight; dp_complexity_score := complexity;
     dp_features := [] |}.

Definition sample_pdf_item (ref desc : string) (qty : option Q) : PdfItem :=
  {| pi_reference := ref; pi_description := desc; pi_quantity := qty;
     pi_length_mm := None; pi_material := None; pi_finish := None;
     pi_thickness_mm := None; pi_notes := None |}.

Definition no_dxf : DxfData :=
  {| dxf_success := false; dxf_profiles := [];
     dxf_material_quantities := [] |}.

Definition no_pdf : PdfData :=
  {| pdf_success := false; pdf_bom_items := []; pdf_constraints := [];
     pdf_dimension_specs := [] |}.

Definition dxf_of (profiles : list DxfProfile) : DxfData :=
  {| dxf_success := true; dxf_profiles := profiles;
     dxf_material_quantities := [] |}.

Definition pdf_of (items : list PdfItem) : PdfData :=
  {| pdf_success := true; pdf_bom_items := items; pdf_constraints := [];
     pdf_dimension_specs := [] |}.

(** ** Vocabulary of the statements *)

(** A catalog entry whose weight, area and seven rates are non-negative,
    as a proposition and as a test. *)
Definition rates_nonneg (s : CostDatabase.SteelProfile) : Prop :=
  0 <= CostDatabase.weight_per_meter s
  /\ 0 <= CostDatabase.area_per_meter s
  /\ 0 <= CostDatabase.price_material s
  /\ 0 <= CostDatabase.price_fabrication s
  /\ 0 <= CostDatabase.price_assembly s
  /\ 0 <= CostDatabase.price_painting s
  /\ 0 <= CostDatabase.price_lifting s
  /\ 0 <= CostDatabase.price_consumables s
  /\ 0 <= CostDatabase.price_transport s.

Definition rates_nonneg_b (s : CostDatabase.SteelProfile) : bool :=
  PyNum.leb 0 (CostDatabase.weight_per_meter s)
  && PyNum.leb 0 (CostDatabase.area_per_meter s)
  && PyNum.leb 0 (CostDatabase.price_material s)
  && PyNum.leb 0 (CostDatabase.price_fabrication s)
  && PyNum.leb 0 (CostDatabase.price_assembly s)
  && PyNum.leb 0 (CostDatabase.price_painting s)
  && PyNum.leb 0 (CostDatabase.price_lifting s)
  && PyNum.leb 0 (CostDatabase.price_consumables s)
  && PyNum.leb 0 (CostDatabase.price_transport s).

(** Pricing parameters that are all non-negative. *)
Definition params_nonneg (p : PricingParameters) : Prop :=
  0 <= lme_price_usd_kg p /\ 0 <= lme_hedging_buffer_pct p
  /\ 0 <= billet_premium_usd_kg p /\ 0 <= alloy_6063_premium_pct p
  /\ 0 <= alloy_6060_premium_pct p /\ 0 <= alloy_6082_premium_pct p
  /\ 0 <= anodizing_natural_eur_m2 p /\ 0 <= anodizing_colored_eur_m2 p
  /\ 0 <= powder_coating_standard_eur_m2 p
  /\ 0 <= powder_coating_qualicoat_eur_m2 p
  /\ 0 <= powder_coating_seaside_eur_m2 p /\ 0 <= labor_rate_eur_hr p
  /\ 0 <= cutting_time_mins p /\ 0 <= machining_time_per_hole_mins p
  /\ 0 <= assembly_time_per_component_mins p /\ 0 <= base_waste_factor_pct p
  /\ 0 <= complexity_waste_factor_pct p /\ 0 <= overhead_factor_pct p
  /\ 0 <= profit_margin_pct p /\ 0 <= eur_to_usd p.

(** What the pricer needs of a line to produce a non-negative total. *)
Definition line_measures_ok (line : BudgetLineItem) : Prop :=
  (1 <= quantity line)%Z
  /\ 0 <= perimeter_mm line
  /\ 1 <= complexity_score line
  /\ (forall t, thickness_mm line = Some t -> 0 <= t).

(** The calculator with entries added to its log. *)
Definition extend_log (es : list LogEntry) (self : Self) : Self :=
  {| params := params self; line_items := line_items self;
     summary := summary self;
     correlation_log := (correlation_log self ++ es)%list |}.

(** The loop of [calculate_budget] without the object: its outcome and
    the lines it appends. *)
Fixpoint priced_lines (p : PricingParameters) (st : string) (id : Z)
  (cs : list Correlation) : PyResult unit * list BudgetLineItem :=
  match cs with
  | [] => (Return tt, [])
  | c :: r =>
      let id := (id + 1)%Z in
      match new_line c id st with
      | None => priced_lines p st id r
      | Some line =>
          match _calculate_line_costs p line st with
          | Raise e => (Raise e, [])
          | Return line =>
              let '(res, ls) := priced_lines p st id r in (res, line :: ls)
          end
      end
  end.

(** The result dictionary built from the final state of a run. *)
Definition result_of (self : Self) (hd hp : bool) : BudgetResult :=
  {| r_success := true;
     r_line_items := map line_to_dict (line_items self);
     r_summary := option_map summary_to_dict (summary self);
     r_parameters := params self;
     r_correlation_log := correlation_log self;
     r_data_sources :=
       {| dxf_used := hd; pdf_used := hp;
          ds_quantity_source := if hd then "dxf" else "pdf" |} |}.

(** The flag [has_dxf] of [calculate_budget]. *)
Definition has_dxf_of (dxf : DxfData) : bool :=
  dxf_success dxf && Nat.ltb 0 (List.length (dxf_profiles dxf)).

(** Measures of the payloads: non-negative, with the complexity score in
    its documented range (at least 1). *)
Definition profile_measures_ok (dp : DxfProfile) : Prop :=
  0 <= dp_perimeter_mm dp /\ 0 <= dp_area_mm2 dp /\ 0 <= dp_length_mm dp
  /\ 0 <= dp_weight_kg dp
  /\ 0 <= width (dp_bounding_box dp) /\ 0 <= height (dp_bounding_box dp)
  /\ (forall c, dp_complexity_score dp = Some c -> 1 <= c).

Definition material_measures_ok (mq : MaterialQty) : Prop :=
  0 <= mq_unit_length_mm mq /\ 0 <= mq_unit_area_mm2 mq.

Definition pdf_item_measures_ok (it : PdfItem) : Prop :=
  (forall l, pi_length_mm it = Some l -> 0 <= l)
  /\ (forall t, pi_thickness_mm it = Some t -> 0 <= t).

Definition inputs_ok (dxf : DxfData) (pdf : PdfData) : Prop :=
  Forall profile_measures_ok (dxf_profiles dxf)
  /\ Forall material_measures_ok (dxf_material_quantities dxf)
  /\ Forall pdf_item_measures_ok (pdf_bom_items pdf).

(** A correlation with a profile, a block aggregate or a row: one the
    loop does not skip. *)
Definition has_source (c : Correlation) : bool :=
  is_some (co_dxf_profile c) || is_some (co_material_quantity c)
  || is_some (co_pdf_item c).

(** The measures of a correlation, as [inputs_ok] has them. *)
Definition correlation_ok (c : Correlation) : Prop :=
  (forall dp, co_dxf_profile c = Some dp -> profile_measures_ok dp)
  /\ (forall mq, co_material_quantity c = Some mq -> material_measures_ok mq)
  /\ (forall t,
        sp_thickness_mm (opt_default (co_specifications c) empty_specs) = Some t ->
        0 <= t).

(** The measures of the payloads as C3 states its premise: non-negative
    measures and quantities, the complexity score among them. *)
Definition profile_measures_nonneg (dp : DxfProfile) : Prop :=
  0 <= dp_perimeter_mm dp /\ 0 <= dp_area_mm2 dp /\ 0 <= dp_length_mm dp
  /\ 0 <= dp_weight_kg dp
  /\ 0 <= width (dp_bounding_box dp) /\ 0 <= height (dp_bounding_box dp)
  /\ (forall c, dp_complexity_score dp = Some c -> 0 <= c)
  /\ (forall q, dp_quantity dp = Some q -> 0 <= q).

(** A profile whose complexity score, when present, is at least 1. *)
Definition complexity_in_range (dp : DxfProfile) : Prop :=
  forall c, dp_complexity_score dp = Some c -> 1 <= c.

(** The defaults, with the labor rate, the cutting and assembly times,
    the base waste percentage and the conversion factor given. *)
Definition custom_params (labor_rate cutting assembly base_waste conversion : Q)
  : PricingParameters := {|
  lme_price_usd_kg := 2.35;
  lme_hedging_buffer_pct := 5.0;
  billet_premium_usd_kg := 0.45;
  alloy_6063_premium_pct := 0.0;
  alloy_6060_premium_pct := 2.0;
  alloy_6082_premium_pct := 8.0;
  anodizing_natural_eur_m2 := 12.0;
  anodizing_colored_eur_m2 := 18.0;
  powder_coating_standard_eur_m2 := 15.0;
  powder_coating_qualicoat_eur_m2 := 22.0;
  powder_coating_seaside_eur_m2 := 35.0;
  labor_rate_eur_hr := labor_rate;
  cutting_time_mins := cutting;
  machining_time_per_hole_mins := 5.0;
  assembly_time_per_component_mins := assembly;
  base_waste_factor_pct := base_waste;
  complexity_waste_factor_pct := 4.0;
  overhead_factor_pct := 15.0;
  profit_margin_pct := 20.0;
  eur_to_usd := conversion
|}.

(** The defaults with no cutting and no assembly time. *)
Definition params_without_fixed_times : PricingParameters :=
  custom_params 35.0 0 0 8.0 1.08.

(** The defaults with a negative base waste percentage, which the
    parameter update of the service accepts as it accepts any number. *)
Definition params_negative_base_waste : PricingParameters :=
  custom_params 35.0 2.0 8.0 (-5) 1.08.

(** The defaults with a conversion factor of zero. *)
Definition params_zero_conversion : PricingParameters :=
  custom_params 35.0 2.0 8.0 8.0 0.

(** The defaults with an hourly labor rate of zero, which the parameter
    update of the service accepts as well. *)
Definition params_zero_labor_rate : PricingParameters :=
  custom_params 0 2.0 8.0 8.0 1.08.

(** The length the catalog prices, in metres. *)
Definition catalog_length_m (line : BudgetLineItem) : Q :=
  if PyNum.gtb (length_mm line) 0 then length_mm line / 1000 else 1.0.

(** The fields the pricer leaves as the loop set them: what identifies a
    line, where it comes from and what the specifications say. *)
Definition same_identity (a b : BudgetLineItem) : Prop :=
  line_id a = line_id b /\ reference a = reference b
  /\ description a = description b /\ quantity a = quantity b
  /\ quantity_source a = quantity_source b
  /\ specs_source a = specs_source b /\ profile_id a = profile_id b
  /\ area_mm2 a = area_mm2 b /\ complexity_score a = complexity_score b
  /\ holes_count a = holes_count b /\ entity_type a = entity_type b
  /\ material a = material b /\ finish a = finish b
  /\ thickness_mm a = thickness_mm b
  /\ correlation_confidence a = correlation_confidence b
  /\ correlation_method a = correlation_method b.

(** The keys a row of the bill of materials is filed under in the
    reference index: its reference in capitals and stripped, and the same
    without hyphens, underscores and blanks; none when that text is
    empty. *)
Definition reference_keys (item : PdfItem) : list string :=
  let ref := PyStr.strip (PyStr.upper (pi_reference item)) in
  if PyStr.truthy ref
  then [ref; PyStr.filter_chars (fun c => negb (is_separator c)) ref]
  else [].

(** The key of a row in the description index: the first 30 characters
    of its description in small letters and stripped. *)
Definition description_keys (item : PdfItem) : list string :=
  let desc := PyStr.strip (PyStr.lower (pi_description item)) in
  if PyStr.truthy desc then [PyStr.take 30 desc] else [].

(** The last element of a list that passes a test. *)
Definition find_last {A : Type} (f : A -> bool) (l : list A) : option A :=
  find f (rev l).

(** A correlation synthesized when neither payload has structured data:
    no geometry, an estimated quantity of 1 on a made-up row, a
    confidence between 0.1 and 0.3, and a length only above 50 mm. *)
Definition synthesized (c : Correlation) : Prop :=
  co_dxf_profile c = None /\ co_material_quantity c = None
  /\ co_quantity_source c = "estimated"
  /\ 0.1 <= co_correlation_confidence c <= 0.3
  /\ exists it,
       co_pdf_item c = Some it /\ pi_quantity it = Some 1
       /\ forall len, pi_length_mm it = Some len -> 50 < len.

(** A specification payload with no row: two constraints and three
    dimension texts, one of them below 50 mm. *)
Definition constraints_only_pdf : PdfData :=
  {| pdf_success := true;
     pdf_bom_items := [];
     pdf_constraints :=
       [ {| tc_constraint_type := Some "material_grade";
            tc_value := Some "6063-T5"; tc_context := "Liga 6063-T5";
            tc_importance := "high" |};
         {| tc_constraint_type := Some "surface_treatment";
            tc_value := Some "Anodizado"; tc_context := "Anodizado 15 um";
            tc_importance := "medium" |} ];
     pdf_dimension_specs :=
       [ {| ds_raw := "1200 x 40"; ds_dimensions := "" |};
         {| ds_raw := ""; ds_dimensions := "30,5" |};
         {| ds_raw := "1200 x 40"; ds_dimensions := "" |} ] |}.

(** A text with at least one decimal digit. *)
Fixpoint has_digit (s : string) : bool :=
  match s with
  | EmptyString => false
  | String c r => PyStr.is_digit c || has_digit r
  end.

(** The token a scanner state holds is not negative. *)
Definition scan_state_ok (st : scan_state) : Prop :=
  match st with
  | Idle => True
  | InInt n | SawSep n => (0 <= n)%Z
  | InFrac n f _ => (0 <= n)%Z /\ (0 <= f)%Z
  end.

(** The six surface-treatment codes the pricer has a rate for. *)
Definition known_treatment (st : string) : bool :=
  existsb (String.eqb st)
    ["anodizing_natural"; "anodizing_colored"; "powder_coating_standard";
     "powder_coating_qualicoat"; "powder_coating_seaside"; "none"].

(** A line with another quantity. *)
Definition with_quantity (q : Z) (l : BudgetLineItem) : BudgetLineItem :=
  {| line_id := line_id l; reference := reference l;
     description := description l; quantity := q;
     quantity_source := quantity_source l; specs_source := specs_source l;
     profile_id := profile_id l; perimeter_mm := perimeter_mm l;
     area_mm2 := area_mm2 l; length_mm := length_mm l;
     weight_kg := weight_kg l;
     complexity_score := complexity_score l; holes_count := holes_count l;
     entity_type := entity_type l; material := material l;
     finish := finish l; thickness_mm := thickness_mm l;
     raw_material_cost := raw_material_cost l;
     transformation_cost := transformation_cost l;
     surface_treatment_cost := surface_treatment_cost l;
     labor_cost := labor_cost l; accessories_cost := accessories_cost l;
     unit_cost := unit_cost l; total_cost := total_cost l;
     correlation_confidence := correlation_confidence l;
     correlation_method := correlation_method l; notes := notes l |}.

(** The constraints of one type, in their original order. *)
Definition of_type (k : string) (cs : list Constraint) : list Constraint :=
  filter (fun c => String.eqb (constraint_key c) k) cs.

(** A value of the row when it has one (not empty), otherwise the value
    of the first constraint of the type, when there is such a constraint. *)
Definition row_then_constraint (row : option string) (l : list Constraint)
  : option string :=
  match l with
  | c :: _ => if opt_truthy row then row else tc_value c
  | [] => row
  end.

(** Pricing parameters with other alloy premiums. *)
Definition with_alloy_premiums (a b c : Q) (p : PricingParameters)
  : PricingParameters := {|
  lme_price_usd_kg := lme_price_usd_kg p;
  lme_hedging_buffer_pct := lme_hedging_buffer_pct p;
  billet_premium_usd_kg := billet_premium_usd_kg p;
  alloy_6063_premium_pct := a;
  alloy_6060_premium_pct := b;
  alloy_6082_premium_pct := c;
  anodizing_natural_eur_m2 := anodizing_natural_eur_m2 p;
  anodizing_colored_eur_m2 := anodizing_colored_eur_m2 p;
  powder_coating_standard_eur_m2 := powder_coating_standard_eur_m2 p;
  powder_coating_qualicoat_eur_m2 := powder_coating_qualicoat_eur_m2 p;
  powder_coating_seaside_eur_m2 := powder_coating_seaside_eur_m2 p;
  labor_rate_eur_hr := labor_rate_eur_hr p;
  cutting_time_mins := cutting_time_mins p;
  machining_time_per_hole_mins := machining_time_per_hole_mins p;
  assembly_time_per_component_mins := assembly_time_per_component_mins p;
  base_waste_factor_pct := base_waste_factor_pct p;
  complexity_waste_factor_pct := complexity_waste_factor_pct p;
  overhead_factor_pct := overhead_factor_pct p;
  profit_margin_pct := profit_margin_pct p;
  eur_to_usd := eur_to_usd p
|}.

(** A calculator with other parameters. *)
Definition with_params (p : PricingParameters) (self : Self) : Self :=
  {| params := p; line_items := line_items self; summary := summary self;
     correlation_log := correlation_log self |}.

(** A cost detail of the steel function: a positive length of a profile
    of the catalog table. *)
Definition steel_detail_ok (c : CostDatabase.CostData) : Prop :=
  0 < CostDatabase.length_m c
  /\ exists p,
       In p CostDatabase.profiles_data
       /\ c = CostDatabase.calculate_cost p (CostDatabase.length_m c).

(** The items of the three cladding tables. *)
Definition cladding_data : list CostTables.CladdingItem :=
  (CostTables.facade_data ++ CostTables.roof_data
   ++ CostTables.accessories_data)%list.

(** A cladding item whose seven prices are non-negative, as a test. *)
Definition prices_nonneg_b (it : CostTables.CladdingItem) : bool :=
  PyNum.leb 0 (CostTables.ci_price_material it)
  && PyNum.leb 0 (CostTables.ci_price_fabrication it)
  && PyNum.leb 0 (CostTables.ci_price_assembly it)
  && PyNum.leb 0 (CostTables.ci_price_painting it)
  && PyNum.leb 0 (CostTables.ci_price_lifting it)
  && PyNum.leb 0 (CostTables.ci_price_consumables it)
  && PyNum.leb 0 (CostTables.ci_price_transport it).

(** A cost detail of the cladding function: a positive quantity of an
    item of the tables. *)
Definition cladding_detail_ok (c : CostTables.CladdingCost) : Prop :=
  0 < CostTables.cc_quantity c
  /\ exists it,
       In it cladding_data
       /\ c = CostTables.item_calculate_cost it (CostTables.cc_quantity c).

(** The recommendations of a category. *)
Definition of_category (c : string) (l : list Recommendation)
  : list Recommendation :=
  filter (fun r => String.eqb (category r) c) l.

(** The lines whose correlation confidence is below one half. *)
Definition low_confidence_lines (self : Self) : list BudgetLineItem :=
  filter (fun i => PyNum.ltb (correlation_confidence i) 0.5) (line_items self).

(** Texts in ascending order of code points. *)
Fixpoint ascending (l : list string) : bool :=
  match l with
  | a :: (b :: _) as r => String.leb a b && ascending r
  | _ => true
  end.

(** ** Quantities as received *)

(** The quantity field that stands for a received value: none for
    [None], an infinity or a NaN. *)
Definition decoded (received : option Received.PyValue) : option (option Q) :=
  match received with
  | None => Some None
  | Some (Received.PyInt n) => Some (Some (inject_Z n))
  | Some (Received.PyFloat x) => Some (Some x)
  | Some _ => None
  end.

(** A received quantity that [int] accepts and whose integer part a
    float holds, with the field that stands for it. *)
Definition quantity_ok (field : option Q) (received : option Received.PyValue)
  : Prop :=
  decoded received = Some field
  /\ (PyNum.int (opt_default field 1%Q) < Received.float_limit)%Z.

Definition payloads_ok (dxf : Received.DxfPayload) (pdf : Received.PdfPayload)
  : Prop :=
  Forall (fun entry => quantity_ok (dp_quantity (fst entry)) (snd entry))
    (Received.rd_profiles dxf)
  /\ Forall (fun entry => quantity_ok (mq_quantity (fst entry)) (snd entry))
       (Received.rd_material_quantities dxf)
  /\ Forall (fun entry => quantity_ok (pi_quantity (fst entry)) (snd entry))
       (Received.rp_bom_items pdf).

(** The quantity field the loop reads for a correlation. *)
Definition source_quantity (c : Correlation) : option (option Q) :=
  match co_dxf_profile c, co_material_quantity c, co_pdf_item c with
  | Some dxf_profile, _, _ => Some (dp_quantity dxf_profile)
  | None, Some material_qty, _ => Some (mq_quantity material_qty)
  | None, None, Some pdf_item => Some (pi_quantity pdf_item)
  | None, None, None => None
  end.

Definition correlation_quantity_ok (entry : Correlation * option Received.PyValue)
  : Prop :=
  forall field,
    source_quantity (fst entry) = Some field -> quantity_ok field (snd entry).


(** The exception a received quantity ends a run with, if any: that of
    [int], or [OverflowError] when the integer, floored at 1, is too
    large for a float. *)
Definition quantity_error (received : option Received.PyValue)
  : option PyExc :=
  match Received.py_int (opt_default received (Received.PyInt 1)) with
  | Raise e => Some e
  | Return n =>
      if (Z.max 1 n <? Received.float_limit)%Z then None
      else Some OverflowError
  end.

(** A correlation the loop reads the quantity of and cannot price. *)
Definition rejected (entry : Correlation * option Received.PyValue)
  (e : PyExc) : Prop :=
  source_quantity (fst entry) <> None /\ quantity_error (snd entry) = Some e.

(** A run has a line for the formula path: a correlation, at its place
    in the list, whose line the catalog does not resolve. *)
Definition formula_line (cs : list Correlation) (st : string) : Prop :=
  exists before c after line,
    cs = (before ++ c :: after)%list
    /\ new_line c (Z.of_nat (List.length before) + 1) st = Some line
    /\ _try_calculate_from_cost_db line = None.

(** Rows as received, with the field that stands for the quantity. *)
Definition received_row (ref desc : string) (received : option Received.PyValue)
  : PdfItem * option Received.PyValue :=
  (sample_pdf_item ref desc
     match decoded received with Some field => field | None => None end,
   received).

Definition received_rows (rows : list (PdfItem * option Received.PyValue))
  : Received.PdfPayload :=
  {| Received.rp_success := true; Received.rp_bom_items := rows;
     Received.rp_constraints := []; Received.rp_dimension_specs := [] |}.

Definition no_geometry : Received.DxfPayload :=
  {| Received.rd_success := false; Received.rd_profiles := [];
     Received.rd_material_quantities := [] |}.

(** Payloads whose measures are non-negative, the complexity scores
    among them. *)
Definition inputs_nonneg (dxf : DxfData) (pdf : PdfData) : Prop :=
  Forall profile_measures_nonneg (dxf_profiles dxf)
  /\ Forall material_measures_ok (dxf_material_quantities dxf)
  /\ Forall pdf_item_measures_ok (pdf_bom_items pdf).

Definition correlation_nonneg (c : Correlation) : Prop :=
  (forall dp, co_dxf_profile c = Some dp -> profile_measures_nonneg dp)
  /\ (forall mq, co_material_quantity c = Some mq -> material_measures_ok mq)
  /\ (forall t,
        sp_thickness_mm (opt_default (co_specifications c) empty_specs) = Some t ->
        0 <= t).

Definition line_measures_nonneg (line : BudgetLineItem) : Prop :=
  (1 <= quantity line)%Z
  /\ 0 <= perimeter_mm line
  /\ 0 <= complexity_score line
  /\ (forall t, thickness_mm line = Some t -> 0 <= t).

(** Geometry of a collected profile that is not negative. *)
Definition geometry_nonneg (p : DxfParser.ProfileData) : Prop :=
  0 <= DxfParser.pd_perimeter_mm p /\ 0 <= DxfParser.pd_area_mm2 p
  /\ 0 <= DxfParser.pd_length_mm p
  /\ 0 <= width (DxfParser.pd_bounding_box p)
  /\ 0 <= height (DxfParser.pd_bounding_box p)
  /\ (forall t, DxfParser.pd_thickness_hint p = Some t -> 0 <= t).

Definition material_nonneg (m : DxfParser.MaterialQuantity) : Prop :=
  0 <= DxfParser.mt_unit_length_mm m /\ 0 <= DxfParser.mt_unit_area_mm2 m.

(** A request whose values, where given, are non-negative. *)
Definition request_nonneg (u : Service.PricingParametersUpdate) : Prop :=
  (forall v, Service.up_lme_price_usd_kg u = Some v -> 0 <= v)
  /\ (forall v, Service.up_lme_hedging_buffer_pct u = Some v -> 0 <= v)
  /\ (forall v, Service.up_labor_rate_eur_hr u = Some v -> 0 <= v)
  /\ (forall v, Service.up_base_waste_factor_pct u = Some v -> 0 <= v)
  /\ (forall v, Service.up_overhead_factor_pct u = Some v -> 0 <= v)
  /\ (forall v, Service.up_profit_margin_pct u = Some v -> 0 <= v).

(** A request that sets the hourly labor rate and nothing else. *)
Definition request_labor_rate (rate : Q) : Service.PricingParametersUpdate :=
  {| Service.up_lme_price_usd_kg := None;
     Service.up_lme_hedging_buffer_pct := None;
     Service.up_labor_rate_eur_hr := Some rate;
     Service.up_base_waste_factor_pct := None;
     Service.up_overhead_factor_pct := None;
     Service.up_profit_margin_pct := None |}.

(** A drawn rectangle as the extractor collects it, before its score is
    computed. *)
Definition sample_drawn (layer : string) (w h : Q) (vertices : Z)
  : DxfParser.ProfileData :=
  {| DxfParser.pd_profile_id := "P1";
     DxfParser.pd_layer := layer;
     DxfParser.pd_is_closed := true;
     DxfParser.pd_perimeter_mm := 2 * (w + h);
     DxfParser.pd_area_mm2 := w * h;
     DxfParser.pd_bounding_box := {| width := w; height := h |};
     DxfParser.pd_centroid := (w / 2, h / 2);
     DxfParser.pd_vertex_count := vertices;
     DxfParser.pd_entity_type := "LWPOLYLINE";
     DxfParser.pd_features := [];
     DxfParser.pd_complexity_score := 1.0;
     DxfParser.pd_material_hint := None;
     DxfParser.pd_thickness_hint := None;
     DxfParser.pd_quantity := 2;
     DxfParser.pd_length_mm := 6000 |}.

Definition sample_hole (layer : string) (x y : Q) : DxfParser.GeometricFeature :=
  {| DxfParser.gf_feature_type := "hole";
     DxfParser.gf_position := (x, y);
     DxfParser.gf_layer := layer;
     DxfParser.gf_machining_time_mins := 1.5 |}.

(** ** Comparisons *)

Lemma num_leb_spec (a b : Q) : reflect (a <= b) (PyNum.leb a b).
Proof.
  unfold PyNum.leb. destruct (Qle_bool a b) eqn:E; constructor.
  - now apply Qle_bool_iff.
  - intro H. apply Qle_bool_iff in H. congruence.
Qed.

Lemma num_ltb_spec (a b : Q) : reflect (a < b) (PyNum.ltb a b).
Proof.
  unfold PyNum.ltb. destruct (Qle_bool b a) eqn:E; constructor; cbn.
  - apply Qle_bool_iff in E. now apply Qle_not_lt.
  - apply Qnot_le_lt. intro H. apply Qle_bool_iff in H. congruence.
Qed.

Lemma num_gtb_spec (a b : Q) : reflect (b < a) (PyNum.gtb a b).
Proof. unfold PyNum.gtb. apply num_ltb_spec. Qed.

Lemma num_eqb_spec (a b : Q) : reflect (a == b) (PyNum.eqb a b).
Proof.
  unfold PyNum.eqb. destruct (Qeq_bool a b) eqn:E; constructor.
  - now apply Qeq_bool_iff.
  - intro H. apply Qeq_bool_iff in H. congruence.
Qed.

Lemma max_spec (a b : Q) :
  (a < b /\ PyNum.max a b = b) \/ (b <= a /\ PyNum.max a b = a).
Proof.
  unfold PyNum.max. destruct (num_ltb_spec a b); [left | right]; split; auto.
  now apply Qnot_lt_le.
Qed.

Lemma min_spec (a b : Q) :
  (b < a /\ PyNum.min a b = b) \/ (a <= b /\ PyNum.min a b = a).
Proof.
  unfold PyNum.min. destruct (num_ltb_spec b a); [left | right]; split; auto.
  now apply Qnot_lt_le.
Qed.

Lemma max_ge_r (a b : Q) : b <= PyNum.max a b.
Proof. destruct (max_spec a b) as [[H ->] | [H ->]]; lra. Qed.

Lemma or_else_nonneg (x d : Q) : 0 <= x -> 0 <= d -> 0 <= PyNum.or_else x d.
Proof. unfold PyNum.or_else. destruct (num_eqb_spec x 0); auto. Qed.

Lemma py_div_return (a b : Q) : ~ b == 0 -> py_div a b = Return (a / b).
Proof. unfold py_div. destruct (num_eqb_spec b 0); tauto. Qed.

Lemma py_div_raise (a b : Q) : b == 0 -> py_div a b = Raise ZeroDivisionError.
Proof. unfold py_div. destruct (num_eqb_spec b 0); tauto. Qed.

(** ** The formula path: weight estimation *)

(** The thickness the weight block works with: [line.thickness_mm or 2.0]. *)
Lemma thickness_default (line : BudgetLineItem) :
  thickness_mm line = None -> PyNum.opt_or (thickness_mm line) 2.0 = 2.0.
Proof. intros ->. reflexivity. Qed.

Lemma formula_costs_weight (p : PricingParameters) (line : BudgetLineItem)
  (st : string) :
  ~ eur_to_usd p == 0 ->
  exists line',
    formula_costs p line st = Return line'
    /\ weight_kg line' = weight_kg (estimate_weight line)
    /\ length_mm line' = length_mm (estimate_weight line)
    /\ perimeter_mm line' = perimeter_mm (estimate_weight line).
Proof.
  intros Hz. unfold formula_costs.
  rewrite (py_div_return _ Hz). cbn [bind].
  eexists. split; [reflexivity |]. cbn. auto.
Qed.

Lemma estimate_weight_area (line : BudgetLineItem) :
  weight_kg line <= 0 -> 0 < area_mm2 line ->
  estimate_weight line =
  set_weight_kg
    (perimeter_mm line * PyNum.opt_or (thickness_mm line) 2.0
     * PyNum.max (length_mm line) 1000 / 1e9 * ALUMINUM_DENSITY_KG_M3) line.
Proof.
  intros Hw Ha. unfold estimate_weight.
  destruct (num_leb_spec (weight_kg line) 0); [| tauto].
  destruct (num_gtb_spec (area_mm2 line) 0); [| tauto].
  reflexivity.
Qed.

Lemma estimate_weight_perimeter (line : BudgetLineItem) :
  weight_kg line <= 0 -> area_mm2 line <= 0 -> 0 < perimeter_mm line ->
  estimate_weight line =
  set_weight_kg
    (perimeter_mm line * PyNum.opt_or (thickness_mm line) 2.0
     * PyNum.opt_or (thickness_mm line) 2.0 / 1e9 * ALUMINUM_DENSITY_KG_M3) line.
Proof.
  intros Hw Ha Hp. unfold estimate_weight.
  destruct (num_leb_spec (weight_kg line) 0); [| tauto].
  destruct (num_gtb_spec (area_mm2 line) 0); [lra |].
  destruct (num_gtb_spec (perimeter_mm line) 0); [| tauto].
  reflexivity.
Qed.

Lemma estimate_weight_length (line : BudgetLineItem) :
  weight_kg line <= 0 -> area_mm2 line <= 0 -> perimeter_mm line <= 0 ->
  0 < length_mm line ->
  estimate_weight line =
  set_perimeter_mm (length_mm line * 0.1)
    (set_weight_kg (length_mm line / 1000 * 0.5) line).
Proof.
  intros Hw Ha Hp Hl. unfold estimate_weight.
  destruct (num_leb_spec (weight_kg line) 0); [| tauto].
  destruct (num_gtb_spec (area_mm2 line) 0); [lra |].
  destruct (num_gtb_spec (perimeter_mm line) 0); [lra |].
  destruct (num_gtb_spec (length_mm line) 0); [| tauto].
  reflexivity.
Qed.

Lemma estimate_weight_stand_in (line : BudgetLineItem) :
  weight_kg line <= 0 -> area_mm2 line <= 0 -> perimeter_mm line <= 0 ->
  length_mm line <= 0 ->
  estimate_weight line =
  set_perimeter_mm 100 (set_length_mm 1000 (set_weight_kg 0.5 line)).
Proof.
  intros Hw Ha Hp Hl. unfold estimate_weight.
  destruct (num_leb_spec (weight_kg line) 0); [| tauto].
  destruct (num_gtb_spec (area_mm2 line) 0); [lra |].
  destruct (num_gtb_spec (perimeter_mm line) 0); [lra |].
  destruct (num_gtb_spec (length_mm line) 0); [lra |].
  reflexivity.
Qed.

Lemma estimate_weight_given (line : BudgetLineItem) :
  0 < weight_kg line -> estimate_weight line = line.
Proof.
  intros Hw. unfold estimate_weight.
  destruct (num_leb_spec (weight_kg line) 0); [lra |]. reflexivity.
Qed.

(** C8, as the code has it.  On the formula path a line without weight
    gets: with a known area, perimeter x thickness x max(length, 1000)
    / 1e9 x 2700, which is the product with the length itself only from
    1000 mm upwards; with only a perimeter, a thickness-squared section;
    with only a length, 0.5 kg per metre; and otherwise the stand-in of
    0.5 kg and 1000 mm.  The thickness is 2 mm when the line has none. *)
Theorem formula_weight_rules (p : PricingParameters) (line : BudgetLineItem)
  (st : string) :
  _try_calculate_from_cost_db line = None ->
  ~ eur_to_usd p == 0 ->
  weight_kg line <= 0 ->
  exists line',
    _calculate_line_costs p line st = Return line'
    /\ (thickness_mm line = None -> PyNum.opt_or (thickness_mm line) 2.0 == 2)
    /\ (0 < area_mm2 line -> 1000 <= length_mm line ->
        weight_kg line' ==
        perimeter_mm line * PyNum.opt_or (thickness_mm line) 2.0
        * length_mm line / 1e9 * 2700)
    /\ (0 < area_mm2 line -> length_mm line <= 1000 ->
        weight_kg line' ==
        perimeter_mm line * PyNum.opt_or (thickness_mm line) 2.0
        * 1000 / 1e9 * 2700)
    /\ (area_mm2 line <= 0 -> 0 < perimeter_mm line ->
        weight_kg line' ==
        perimeter_mm line * PyNum.opt_or (thickness_mm line) 2.0
        * PyNum.opt_or (thickness_mm line) 2.0 / 1e9 * 2700)
    /\ (area_mm2 line <= 0 -> perimeter_mm line <= 0 -> 0 < length_mm line ->
        weight_kg line' == length_mm line / 1000 * 0.5)
    /\ (area_mm2 line <= 0 -> perimeter_mm line <= 0 -> length_mm line <= 0 ->
        weight_kg line' == 0.5 /\ length_mm line' == 1000).
Proof.
  intros Hdb Hz Hw.
  destruct (formula_costs_weight p line st Hz) as (line' & Hrun & Hwt & Hlen & _).
  exists line'. unfold _calculate_line_costs. rewrite Hdb.
  split; [exact Hrun |]. rewrite Hwt, Hlen.
  split; [intros Ht; rewrite (thickness_default line Ht); reflexivity |].
  split; [| split; [| split; [| split]]].
  - intros Ha Hl. rewrite (estimate_weight_area line Hw Ha). cbn.
    destruct (max_spec (length_mm line) 1000) as [[H ->] | [H ->]].
    + lra.
    + unfold ALUMINUM_DENSITY_KG_M3. reflexivity.
  - intros Ha Hl. rewrite (estimate_weight_area line Hw Ha). cbn.
    destruct (max_spec (length_mm line) 1000) as [[H ->] | [H ->]].
    + unfold ALUMINUM_DENSITY_KG_M3. reflexivity.
    + assert (E : length_mm line == 1000) by lra.
      unfold ALUMINUM_DENSITY_KG_M3. rewrite E. reflexivity.
  - intros Ha Hp. rewrite (estimate_weight_perimeter line Hw Ha Hp). cbn.
    unfold ALUMINUM_DENSITY_KG_M3. reflexivity.
  - intros Ha Hp Hl. rewrite (estimate_weight_length line Hw Ha Hp Hl). cbn.
    reflexivity.
  - intros Ha Hp Hl. rewrite (estimate_weight_stand_in line Hw Ha Hp Hl). cbn.
    split; reflexivity.
Qed.

(** C8 at a profile of perimeter 400 mm, area 100 mm2 and length 500 mm
    without thickness. *)
Lemma formula_weight_rules_witness :
  let line := sample_line "Perfil - L1" "L1" 1 400 100 500 0 1 None in
  exists line',
    _calculate_line_costs default_params line "none" = Return line'
    /\ weight_kg line' == 400 * 2 * 1000 / 1e9 * 2700.
Proof.
  intro line.
  destruct (formula_weight_rules default_params line "none")
    as (line' & Hrun & _ & _ & Hshort & _).
  - reflexivity.
  - intro H. discriminate H.
  - intro H. discriminate H.
  - exists line'. split; [exact Hrun |].
    rewrite Hshort.
    + reflexivity.
    + reflexivity.
    + intro H. discriminate H.
Defined.

(** C8, as stated, at a profile of 500 mm: the code prices 1000 mm. *)
Lemma formula_weight_short_length_counterexample :
  let line := sample_line "Perfil - L1" "L1" 1 400 100 500 0 1 None in
  _try_calculate_from_cost_db line = None
  /\ weight_kg line <= 0
  /\ 0 < area_mm2 line
  /\ thickness_mm line = None
  /\ exists line',
       _calculate_line_costs default_params line "none" = Return line'
       /\ ~ weight_kg line' ==
            perimeter_mm line * 2 * length_mm line / 1e9 * 2700.
Proof.
  intro line.
  split; [reflexivity |].
  split; [intro H; discriminate H |].
  split; [reflexivity |].
  split; [reflexivity |].
  eexists. split; [vm_compute; reflexivity |].
  intro H. vm_compute in H. discriminate H.
Qed.

(** ** The catalog *)

Lemma rates_nonneg_b_sound (s : CostDatabase.SteelProfile) :
  rates_nonneg_b s = true -> rates_nonneg s.
Proof.
  unfold rates_nonneg_b, rates_nonneg. intros H.
  repeat (apply andb_prop in H; destruct H as [H ?]).
  repeat split;
    match goal with
    | E : PyNum.leb 0 ?x = true |- 0 <= ?x =>
        destruct (num_leb_spec 0 x); [assumption | discriminate E]
    end.
Qed.

Lemma dict_get_in {V : Type} (k : string) (d : Dict.t V) (v : V) :
  Dict.get k d = Some v -> In v (map snd d).
Proof.
  induction d as [| [k' v'] d IH]; cbn; [discriminate |].
  destruct (String.eqb k k').
  - intros [= ->]. now left.
  - intros H. right. auto.
Qed.

Lemma partial_search_in (n : string) (d : Dict.t CostDatabase.SteelProfile)
  (s : CostDatabase.SteelProfile) :
  CostDatabase.partial_search n d = Some s -> In s (map snd d).
Proof.
  induction d as [| [k v] d IH]; cbn; [discriminate |].
  destruct (PyStr.str_in n k || PyStr.str_in k n).
  - intros [= ->]. now left.
  - intros H. right. auto.
Qed.

Lemma find_profile_in_catalog (db : Dict.t CostDatabase.SteelProfile)
  (term : string) (s : CostDatabase.SteelProfile) :
  CostDatabase.find_profile_in db term = Some s -> In s (map snd db).
Proof.
  unfold CostDatabase.find_profile_in.
  destruct (Dict.get _ db) eqn:E1.
  - intros [= <-]. eapply dict_get_in; eauto.
  - destruct (CostDatabase.partial_search _ db) eqn:E2.
    + intros [= <-]. eapply partial_search_in; eauto.
    + destruct (CostDatabase.match_type_size _ _) as [[ty sz] |]; [| discriminate].
      apply dict_get_in.
Qed.

Lemma catalog_rates_nonneg :
  Forall rates_nonneg (map snd CostDatabase.steel_profiles).
Proof.
  apply Forall_forall. intros s Hs. apply rates_nonneg_b_sound.
  assert (H : forallb rates_nonneg_b (map snd CostDatabase.steel_profiles) = true)
    by (vm_compute; reflexivity).
  rewrite forallb_forall in H. auto.
Qed.

Lemma found_profile_rates_nonneg (term : string) (s : CostDatabase.SteelProfile) :
  CostDatabase.find_profile term = Some s -> rates_nonneg s.
Proof.
  intros H. apply find_profile_in_catalog in H.
  pose proof catalog_rates_nonneg as A. rewrite Forall_forall in A. auto.
Qed.

(** ** Line costs *)

Lemma inject_Z_pos (z : Z) : (1 <= z)%Z -> 1 <= inject_Z z.
Proof. intros H. change 1 with (inject_Z 1). now rewrite <- Zle_Qle. Qed.

Lemma of_nat_nonneg (n : nat) : 0 <= PyNum.of_nat n.
Proof.
  unfold PyNum.of_nat. change 0 with (inject_Z 0). rewrite <- Zle_Qle. lia.
Qed.

Lemma div_nonneg (a b : Q) : 0 <= a -> 0 < b -> 0 <= a / b.
Proof.
  intros Ha Hb. unfold Qdiv. apply Qmult_le_0_compat; [assumption |].
  apply Qinv_le_0_compat. lra.
Qed.

Lemma opt_or_nonneg (x : option Q) (d : Q) :
  (forall t, x = Some t -> 0 <= t) -> 0 <= d -> 0 <= PyNum.opt_or x d.
Proof.
  intros Hx Hd. destruct x as [v |]; cbn; [| assumption].
  apply or_else_nonneg; auto.
Qed.

Lemma treatment_rate_nonneg (p : PricingParameters) (st : string) :
  params_nonneg p -> 0 <= treatment_rate p st.
Proof.
  unfold params_nonneg, treatment_rate. intros H.
  repeat match goal with
         | |- context [if ?b then _ else _] => destruct b
         end; try tauto; lra.
Qed.

(** The weight block leaves identity, quantity and shape alone. *)
Lemma estimate_weight_frame (line : BudgetLineItem) :
  quantity (estimate_weight line) = quantity line
  /\ complexity_score (estimate_weight line) = complexity_score line
  /\ holes_count (estimate_weight line) = holes_count line
  /\ quantity_source (estimate_weight line) = quantity_source line.
Proof.
  unfold estimate_weight.
  repeat match goal with
         | |- context [if ?b then _ else _] => destruct b
         end; cbn; auto.
Qed.

(** Signs of products and quotients. *)
Lemma add_nonneg (a b : Q) : 0 <= a -> 0 <= b -> 0 <= a + b.
Proof. intros. lra. Qed.

Ltac nonneg :=
  repeat first
    [ assumption
    | lra
    | apply of_nat_nonneg
    | apply add_nonneg
    | apply Qmult_le_0_compat
    | apply div_nonneg
    | apply Qinv_le_0_compat
    | apply Qle_bool_imp_le; vm_compute; reflexivity ].

Lemma estimate_weight_nonneg (line : BudgetLineItem) :
  0 <= perimeter_mm line ->
  (forall t, thickness_mm line = Some t -> 0 <= t) ->
  0 <= weight_kg (estimate_weight line)
  /\ 0 <= perimeter_mm (estimate_weight line).
Proof.
  intros Hp Ht.
  assert (Hth : 0 <= PyNum.opt_or (thickness_mm line) 2.0)
    by (apply opt_or_nonneg; [assumption | lra]).
  pose proof (max_ge_r (length_mm line) 1000) as Hmax.
  unfold estimate_weight.
  destruct (num_leb_spec (weight_kg line) 0) as [Hw | Hw]; cbn [andb].
  - destruct (num_gtb_spec (area_mm2 line) 0);
      [| destruct (num_gtb_spec (perimeter_mm line) 0);
         [| destruct (num_gtb_spec (length_mm line) 0)]];
      cbn; unfold ALUMINUM_DENSITY_KG_M3; split; nonneg.
  - cbn. split; lra.
Qed.

Lemma formula_costs_nonneg (p : PricingParameters) (line line' : BudgetLineItem)
  (st : string) :
  params_nonneg p -> line_measures_ok line ->
  formula_costs p line st = Return line' ->
  0 <= total_cost line'.
Proof.
  intros Hp (Hq & Hper & Hc & Ht) Hrun.
  pose proof (treatment_rate_nonneg st Hp) as Hrate.
  destruct (estimate_weight_nonneg line Hper Ht) as [Hw Hper'].
  destruct (estimate_weight_frame line) as (Eq & Ec & Eh & _).
  unfold formula_costs in Hrun.
  destruct (num_eqb_spec (eur_to_usd p) 0) as [Hz | Hz].
  - rewrite (py_div_raise _ Hz) in Hrun. discriminate Hrun.
  - rewrite (py_div_return _ Hz) in Hrun. cbn [bind] in Hrun.
    injection Hrun as <-.
    remember (estimate_weight line) as l1 eqn:El1.
    remember (treatment_rate p st) as rate eqn:Er.
    pose proof (max_ge_r (length_mm l1) 1000) as Hmax.
    remember (PyNum.max (length_mm l1) 1000) as len eqn:Elen.
    cbn. rewrite Eq, Ec, Eh.
    pose proof (inject_Z_pos Hq) as Hq1.
    assert (Hq2 : 1 <= inject_Z (Z.max (quantity line) 1)).
    { apply inject_Z_pos. lia. }
    pose proof (of_nat_nonneg (holes_count line)) as Hh.
    unfold params_nonneg in Hp.
    destruct Hp as (? & ? & ? & ? & ? & ? & ? & ? & ? & ? & ? & ? & ? & ? & ? & ? & ? & ? & ? & ?).
    assert (Hprice :
      0 <= (lme_price_usd_kg p * (1 + lme_hedging_buffer_pct p / 100)
            + billet_premium_usd_kg p) / eur_to_usd p).
    { apply div_nonneg; [| lra].
      assert (0 <= lme_hedging_buffer_pct p / 100) by nonneg.
      assert (0 <= lme_price_usd_kg p * (1 + lme_hedging_buffer_pct p / 100)) by nonneg.
      lra. }
    remember ((lme_price_usd_kg p * (1 + lme_hedging_buffer_pct p / 100)
            + billet_premium_usd_kg p) / eur_to_usd p) as price.
    apply Qmult_le_0_compat; [| lra].
    apply div_nonneg; [| lra].
    nonneg.
Qed.

Lemma formula_costs_frame (p : PricingParameters) (line line' : BudgetLineItem)
  (st : string) :
  formula_costs p line st = Return line' ->
  quantity line' = quantity line
  /\ quantity_source line' = quantity_source line
  /\ total_cost line' = unit_cost line' * inject_Z (quantity line').
Proof.
  intros Hrun. unfold formula_costs in Hrun.
  destruct (py_div _ (eur_to_usd p)) as [price | e]; [| discriminate Hrun].
  cbn [bind] in Hrun. injection Hrun as <-.
  destruct (estimate_weight_frame line) as (Eq & _ & _ & Es).
  cbn. rewrite Eq, Es. auto.
Qed.

Lemma apply_catalog_frame (s : CostDatabase.SteelProfile) (line : BudgetLineItem) :
  quantity (apply_catalog s line) = quantity line
  /\ quantity_source (apply_catalog s line) = quantity_source line
  /\ total_cost (apply_catalog s line) =
     unit_cost (apply_catalog s line) * inject_Z (Z.max 1 (quantity line)).
Proof. cbn. auto. Qed.

Lemma catalog_length_pos (line : BudgetLineItem) :
  0 < (if PyNum.gtb (length_mm line) 0 then length_mm line / 1000 else 1.0).
Proof.
  destruct (num_gtb_spec (length_mm line) 0) as [H | H]; [| lra].
  unfold Qdiv. apply Qmult_lt_0_compat; [assumption |].
  apply Qinv_lt_0_compat. lra.
Qed.

Lemma apply_catalog_nonneg (s : CostDatabase.SteelProfile) (line : BudgetLineItem) :
  rates_nonneg s -> 0 <= total_cost (apply_catalog s line).
Proof.
  intros (? & ? & ? & ? & ? & ? & ? & ? & ?).
  pose proof (catalog_length_pos line) as Hl.
  assert (Hq : 1 <= inject_Z (Z.max 1 (quantity line)))
    by (apply inject_Z_pos; lia).
  cbn.
  remember (if PyNum.gtb (length_mm line) 0 then length_mm line / 1000 else 1.0)
    as len.
  nonneg.
Qed.

(** Both paths keep the quantity and its source, and set the total to
    the unit cost times the quantity. *)
Lemma line_costs_frame (p : PricingParameters) (line line' : BudgetLineItem)
  (st : string) :
  (1 <= quantity line)%Z ->
  _calculate_line_costs p line st = Return line' ->
  quantity line' = quantity line
  /\ quantity_source line' = quantity_source line
  /\ unit_cost line' * inject_Z (quantity line') == total_cost line'.
Proof.
  intros Hq. unfold _calculate_line_costs, _try_calculate_from_cost_db.
  destruct (find_profile_name (search_terms line)) as [name |].
  - destruct (CostDatabase.find_profile name) as [s |].
    + intros [= <-]. destruct (apply_catalog_frame s line) as (E1 & E2 & E3).
      rewrite E1, E2, E3. replace (Z.max 1 (quantity line)) with (quantity line) by lia.
      repeat split; reflexivity.
    + intros H. apply formula_costs_frame in H as (E1 & E2 & E3).
      rewrite E3, E1. repeat split; auto; reflexivity.
  - intros H. apply formula_costs_frame in H as (E1 & E2 & E3).
    rewrite E3, E1. repeat split; auto; reflexivity.
Qed.

Lemma line_costs_nonneg (p : PricingParameters) (line line' : BudgetLineItem)
  (st : string) :
  params_nonneg p -> line_measures_ok line ->
  _calculate_line_costs p line st = Return line' ->
  0 <= total_cost line'.
Proof.
  intros Hp Hl. unfold _calculate_line_costs, _try_calculate_from_cost_db.
  destruct (find_profile_name (search_terms line)) as [name |].
  - destruct (CostDatabase.find_profile name) as [s |] eqn:E.
    + intros [= <-]. apply apply_catalog_nonneg.
      eapply found_profile_rates_nonneg; eauto.
    + apply formula_costs_nonneg; assumption.
  - apply formula_costs_nonneg; assumption.
Qed.

(** Line pricing returns whenever the conversion factor is not zero. *)
Lemma line_costs_return (p : PricingParameters) (line : BudgetLineItem)
  (st : string) :
  ~ eur_to_usd p == 0 ->
  exists line', _calculate_line_costs p line st = Return line'.
Proof.
  intros Hz. unfold _calculate_line_costs.
  destruct (_try_calculate_from_cost_db line) as [l |].
  - eauto.
  - destruct (formula_costs_weight p line st Hz) as (l & H & _). eauto.
Qed.

(** ** State threading *)

Lemma extend_log_nil (self : Self) : extend_log [] self = self.
Proof. destruct self. unfold extend_log. cbn. now rewrite app_nil_r. Qed.

Lemma fallback_state (self : Self) (pdf : PdfData) (dxf : DxfData) :
  snd (_create_fallback_correlations self pdf dxf)
  = extend_log [creating_fallback_items] self.
Proof. reflexivity. Qed.

Lemma fallback_pure (self self' : Self) (pdf : PdfData) (dxf : DxfData) :
  fst (_create_fallback_correlations self pdf dxf)
  = fst (_create_fallback_correlations self' pdf dxf).
Proof. reflexivity. Qed.

Lemma fallback_nonempty (self : Self) (pdf : PdfData) (dxf : DxfData) :
  fst (_create_fallback_correlations self pdf dxf) <> [].
Proof.
  unfold _create_fallback_correlations. cbn [fst].
  destruct (dimension_loop _ _ _); discriminate.
Qed.

(** [correlate_data] only appends to the log, at least one entry, and
    its correlations do not depend on the object. *)
Lemma correlate_data_state (self : Self) (dxf : DxfData) (pdf : PdfData) :
  exists es, es <> []
    /\ snd (correlate_data self dxf pdf) = extend_log es self.
Proof.
  unfold correlate_data.
  destruct (dxf_success dxf && Nat.ltb 0 (List.length (dxf_profiles dxf))) eqn:Hd.
  - destruct (dxf_profiles dxf) as [| pr prs] eqn:Ep.
    + rewrite andb_comm in Hd. discriminate Hd.
    + cbn. eexists. split; [| reflexivity]. discriminate.
  - destruct (pdf_success pdf && Nat.ltb 0 (List.length (pdf_bom_items pdf))) eqn:Hp.
    + destruct (pdf_bom_items pdf) as [| it its] eqn:Ei.
      * rewrite andb_comm in Hp. discriminate Hp.
      * cbn. eexists. split; [| reflexivity]. discriminate.
    + rewrite fallback_state. eexists. split; [| reflexivity]. discriminate.
Qed.

Lemma correlate_data_pure (self self' : Self) (dxf : DxfData) (pdf : PdfData) :
  fst (correlate_data self dxf pdf) = fst (correlate_data self' dxf pdf).
Proof.
  unfold correlate_data.
  destruct (dxf_success dxf && Nat.ltb 0 (List.length (dxf_profiles dxf))).
  - destruct (_ ++ _)%list; reflexivity.
  - destruct (pdf_success pdf && Nat.ltb 0 (List.length (pdf_bom_items pdf))).
    + destruct (map _ _); reflexivity.
    + reflexivity.
Qed.

Lemma price_correlations_eq (self : Self) (st : string) (id : Z)
  (cs : list Correlation) :
  price_correlations self st id cs
  = (fst (priced_lines (params self) st id cs),
     set_line_items
       (line_items self ++ snd (priced_lines (params self) st id cs))%list self).
Proof.
  revert self id. induction cs as [| c r IH]; intros self id.
  - cbn. destruct self. unfold set_line_items. cbn. now rewrite app_nil_r.
  - cbn [price_correlations priced_lines].
    destruct (new_line c (id + 1) st) as [line |]; [| apply IH].
    destruct (_calculate_line_costs (params self) line st) as [l | e].
    + rewrite IH. cbn [params set_line_items line_items].
      destruct (priced_lines (params self) st (id + 1) r) as [res ls].
      cbn [fst snd]. unfold set_line_items. cbn.
      now rewrite <- app_assoc.
    + cbn. destruct self. unfold set_line_items. cbn. now rewrite app_nil_r.
Qed.

(** Every line of the loop is the priced line of one correlation. *)
Lemma priced_lines_origin (p : PricingParameters) (st : string) (id : Z)
  (cs : list Correlation) :
  Forall (fun l => exists c id' line,
            In c cs /\ new_line c id' st = Some line
            /\ _calculate_line_costs p line st = Return l)
         (snd (priced_lines p st id cs)).
Proof.
  revert id. induction cs as [| c r IH]; intros id; cbn; [constructor |].
  assert (W : forall id,
    Forall (fun l => exists c0 id' line,
              (c = c0 \/ In c0 r) /\ new_line c0 id' st = Some line
              /\ _calculate_line_costs p line st = Return l)
           (snd (priced_lines p st id r))).
  { intros id0. eapply Forall_impl; [| apply IH].
    intros l (c0 & id' & line & Hin & H1 & H2). eauto 8. }
  destruct (new_line c (id + 1) st) as [line |] eqn:En; [| apply W].
  destruct (_calculate_line_costs p line st) as [l | e] eqn:Ec; [| constructor].
  specialize (W (id + 1)%Z).
  destruct (priced_lines p st (id + 1) r) as [res ls]. cbn in *.
  constructor; [| exact W]. eauto 8.
Qed.

(** [calculate_budget] as the composition of its three stages. *)
Lemma calculate_budget_eq (self : Self) (dxf : DxfData) (pdf : PdfData)
  (st name now : string) :
  calculate_budget self dxf pdf st name now =
  let cs := fst (correlate_data self dxf pdf) in
  let self1 := snd (correlate_data self dxf pdf) in
  let pl := priced_lines (params self1) st 0 cs in
  let self3 := set_line_items (snd pl) self1 in
  match fst pl with
  | Raise e => (Raise e, self3)
  | Return _ =>
      match _calculate_summary self3 name (has_dxf_of dxf) (pdf_success pdf) now with
      | (Raise e, self4) => (Raise e, self4)
      | (Return _, self4) =>
          (Return (result_of self4 (has_dxf_of dxf) (pdf_success pdf)), self4)
      end
  end.
Proof.
  unfold calculate_budget.
  destruct (correlate_data self dxf pdf) as [cs self1]. cbn [fst snd].
  rewrite price_correlations_eq. cbn [params set_line_items line_items app].
  destruct (priced_lines (params self1) st 0 cs) as [[u | e] ls]; cbn [fst snd].
  - fold (has_dxf_of dxf).
    change (set_line_items ls (set_line_items [] self1))
      with (set_line_items ls self1).
    destruct (_calculate_summary (set_line_items ls self1) name
                (has_dxf_of dxf) (pdf_success pdf) now) as [[u' | e] self4];
      reflexivity.
  - reflexivity.
Qed.

Lemma correlate_data_params (self : Self) (dxf : DxfData) (pdf : PdfData) :
  params (snd (correlate_data self dxf pdf)) = params self.
Proof.
  destruct (correlate_data_state self dxf pdf) as (es & _ & ->). reflexivity.
Qed.

(** [_calculate_summary] assigns the summary and nothing else. *)
Lemma calculate_summary_state (self : Self) (name : string) (hd hp : bool)
  (now : string) :
  exists s,
    summary (snd (_calculate_summary self name hd hp now)) = Some s
    /\ params (snd (_calculate_summary self name hd hp now)) = params self
    /\ line_items (snd (_calculate_summary self name hd hp now)) = line_items self
    /\ correlation_log (snd (_calculate_summary self name hd hp now))
       = correlation_log self
    /\ raw_material_total s = PyNum.sum (map raw_material_cost (line_items self))
    /\ average_complexity s =
       match line_items self with
       | [] => 0.0
       | _ => PyNum.sum (map complexity_score (line_items self))
              / PyNum.of_nat (List.length (line_items self))
       end
    /\ waste_percentage_applied s =
       PyNum.min (base_waste_factor_pct (params self)
                  + (average_complexity s - 1)
                    * complexity_waste_factor_pct (params self)) 20.0
    /\ waste_cost s = raw_material_total s * (waste_percentage_applied s / 100)
    /\ overhead_cost s =
       (raw_material_total s + transformation_total s
        + surface_treatment_total s + labor_total s + accessories_total s
        + waste_cost s) * (overhead_factor_pct (params self) / 100)
    /\ subtotal s =
       raw_material_total s + transformation_total s
       + surface_treatment_total s + labor_total s + accessories_total s
       + waste_cost s + overhead_cost s
    /\ profit_margin s = subtotal s * (profit_margin_pct (params self) / 100)
    /\ total_quote s = subtotal s + profit_margin s.
Proof.
  unfold _calculate_summary.
  destruct (py_div _ (labor_rate_eur_hr (params self))) as [hours | e];
    cbn [snd]; eexists; (split; [reflexivity |]); cbn;
    repeat split; reflexivity.
Qed.

Lemma calculate_summary_return (self : Self) (name : string) (hd hp : bool)
  (now : string) :
  ~ labor_rate_eur_hr (params self) == 0 ->
  fst (_calculate_summary self name hd hp now) = Return tt.
Proof.
  intros Hz. unfold _calculate_summary.
  rewrite (py_div_return _ Hz). reflexivity.
Qed.

(** ** Aggregation *)

(** C4.  For every summary produced by a calculation run, the subtotal is
    the five component totals plus the waste cost plus the overhead cost,
    the overhead cost is that direct-cost sum times the overhead
    percentage, and the total quote is the subtotal plus the subtotal
    times the margin percentage. *)
Theorem summary_aggregation_identity (self self' : Self) (dxf : DxfData)
  (pdf : PdfData) (st name now : string) (r : BudgetResult) :
  calculate_budget self dxf pdf st name now = (Return r, self') ->
  exists s,
    summary self' = Some s
    /\ subtotal s ==
       raw_material_total s + transformation_total s
       + surface_treatment_total s + labor_total s + accessories_total s
       + waste_cost s + overhead_cost s
    /\ overhead_cost s ==
       (raw_material_total s + transformation_total s
        + surface_treatment_total s + labor_total s + accessories_total s
        + waste_cost s) * (overhead_factor_pct (params self) / 100)
    /\ total_quote s ==
       subtotal s + subtotal s * (profit_margin_pct (params self) / 100).
Proof.
  rewrite calculate_budget_eq. cbv zeta.
  set (self1 := snd (correlate_data self dxf pdf)).
  set (pl := priced_lines (params self1) st 0 (fst (correlate_data self dxf pdf))).
  set (self3 := set_line_items (snd pl) self1).
  destruct (fst pl) as [u | e]; [| discriminate].
  destruct (calculate_summary_state self3 name (has_dxf_of dxf) (pdf_success pdf) now)
    as (s & Hs & Hp & _ & _ & _ & _ & _ & _ & Ho & Hsub & Hm & Ht).
  destruct (_calculate_summary self3 name (has_dxf_of dxf) (pdf_success pdf) now)
    as [[u' | e] self4]; [| discriminate].
  intros [= _ <-]. cbn [snd] in *.
  assert (Ep : params self3 = params self).
  { unfold self3, self1. cbn. apply correlate_data_params. }
  rewrite Ep in *.
  exists s. split; [exact Hs |].
  split; [rewrite Hsub; reflexivity |].
  split; [rewrite Ho; reflexivity |].
  rewrite Ht, Hm. reflexivity.
Qed.

(** C4 at the run on empty payloads with the default parameters. *)
Lemma summary_aggregation_identity_witness :
  let run :=
    calculate_budget (__init__ None) no_dxf no_pdf "none" "Obra" "2026-01-01" in
  exists s,
    summary (snd run) = Some s
    /\ subtotal s ==
       raw_material_total s + transformation_total s
       + surface_treatment_total s + labor_total s + accessories_total s
       + waste_cost s + overhead_cost s
    /\ overhead_cost s ==
       (raw_material_total s + transformation_total s
        + surface_treatment_total s + labor_total s + accessories_total s
        + waste_cost s) * (overhead_factor_pct default_params / 100)
    /\ total_quote s ==
       subtotal s + subtotal s * (profit_margin_pct default_params / 100).
Proof.
  intro run.
  assert (E : run = (Return (result_of (snd run) false false), snd run))
    by (vm_compute; reflexivity).
  exact (summary_aggregation_identity (__init__ None) no_dxf no_pdf
           "none" "Obra" "2026-01-01" E).
Defined.

(** ** From the payloads to the lines *)

Lemma dict_set_values {V : Type} (k : string) (v x : V) (d : Dict.t V) :
  In x (map snd (Dict.set k v d)) -> x = v \/ In x (map snd d).
Proof.
  induction d as [| [k' v'] d IH]; cbn.
  - intros [H | []]. now left.
  - destruct (String.eqb k k'); cbn.
    + intros [H | H]; [left; now symmetry | right; now right].
    + intros [H | H]; [right; now left |].
      destruct (IH H); [now left | right; now right].
Qed.

Lemma index_pdf_item_values (lookup : PdfLookup) (item x : PdfItem) :
  In x (map snd (by_reference (index_pdf_item lookup item))) ->
  x = item \/ In x (map snd (by_reference lookup)).
Proof.
  unfold index_pdf_item. cbn [by_reference].
  destruct (PyStr.truthy _); [| now right].
  intros H. apply dict_set_values in H as [H | H]; [now left |].
  apply dict_set_values in H as [H | H]; [now left | now right].
Qed.

Lemma fold_index_values (l items : list PdfItem) (lookup : PdfLookup) :
  incl l items ->
  (forall x, In x (map snd (by_reference lookup)) -> In x items) ->
  all_items lookup = items ->
  (forall x,
     In x (map snd (by_reference (fold_left index_pdf_item l lookup))) ->
     In x items)
  /\ all_items (fold_left index_pdf_item l lookup) = items.
Proof.
  revert lookup. induction l as [| it l IH]; intros lookup Hl Hv Ha; cbn.
  - auto.
  - apply IH.
    + intros x Hx. apply Hl. now right.
    + intros x Hx. apply index_pdf_item_values in Hx as [-> | Hx].
      * apply Hl. now left.
      * auto.
    + exact Ha.
Qed.

Lemma build_lookup_values (items : list PdfItem) :
  (forall x,
     In x (map snd (by_reference (_build_pdf_lookup items))) -> In x items)
  /\ all_items (_build_pdf_lookup items) = items.
Proof.
  unfold _build_pdf_lookup. apply fold_index_values.
  - apply incl_refl.
  - cbn. tauto.
  - reflexivity.
Qed.

Lemma match_profile_id_in (pid : string) (refs : Dict.t PdfItem) (x : PdfItem) :
  match_profile_id pid refs = Some x -> In x (map snd refs).
Proof.
  induction refs as [| [k v] refs IH]; cbn; [discriminate |].
  destruct (PyStr.str_in k pid || PyStr.str_in pid k).
  - intros [= ->]. now left.
  - intros H. right. auto.
Qed.

(** The row a profile is matched with is a row of the bill of materials. *)
Lemma matched_item_in (profile : DxfProfile) (items : list PdfItem)
  (constraints : Dict.t (list Constraint)) (x : PdfItem) :
  co_pdf_item
    (_correlate_profile_with_pdf profile (_build_pdf_lookup items) constraints)
  = Some x ->
  In x items.
Proof.
  destruct (build_lookup_values items) as [Hv Ha].
  unfold _correlate_profile_with_pdf.
  destruct (Dict.get _ (by_reference (_build_pdf_lookup items))) as [i1 |] eqn:E1.
  - cbn. intros [= <-]. apply Hv. eapply dict_get_in; eauto.
  - destruct (match_profile_id _ (by_reference (_build_pdf_lookup items)))
      as [i2 |] eqn:E2.
    + cbn. intros [= <-]. apply Hv. eapply match_profile_id_in; eauto.
    + destruct (opt_truthy (dp_material_hint profile)).
      * destruct (match_material_hint _ (all_items (_build_pdf_lookup items)))
          as [i3 |] eqn:E3.
        -- cbn. intros [= <-]. unfold match_material_hint in E3.
           apply find_some in E3 as [E3 _]. now rewrite Ha in E3.
        -- cbn. discriminate.
      * cbn. discriminate.
Qed.

Lemma extract_specifications_thickness (it : option PdfItem)
  (constraints : Dict.t (list Constraint)) :
  sp_thickness_mm (_extract_specifications it constraints)
  = match it with Some i => pi_thickness_mm i | None => None end.
Proof. reflexivity. Qed.

Lemma map_enumerate_forall {A B : Type} (P : B -> Prop) (f : nat -> A -> B)
  (i : nat) (l : list A) :
  (forall i x, P (f i x)) -> Forall P (map_enumerate f i l).
Proof.
  intros Hf. revert i. induction l as [| x l IH]; intros i; cbn; auto.
Qed.

Lemma dimension_loop_forall (P : Correlation -> Prop)
  (dims : list DimensionSpec) (seen : list string) (cs : list Correlation) :
  (forall n raw len, P (dimension_correlation n raw len)) ->
  Forall P cs -> Forall P (dimension_loop dims seen cs).
Proof.
  intros Hd. revert seen cs.
  induction dims as [| d dims IH]; intros seen cs Hcs; cbn; [assumption |].
  destruct (PyStr.truthy _ && negb _); [| auto].
  destruct (_parse_dimension _) as [len |]; [| auto].
  destruct (PyNum.gtb len 50); [| auto].
  apply IH. apply Forall_app. split; [assumption |]. constructor; auto.
Qed.

(** A property of the four kinds of synthesized correlations holds of
    every correlation of the fallback path. *)
Lemma fallback_forall (P : Correlation -> Prop) (self : Self) (pdf : PdfData)
  (dxf : DxfData) :
  (forall i m, P (material_correlation i m)) ->
  (forall i t, P (treatment_correlation i t)) ->
  (forall n raw len, P (dimension_correlation n raw len)) ->
  (forall a b, P (placeholder_correlation a b)) ->
  Forall P (fst (_create_fallback_correlations self pdf dxf)).
Proof.
  intros Hm Ht Hd Hp. unfold _create_fallback_correlations. cbn [fst].
  match goal with
  | |- Forall P (match ?l with _ => _ end) =>
      assert (H : Forall P l); [| destruct l; [constructor; auto | exact H]]
  end.
  apply dimension_loop_forall; [assumption |].
  apply Forall_app. split; apply map_enumerate_forall; assumption.
Qed.

(** The shape of the correlation of a profile: whatever the match, the
    profile is kept and the quantity source is the geometry. *)
Lemma correlate_profile_shape (profile : DxfProfile) (lookup : PdfLookup)
  (constraints : Dict.t (list Constraint)) :
  exists matched confidence method,
    _correlate_profile_with_pdf profile lookup constraints =
    {| co_dxf_profile := Some profile;
       co_material_quantity := None;
       co_pdf_item := matched;
       co_correlation_confidence := confidence;
       co_correlation_method := method;
       co_quantity_source := "dxf";
       co_specifications := Some (_extract_specifications matched constraints) |}.
Proof.
  unfold _correlate_profile_with_pdf.
  destruct (Dict.get _ (by_reference lookup)); [repeat eexists |].
  destruct (match_profile_id _ (by_reference lookup)); [repeat eexists |].
  destruct (opt_truthy (dp_material_hint profile)); [| repeat eexists].
  destruct (match_material_hint _ (all_items lookup)); repeat eexists.
Qed.

(** The correlations of [correlate_data], by path. *)
Lemma correlate_data_cases (self : Self) (dxf : DxfData) (pdf : PdfData) :
  let lookup := _build_pdf_lookup (pdf_bom_items pdf) in
  let constraints := _index_constraints (pdf_constraints pdf) in
  (dxf_success dxf = true /\ dxf_profiles dxf <> []
   /\ fst (correlate_data self dxf pdf) =
      (map (fun profile => _correlate_profile_with_pdf profile lookup constraints)
           (dxf_profiles dxf)
       ++ map (fun mq => _create_material_correlation mq lookup constraints)
            (filter (fun mq => String.eqb (mq_source mq) "block_count")
               (dxf_material_quantities dxf)))%list)
  \/ (has_dxf_of dxf = false /\ pdf_bom_items pdf <> []
      /\ fst (correlate_data self dxf pdf)
         = map pdf_only_correlation (pdf_bom_items pdf))
  \/ (has_dxf_of dxf = false
      /\ fst (correlate_data self dxf pdf)
         = fst (_create_fallback_correlations self pdf dxf)).
Proof.
  intros lookup constraints. unfold correlate_data.
  fold (has_dxf_of dxf). fold lookup. fold constraints.
  destruct (has_dxf_of dxf) eqn:Hd.
  - left. unfold has_dxf_of in Hd. apply andb_prop in Hd as [Hs Hn].
    destruct (dxf_profiles dxf) as [| pr prs] eqn:Ep; [discriminate Hn |].
    split; [assumption |]. split; [discriminate |]. reflexivity.
  - right.
    destruct (pdf_success pdf && Nat.ltb 0 (List.length (pdf_bom_items pdf))) eqn:Hp.
    + left. apply andb_prop in Hp as [Hs Hn].
      destruct (pdf_bom_items pdf) as [| it its] eqn:Ei; [discriminate Hn |].
      split; [reflexivity |]. split; [discriminate |]. reflexivity.
    + right. split; [reflexivity |]. reflexivity.
Qed.

Lemma correlate_data_forall (P : Correlation -> Prop) (self : Self)
  (dxf : DxfData) (pdf : PdfData) :
  (forall profile, In profile (dxf_profiles dxf) ->
     P (_correlate_profile_with_pdf profile
          (_build_pdf_lookup (pdf_bom_items pdf))
          (_index_constraints (pdf_constraints pdf)))) ->
  (forall mq, In mq (dxf_material_quantities dxf) ->
     P (_create_material_correlation mq
          (_build_pdf_lookup (pdf_bom_items pdf))
          (_index_constraints (pdf_constraints pdf)))) ->
  (forall it, In it (pdf_bom_items pdf) -> P (pdf_only_correlation it)) ->
  (forall i m, P (material_correlation i m)) ->
  (forall i t, P (treatment_correlation i t)) ->
  (forall n raw len, P (dimension_correlation n raw len)) ->
  (forall a b, P (placeholder_correlation a b)) ->
  Forall P (fst (correlate_data self dxf pdf)).
Proof.
  intros H1 H2 H3 H4 H5 H6 H7.
  destruct (correlate_data_cases self dxf pdf) as [(_ & _ & ->) | [(_ & _ & ->) | (_ & ->)]].
  - apply Forall_app. split; apply Forall_forall; intros c Hc;
      apply in_map_iff in Hc as (x & <- & Hx); auto.
    apply filter_In in Hx as [Hx _]. auto.
  - apply Forall_forall. intros c Hc.
    apply in_map_iff in Hc as (x & <- & Hx). auto.
  - apply fallback_forall; assumption.
Qed.

Lemma correlate_data_nonempty (self : Self) (dxf : DxfData) (pdf : PdfData) :
  fst (correlate_data self dxf pdf) <> [].
Proof.
  destruct (correlate_data_cases self dxf pdf)
    as [(_ & Hn & ->) | [(_ & Hn & ->) | (_ & ->)]].
  - destruct (dxf_profiles dxf); [congruence | discriminate].
  - destruct (pdf_bom_items pdf); [congruence | discriminate].
  - apply fallback_nonempty.
Qed.

Lemma correlate_data_sources (self : Self) (dxf : DxfData) (pdf : PdfData) :
  Forall (fun c => has_source c = true) (fst (correlate_data self dxf pdf)).
Proof.
  apply correlate_data_forall; intros; try reflexivity.
  destruct (correlate_profile_shape profile
              (_build_pdf_lookup (pdf_bom_items pdf))
              (_index_constraints (pdf_constraints pdf)))
    as (m & c & k & ->).
  reflexivity.
Qed.

Lemma correlate_data_ok (self : Self) (dxf : DxfData) (pdf : PdfData) :
  inputs_ok dxf pdf -> Forall correlation_ok (fst (correlate_data self dxf pdf)).
Proof.
  intros (Hp & Hm & Hi). rewrite Forall_forall in Hp, Hm, Hi.
  apply correlate_data_forall.
  - intros profile Hin.
    pose proof (@matched_item_in profile (pdf_bom_items pdf)
                  (_index_constraints (pdf_constraints pdf))) as Hx.
    destruct (correlate_profile_shape profile
                (_build_pdf_lookup (pdf_bom_items pdf))
                (_index_constraints (pdf_constraints pdf)))
      as (m & c & k & E).
    rewrite E in *. cbn in Hx. split; [| split]; cbn.
    + intros dp [= <-]. auto.
    + discriminate.
    + destruct m as [x |]; [| discriminate].
      intros t Ht. apply (Hi x (Hx x eq_refl)). exact Ht.
  - intros mq Hin. split; [| split]; cbn.
    + discriminate.
    + intros mq' [= <-]. auto.
    + destruct (Dict.get _ _) as [x |] eqn:E; [| discriminate].
      intros t Ht. apply dict_get_in in E.
      apply (proj1 (build_lookup_values (pdf_bom_items pdf))) in E.
      apply (Hi x E). exact Ht.
  - intros it Hin. split; [| split]; cbn; discriminate.
  - intros. split; [| split]; cbn; discriminate.
  - intros. split; [| split]; cbn; discriminate.
  - intros. split; [| split]; cbn; discriminate.
  - intros. split; [| split]; cbn; discriminate.
Qed.

Lemma new_line_some (c : Correlation) (id : Z) (st : string) :
  has_source c = true -> exists line, new_line c id st = Some line.
Proof.
  unfold has_source, new_line.
  destruct (co_dxf_profile c), (co_material_quantity c), (co_pdf_item c);
    cbn; intros H; try discriminate H; eauto.
Qed.

(** The line of a correlation carries its provenance, and its quantity
    is floored at 1. *)
Lemma new_line_provenance (c : Correlation) (id : Z) (st : string)
  (line : BudgetLineItem) :
  new_line c id st = Some line ->
  (1 <= quantity line)%Z
  /\ quantity_source line = co_quantity_source c
  /\ correlation_method line = co_correlation_method c
  /\ correlation_confidence line = co_correlation_confidence c.
Proof.
  destruct c as [dp mq it conf meth src specs].
  unfold new_line, apply_pdf_length, apply_geometry. cbn.
  destruct dp as [dp |], mq as [mq |], it as [it |]; intros [= <-];
    repeat match goal with
           | |- context [if ?b then _ else _] => destruct b
           end; cbn; (split; [lia | repeat split]).
Qed.

Lemma new_line_ok (c : Correlation) (id : Z) (st : string)
  (line : BudgetLineItem) :
  correlation_ok c -> new_line c id st = Some line -> line_measures_ok line.
Proof.
  intros (Hd & Hm & Ht). unfold new_line, line_measures_ok.
  destruct (co_dxf_profile c) as [dp |] eqn:Ed.
  - destruct (Hd dp eq_refl) as (Hper & _ & _ & _ & _ & _ & Hc).
    intros [= <-]. unfold apply_pdf_length, apply_geometry. rewrite Ed.
    assert (Hc' : 1 <= opt_default (dp_complexity_score dp) 1.0).
    { destruct (dp_complexity_score dp) as [v |]; cbn; [auto | lra]. }
    destruct (co_pdf_item c);
      repeat match goal with
             | |- context [if ?b then _ else _] => destruct b
             end; cbn; (split; [lia |]); (split; [assumption |]);
      (split; [assumption |]); exact Ht.
  - destruct (co_material_quantity c) as [mq |] eqn:Em.
    + destruct (Hm mq eq_refl) as (Hlen & _).
      intros [= <-]. unfold apply_pdf_length, apply_geometry. rewrite Ed, Em.
      destruct (co_pdf_item c);
        repeat match goal with
               | |- context [if ?b then _ else _] => destruct b
               end; cbn; (split; [lia |]); (split; [assumption |]);
        (split; [lra |]); exact Ht.
    + destruct (co_pdf_item c) as [it |] eqn:Ei; [| discriminate].
      intros [= <-]. unfold apply_pdf_length, apply_geometry.
      rewrite Ed, Em, Ei.
      repeat match goal with
             | |- context [if ?b then _ else _] => destruct b
             end; cbn; (split; [lia |]); (split; [lra |]);
        (split; [lra |]); exact Ht.
Qed.

(** ** The lines of a run *)

(** Whatever the outcome, the lines the calculator holds after a call
    are those its loop priced for the correlations of this call. *)
Lemma run_line_items (self : Self) (dxf : DxfData) (pdf : PdfData)
  (st name now : string) :
  line_items (snd (calculate_budget self dxf pdf st name now))
  = snd (priced_lines (params self) st 0 (fst (correlate_data self dxf pdf))).
Proof.
  rewrite calculate_budget_eq. cbv zeta. rewrite correlate_data_params.
  set (self1 := snd (correlate_data self dxf pdf)).
  set (pl := priced_lines (params self) st 0 (fst (correlate_data self dxf pdf))).
  destruct (fst pl) as [u | e]; [| reflexivity].
  destruct (calculate_summary_state (set_line_items (snd pl) self1) name
              (has_dxf_of dxf) (pdf_success pdf) now)
    as (s & _ & _ & Hl & _).
  destruct (_calculate_summary (set_line_items (snd pl) self1) name
              (has_dxf_of dxf) (pdf_success pdf) now) as [[u' | e] self4];
    exact Hl.
Qed.

Lemma run_returned_lines (self self' : Self) (dxf : DxfData) (pdf : PdfData)
  (st name now : string) (r : BudgetResult) :
  calculate_budget self dxf pdf st name now = (Return r, self') ->
  r_line_items r = map line_to_dict (line_items self')
  /\ r_correlation_log r = correlation_log self'
  /\ fst (priced_lines (params self) st 0 (fst (correlate_data self dxf pdf)))
     = Return tt.
Proof.
  rewrite calculate_budget_eq. cbv zeta. rewrite correlate_data_params.
  destruct (fst (priced_lines _ _ _ _)) as [[] | e]; [| discriminate].
  destruct (_calculate_summary _ _ _ _ _) as [[u' | e] self4]; [| discriminate].
  intros [= <- <-]. auto.
Qed.

(** A property every priced line of a correlation has holds of every
    line of the run. *)
Lemma run_lines_forall (P : BudgetLineItem -> Prop) (self : Self)
  (dxf : DxfData) (pdf : PdfData) (st name now : string) :
  (forall c id line l,
     In c (fst (correlate_data self dxf pdf)) ->
     new_line c id st = Some line ->
     _calculate_line_costs (params self) line st = Return l ->
     P l) ->
  Forall P (line_items (snd (calculate_budget self dxf pdf st name now))).
Proof.
  intros H. rewrite run_line_items.
  eapply Forall_impl; [| apply priced_lines_origin].
  intros l (c & id & line & Hin & Hn & Hc). eauto.
Qed.

(** ** Quantity floor *)

(** C2.  Every budget line [calculate_budget] creates stores an integer
    quantity of at least 1, whatever the quantities of the payloads; so
    does every line of the returned dictionary. *)
Theorem quantity_floor (self : Self) (dxf : DxfData) (pdf : PdfData)
  (st name now : string) :
  Forall (fun l => (1 <= quantity l)%Z)
    (line_items (snd (calculate_budget self dxf pdf st name now)))
  /\ match fst (calculate_budget self dxf pdf st name now) with
     | Return r => Forall (fun d => (1 <= d_quantity d)%Z) (r_line_items r)
     | Raise _ => True
     end.
Proof.
  assert (A : Forall (fun l => (1 <= quantity l)%Z)
                (line_items (snd (calculate_budget self dxf pdf st name now)))).
  { apply run_lines_forall. intros c id line l _ Hn Hc.
    apply new_line_provenance in Hn as (Hq & _).
    destruct (@line_costs_frame (params self) line l st Hq Hc) as (-> & _).
    exact Hq. }
  split; [exact A |].
  destruct (calculate_budget self dxf pdf st name now) as [[r | e] self'] eqn:E;
    cbn [fst snd] in *; [| exact I].
  apply run_returned_lines in E as (-> & _).
  apply Forall_map. exact A.
Qed.

(** ** Prevalence of the geometry source *)

(** C1.  When the geometry payload has its success flag and at least one
    profile, the correlations are one per profile plus one per
    block-count aggregate, every one of them has quantity source 'dxf',
    and so has every budget line, whatever the bill of materials holds
    and whatever confidence the match gets. *)
Theorem geometry_prevalence (self : Self) (dxf : DxfData) (pdf : PdfData)
  (st name now : string) :
  dxf_success dxf = true ->
  dxf_profiles dxf <> [] ->
  List.length (fst (correlate_data self dxf pdf))
  = (List.length (dxf_profiles dxf)
     + List.length
         (filter (fun mq => String.eqb (mq_source mq) "block_count")
            (dxf_material_quantities dxf)))%nat
  /\ Forall (fun c => co_quantity_source c = "dxf")
       (fst (correlate_data self dxf pdf))
  /\ Forall (fun l => quantity_source l = "dxf")
       (line_items (snd (calculate_budget self dxf pdf st name now)))
  /\ match fst (calculate_budget self dxf pdf st name now) with
     | Return r => Forall (fun d => d_quantity_source d = "dxf") (r_line_items r)
     | Raise _ => True
     end.
Proof.
  intros Hs Hn.
  assert (Hd : has_dxf_of dxf = true).
  { unfold has_dxf_of. rewrite Hs. destruct (dxf_profiles dxf); [congruence | reflexivity]. }
  assert (C : Forall (fun c => co_quantity_source c = "dxf")
                (fst (correlate_data self dxf pdf))
              /\ List.length (fst (correlate_data self dxf pdf))
                 = (List.length (dxf_profiles dxf)
                    + List.length
                        (filter (fun mq => String.eqb (mq_source mq) "block_count")
                           (dxf_material_quantities dxf)))%nat).
  { destruct (correlate_data_cases self dxf pdf)
      as [(_ & _ & ->) | [(Hf & _) | (Hf & _)]]; try congruence.
    split.
    - apply Forall_app. split; apply Forall_forall; intros c Hc;
        apply in_map_iff in Hc as (x & <- & _); [| reflexivity].
      destruct (correlate_profile_shape x
                  (_build_pdf_lookup (pdf_bom_items pdf))
                  (_index_constraints (pdf_constraints pdf)))
        as (m & k & q & ->).
      reflexivity.
    - now rewrite length_app, !length_map. }
  destruct C as [C L].
  assert (A : Forall (fun l => quantity_source l = "dxf")
                (line_items (snd (calculate_budget self dxf pdf st name now)))).
  { apply run_lines_forall. intros c id line l Hin Hl Hc.
    rewrite Forall_forall in C. specialize (C c Hin).
    apply new_line_provenance in Hl as (Hq & Hsrc & _).
    destruct (@line_costs_frame (params self) line l st Hq Hc) as (_ & -> & _).
    congruence. }
  split; [exact L |]. split; [exact C |]. split; [exact A |].
  destruct (calculate_budget self dxf pdf st name now) as [[r | e] self'] eqn:E;
    cbn [fst snd] in *; [| exact I].
  apply run_returned_lines in E as (-> & _).
  apply Forall_map. exact A.
Qed.

(** C1 at one profile whose layer is the reference of a row of quantity 7. *)
Lemma geometry_prevalence_witness :
  let dxf := dxf_of [sample_profile "L1" (Some 3) 400 0 1000 0 (Some 1)] in
  let pdf := pdf_of [sample_pdf_item "L1" "Perfil de aluminio" (Some 7)] in
  let self := __init__ None in
  List.length (fst (correlate_data self dxf pdf))
  = (List.length (dxf_profiles dxf)
     + List.length
         (filter (fun mq => String.eqb (mq_source mq) "block_count")
            (dxf_material_quantities dxf)))%nat
  /\ Forall (fun c => co_quantity_source c = "dxf")
       (fst (correlate_data self dxf pdf))
  /\ Forall (fun l => quantity_source l = "dxf")
       (line_items (snd (calculate_budget self dxf pdf "none" "Obra" "2026-01-01")))
  /\ match fst (calculate_budget self dxf pdf "none" "Obra" "2026-01-01") with
     | Return r => Forall (fun d => d_quantity_source d = "dxf") (r_line_items r)
     | Raise _ => True
     end.
Proof.
  intros dxf pdf self.
  apply (geometry_prevalence self dxf pdf "none" "Obra" "2026-01-01").
  - reflexivity.
  - discriminate.
Defined.

(** The matched row changes the confidence and the specification source
    of the line, not its quantity or the source of the quantity. *)
Example matched_row_keeps_geometry_quantity :
  let dxf := dxf_of [sample_profile "L1" (Some 3) 400 0 1000 0 (Some 1)] in
  let pdf := pdf_of [sample_pdf_item "L1" "Perfil de aluminio" (Some 7)] in
  map (fun l => (quantity l, quantity_source l, specs_source l,
                 correlation_method l))
    (line_items
       (snd (calculate_budget (__init__ None) dxf pdf "none" "Obra" "2026-01-01")))
  = [(3%Z, "dxf", "both", "layer_to_reference")].
Proof. vm_compute. reflexivity. Qed.

(** Zero, negative and fractional quantities, from either source. *)
Example floor_of_geometry_quantities :
  let dxf :=
    dxf_of [sample_profile "A" (Some 0) 400 0 1000 0 None;
            sample_profile "B" (Some (-3)) 400 0 1000 0 None;
            sample_profile "C" (Some 2.7) 400 0 1000 0 None;
            sample_profile "D" None 400 0 1000 0 None] in
  map quantity
    (line_items
       (snd (calculate_budget (__init__ None) dxf no_pdf "none" "Obra" "2026-01-01")))
  = [1; 1; 2; 1]%Z.
Proof. vm_compute. reflexivity. Qed.

Example floor_of_specification_quantities :
  let pdf :=
    pdf_of [sample_pdf_item "R1" "Perfil" (Some 0.4);
            sample_pdf_item "R2" "Perfil" (Some (-1.5));
            sample_pdf_item "R3" "Perfil" (Some 5)] in
  map quantity
    (line_items
       (snd (calculate_budget (__init__ None) no_dxf pdf "none" "Obra" "2026-01-01")))
  = [1; 1; 5]%Z.
Proof. vm_compute. reflexivity. Qed.

(** ** Cost consistency *)

Lemma formula_costs_nonneg_covered (p : PricingParameters)
  (line line' : BudgetLineItem) (st : string) :
  params_nonneg p -> line_measures_nonneg line ->
  5 <= cutting_time_mins p + assembly_time_per_component_mins p ->
  formula_costs p line st = Return line' ->
  0 <= total_cost line'.
Proof.
  intros Hp (Hq & Hper & Hc & Ht) Hfix Hrun.
  pose proof (treatment_rate_nonneg st Hp) as Hrate.
  destruct (estimate_weight_nonneg line Hper Ht) as [Hw Hper'].
  destruct (estimate_weight_frame line) as (Eq & Ec & Eh & _).
  unfold formula_costs in Hrun.
  destruct (num_eqb_spec (eur_to_usd p) 0) as [Hz | Hz].
  - rewrite (py_div_raise _ Hz) in Hrun. discriminate Hrun.
  - rewrite (py_div_return _ Hz) in Hrun. cbn [bind] in Hrun.
    injection Hrun as <-.
    remember (estimate_weight line) as l1 eqn:El1.
    remember (treatment_rate p st) as rate eqn:Er.
    pose proof (max_ge_r (length_mm l1) 1000) as Hmax.
    remember (PyNum.max (length_mm l1) 1000) as len eqn:Elen.
    cbn. rewrite Eq, Ec, Eh.
    pose proof (inject_Z_pos Hq) as Hq1.
    assert (Hq2 : 1 <= inject_Z (Z.max (quantity line) 1)).
    { apply inject_Z_pos. lia. }
    pose proof (of_nat_nonneg (holes_count line)) as Hh.
    unfold params_nonneg in Hp.
    destruct Hp as (? & ? & ? & ? & ? & ? & ? & ? & ? & ? & ? & ? & ? & ? & ? & ? & ? & ? & ? & ?).
    assert (Hprice :
      0 <= (lme_price_usd_kg p * (1 + lme_hedging_buffer_pct p / 100)
            + billet_premium_usd_kg p) / eur_to_usd p).
    { apply div_nonneg; [| lra].
      assert (0 <= lme_hedging_buffer_pct p / 100) by nonneg.
      assert (0 <= lme_price_usd_kg p * (1 + lme_hedging_buffer_pct p / 100)) by nonneg.
      lra. }
    remember ((lme_price_usd_kg p * (1 + lme_hedging_buffer_pct p / 100)
            + billet_premium_usd_kg p) / eur_to_usd p) as price.
    assert (Hmach :
      0 <= PyNum.of_nat (holes_count line) * machining_time_per_hole_mins p)
      by nonneg.
    assert (Hlabor :
      0 <= cutting_time_mins p
           + PyNum.of_nat (holes_count line) * machining_time_per_hole_mins p
           + (complexity_score line - 1) * 5
           + assembly_time_per_component_mins p) by lra.
    remember (cutting_time_mins p
              + PyNum.of_nat (holes_count line) * machining_time_per_hole_mins p
              + (complexity_score line - 1) * 5
              + assembly_time_per_component_mins p) as labor_mins.
    apply Qmult_le_0_compat; [| lra].
    apply div_nonneg; [| lra].
    nonneg.
Qed.

Lemma line_costs_nonneg_covered (p : PricingParameters)
  (line line' : BudgetLineItem) (st : string) :
  params_nonneg p -> line_measures_nonneg line ->
  5 <= cutting_time_mins p + assembly_time_per_component_mins p ->
  _calculate_line_costs p line st = Return line' ->
  0 <= total_cost line'.
Proof.
  intros Hp Hl Hfix. unfold _calculate_line_costs, _try_calculate_from_cost_db.
  destruct (find_profile_name (search_terms line)) as [name |].
  - destruct (CostDatabase.find_profile name) as [s |] eqn:E.
    + intros [= <-]. apply apply_catalog_nonneg.
      eapply found_profile_rates_nonneg; eauto.
    + apply formula_costs_nonneg_covered; assumption.
  - apply formula_costs_nonneg_covered; assumption.
Qed.

Lemma correlate_data_nonneg (self : Self) (dxf : DxfData) (pdf : PdfData) :
  inputs_nonneg dxf pdf ->
  Forall correlation_nonneg (fst (correlate_data self dxf pdf)).
Proof.
  intros (Hp & Hm & Hi). rewrite Forall_forall in Hp, Hm, Hi.
  apply correlate_data_forall.
  - intros profile Hin.
    pose proof (@matched_item_in profile (pdf_bom_items pdf)
                  (_index_constraints (pdf_constraints pdf))) as Hx.
    destruct (correlate_profile_shape profile
                (_build_pdf_lookup (pdf_bom_items pdf))
                (_index_constraints (pdf_constraints pdf)))
      as (m & c & k & E).
    rewrite E in *. cbn in Hx. split; [| split]; cbn.
    + intros dp [= <-]. auto.
    + discriminate.
    + destruct m as [x |]; [| discriminate].
      intros t Ht. apply (Hi x (Hx x eq_refl)). exact Ht.
  - intros mq Hin. split; [| split]; cbn.
    + discriminate.
    + intros mq' [= <-]. auto.
    + destruct (Dict.get _ _) as [x |] eqn:E; [| discriminate].
      intros t Ht. apply dict_get_in in E.
      apply (proj1 (build_lookup_values (pdf_bom_items pdf))) in E.
      apply (Hi x E). exact Ht.
  - intros it Hin. split; [| split]; cbn; discriminate.
  - intros. split; [| split]; cbn; discriminate.
  - intros. split; [| split]; cbn; discriminate.
  - intros. split; [| split]; cbn; discriminate.
  - intros. split; [| split]; cbn; discriminate.
Qed.

Lemma new_line_nonneg (c : Correlation) (id : Z) (st : string)
  (line : BudgetLineItem) :
  correlation_nonneg c -> new_line c id st = Some line ->
  line_measures_nonneg line.
Proof.
  intros (Hd & Hm & Ht). unfold new_line, line_measures_nonneg.
  destruct (co_dxf_profile c) as [dp |] eqn:Ed.
  - destruct (Hd dp eq_refl) as (Hper & _ & _ & _ & _ & _ & Hc & _).
    intros [= <-]. unfold apply_pdf_length, apply_geometry. rewrite Ed.
    assert (Hc' : 0 <= opt_default (dp_complexity_score dp) 1.0).
    { destruct (dp_complexity_score dp) as [v |]; cbn; [auto | lra]. }
    destruct (co_pdf_item c);
      repeat match goal with
             | |- context [if ?b then _ else _] => destruct b
             end; cbn; (split; [lia |]); (split; [assumption |]);
      (split; [assumption |]); exact Ht.
  - destruct (co_material_quantity c) as [mq |] eqn:Em.
    + destruct (Hm mq eq_refl) as (Hlen & _).
      intros [= <-]. unfold apply_pdf_length, apply_geometry. rewrite Ed, Em.
      destruct (co_pdf_item c);
        repeat match goal with
               | |- context [if ?b then _ else _] => destruct b
               end; cbn; (split; [lia |]); (split; [assumption |]);
        (split; [lra |]); exact Ht.
    + destruct (co_pdf_item c) as [it |] eqn:Ei; [| discriminate].
      intros [= <-]. unfold apply_pdf_length, apply_geometry.
      rewrite Ed, Em, Ei.
      repeat match goal with
             | |- context [if ?b then _ else _] => destruct b
             end; cbn; (split; [lia |]); (split; [lra |]);
        (split; [lra |]); exact Ht.
Qed.

(** The parameters of a request keep the default cutting and assembly
    times and the default conversion factor: no request can set them. *)
Lemma request_params_fixed (parameters : option Service.PricingParametersUpdate) :
  cutting_time_mins (Service.request_params parameters) = 2.0
  /\ assembly_time_per_component_mins (Service.request_params parameters) = 8.0
  /\ eur_to_usd (Service.request_params parameters) = 1.08.
Proof. destruct parameters as [u |]; repeat split; reflexivity. Qed.

Lemma default_params_nonneg : params_nonneg default_params.
Proof. cbn. repeat split; intro H; discriminate H. Qed.

Lemma request_params_nonneg (u : Service.PricingParametersUpdate) :
  request_nonneg u -> params_nonneg (Service.request_params (Some u)).
Proof.
  intros (H1 & H2 & H3 & H4 & H5 & H6).
  pose proof default_params_nonneg
    as (D1 & D2 & D3 & D4 & D5 & D6 & D7 & D8 & D9 & D10 & D11 & D12 & D13
        & D14 & D15 & D16 & D17 & D18 & D19 & D20).
  assert (O : forall x d, (forall v, x = Some v -> 0 <= v) -> 0 <= d ->
                          0 <= @opt_default Q x d).
  { intros [v |] d Hx Hd; cbn; [apply Hx; reflexivity | exact Hd]. }
  unfold params_nonneg, Service.request_params.
  cbn [lme_price_usd_kg lme_hedging_buffer_pct billet_premium_usd_kg
       alloy_6063_premium_pct alloy_6060_premium_pct alloy_6082_premium_pct
       anodizing_natural_eur_m2 anodizing_colored_eur_m2
       powder_coating_standard_eur_m2 powder_coating_qualicoat_eur_m2
       powder_coating_seaside_eur_m2 labor_rate_eur_hr cutting_time_mins
       machining_time_per_hole_mins assembly_time_per_component_mins
       base_waste_factor_pct complexity_waste_factor_pct overhead_factor_pct
       profit_margin_pct eur_to_usd].
  repeat split; try assumption; apply O; assumption.
Qed.

(** C3.  For every budget line of a run, on either path, the unit cost
    times the quantity is the total cost.  The total cost is
    non-negative when the pricing parameters and the measures of the
    payloads are non-negative, under either of two readings of the
    complexity score: a score of at least 1, the range the extractor
    keeps it in, with any non-negative parameters; or any non-negative
    score, with parameters whose cutting and assembly times add up to 5
    minutes or more, as the defaults (2 and 8) and the parameters of
    every request of the service do. *)
Theorem line_cost_consistency (self : Self) (dxf : DxfData) (pdf : PdfData)
  (st name now : string) :
  Forall (fun l => unit_cost l * inject_Z (quantity l) == total_cost l)
    (line_items (snd (calculate_budget self dxf pdf st name now)))
  /\ (params_nonneg (params self) -> inputs_ok dxf pdf ->
      Forall (fun l => 0 <= total_cost l)
        (line_items (snd (calculate_budget self dxf pdf st name now))))
  /\ (params_nonneg (params self) -> inputs_nonneg dxf pdf ->
      5 <= cutting_time_mins (params self)
           + assembly_time_per_component_mins (params self) ->
      Forall (fun l => 0 <= total_cost l)
        (line_items (snd (calculate_budget self dxf pdf st name now)))).
Proof.
  split; [| split].
  - apply run_lines_forall. intros c id line l _ Hn Hc.
    apply new_line_provenance in Hn as (Hq & _).
    destruct (@line_costs_frame (params self) line l st Hq Hc) as (_ & _ & E).
    exact E.
  - intros Hp Hin. apply run_lines_forall. intros c id line l Hc Hn Hl.
    pose proof (correlate_data_ok self Hin) as Hok.
    rewrite Forall_forall in Hok.
    eapply line_costs_nonneg; [exact Hp | | exact Hl].
    eapply new_line_ok; [apply Hok; exact Hc | exact Hn].
  - intros Hp Hin Hfix. apply run_lines_forall. intros c id line l Hc Hn Hl.
    pose proof (correlate_data_nonneg self Hin) as Hok.
    rewrite Forall_forall in Hok.
    eapply line_costs_nonneg_covered; [exact Hp | | exact Hfix | exact Hl].
    eapply new_line_nonneg; [apply Hok; exact Hc | exact Hn].
Qed.

(** C3 at a run with one line on the catalog path and one on the formula
    path, and at a run the service makes for a request that sets the
    labor rate, on a profile whose complexity score is 0. *)
Lemma line_cost_consistency_witness :
  let dxf := dxf_of [sample_profile "IPE 300" (Some 2) 400 0 6000 0 (Some 1);
                     sample_profile "L1" (Some 3) 400 100 500 0 (Some 1.5)] in
  let run := calculate_budget (__init__ None) dxf no_pdf "none" "Obra" "2026-01-01" in
  let flat := dxf_of [sample_profile "L1" (Some 1) 0 0 0 0 (Some 0)] in
  let requested := Service.request_params (Some (request_labor_rate 50)) in
  let flat_run :=
    calculate_budget (__init__ (Some requested)) flat no_pdf
      "none" "Obra" "2026-01-01" in
  Forall (fun l => unit_cost l * inject_Z (quantity l) == total_cost l)
    (line_items (snd run))
  /\ Forall (fun l => 0 <= total_cost l) (line_items (snd run))
  /\ Forall (fun l => 0 <= total_cost l) (line_items (snd flat_run)).
Proof.
  intros dxf run flat requested flat_run.
  destruct (@line_cost_consistency (__init__ None) dxf no_pdf
              "none" "Obra" "2026-01-01") as (E & N & _).
  destruct (@line_cost_consistency (__init__ (Some requested)) flat no_pdf
              "none" "Obra" "2026-01-01") as (_ & _ & F).
  split; [exact E |]. split.
  - apply N.
    + cbn. repeat split; intro H; discriminate H.
    + split; [| split]; cbn; [| constructor | constructor].
      repeat constructor; cbn; try (intro H; discriminate H);
        intros c [= <-]; intro H; discriminate H.
  - apply F.
    + cbn. repeat split; intro H; discriminate H.
    + split; [| split]; cbn; [| constructor | constructor].
      repeat constructor; cbn; try (intro H; discriminate H);
        intros c [= <-]; intro H; discriminate H.
    + cbn. intro H; discriminate H.
Defined.

(** Outside both premises: a caller of the engine who passes a profile
    with a complexity score of 0, below the range of the extractor, and
    parameters with the cutting and assembly times at 0, which no request
    of the service can set, gets a negative labor cost and a negative
    total.  With the score at 1, or with the default times, the total of
    the same line is positive. *)
Example negative_total_needs_both :
  let total (complexity : Q) (p : PricingParameters) :=
    map total_cost
      (line_items
         (snd (calculate_budget (__init__ (Some p))
                 (dxf_of [sample_profile "L1" (Some 1) 0 0 0 0 (Some complexity)])
                 no_pdf "none" "Obra" "2026-01-01"))) in
  Forall2 Qeq (total 0 params_without_fixed_times) [- (3499 # 2400)]
  /\ Forall2 Qeq (total 1 params_without_fixed_times) [1767 # 800]
  /\ Forall2 Qeq (total 0 default_params) [10501 # 2400].
Proof. repeat split; vm_compute; repeat constructor. Qed.

(** ** Waste percentage *)

Lemma of_nat_succ (n : nat) : PyNum.of_nat (S n) == PyNum.of_nat n + 1.
Proof.
  unfold PyNum.of_nat. rewrite Nat2Z.inj_succ. unfold Z.succ.
  rewrite inject_Z_plus. reflexivity.
Qed.

Lemma fold_sum_lower (l : list Q) (a : Q) :
  Forall (fun x => 1 <= x) l ->
  a + PyNum.of_nat (List.length l) <= fold_left Qplus l a.
Proof.
  revert a. induction l as [| x l IH]; intros a H; cbn [fold_left List.length].
  - change (PyNum.of_nat 0) with 0. lra.
  - inversion H as [| ? ? Hx Hl]; subst.
    specialize (IH (a + x) Hl). rewrite of_nat_succ. lra.
Qed.

(** The mean of scores that are all at least 1 is at least 1. *)
Lemma mean_lower (l : list Q) :
  l <> [] -> Forall (fun x => 1 <= x) l ->
  1 <= PyNum.sum l / PyNum.of_nat (List.length l).
Proof.
  intros Hn H. pose proof (fold_sum_lower 0 H) as S.
  assert (Hpos : 0 < PyNum.of_nat (List.length l)).
  { destruct l as [| x l]; [congruence |].
    cbn [List.length]. rewrite of_nat_succ.
    pose proof (of_nat_nonneg (List.length l)). lra. }
  apply Qle_shift_div_l; [exact Hpos |]. unfold PyNum.sum. lra.
Qed.

Lemma line_costs_complexity (p : PricingParameters) (line line' : BudgetLineItem)
  (st : string) :
  _calculate_line_costs p line st = Return line' ->
  complexity_score line' = complexity_score line.
Proof.
  unfold _calculate_line_costs, _try_calculate_from_cost_db.
  assert (F : formula_costs p line st = Return line' ->
              complexity_score line' = complexity_score line).
  { unfold formula_costs.
    destruct (py_div _ (eur_to_usd p)) as [price | e]; [| discriminate].
    cbn [bind]. intros [= <-].
    destruct (estimate_weight_frame line) as (_ & Ec & _). cbn. exact Ec. }
  destruct (find_profile_name (search_terms line)) as [n |]; [| exact F].
  destruct (CostDatabase.find_profile n) as [s |]; [| exact F].
  intros [= <-]. reflexivity.
Qed.

(** A run that returns has at least one line. *)
Lemma priced_lines_nonempty (p : PricingParameters) (st : string) (id : Z)
  (cs : list Correlation) :
  cs <> [] -> Forall (fun c => has_source c = true) cs ->
  fst (priced_lines p st id cs) = Return tt ->
  snd (priced_lines p st id cs) <> [].
Proof.
  destruct cs as [| c r]; [congruence |]. intros _ H.
  inversion H as [| ? ? Hc _]; subst. cbn.
  destruct (new_line_some c (id + 1) st Hc) as (line & ->).
  destruct (_calculate_line_costs p line st) as [l | e]; [| discriminate].
  destruct (priced_lines p st (id + 1) r) as [res ls]. cbn. discriminate.
Qed.

Lemma correlate_data_complexity (self : Self) (dxf : DxfData) (pdf : PdfData) :
  Forall complexity_in_range (dxf_profiles dxf) ->
  Forall (fun c => forall dp, co_dxf_profile c = Some dp -> complexity_in_range dp)
    (fst (correlate_data self dxf pdf)).
Proof.
  intros H. rewrite Forall_forall in H.
  apply correlate_data_forall; try (intros; cbn; discriminate).
  intros profile Hin.
  destruct (correlate_profile_shape profile
              (_build_pdf_lookup (pdf_bom_items pdf))
              (_index_constraints (pdf_constraints pdf)))
    as (m & k & q & ->).
  cbn. intros dp [= <-]. auto.
Qed.

Lemma new_line_complexity (c : Correlation) (id : Z) (st : string)
  (line : BudgetLineItem) :
  (forall dp, co_dxf_profile c = Some dp -> complexity_in_range dp) ->
  new_line c id st = Some line ->
  1 <= complexity_score line.
Proof.
  destruct c as [dp mq it conf meth src specs].
  unfold new_line, apply_pdf_length, apply_geometry. cbn. intros H.
  destruct dp as [dp |], mq as [mq |], it as [it |]; intros [= <-];
    repeat match goal with
           | |- context [if ?b then _ else _] => destruct b
           end; cbn; try lra;
    (destruct (dp_complexity_score dp) as [x |] eqn:E; cbn;
     [exact (H dp eq_refl x E) | lra]).
Qed.

(** C5, as the code has it.  For every summary of a run, the applied
    waste percentage is the smaller of 20 and the base waste percentage
    plus (average complexity - 1) times the complexity waste percentage:
    it is at most 20, and it is at least 0 whenever that sum is, which is
    the case when both waste parameters are non-negative and the average
    complexity is at least 1, as it is when the complexity score of every
    profile is. *)
Theorem waste_percentage_clamp (self self' : Self) (dxf : DxfData)
  (pdf : PdfData) (st name now : string) (r : BudgetResult) :
  calculate_budget self dxf pdf st name now = (Return r, self') ->
  exists s,
    summary self' = Some s
    /\ waste_percentage_applied s =
       PyNum.min (base_waste_factor_pct (params self)
                  + (average_complexity s - 1)
                    * complexity_waste_factor_pct (params self)) 20.0
    /\ waste_percentage_applied s <= 20
    /\ (0 <= base_waste_factor_pct (params self)
             + (average_complexity s - 1)
               * complexity_waste_factor_pct (params self) ->
        0 <= waste_percentage_applied s)
    /\ (0 <= base_waste_factor_pct (params self) ->
        0 <= complexity_waste_factor_pct (params self) ->
        1 <= average_complexity s ->
        0 <= waste_percentage_applied s)
    /\ (0 <= base_waste_factor_pct (params self) ->
        0 <= complexity_waste_factor_pct (params self) ->
        Forall complexity_in_range (dxf_profiles dxf) ->
        0 <= waste_percentage_applied s).
Proof.
  intros Hrun.
  pose proof (run_line_items self dxf pdf st name now) as Hlines.
  pose proof (run_returned_lines _ _ _ _ _ _ Hrun) as (_ & _ & Hret).
  rewrite Hrun in Hlines. cbn [snd] in Hlines.
  rewrite calculate_budget_eq in Hrun. cbv zeta in Hrun.
  rewrite correlate_data_params in Hrun.
  set (self1 := snd (correlate_data self dxf pdf)) in *.
  set (cs := fst (correlate_data self dxf pdf)) in *.
  set (pl := priced_lines (params self) st 0 cs) in *.
  set (self3 := set_line_items (snd pl) self1) in *.
  destruct (fst pl) as [[] | e] eqn:Epl; [| discriminate].
  destruct (calculate_summary_state self3 name (has_dxf_of dxf) (pdf_success pdf) now)
    as (s & Hs & _ & _ & _ & _ & Havg & Hw & _).
  destruct (_calculate_summary self3 name (has_dxf_of dxf) (pdf_success pdf) now)
    as [[u' | e] self4]; [| discriminate].
  injection Hrun as _ <-. cbn [snd] in *.
  assert (Ep : params self3 = params self).
  { unfold self3, self1. cbn. apply correlate_data_params. }
  rewrite Ep in *.
  exists s. split; [exact Hs |]. split; [exact Hw |].
  set (w := base_waste_factor_pct (params self)
            + (average_complexity s - 1)
              * complexity_waste_factor_pct (params self)) in *.
  assert (Hcap : waste_percentage_applied s <= 20).
  { rewrite Hw. destruct (min_spec w 20.0) as [[H ->] | [H ->]]; lra. }
  assert (Hlow : 0 <= w -> 0 <= waste_percentage_applied s).
  { intros H0. rewrite Hw.
    destruct (min_spec w 20.0) as [[H ->] | [H ->]]; lra. }
  assert (Havg1 : 0 <= base_waste_factor_pct (params self) ->
                  0 <= complexity_waste_factor_pct (params self) ->
                  1 <= average_complexity s ->
                  0 <= waste_percentage_applied s).
  { intros Hb Hc Hm. apply Hlow. unfold w.
    assert (0 <= (average_complexity s - 1)
                 * complexity_waste_factor_pct (params self)) by nonneg.
    lra. }
  split; [exact Hcap |]. split; [exact Hlow |]. split; [exact Havg1 |].
  intros Hb Hc Hcx. apply Havg1; [exact Hb | exact Hc |].
  assert (Hmean : 1 <= average_complexity s).
  { rewrite Havg. unfold self3. cbn [line_items set_line_items].
    assert (Hne : snd pl <> []).
    { apply priced_lines_nonempty.
      - apply correlate_data_nonempty.
      - apply correlate_data_sources.
      - exact Epl. }
    assert (Hall : Forall (fun l => 1 <= complexity_score l) (snd pl)).
    { eapply Forall_impl; [| apply priced_lines_origin].
      intros l (c & id & line & Hin & Hn & Hl).
      rewrite (line_costs_complexity _ _ _ Hl).
      pose proof (@correlate_data_complexity self dxf pdf Hcx) as Hok.
      rewrite Forall_forall in Hok.
      eapply new_line_complexity; [apply Hok; exact Hin | exact Hn]. }
    destruct (snd pl) as [| l ls] eqn:El; [congruence |].
    rewrite <- length_map with (f := complexity_score).
    apply mean_lower; [discriminate |].
    apply Forall_map. exact Hall. }
  exact Hmean.
Qed.

(** C5 at one profile of complexity 1.5 with the default parameters. *)
Lemma waste_percentage_clamp_witness :
  let dxf := dxf_of [sample_profile "L1" (Some 3) 400 100 500 0 (Some 1.5)] in
  let run := calculate_budget (__init__ None) dxf no_pdf "none" "Obra" "2026-01-01" in
  exists s,
    summary (snd run) = Some s
    /\ 0 <= waste_percentage_applied s
    /\ waste_percentage_applied s <= 20.
Proof.
  intros dxf run.
  assert (E : run = (Return (result_of (snd run) true false), snd run))
    by (vm_compute; reflexivity).
  destruct (waste_percentage_clamp (__init__ None) dxf no_pdf
              "none" "Obra" "2026-01-01" E)
    as (s & Hs & _ & Hcap & _ & _ & Hlow).
  exists s. split; [exact Hs |]. split; [| exact Hcap].
  apply Hlow.
  - intro H. discriminate H.
  - intro H. discriminate H.
  - repeat constructor. intros c [= <-]. intro H. discriminate H.
Defined.

(** C5, as stated, at a base waste percentage of -5: nothing clamps the
    applied percentage from below. *)
Lemma waste_lower_bound_counterexample :
  let dxf := dxf_of [sample_profile "L1" (Some 1) 400 0 1000 0 (Some 1)] in
  let run :=
    calculate_budget (__init__ (Some params_negative_base_waste))
      dxf no_pdf "none" "Obra" "2026-01-01" in
  exists r self' s,
    run = (Return r, self')
    /\ summary self' = Some s
    /\ ~ (0 <= waste_percentage_applied s /\ waste_percentage_applied s <= 20).
Proof.
  intros dxf run.
  do 3 eexists. split; [vm_compute; reflexivity |].
  split; [reflexivity |].
  intros [H _]. apply H. reflexivity.
Qed.

(** ** Fallback completeness *)

Lemma correlate_data_nothing (self : Self) (dxf : DxfData) (pdf : PdfData) :
  dxf_profiles dxf = [] -> pdf_bom_items pdf = [] ->
  pdf_constraints pdf = [] -> pdf_dimension_specs pdf = [] ->
  correlate_data self dxf pdf
  = ([placeholder_correlation 0 0], extend_log [creating_fallback_items] self).
Proof.
  intros Hp Hi Hc Hd. unfold correlate_data. rewrite Hp, Hi. cbn [List.length].
  rewrite !andb_false_r.
  unfold _create_fallback_correlations. rewrite Hc, Hd. reflexivity.
Qed.

Lemma placeholder_line (id : Z) (st : string) :
  exists line,
    new_line (placeholder_correlation 0 0) id st = Some line
    /\ _try_calculate_from_cost_db line = None
    /\ quantity line = 1%Z.
Proof.
  eexists. split; [reflexivity |]. split; [| reflexivity].
  unfold _try_calculate_from_cost_db, search_terms. cbn [description reference profile_id
    apply_pdf_length apply_geometry make_line placeholder_correlation
    co_pdf_item co_dxf_profile co_material_quantity].
  vm_compute. reflexivity.
Qed.

Lemma line_costs_provenance (p : PricingParameters) (line line' : BudgetLineItem)
  (st : string) :
  _calculate_line_costs p line st = Return line' ->
  correlation_method line' = correlation_method line
  /\ correlation_confidence line' = correlation_confidence line.
Proof.
  unfold _calculate_line_costs, _try_calculate_from_cost_db.
  assert (F : formula_costs p line st = Return line' ->
              correlation_method line' = correlation_method line
              /\ correlation_confidence line' = correlation_confidence line).
  { unfold formula_costs.
    destruct (py_div _ (eur_to_usd p)) as [price | e]; [| discriminate].
    cbn [bind]. intros [= <-]. unfold estimate_weight.
    repeat match goal with
           | |- context [if ?b then _ else _] => destruct b
           end; cbn; auto. }
  destruct (find_profile_name (search_terms line)) as [n |]; [| exact F].
  destruct (CostDatabase.find_profile n) as [s |]; [| exact F].
  intros [= <-]. cbn. auto.
Qed.

(** ** Returning runs *)

Lemma calculate_summary_raise (self : Self) (name : string) (hd hp : bool)
  (now : string) :
  labor_rate_eur_hr (params self) == 0 ->
  fst (_calculate_summary self name hd hp now) = Raise ZeroDivisionError.
Proof.
  intros Hz. unfold _calculate_summary.
  rewrite (py_div_raise _ Hz). reflexivity.
Qed.

Lemma run_return_intro (self : Self) (dxf : DxfData) (pdf : PdfData)
  (st name now : string) :
  fst (priced_lines (params self) st 0 (fst (correlate_data self dxf pdf)))
  = Return tt ->
  ~ labor_rate_eur_hr (params self) == 0 ->
  exists r self', calculate_budget self dxf pdf st name now = (Return r, self').
Proof.
  intros Hp Hl. rewrite calculate_budget_eq. cbv zeta.
  rewrite correlate_data_params, Hp.
  set (self3 := set_line_items _ _).
  assert (Hl3 : ~ labor_rate_eur_hr (params self3) == 0).
  { unfold self3. cbn. now rewrite correlate_data_params. }
  pose proof (@calculate_summary_return self3 name (has_dxf_of dxf)
                (pdf_success pdf) now Hl3) as Hret.
  destruct (_calculate_summary self3 name (has_dxf_of dxf) (pdf_success pdf) now)
    as [[[] | e] self4]; [| discriminate Hret].
  eauto.
Qed.

Lemma run_return_elim (self self' : Self) (dxf : DxfData) (pdf : PdfData)
  (st name now : string) (r : BudgetResult) :
  calculate_budget self dxf pdf st name now = (Return r, self') ->
  ~ labor_rate_eur_hr (params self) == 0
  /\ params self' = params self
  /\ summary self' <> None
  /\ correlation_log self' = correlation_log (snd (correlate_data self dxf pdf)).
Proof.
  rewrite calculate_budget_eq. cbv zeta. rewrite correlate_data_params.
  destruct (fst (priced_lines _ _ _ _)) as [[] | e]; [| discriminate].
  set (self3 := set_line_items _ _).
  destruct (calculate_summary_state self3 name (has_dxf_of dxf) (pdf_success pdf) now)
    as (s & Hs & Hp & _ & Hlog & _).
  destruct (num_eqb_spec (labor_rate_eur_hr (params self3)) 0) as [Hz | Hz].
  - rewrite (surjective_pairing (_calculate_summary self3 _ _ _ _)).
    rewrite (@calculate_summary_raise self3 name (has_dxf_of dxf)
               (pdf_success pdf) now Hz).
    discriminate.
  - destruct (_calculate_summary self3 name (has_dxf_of dxf) (pdf_success pdf) now)
      as [[u | e] self4]; [| discriminate].
    intros [= _ <-]. cbn [snd] in *.
    assert (E3 : params self3 = params self).
    { unfold self3. cbn. apply correlate_data_params. }
    rewrite E3 in *. split; [exact Hz |]. split; [exact Hp |].
    split; [congruence |]. exact Hlog.
Qed.

Lemma priced_lines_return (p : PricingParameters) (st : string) (id : Z)
  (cs : list Correlation) :
  ~ eur_to_usd p == 0 -> fst (priced_lines p st id cs) = Return tt.
Proof.
  intros Hz. revert id. induction cs as [| c r IH]; intros id; cbn; [reflexivity |].
  destruct (new_line c (id + 1) st) as [line |]; [| apply IH].
  destruct (@line_costs_return p line st Hz) as (l & ->).
  specialize (IH (id + 1)%Z).
  destruct (priced_lines p st (id + 1) r) as [res ls]. exact IH.
Qed.

(** The labor rate divides the labor total in the summary: at a rate of
    zero every line is priced and the calculation raises afterwards. *)
Example zero_labor_rate_aborts :
  let dxf := dxf_of [sample_profile "L1" (Some 1) 400 0 1000 0 (Some 1)] in
  let run :=
    calculate_budget (__init__ (Some params_zero_labor_rate))
      dxf no_pdf "none" "Obra" "2026-01-01" in
  fst run = Raise ZeroDivisionError
  /\ List.length (line_items (snd run)) = 1%nat.
Proof. split; vm_compute; reflexivity. Qed.

(** ** Catalog short-circuit *)

(** C7, as the code has it.  When the first designation the patterns
    find (in the description, else the reference, else the profile id,
    the patterns taken in their order) resolves to a catalog entry, the
    line is priced by that entry alone: the five components are the
    catalog rates times the catalog weight or area for the length,
    times the quantity, and the result does not depend on the pricing
    parameters (the metal price among them) or on the surface treatment;
    no formula, and so no density, enters it. *)
Theorem catalog_short_circuit (line : BudgetLineItem) (name : string)
  (profile : CostDatabase.SteelProfile) :
  find_profile_name (search_terms line) = Some name ->
  CostDatabase.find_profile name = Some profile ->
  exists line',
    (forall p st, _calculate_line_costs p line st = Return line')
    /\ let len := catalog_length_m line in
       let kg := len * CostDatabase.weight_per_meter profile in
       let m2 := len * CostDatabase.area_per_meter profile in
       let qty := inject_Z (Z.max 1 (quantity line)) in
       weight_kg line' == kg
       /\ raw_material_cost line' == kg * CostDatabase.price_material profile * qty
       /\ transformation_cost line' ==
          kg * CostDatabase.price_fabrication profile * qty
       /\ surface_treatment_cost line' ==
          m2 * CostDatabase.price_painting profile * qty
       /\ labor_cost line' ==
          (kg * CostDatabase.price_assembly profile
           + kg * CostDatabase.price_lifting profile) * qty
       /\ accessories_cost line' ==
          (kg * CostDatabase.price_consumables profile
           + kg * CostDatabase.price_transport profile) * qty.
Proof.
  intros Hn Hp. exists (apply_catalog profile line). split.
  - intros p st. unfold _calculate_line_costs, _try_calculate_from_cost_db.
    now rewrite Hn, Hp.
  - unfold catalog_length_m. cbn. repeat split; reflexivity.
Qed.

(** C7 at two beams of 6 m whose description names IPE 300. *)
Lemma catalog_short_circuit_witness :
  let line := sample_line "Viga IPE 300 principal" "V1" 2 0 0 6000 0 1 None in
  exists line',
    (forall p st, _calculate_line_costs p line st = Return line')
    /\ raw_material_cost line' == 6 * 42.2 * 0.85 * 2.
Proof.
  intro line.
  destruct (catalog_short_circuit line (name := "IPE 300")
              (profile := CostDatabase.row "0480040011" "IPE 300"
                            42.2 1.16 0.85 0.25 0.2 13 0.05 0.04 0.03))
    as (line' & Hrun & _ & Hraw & _).
  - vm_compute. reflexivity.
  - vm_compute. reflexivity.
  - exists line'. split; [exact Hrun |].
    rewrite Hraw. vm_compute. reflexivity.
Defined.

(** C7, as stated, at a line whose reference is a catalog designation
    and whose description names a section the catalog does not hold: the
    description is searched first, its match ends the search, the lookup
    misses, and the line is priced by the formulas. *)
Lemma catalog_first_match_counterexample :
  let line := sample_line "Perfil IPE 999" "HEB 100" 1 400 0 6000 0 1 None in
  (exists groups profile,
     In (section_pattern "HEB") profile_patterns
     /\ Re.re_search (section_pattern "HEB") (PyStr.upper (reference line))
        = Some groups
     /\ CostDatabase.find_profile (Re.matched groups) = Some profile
     /\ CostDatabase.designation profile = "HEB 100")
  /\ _try_calculate_from_cost_db line = None
  /\ _calculate_line_costs default_params line "none"
     = formula_costs default_params line "none"
  /\ exists line',
       _calculate_line_costs default_params line "none" = Return line'
       /\ weight_kg line' == 400 * 2 * 2 / 1e9 * ALUMINUM_DENSITY_KG_M3
       /\ raw_material_cost line' ==
          weight_kg line'
          * ((lme_price_usd_kg default_params * (1 + 5 / 100) + 0.45) / 1.08)
          * 1.
Proof.
  intro line. split; [| split; [| split]].
  - do 2 eexists. split; [cbn; tauto |].
    split; [vm_compute; reflexivity |].
    split; vm_compute; reflexivity.
  - vm_compute. reflexivity.
  - reflexivity.
  - eexists. split; [vm_compute; reflexivity |].
    split; vm_compute; reflexivity.
Qed.

(** ** Successive calls on one calculator *)

Lemma init_log_empty (p : option PricingParameters) :
  correlation_log (__init__ p) = [] /\ line_items (__init__ p) = [].
Proof. split; reflexivity. Qed.

(** What one returning call does to the calculator. *)
Lemma run_effect (self self' : Self) (dxf : DxfData) (pdf : PdfData)
  (st name now : string) (r : BudgetResult) :
  calculate_budget self dxf pdf st name now = (Return r, self') ->
  params self' = params self
  /\ (exists es, es <> []
        /\ correlation_log self' = (correlation_log self ++ es)%list)
  /\ r_correlation_log r = correlation_log self'
  /\ r_line_items r
     = map line_to_dict
         (snd (priced_lines (params self) st 0
                 (fst (correlate_data (__init__ None) dxf pdf)))).
Proof.
  intros Hrun.
  pose proof (run_line_items self dxf pdf st name now) as Hlines.
  rewrite Hrun in Hlines. cbn [snd] in Hlines.
  destruct (run_returned_lines _ _ _ _ _ _ Hrun) as (Hr & Hlog & _).
  destruct (run_return_elim _ _ _ _ _ _ Hrun) as (_ & Hp & _ & Hl).
  destruct (correlate_data_state self dxf pdf) as (es & Hes & Hst).
  split; [exact Hp |]. split; [| split; [exact Hlog |]].
  - exists es. split; [exact Hes |]. rewrite Hl, Hst. reflexivity.
  - rewrite Hr, Hlines.
    now rewrite (correlate_data_pure self (__init__ None) dxf pdf).
Qed.

(** C10.  On two successive returning calls of [calculate_budget] on one
    calculator, the lines of the second result are those a fresh
    calculator with the same parameters returns for the second inputs,
    and the log of the second result is the log of the first result
    followed by the entries of the second call: the entries of the first
    call are still there. *)
Theorem lines_reset_log_kept (self0 self1 self2 : Self)
  (dxf1 dxf2 : DxfData) (pdf1 pdf2 : PdfData)
  (st1 name1 now1 st2 name2 now2 : string) (r1 r2 : BudgetResult) :
  calculate_budget self0 dxf1 pdf1 st1 name1 now1 = (Return r1, self1) ->
  calculate_budget self1 dxf2 pdf2 st2 name2 now2 = (Return r2, self2) ->
  (exists fresh_r fresh_self,
     calculate_budget (__init__ (Some (params self0))) dxf2 pdf2 st2 name2 now2
     = (Return fresh_r, fresh_self)
     /\ r_line_items r2 = r_line_items fresh_r)
  /\ exists first second,
       first <> [] /\ second <> []
       /\ r_correlation_log r1 = (correlation_log self0 ++ first)%list
       /\ r_correlation_log r2 = (r_correlation_log r1 ++ second)%list.
Proof.
  intros H1 H2.
  destruct (run_effect _ _ _ _ _ _ H1) as (P1 & (e1 & N1 & L1) & R1 & _).
  destruct (run_effect _ _ _ _ _ _ H2) as (P2 & (e2 & N2 & L2) & R2 & I2).
  split.
  - destruct (run_return_elim _ _ _ _ _ _ H2) as (Hlab & _).
    destruct (run_returned_lines _ _ _ _ _ _ H2) as (_ & _ & Hret).
    rewrite P1 in Hlab, Hret, I2.
    rewrite (correlate_data_pure self1 (__init__ (Some (params self0))) dxf2 pdf2)
      in Hret.
    destruct (@run_return_intro (__init__ (Some (params self0))) dxf2 pdf2
                st2 name2 now2 Hret Hlab) as (fr & fs & Hf).
    exists fr, fs. split; [exact Hf |].
    destruct (run_effect _ _ _ _ _ _ Hf) as (_ & _ & _ & If).
    rewrite I2, If. reflexivity.
  - exists e1, e2. split; [exact N1 |]. split; [exact N2 |].
    rewrite R1, R2, L2, L1. split; reflexivity.
Qed.

(** C10 at a run on two profiles followed by a run on one row. *)
Lemma lines_reset_log_kept_witness :
  let self0 := __init__ None in
  let dxf1 := dxf_of [sample_profile "A" (Some 2) 400 0 1000 0 (Some 1);
                      sample_profile "B" (Some 1) 300 0 2000 0 (Some 1)] in
  let pdf2 := pdf_of [sample_pdf_item "R1" "Perfil" (Some 5)] in
  let run1 := calculate_budget self0 dxf1 no_pdf "none" "Obra" "2026-01-01" in
  let run2 := calculate_budget (snd run1) no_dxf pdf2 "none" "Obra" "2026-01-02" in
  exists r1 r2,
    fst run1 = Return r1 /\ fst run2 = Return r2
    /\ (exists fresh_r fresh_self,
          calculate_budget (__init__ (Some (params self0))) no_dxf pdf2
            "none" "Obra" "2026-01-02" = (Return fresh_r, fresh_self)
          /\ r_line_items r2 = r_line_items fresh_r)
    /\ exists first second,
         first <> [] /\ second <> []
         /\ r_correlation_log r1 = (correlation_log self0 ++ first)%list
         /\ r_correlation_log r2 = (r_correlation_log r1 ++ second)%list.
Proof.
  intros self0 dxf1 pdf2 run1 run2.
  assert (E1 : run1 = (Return (result_of (snd run1) true false), snd run1))
    by (vm_compute; reflexivity).
  assert (E2 : run2 = (Return (result_of (snd run2) false true), snd run2))
    by (vm_compute; reflexivity).
  exists (result_of (snd run1) true false), (result_of (snd run2) false true).
  split; [rewrite E1 at 1; reflexivity |].
  split; [rewrite E2 at 1; reflexivity |].
  exact (lines_reset_log_kept self0 dxf1 no_dxf no_pdf pdf2
           "none" "Obra" "2026-01-01" "none" "Obra" "2026-01-02" E1 E2).
Defined.

(** Two lines in the first run, one in the second; one log entry each. *)
Example two_runs_example :
  let dxf1 := dxf_of [sample_profile "A" (Some 2) 400 0 1000 0 (Some 1);
                      sample_profile "B" (Some 1) 300 0 2000 0 (Some 1)] in
  let pdf2 := pdf_of [sample_pdf_item "R1" "Perfil" (Some 5)] in
  let run1 := calculate_budget (__init__ None) dxf1 no_pdf "none" "Obra" "2026-01-01" in
  let run2 := calculate_budget (snd run1) no_dxf pdf2 "none" "Obra" "2026-01-02" in
  map reference (line_items (snd run1)) = ["A"; "B"]
  /\ map reference (line_items (snd run2)) = ["R1"]
  /\ correlation_log (snd run1) = [using_dxf_as_primary 2 0]
  /\ correlation_log (snd run2)
     = [using_dxf_as_primary 2 0; using_pdf_as_fallback 1].
Proof. vm_compute. repeat split; reflexivity. Qed.

(** ** The text functions at work *)

Example designation_in_a_description :
  find_profile_name ["Viga ipe  300 principal"; "V1"; ""] = Some "IPE  300"
  /\ option_map CostDatabase.designation (CostDatabase.find_profile "IPE  300")
     = Some "IPE 300".
Proof. split; vm_compute; reflexivity. Qed.

Example designation_in_the_reference :
  find_profile_name ["Perfil tubular"; "tubo red. 88.9*3.2"; ""]
  = Some "TUBO RED. 88.9*3.2"
  /\ option_map CostDatabase.code (CostDatabase.find_profile "TUBO RED. 88.9*3.2")
     = Some "0550010060".
Proof. split; vm_compute; reflexivity. Qed.

Example designation_by_partial_key :
  find_profile_name ["Madre Z 170 galvanizada"; ""; ""] = Some "MADRE Z 170"
  /\ option_map CostDatabase.designation (CostDatabase.find_profile "MADRE Z 170")
     = Some "MADRE Z 170*56*15 ESP. 1.5MM".
Proof. split; vm_compute; reflexivity. Qed.

Example designation_without_blank :
  option_map CostDatabase.designation (CostDatabase.find_profile "hea200")
  = Some "HEA 200".
Proof. vm_compute. reflexivity. Qed.

Example designation_absent :
  find_profile_name ["Perfil de aluminio"; "L1"; "P1"] = None
  /\ CostDatabase.find_profile "IPE 999" = None.
Proof. split; vm_compute; reflexivity. Qed.

Example dimension_texts :
  _parse_dimension "2500x1200 mm" = Some 2500
  /\ _parse_dimension "esp. 12,5" = Some 12.5
  /\ _parse_dimension "sem cotas" = None
  /\ scan_numbers Idle "1..2 007.50" = [1; 2; 7.50].
Proof.
  repeat split; vm_compute; reflexivity.
Qed.

(** ** Two runs from start to end *)

(** One open profile of perimeter 400 mm and length 1000 mm with two
    holes and no bill of materials: the weight comes from the
    thickness-squared section at the default 2 mm, the labor from two
    holes. *)
Example run_geometry_only :
  let profile :=
    {| dp_profile_id := Some "P1"; dp_layer := "PERFIS";
       dp_material_hint := None; dp_quantity := Some 1;
       dp_entity_type := Some "LWPOLYLINE";
       dp_perimeter_mm := 400; dp_area_mm2 := 0; dp_length_mm := 1000;
       dp_bounding_box := {| width := 0; height := 0 |};
       dp_weight_kg := 0; dp_complexity_score := Some 1.0;
       dp_features := [ {| feature_type := Some "hole" |};
                        {| feature_type := Some "hole" |} ] |} in
  let run :=
    calculate_budget (__init__ None) (dxf_of [profile]) no_pdf
      "powder_coating_standard" "Obra" "2026-01-01" in
  map (fun l => (quantity l, quantity_source l, correlation_method l,
                 holes_count l, Qred (weight_kg l), Qred (labor_cost l)))
    (line_items (snd run))
  = [(1%Z, "dxf", "none", 2%nat, Qred (400 * 2 * 2 / 1e9 * 2700),
      Qred ((2 + 2 * 5 + 8) / 60 * 35))].
Proof. vm_compute. reflexivity. Qed.

(** No geometry and three rows of quantities 2, 1 and 5. *)
Example run_specification_only :
  let pdf :=
    pdf_of [sample_pdf_item "R1" "Perfil" (Some 2);
            sample_pdf_item "R2" "Perfil" (Some 1);
            sample_pdf_item "R3" "Perfil" (Some 5)] in
  let run := calculate_budget (__init__ None) no_dxf pdf "none" "Obra" "2026-01-01" in
  map (fun l => (quantity l, quantity_source l, correlation_method l,
                 correlation_confidence l))
    (line_items (snd run))
  = [(2%Z, "pdf", "pdf_only", 0.5); (1%Z, "pdf", "pdf_only", 0.5);
     (5%Z, "pdf", "pdf_only", 0.5)]
  /\ option_map total_quantity (summary (snd run)) = Some 8%Z.
Proof. vm_compute. split; reflexivity. Qed.

(** ** Further properties: lines and summary *)

(** The summary of a returning run, field by field, over the lines the
    calculator holds. *)
Lemma run_summary_fields (self self' : Self) (dxf : DxfData) (pdf : PdfData)
  (st name now : string) (r : BudgetResult) :
  calculate_budget self dxf pdf st name now = (Return r, self') ->
  exists s,
    summary self' = Some s
    /\ ~ labor_rate_eur_hr (params self) == 0
    /\ total_profiles s = List.length (line_items self')
    /\ total_quantity s = sum_Z (map quantity (line_items self'))
    /\ total_weight_kg s =
       PyNum.sum (map (fun l => weight_kg l * inject_Z (quantity l)) (line_items self'))
    /\ raw_material_total s = PyNum.sum (map raw_material_cost (line_items self'))
    /\ transformation_total s = PyNum.sum (map transformation_cost (line_items self'))
    /\ surface_treatment_total s =
       PyNum.sum (map surface_treatment_cost (line_items self'))
    /\ labor_total s = PyNum.sum (map labor_cost (line_items self'))
    /\ accessories_total s = PyNum.sum (map accessories_cost (line_items self'))
    /\ estimated_production_hours s
       = labor_total s / labor_rate_eur_hr (params self).
Proof.
  intros Hrun.
  destruct (run_return_elim _ _ _ _ _ _ Hrun) as (Hlab & _).
  rewrite calculate_budget_eq in Hrun. cbv zeta in Hrun.
  rewrite correlate_data_params in Hrun.
  set (self1 := snd (correlate_data self dxf pdf)) in *.
  set (pl := priced_lines (params self) st 0 (fst (correlate_data self dxf pdf))) in *.
  set (self3 := set_line_items (snd pl) self1) in *.
  destruct (fst pl) as [[] | e]; [| discriminate].
  assert (E3 : params self3 = params self).
  { unfold self3, self1. cbn. apply correlate_data_params. }
  assert (Hlab3 : ~ labor_rate_eur_hr (params self3) == 0) by now rewrite E3.
  unfold _calculate_summary in Hrun.
  rewrite (py_div_return _ Hlab3) in Hrun.
  injection Hrun as _ <-.
  eexists. split; [reflexivity |]. rewrite <- E3.
  split; [exact Hlab3 |]. cbn. repeat split; reflexivity.
Qed.

Lemma sum_from (l : list Q) (a : Q) : fold_left Qplus l a == a + PyNum.sum l.
Proof.
  unfold PyNum.sum. revert a.
  induction l as [| x l IH]; intros a; cbn [fold_left].
  - lra.
  - rewrite (IH (a + x)), (IH (0 + x)). lra.
Qed.

Lemma sum_cons (x : Q) (l : list Q) : PyNum.sum (x :: l) == x + PyNum.sum l.
Proof. unfold PyNum.sum at 1. cbn [fold_left]. rewrite sum_from. lra. Qed.

Lemma sum_Z_cons (x : Z) (l : list Z) : sum_Z (x :: l) = (x + sum_Z l)%Z.
Proof.
  unfold sum_Z. cbn [fold_left].
  assert (G : forall l a, fold_left Z.add l a = (a + fold_left Z.add l 0)%Z).
  { clear. induction l as [| y l IH]; intros a; cbn [fold_left]; [lia |].
    rewrite (IH (a + y)%Z), (IH (0 + y)%Z). lia. }
  rewrite G. lia.
Qed.

(** On either path the total of a line is the sum of its five
    components. *)
Lemma line_total_components (p : PricingParameters) (line line' : BudgetLineItem)
  (st : string) :
  (1 <= quantity line)%Z ->
  _calculate_line_costs p line st = Return line' ->
  total_cost line' ==
  raw_material_cost line' + transformation_cost line'
  + surface_treatment_cost line' + labor_cost line' + accessories_cost line'.
Proof.
  intros Hq. unfold _calculate_line_costs, _try_calculate_from_cost_db.
  assert (F : formula_costs p line st = Return line' ->
              total_cost line' ==
              raw_material_cost line' + transformation_cost line'
              + surface_treatment_cost line' + labor_cost line'
              + accessories_cost line').
  { unfold formula_costs.
    destruct (py_div _ (eur_to_usd p)) as [price | e]; [| discriminate].
    cbn [bind]. intros [= <-].
    destruct (estimate_weight_frame line) as (Eq & _).
    remember (estimate_weight line) as l1.
    cbn. rewrite Eq.
    replace (Z.max (quantity line) 1) with (quantity line) by lia.
    pose proof (inject_Z_pos Hq) as Hq1.
    field. lra. }
  destruct (find_profile_name (search_terms line)) as [n |]; [| exact F].
  destruct (CostDatabase.find_profile n) as [s |]; [| exact F].
  intros [= <-]. cbn. ring.
Qed.

Lemma run_lines_quantity (self : Self) (dxf : DxfData) (pdf : PdfData)
  (st name now : string) :
  Forall (fun l => (1 <= quantity l)%Z)
    (line_items (snd (calculate_budget self dxf pdf st name now))).
Proof.
  apply run_lines_forall. intros c id line l _ Hn Hc.
  apply new_line_provenance in Hn as (Hq & _).
  destruct (@line_costs_frame (params self) line l st Hq Hc) as (-> & _).
  exact Hq.
Qed.

Lemma sum_of_components (ls : list BudgetLineItem) :
  Forall (fun l =>
            total_cost l ==
            raw_material_cost l + transformation_cost l
            + surface_treatment_cost l + labor_cost l + accessories_cost l) ls ->
  PyNum.sum (map total_cost ls) ==
  PyNum.sum (map raw_material_cost ls) + PyNum.sum (map transformation_cost ls)
  + PyNum.sum (map surface_treatment_cost ls) + PyNum.sum (map labor_cost ls)
  + PyNum.sum (map accessories_cost ls).
Proof.
  induction 1 as [| l ls Hl _ IH]; cbn [map].
  - reflexivity.
  - rewrite !sum_cons, IH, Hl. ring.
Qed.

(** X1.  In a returning run the total of every line is the sum of its five
    cost components, and the five component totals of the summary add up
    to the sum of the line totals: nothing is priced into a line that the
    summary does not count, and conversely. *)
Theorem run_totals_add_up (self self' : Self) (dxf : DxfData) (pdf : PdfData)
  (st name now : string) (r : BudgetResult) :
  calculate_budget self dxf pdf st name now = (Return r, self') ->
  Forall (fun l =>
            total_cost l ==
            raw_material_cost l + transformation_cost l
            + surface_treatment_cost l + labor_cost l + accessories_cost l)
    (line_items self')
  /\ exists s,
       summary self' = Some s
       /\ raw_material_total s + transformation_total s
          + surface_treatment_total s + labor_total s + accessories_total s
          == PyNum.sum (map total_cost (line_items self')).
Proof.
  intros Hrun.
  assert (A : Forall (fun l =>
            total_cost l ==
            raw_material_cost l + transformation_cost l
            + surface_treatment_cost l + labor_cost l + accessories_cost l)
    (line_items self')).
  { change self' with (snd (Return r, self')). rewrite <- Hrun.
    apply run_lines_forall. intros c id line l _ Hn Hc.
    apply new_line_provenance in Hn as (Hq & _).
    exact (@line_total_components (params self) line l st Hq Hc). }
  split; [exact A |].
  destruct (@run_summary_fields _ _ _ _ _ _ _ _ Hrun)
    as (s & Hs & _ & _ & _ & _ & Hr & Ht & Hsu & Hl & Ha & _).
  exists s. split; [exact Hs |].
  rewrite Hr, Ht, Hsu, Hl, Ha. symmetry. apply sum_of_components. exact A.
Qed.

(** X1 at a run on one drawn profile and one row of the bill of
    materials. *)
Lemma run_totals_add_up_witness :
  let run :=
    calculate_budget (__init__ None)
      (dxf_of [sample_profile "PERFIL" (Some 3) 400 9600 6000 0 (Some 1.5)])
      (pdf_of [sample_pdf_item "P1" "Perfil IPE 200" (Some 2)])
      "anodizing_natural" "Obra" "2026-01-01" in
  Forall (fun l =>
            total_cost l ==
            raw_material_cost l + transformation_cost l
            + surface_treatment_cost l + labor_cost l + accessories_cost l)
    (line_items (snd run))
  /\ exists s,
       summary (snd run) = Some s
       /\ raw_material_total s + transformation_total s
          + surface_treatment_total s + labor_total s + accessories_total s
          == PyNum.sum (map total_cost (line_items (snd run))).
Proof.
  intro run.
  assert (E : run = (Return (result_of (snd run) true true), snd run))
    by (vm_compute; reflexivity).
  exact (@run_totals_add_up (__init__ None) (snd run)
           (dxf_of [sample_profile "PERFIL" (Some 3) 400 9600 6000 0 (Some 1.5)])
           (pdf_of [sample_pdf_item "P1" "Perfil IPE 200" (Some 2)])
           "anodizing_natural" "Obra" "2026-01-01"
           (result_of (snd run) true true) E).
Defined.

Lemma quantities_lower (ls : list BudgetLineItem) :
  Forall (fun l => (1 <= quantity l)%Z) ls ->
  (Z.of_nat (List.length ls) <= sum_Z (map quantity ls))%Z.
Proof.
  induction 1 as [| l ls Hl _ IH]; cbn [map List.length].
  - reflexivity.
  - rewrite sum_Z_cons. lia.
Qed.

(** X2.  The production hours a returning run estimates are its labor
    total at the hourly rate: hours times rate gives the labor total back,
    and the lines counted are the lines held, each with a quantity of 1 or
    more, so the total quantity is never below the number of lines. *)
Theorem run_hours_and_counts (self self' : Self) (dxf : DxfData)
  (pdf : PdfData) (st name now : string) (r : BudgetResult) :
  calculate_budget self dxf pdf st name now = (Return r, self') ->
  exists s,
    summary self' = Some s
    /\ estimated_production_hours s * labor_rate_eur_hr (params self)
       == labor_total s
    /\ total_profiles s = List.length (line_items self')
    /\ (1 <= total_profiles s)%nat
    /\ (Z.of_nat (total_profiles s) <= total_quantity s)%Z.
Proof.
  intros Hrun.
  destruct (@run_summary_fields _ _ _ _ _ _ _ _ Hrun)
    as (s & Hs & Hlab & Hn & Hq & _ & _ & _ & _ & _ & _ & Hh).
  exists s. split; [exact Hs |].
  split; [rewrite Hh; field; exact Hlab |].
  split; [exact Hn |].
  assert (Hls : line_items self'
                = line_items (snd (calculate_budget self dxf pdf st name now)))
    by now rewrite Hrun.
  split.
  - rewrite Hn, Hls, run_line_items.
    apply run_returned_lines in Hrun as (_ & _ & Hret).
    pose proof (@priced_lines_nonempty (params self) st 0
                  (fst (correlate_data self dxf pdf))) as Hne.
    pose proof (correlate_data_nonempty self dxf pdf) as Hc.
    pose proof (correlate_data_sources self dxf pdf) as Hsrc.
    assert (Hnil : snd (priced_lines (params self) st 0
                          (fst (correlate_data self dxf pdf))) <> [])
      by (apply Hne; assumption).
    destruct (snd (priced_lines _ _ _ _)); [congruence | cbn; lia].
  - rewrite Hn, Hq.
    pose proof (run_lines_quantity self dxf pdf st name now) as Hall.
    rewrite <- Hls in Hall.
    exact (quantities_lower Hall).
Qed.

(** X2 at a run on one drawn profile. *)
Lemma run_hours_and_counts_witness :
  let run :=
    calculate_budget (__init__ None)
      (dxf_of [sample_profile "PERFIL" (Some 3) 400 9600 6000 0 (Some 1.5)])
      no_pdf "anodizing_natural" "Obra" "2026-01-01" in
  exists s,
    summary (snd run) = Some s
    /\ estimated_production_hours s * labor_rate_eur_hr default_params
       == labor_total s
    /\ total_profiles s = List.length (line_items (snd run))
    /\ (1 <= total_profiles s)%nat
    /\ (Z.of_nat (total_profiles s) <= total_quantity s)%Z.
Proof.
  intro run.
  assert (E : run = (Return (result_of (snd run) true false), snd run))
    by (vm_compute; reflexivity).
  exact (@run_hours_and_counts (__init__ None) (snd run)
           (dxf_of [sample_profile "PERFIL" (Some 3) 400 9600 6000 0 (Some 1.5)])
           no_pdf "anodizing_natural" "Obra" "2026-01-01"
           (result_of (snd run) true false) E).
Defined.

(** ** Further properties: from the correlations to the lines *)

Lemma line_costs_identity (p : PricingParameters) (line line' : BudgetLineItem)
  (st : string) :
  _calculate_line_costs p line st = Return line' -> same_identity line' line.
Proof.
  unfold _calculate_line_costs, _try_calculate_from_cost_db, same_identity.
  assert (F : formula_costs p line st = Return line' -> same_identity line' line).
  { unfold formula_costs.
    destruct (py_div _ (eur_to_usd p)) as [price | e]; [| discriminate].
    cbn [bind]. intros [= <-]. unfold estimate_weight, same_identity.
    repeat match goal with
           | |- context [if ?b then _ else _] => destruct b
           end; cbn; repeat split; reflexivity. }
  destruct (find_profile_name (search_terms line)) as [n |]; [| exact F].
  destruct (CostDatabase.find_profile n) as [s |]; [| exact F].
  intros [= <-]. cbn. repeat split; reflexivity.
Qed.

(** When every correlation has a source and the loop returns, the lines
    are the priced lines of the correlations, one for one and in order,
    numbered from [id + 1]. *)
Lemma priced_lines_nth (p : PricingParameters) (st : string)
  (cs : list Correlation) :
  Forall (fun c => has_source c = true) cs ->
  forall id,
  fst (priced_lines p st id cs) = Return tt ->
  List.length (snd (priced_lines p st id cs)) = List.length cs
  /\ forall k c,
       nth_error cs k = Some c ->
       exists line l,
         new_line c (id + Z.of_nat k + 1) st = Some line
         /\ _calculate_line_costs p line st = Return l
         /\ nth_error (snd (priced_lines p st id cs)) k = Some l.
Proof.
  induction 1 as [| c r Hc _ IH]; intros id; cbn [priced_lines].
  - intros _. split; [reflexivity |]. intros [| k] c; discriminate.
  - destruct (new_line_some c (id + 1) st Hc) as (line & En). rewrite En.
    destruct (_calculate_line_costs p line st) as [l | e] eqn:Ec;
      [| discriminate].
    specialize (IH (id + 1)%Z).
    destruct (priced_lines p st (id + 1) r) as [res ls]. cbn [fst snd] in *.
    intros Hres. destruct (IH Hres) as (Hlen & Hnth).
    split; [cbn; now rewrite Hlen |].
    intros [| k] c0 Hk; cbn in Hk.
    + injection Hk as <-. exists line, l.
      replace (id + Z.of_nat 0 + 1)%Z with (id + 1)%Z by lia. auto.
    + destruct (Hnth k c0 Hk) as (line0 & l0 & H1 & H2 & H3).
      exists line0, l0.
      replace (id + Z.of_nat (S k) + 1)%Z with (id + 1 + Z.of_nat k + 1)%Z by lia.
      auto.
Qed.

Lemma new_line_id (c : Correlation) (id : Z) (st : string)
  (line : BudgetLineItem) :
  new_line c id st = Some line -> line_id line = id.
Proof.
  destruct c as [dp mq it conf meth src specs].
  unfold new_line, apply_pdf_length, apply_geometry. cbn.
  destruct dp as [dp |], mq as [mq |], it as [it |]; intros [= <-];
    repeat match goal with
           | |- context [if ?b then _ else _] => destruct b
           end; reflexivity.
Qed.

(** The lines of a returning run, against the correlations of the call. *)
Lemma run_lines_nth (self self' : Self) (dxf : DxfData) (pdf : PdfData)
  (st name now : string) (r : BudgetResult) :
  calculate_budget self dxf pdf st name now = (Return r, self') ->
  List.length (line_items self')
  = List.length (fst (correlate_data self dxf pdf))
  /\ forall k c,
       nth_error (fst (correlate_data self dxf pdf)) k = Some c ->
       exists line l,
         new_line c (Z.of_nat k + 1) st = Some line
         /\ _calculate_line_costs (params self) line st = Return l
         /\ nth_error (line_items self') k = Some l.
Proof.
  intros Hrun.
  assert (Hls : line_items self'
                = line_items (snd (calculate_budget self dxf pdf st name now)))
    by now rewrite Hrun.
  rewrite Hls, run_line_items.
  apply run_returned_lines in Hrun as (_ & _ & Hret).
  exact (@priced_lines_nth (params self) st _
           (correlate_data_sources self dxf pdf) 0%Z Hret).
Qed.

(** X3.  A returning run holds exactly one line per correlation, in the
    order of the correlations; the line at position k is numbered k + 1
    and carries the quantity source, the method and the confidence of its
    correlation. *)
Theorem lines_follow_correlations (self self' : Self) (dxf : DxfData)
  (pdf : PdfData) (st name now : string) (r : BudgetResult) :
  calculate_budget self dxf pdf st name now = (Return r, self') ->
  List.length (line_items self')
  = List.length (fst (correlate_data self dxf pdf))
  /\ forall k c,
       nth_error (fst (correlate_data self dxf pdf)) k = Some c ->
       exists l,
         nth_error (line_items self') k = Some l
         /\ line_id l = (Z.of_nat k + 1)%Z
         /\ quantity_source l = co_quantity_source c
         /\ correlation_method l = co_correlation_method c
         /\ correlation_confidence l = co_correlation_confidence c.
Proof.
  intros Hrun. apply run_lines_nth in Hrun as (Hlen & Hnth).
  split; [exact Hlen |].
  intros k c Hk. destruct (Hnth k c Hk) as (line & l & Hn & Hc & Hl).
  exists l. split; [exact Hl |].
  destruct (@line_costs_identity _ _ _ _ Hc)
    as (Eid & _ & _ & _ & Esrc & _ & _ & _ & _ & _ & _ & _ & _ & _ & Econf & Emeth).
  rewrite Eid, Esrc, Econf, Emeth.
  split; [exact (@new_line_id _ _ _ _ Hn) |].
  apply new_line_provenance in Hn as (_ & E1 & E2 & E3). auto.
Qed.

(** X3 at a run on two rows of the bill of materials. *)
Lemma lines_follow_correlations_witness :
  let dxf := no_dxf in
  let pdf := pdf_of [sample_pdf_item "A1" "Perfil IPE 200" (Some 2);
                     sample_pdf_item "A2" "Calha" None] in
  let run :=
    calculate_budget (__init__ None) dxf pdf "none" "Obra" "2026-01-01" in
  List.length (line_items (snd run))
  = List.length (fst (correlate_data (__init__ None) dxf pdf))
  /\ forall k c,
       nth_error (fst (correlate_data (__init__ None) dxf pdf)) k = Some c ->
       exists l,
         nth_error (line_items (snd run)) k = Some l
         /\ line_id l = (Z.of_nat k + 1)%Z
         /\ quantity_source l = co_quantity_source c
         /\ correlation_method l = co_correlation_method c
         /\ correlation_confidence l = co_correlation_confidence c.
Proof.
  intros dxf pdf run.
  assert (E : run = (Return (result_of (snd run) false true), snd run))
    by (vm_compute; reflexivity).
  exact (@lines_follow_correlations (__init__ None) (snd run) dxf pdf "none" "Obra"
           "2026-01-01" (result_of (snd run) false true) E).
Defined.

Lemma int_of_Z (z : Z) : PyNum.int (inject_Z z) = z.
Proof. unfold PyNum.int. cbn. apply Z.quot_1_r. Qed.

Lemma correlate_data_rows (self : Self) (dxf : DxfData) (pdf : PdfData) :
  has_dxf_of dxf = false -> pdf_success pdf = true -> pdf_bom_items pdf <> [] ->
  fst (correlate_data self dxf pdf) = map pdf_only_correlation (pdf_bom_items pdf).
Proof.
  intros Hd Hs Hn. unfold correlate_data. fold (has_dxf_of dxf).
  rewrite Hd, Hs. destruct (pdf_bom_items pdf) as [| it its]; [congruence |].
  reflexivity.
Qed.

(** X4.  With no usable geometry and a bill of materials that succeeded
    with at least one row, a returning run holds one line per row, in row
    order: numbered from 1, with the reference and the description of the
    row, the integer part of its quantity (1 when absent) floored at 1,
    the length of the row (0 when absent), quantity source 'pdf', method
    'pdf_only' and confidence 0.5.  The material, the finish and the
    thickness of the row are not carried over: the line has no material
    and no thickness, and its finish is that of the treatment code. *)
Theorem specification_rows_become_lines (self self' : Self) (dxf : DxfData)
  (pdf : PdfData) (st name now : string) (r : BudgetResult) :
  has_dxf_of dxf = false -> pdf_success pdf = true -> pdf_bom_items pdf <> [] ->
  calculate_budget self dxf pdf st name now = (Return r, self') ->
  List.length (line_items self') = List.length (pdf_bom_items pdf)
  /\ forall k it,
       nth_error (pdf_bom_items pdf) k = Some it ->
       exists l,
         nth_error (line_items self') k = Some l
         /\ line_id l = (Z.of_nat k + 1)%Z
         /\ reference l = pi_reference it
         /\ description l = pi_description it
         /\ quantity l = Z.max 1 (PyNum.int (opt_default (pi_quantity it) 1))
         /\ quantity_source l = "pdf" /\ specs_source l = "pdf"
         /\ correlation_method l = "pdf_only"
         /\ correlation_confidence l = 0.5
         /\ profile_id l = None
         /\ material l = None /\ thickness_mm l = None
         /\ finish l = Some (_treatment_to_finish st).
Proof.
  intros Hd Hs Hn Hrun. apply run_lines_nth in Hrun as (Hlen & Hnth).
  rewrite (@correlate_data_rows self dxf pdf Hd Hs Hn) in Hlen, Hnth.
  rewrite length_map in Hlen. split; [exact Hlen |].
  intros k it Hk.
  destruct (Hnth k (pdf_only_correlation it)) as (line & l & Hl & Hc & Hk').
  { rewrite nth_error_map, Hk. reflexivity. }
  exists l. split; [exact Hk' |].
  destruct (@line_costs_identity _ _ _ _ Hc)
    as (E1 & E2 & E3 & E4 & E5 & E6 & E7 & _ & _ & _ & _ & E8 & E9 & E10 & E11 & E12).
  rewrite E1, E2, E3, E4, E5, E6, E7, E8, E9, E10, E11, E12.
  unfold new_line in Hl. cbn in Hl.
  unfold apply_pdf_length in Hl. cbn in Hl.
  destruct (PyNum.eqb 0 0); injection Hl as <-; cbn;
    rewrite int_of_Z; repeat split; reflexivity.
Qed.

(** X4 at a run on two rows, the first with a fractional quantity and a
    material of its own. *)
Lemma specification_rows_become_lines_witness :
  let pdf :=
    pdf_of [ {| pi_reference := "A1"; pi_description := "Perfil IPE 200";
                pi_quantity := Some 2.7; pi_length_mm := Some 6000;
                pi_material := Some "6063-T5"; pi_finish := Some "Anodizado";
                pi_thickness_mm := Some 3; pi_notes := None |};
             sample_pdf_item "A2" "Calha" None ] in
  let run :=
    calculate_budget (__init__ None) no_dxf pdf "none" "Obra" "2026-01-01" in
  List.length (line_items (snd run)) = List.length (pdf_bom_items pdf)
  /\ forall k it,
       nth_error (pdf_bom_items pdf) k = Some it ->
       exists l,
         nth_error (line_items (snd run)) k = Some l
         /\ line_id l = (Z.of_nat k + 1)%Z
         /\ reference l = pi_reference it
         /\ description l = pi_description it
         /\ quantity l = Z.max 1 (PyNum.int (opt_default (pi_quantity it) 1))
         /\ quantity_source l = "pdf" /\ specs_source l = "pdf"
         /\ correlation_method l = "pdf_only"
         /\ correlation_confidence l = 0.5
         /\ profile_id l = None
         /\ material l = None /\ thickness_mm l = None
         /\ finish l = Some (_treatment_to_finish "none").
Proof.
  intros pdf run.
  assert (E : run = (Return (result_of (snd run) false true), snd run))
    by (vm_compute; reflexivity).
  refine (@specification_rows_become_lines (__init__ None) (snd run) no_dxf pdf
            "none" "Obra" "2026-01-01" (result_of (snd run) false true)
            _ _ _ E); [reflexivity | reflexivity | discriminate].
Defined.

Lemma correlate_data_geometry (self : Self) (dxf : DxfData) (pdf : PdfData) :
  has_dxf_of dxf = true ->
  fst (correlate_data self dxf pdf) =
  (map (fun profile =>
          _correlate_profile_with_pdf profile
            (_build_pdf_lookup (pdf_bom_items pdf))
            (_index_constraints (pdf_constraints pdf)))
       (dxf_profiles dxf)
   ++ map (fun mq =>
             _create_material_correlation mq
               (_build_pdf_lookup (pdf_bom_items pdf))
               (_index_constraints (pdf_constraints pdf)))
        (filter (fun mq => String.eqb (mq_source mq) "block_count")
           (dxf_material_quantities dxf)))%list.
Proof.
  intros Hd.
  destruct (correlate_data_cases self dxf pdf)
    as [(_ & _ & E) | [(Hd' & _) | (Hd' & _)]]; [exact E | |]; congruence.
Qed.

(** X5.  With usable geometry, a returning run holds one line per drawn
    profile, in drawing order, followed by one line per block-count
    aggregate.  The line of a profile is numbered by its position and keeps
    the identifier, the area, the complexity score (1 when absent), the
    entity type and the number of hole features of the profile; its
    reference is the layer, or the identifier when the layer is empty, and
    its quantity is the integer part of the drawn quantity (1 when absent)
    floored at 1.  The line of an aggregate takes the reference, the
    description ('Bloco DXF' when absent), the unit area and the quantity
    of the aggregate, with method 'block_count'. *)
Theorem geometry_becomes_lines (self self' : Self) (dxf : DxfData)
  (pdf : PdfData) (st name now : string) (r : BudgetResult) :
  has_dxf_of dxf = true ->
  calculate_budget self dxf pdf st name now = (Return r, self') ->
  let blocks :=
    filter (fun mq => String.eqb (mq_source mq) "block_count")
      (dxf_material_quantities dxf) in
  List.length (line_items self')
  = (List.length (dxf_profiles dxf) + List.length blocks)%nat
  /\ (forall k dp,
        nth_error (dxf_profiles dxf) k = Some dp ->
        exists l,
          nth_error (line_items self') k = Some l
          /\ line_id l = (Z.of_nat k + 1)%Z
          /\ profile_id l = dp_profile_id dp
          /\ reference l =
             (if PyStr.truthy (dp_layer dp) then dp_layer dp
              else str_or_empty (dp_profile_id dp))
          /\ description l =
             opt_default (dp_entity_type dp) "Perfil" ++ " - " ++ dp_layer dp
          /\ quantity l = Z.max 1 (PyNum.int (opt_default (dp_quantity dp) 1))
          /\ area_mm2 l = dp_area_mm2 dp
          /\ complexity_score l = opt_default (dp_complexity_score dp) 1.0
          /\ entity_type l = str_or_empty (dp_entity_type dp)
          /\ holes_count l = List.length (filter is_hole (dp_features dp)))
  /\ (forall k mq,
        nth_error blocks k = Some mq ->
        exists l,
          nth_error (line_items self') (List.length (dxf_profiles dxf) + k)
          = Some l
          /\ line_id l = (Z.of_nat (List.length (dxf_profiles dxf) + k) + 1)%Z
          /\ profile_id l = None
          /\ reference l = mq_profile_reference mq
          /\ description l = opt_default (mq_description mq) "Bloco DXF"
          /\ quantity l = Z.max 1 (PyNum.int (opt_default (mq_quantity mq) 1))
          /\ area_mm2 l = mq_unit_area_mm2 mq
          /\ correlation_method l = "block_count").
Proof.
  intros Hd Hrun blocks. apply run_lines_nth in Hrun as (Hlen & Hnth).
  rewrite (@correlate_data_geometry self dxf pdf Hd) in Hlen, Hnth.
  fold blocks in Hlen, Hnth.
  rewrite length_app, !length_map in Hlen. split; [exact Hlen |].
  set (lookup := _build_pdf_lookup (pdf_bom_items pdf)) in *.
  set (constraints := _index_constraints (pdf_constraints pdf)) in *.
  split.
  - intros k dp Hk.
    destruct (Hnth k (_correlate_profile_with_pdf dp lookup constraints))
      as (line & l & Hl & Hc & Hk').
    { rewrite nth_error_app1
        by (rewrite length_map; apply nth_error_Some; congruence).
      rewrite nth_error_map, Hk. reflexivity. }
    exists l. split; [exact Hk' |].
    destruct (@line_costs_identity _ _ _ _ Hc)
      as (E1 & E2 & E3 & E4 & _ & _ & E7 & E8 & E9 & E10 & E11 & _).
    rewrite E1, E2, E3, E4, E7, E8, E9, E10, E11.
    destruct (correlate_profile_shape dp lookup constraints)
      as (m & conf & meth & E).
    rewrite E in Hl. unfold new_line, apply_pdf_length, apply_geometry in Hl.
    cbn in Hl.
    destruct m; repeat match type of Hl with
           | context [if ?b then _ else _] => destruct b
           end; injection Hl as <-; cbn; repeat split; reflexivity.
  - intros k mq Hk.
    destruct (Hnth (List.length (dxf_profiles dxf) + k)%nat
                (_create_material_correlation mq lookup constraints))
      as (line & l & Hl & Hc & Hk').
    { rewrite nth_error_app2 by (rewrite length_map; lia).
      rewrite length_map.
      replace (List.length (dxf_profiles dxf) + k - List.length (dxf_profiles dxf))%nat
        with k by lia.
      rewrite nth_error_map, Hk. reflexivity. }
    exists l. split; [exact Hk' |].
    destruct (@line_costs_identity _ _ _ _ Hc)
      as (E1 & E2 & E3 & E4 & _ & _ & E7 & E8 & _ & _ & _ & _ & _ & _ & _ & E12).
    rewrite E1, E2, E3, E4, E7, E8, E12.
    unfold new_line, apply_pdf_length, apply_geometry,
      _create_material_correlation in Hl.
    cbn in Hl.
    destruct (Dict.get _ _); repeat match type of Hl with
           | context [if ?b then _ else _] => destruct b
           end; injection Hl as <-; cbn; repeat split; reflexivity.
Qed.

(** X5 at a run on two drawn profiles and one block-count aggregate. *)
Lemma geometry_becomes_lines_witness :
  let dxf :=
    {| dxf_success := true;
       dxf_profiles :=
         [sample_profile "PERFIL" (Some 3) 400 9600 6000 0 (Some 1.5);
          sample_profile "" None 200 0 0 0 None];
       dxf_material_quantities :=
         [ {| mq_source := "block_count"; mq_profile_reference := "B1";
              mq_quantity := Some 4; mq_description := None;
              mq_unit_length_mm := 1200; mq_unit_area_mm2 := 300 |};
           {| mq_source := "layer_sum"; mq_profile_reference := "B2";
              mq_quantity := Some 9; mq_description := None;
              mq_unit_length_mm := 10; mq_unit_area_mm2 := 10 |} ] |} in
  let run :=
    calculate_budget (__init__ None) dxf no_pdf "none" "Obra" "2026-01-01" in
  let blocks :=
    filter (fun mq => String.eqb (mq_source mq) "block_count")
      (dxf_material_quantities dxf) in
  List.length (line_items (snd run))
  = (List.length (dxf_profiles dxf) + List.length blocks)%nat
  /\ (forall k dp,
        nth_error (dxf_profiles dxf) k = Some dp ->
        exists l,
          nth_error (line_items (snd run)) k = Some l
          /\ line_id l = (Z.of_nat k + 1)%Z
          /\ profile_id l = dp_profile_id dp
          /\ reference l =
             (if PyStr.truthy (dp_layer dp) then dp_layer dp
              else str_or_empty (dp_profile_id dp))
          /\ description l =
             opt_default (dp_entity_type dp) "Perfil" ++ " - " ++ dp_layer dp
          /\ quantity l = Z.max 1 (PyNum.int (opt_default (dp_quantity dp) 1))
          /\ area_mm2 l = dp_area_mm2 dp
          /\ complexity_score l = opt_default (dp_complexity_score dp) 1.0
          /\ entity_type l = str_or_empty (dp_entity_type dp)
          /\ holes_count l = List.length (filter is_hole (dp_features dp)))
  /\ (forall k mq,
        nth_error blocks k = Some mq ->
        exists l,
          nth_error (line_items (snd run)) (List.length (dxf_profiles dxf) + k)
          = Some l
          /\ line_id l = (Z.of_nat (List.length (dxf_profiles dxf) + k) + 1)%Z
          /\ profile_id l = None
          /\ reference l = mq_profile_reference mq
          /\ description l = opt_default (mq_description mq) "Bloco DXF"
          /\ quantity l = Z.max 1 (PyNum.int (opt_default (mq_quantity mq) 1))
          /\ area_mm2 l = mq_unit_area_mm2 mq
          /\ correlation_method l = "block_count").
Proof.
  intros dxf run.
  assert (E : run = (Return (result_of (snd run) true false), snd run))
    by (vm_compute; reflexivity).
  refine (@geometry_becomes_lines (__init__ None) (snd run) dxf no_pdf
            "none" "Obra" "2026-01-01" (result_of (snd run) true false) _ E).
  reflexivity.
Defined.

(** ** Further properties: the indexes of the correlator *)

Lemma dict_get_set_same {V : Type} (k : string) (v : V) (d : Dict.t V) :
  Dict.get k (Dict.set k v d) = Some v.
Proof.
  induction d as [| [k' v'] d IH]; cbn.
  - now rewrite String.eqb_refl.
  - destruct (String.eqb k k') eqn:E; cbn; rewrite E; [reflexivity | exact IH].
Qed.

Lemma dict_get_set_other {V : Type} (k k' : string) (v : V) (d : Dict.t V) :
  String.eqb k' k = false -> Dict.get k' (Dict.set k v d) = Dict.get k' d.
Proof.
  intros Hk. induction d as [| [k0 v0] d IH]; cbn.
  - now rewrite Hk.
  - destruct (String.eqb k k0) eqn:E; cbn.
    + apply String.eqb_eq in E. subst k0. now rewrite Hk.
    + rewrite IH. reflexivity.
Qed.

Lemma dict_get_set {V : Type} (k k' : string) (v : V) (d : Dict.t V) :
  Dict.get k' (Dict.set k v d)
  = if String.eqb k' k then Some v else Dict.get k' d.
Proof.
  destruct (String.eqb k' k) eqn:E.
  - apply String.eqb_eq in E. subst. apply dict_get_set_same.
  - now apply dict_get_set_other.
Qed.

Lemma dict_set_keys {V : Type} (k : string) (v : V) (d : Dict.t V) :
  map fst (Dict.set k v d)
  = if Dict.mem k d then map fst d else (map fst d ++ [k])%list.
Proof.
  unfold Dict.mem. induction d as [| [k' v'] d IH]; cbn; [reflexivity |].
  destruct (String.eqb k k') eqn:E; cbn; [reflexivity |].
  rewrite IH. destruct (Dict.get k d); reflexivity.
Qed.

Lemma dict_get_none {V : Type} (k : string) (d : Dict.t V) :
  Dict.get k d = None -> ~ In k (map fst d).
Proof.
  induction d as [| [k' v'] d IH]; cbn; [tauto |].
  destruct (String.eqb k k') eqn:E; [discriminate |].
  intros H [H' | H']; [| exact (IH H H')].
  subst. rewrite String.eqb_refl in E. discriminate.
Qed.

Lemma dict_set_nodup {V : Type} (k : string) (v : V) (d : Dict.t V) :
  NoDup (map fst d) -> NoDup (map fst (Dict.set k v d)).
Proof.
  intros H. rewrite dict_set_keys. unfold Dict.mem.
  destruct (Dict.get k d) eqn:E; [exact H |].
  apply NoDup_app.
  - exact H.
  - repeat constructor. intros [].
  - intros a Ha [<- | []]. exact (dict_get_none _ _ E Ha).
Qed.

Lemma index_constraints_from (k : string) (cs : list Constraint)
  (d : Dict.t (list Constraint)) :
  group_items k
    (fold_left (fun indexed c => dict_append (constraint_key c) c indexed) cs d)
  = (group_items k d
     ++ filter (fun c => String.eqb (constraint_key c) k) cs)%list.
Proof.
  revert d. induction cs as [| c cs IH]; intros d; cbn [fold_left filter].
  - now rewrite app_nil_r.
  - rewrite IH. unfold group_items, dict_append.
    destruct (Dict.get (constraint_key c) d) as [l |] eqn:E;
      rewrite dict_get_set; rewrite (String.eqb_sym k);
      destruct (String.eqb (constraint_key c) k) eqn:Ek.
    + apply String.eqb_eq in Ek. subst k. rewrite E.
      now rewrite <- app_assoc.
    + reflexivity.
    + apply String.eqb_eq in Ek. subst k. rewrite E. reflexivity.
    + reflexivity.
Qed.

Lemma index_constraints_nodup (cs : list Constraint)
  (d : Dict.t (list Constraint)) :
  NoDup (map fst d) ->
  NoDup (map fst
           (fold_left (fun indexed c => dict_append (constraint_key c) c indexed)
              cs d)).
Proof.
  revert d. induction cs as [| c cs IH]; intros d Hd; cbn [fold_left];
    [exact Hd |].
  apply IH. unfold dict_append.
  destruct (Dict.get (constraint_key c) d); now apply dict_set_nodup.
Qed.

(** X6.  [_index_constraints] files every constraint under its type
    ('other' when it has none): the group of a type is the constraints of
    that type in their original order, a type with no constraint has no
    group, and no type is listed twice. *)
Theorem index_constraints_groups (cs : list Constraint) (k : string) :
  Dict.get k (_index_constraints cs)
  = match filter (fun c => String.eqb (constraint_key c) k) cs with
    | [] => None
    | l => Some l
    end
  /\ NoDup (map fst (_index_constraints cs)).
Proof.
  split; [| apply index_constraints_nodup; constructor].
  pose proof (index_constraints_from k cs []) as H.
  fold (_index_constraints cs) in H. unfold group_items in H. cbn in H.
  assert (G : forall d,
             Dict.get k d = None \/
             (exists c l, Dict.get k d = Some (c :: l)) ->
             let d' := fold_left
                         (fun indexed c => dict_append (constraint_key c) c indexed)
                         cs d in
             Dict.get k d' = None \/ exists c l, Dict.get k d' = Some (c :: l)).
  { clear H. induction cs as [| c cs IH]; intros d Hd; cbn [fold_left];
      [exact Hd |].
    apply IH. unfold dict_append.
    destruct (Dict.get (constraint_key c) d) as [l |] eqn:E;
      rewrite dict_get_set;
      destruct (String.eqb k (constraint_key c)) eqn:Ek; auto.
    - right. destruct l; cbn; eauto.
    - right. eauto. }
  specialize (G [] (or_introl eq_refl)). cbv zeta in G.
  fold (_index_constraints cs) in G.
  destruct G as [G | (c & l & G)]; rewrite G in H; rewrite <- H; exact G.
Qed.

Lemma find_app_first {A : Type} (f : A -> bool) (l1 l2 : list A) :
  find f (l1 ++ l2)
  = match find f l1 with Some a => Some a | None => find f l2 end.
Proof.
  induction l1 as [| a l1 IH]; cbn; [reflexivity |].
  destruct (f a); [reflexivity | exact IH].
Qed.

Lemma find_last_cons {A : Type} (f : A -> bool) (x : A) (l : list A) :
  find_last f (x :: l)
  = match find_last f l with
    | Some a => Some a
    | None => if f x then Some x else None
    end.
Proof. unfold find_last. cbn [rev]. rewrite find_app_first. reflexivity. Qed.

Lemma index_pdf_item_reference (lookup : PdfLookup) (item : PdfItem)
  (k : string) :
  Dict.get k (by_reference (index_pdf_item lookup item))
  = if existsb (String.eqb k) (reference_keys item) then Some item
    else Dict.get k (by_reference lookup).
Proof.
  unfold index_pdf_item, reference_keys. cbn [by_reference].
  destruct (PyStr.truthy (PyStr.strip (PyStr.upper (pi_reference item))));
    [| reflexivity].
  rewrite !dict_get_set. cbn [existsb]. rewrite orb_false_r.
  destruct (String.eqb k (PyStr.strip (PyStr.upper (pi_reference item))));
    destruct (String.eqb k _); reflexivity.
Qed.

Lemma index_pdf_item_description (lookup : PdfLookup) (item : PdfItem)
  (k : string) :
  Dict.get k (by_description (index_pdf_item lookup item))
  = if existsb (String.eqb k) (description_keys item) then Some item
    else Dict.get k (by_description lookup).
Proof.
  unfold index_pdf_item, description_keys. cbn [by_description].
  destruct (PyStr.truthy (PyStr.strip (PyStr.lower (pi_description item))));
    [| reflexivity].
  rewrite dict_get_set. cbn [existsb]. rewrite orb_false_r. reflexivity.
Qed.

Lemma build_lookup_from (rows : list PdfItem) (k : string) (lookup : PdfLookup) :
  let final := fold_left index_pdf_item rows lookup in
  Dict.get k (by_reference final)
  = match find_last (fun it => existsb (String.eqb k) (reference_keys it)) rows with
    | Some it => Some it
    | None => Dict.get k (by_reference lookup)
    end
  /\ Dict.get k (by_description final)
     = match find_last (fun it => existsb (String.eqb k) (description_keys it))
               rows with
       | Some it => Some it
       | None => Dict.get k (by_description lookup)
       end
  /\ all_items final = all_items lookup.
Proof.
  revert lookup. induction rows as [| x rows IH]; intros lookup; cbn [fold_left].
  - cbn. auto.
  - destruct (IH (index_pdf_item lookup x)) as (H1 & H2 & H3).
    cbv zeta. rewrite H1, H2, H3, !find_last_cons.
    rewrite index_pdf_item_reference, index_pdf_item_description.
    split; [| split]; [| | reflexivity].
    + match goal with
      | |- context [find_last ?f rows] => destruct (find_last f rows)
      end; [reflexivity |].
      destruct (existsb _ (reference_keys x)); reflexivity.
    + match goal with
      | |- context [find_last ?f rows] => destruct (find_last f rows)
      end; [reflexivity |].
      destruct (existsb _ (description_keys x)); reflexivity.
Qed.

(** X7.  In the indexes [_build_pdf_lookup] builds, a key leads to the
    last row filed under it: for the reference index the rows whose
    reference (in capitals, stripped), with or without separators, is the
    key; for the description index the rows whose description (in small
    letters, stripped) starts with the key of 30 characters.  A key no row
    is filed under is absent, and the rows themselves are kept as given. *)
Theorem lookup_last_row_wins (rows : list PdfItem) (k : string) :
  Dict.get k (by_reference (_build_pdf_lookup rows))
  = find_last (fun it => existsb (String.eqb k) (reference_keys it)) rows
  /\ Dict.get k (by_description (_build_pdf_lookup rows))
     = find_last (fun it => existsb (String.eqb k) (description_keys it)) rows
  /\ all_items (_build_pdf_lookup rows) = rows.
Proof.
  unfold _build_pdf_lookup.
  destruct (build_lookup_from rows k
              {| by_reference := []; by_description := []; all_items := rows |})
    as (H1 & H2 & H3).
  rewrite H1, H2, H3. cbn.
  split; [| split]; [| | reflexivity].
  - match goal with
    | |- context [find_last ?f rows] => destruct (find_last f rows)
    end; reflexivity.
  - match goal with
    | |- context [find_last ?f rows] => destruct (find_last f rows)
    end; reflexivity.
Qed.

(** ** Further properties: matching a profile with the rows *)

Lemma match_profile_id_find (pid : string) (refs : Dict.t PdfItem) :
  match_profile_id pid refs
  = option_map snd
      (find (fun entry => PyStr.str_in (fst entry) pid
                          || PyStr.str_in pid (fst entry)) refs).
Proof.
  induction refs as [| [ref item] r IH]; [reflexivity |].
  cbn [match_profile_id find fst].
  destruct (PyStr.str_in ref pid || PyStr.str_in pid ref); [reflexivity | exact IH].
Qed.

(** X8.  The correlation of a drawn profile is fixed by three searches,
    tried in this order.  [by_layer]: the upper-cased layer looked up as a
    key of the reference index.  [by_id]: the first entry of the reference
    index, in insertion order, whose key contains the upper-cased profile
    identifier or is contained in it.  [by_hint]: when the profile has a
    non-empty material hint, the first row, in the order given, whose
    lower-cased description contains the lower-cased hint.  The first
    search that finds a row decides the row, the method and the
    confidence: 'layer_to_reference' with 0.9, 'profile_id_match' with
    0.8, 'material_hint' with 0.6; when none finds a row there is no row,
    the method is 'none' and the confidence 0.  The correlation keeps the
    profile, has no material quantity, takes its quantities from the
    geometry, and its specifications are those extracted from the row
    found and the constraints.  A row found is always one of the rows
    given. *)
Theorem profile_match_grades (profile : DxfProfile) (rows : list PdfItem)
  (constraints : Dict.t (list Constraint)) :
  let lookup := _build_pdf_lookup rows in
  let c := _correlate_profile_with_pdf profile lookup constraints in
  let pid := PyStr.upper (str_or_empty (dp_profile_id profile)) in
  let hint := PyStr.lower (str_or_empty (dp_material_hint profile)) in
  let by_layer :=
    Dict.get (PyStr.upper (dp_layer profile)) (by_reference lookup) in
  let by_id :=
    option_map snd
      (find (fun entry => PyStr.str_in (fst entry) pid
                          || PyStr.str_in pid (fst entry))
         (by_reference lookup)) in
  let by_hint :=
    if opt_truthy (dp_material_hint profile)
    then find (fun item => PyStr.str_in hint (PyStr.lower (pi_description item)))
           rows
    else None in
  co_dxf_profile c = Some profile
  /\ co_material_quantity c = None
  /\ co_quantity_source c = "dxf"
  /\ co_specifications c
     = Some (_extract_specifications (co_pdf_item c) constraints)
  /\ (co_pdf_item c, co_correlation_method c, co_correlation_confidence c)
     = match by_layer, by_id, by_hint with
       | Some it, _, _ => (Some it, "layer_to_reference", 0.9)
       | None, Some it, _ => (Some it, "profile_id_match", 0.8)
       | None, None, Some it => (Some it, "material_hint", 0.6)
       | None, None, None => (None, "none", 0.0)
       end
  /\ match co_pdf_item c with
     | Some it => In it rows
     | None => True
     end.
Proof.
  intros lookup c pid hint by_layer by_id by_hint.
  pose proof (@matched_item_in profile rows constraints) as Hin.
  fold lookup in Hin. fold c in Hin.
  assert (Hall : all_items lookup = rows).
  { unfold lookup, _build_pdf_lookup.
    destruct (build_lookup_from rows EmptyString
                {| by_reference := []; by_description := []; all_items := rows |})
      as (_ & _ & H3).
    exact H3. }
  assert (Hshape :
    co_dxf_profile c = Some profile
    /\ co_material_quantity c = None
    /\ co_quantity_source c = "dxf"
    /\ co_specifications c
       = Some (_extract_specifications (co_pdf_item c) constraints)
    /\ (co_pdf_item c, co_correlation_method c, co_correlation_confidence c)
       = match by_layer, by_id, by_hint with
         | Some it, _, _ => (Some it, "layer_to_reference", 0.9)
         | None, Some it, _ => (Some it, "profile_id_match", 0.8)
         | None, None, Some it => (Some it, "material_hint", 0.6)
         | None, None, None => (None, "none", 0.0)
         end).
  { unfold c, by_layer, by_id, by_hint, pid, hint, _correlate_profile_with_pdf.
    rewrite match_profile_id_find, Hall. unfold match_material_hint.
    destruct (Dict.get _ (by_reference lookup)) as [it |];
      [cbn; repeat split; reflexivity |].
    destruct (option_map snd _) as [it |];
      [cbn; repeat split; reflexivity |].
    destruct (opt_truthy (dp_material_hint profile));
      [| cbn; repeat split; reflexivity].
    destruct (find _ rows) as [it |]; cbn; repeat split; reflexivity. }
  destruct Hshape as (H1 & H2 & H3 & H4 & H5).
  split; [exact H1 |]. split; [exact H2 |]. split; [exact H3 |].
  split; [exact H4 |]. split; [exact H5 |].
  destruct (co_pdf_item c) as [it |]; [| exact I].
  apply Hin. reflexivity.
Qed.

(** X9.  A profile without an identifier (missing or empty) whose layer
    is not a reference key is matched with the first entry of the
    reference index, whatever that entry is, since the empty text is
    contained in every reference: method 'profile_id_match', confidence
    0.8. *)
Theorem empty_identifier_matches_first_reference (profile : DxfProfile)
  (lookup : PdfLookup) (constraints : Dict.t (list Constraint))
  (ref : string) (item : PdfItem) (rest : Dict.t PdfItem) :
  str_or_empty (dp_profile_id profile) = "" ->
  Dict.get (PyStr.upper (dp_layer profile)) (by_reference lookup) = None ->
  by_reference lookup = (ref, item) :: rest ->
  let c := _correlate_profile_with_pdf profile lookup constraints in
  co_pdf_item c = Some item
  /\ co_correlation_method c = "profile_id_match"
  /\ co_correlation_confidence c = 0.8.
Proof.
  intros Hid Hlayer Hrefs c. unfold c, _correlate_profile_with_pdf.
  rewrite Hlayer, Hid, Hrefs. cbn [PyStr.upper PyStr.map_chars match_profile_id].
  assert (E : PyStr.str_in "" ref = true) by (destruct ref; reflexivity).
  rewrite E, orb_true_r. cbn. repeat split; reflexivity.
Qed.

(** X9 at a profile on layer 'X' with no identifier, against two rows
    that have nothing to do with it. *)
Lemma empty_identifier_matches_first_reference_witness :
  let profile :=
    {| dp_profile_id := None; dp_layer := "X"; dp_material_hint := None;
       dp_quantity := Some 2; dp_entity_type := Some "LWPOLYLINE";
       dp_perimeter_mm := 400; dp_area_mm2 := 9600; dp_length_mm := 6000;
       dp_bounding_box := {| width := 0; height := 0 |};
       dp_weight_kg := 0; dp_complexity_score := None; dp_features := [] |} in
  let first := sample_pdf_item "PORTA-01" "Porta de emergencia" (Some 1) in
  let lookup :=
    _build_pdf_lookup [first; sample_pdf_item "JAN-02" "Janela" (Some 4)] in
  let c := _correlate_profile_with_pdf profile lookup [] in
  co_pdf_item c = Some first
  /\ co_correlation_method c = "profile_id_match"
  /\ co_correlation_confidence c = 0.8.
Proof.
  intros profile first lookup.
  refine (@empty_identifier_matches_first_reference profile lookup []
            "PORTA-01" first (List.tl (by_reference lookup)) _ _ _);
    reflexivity.
Defined.

(** ** Further properties: the fallback of the correlator *)

Lemma map_enumerate_length {A B : Type} (f : nat -> A -> B) (i : nat)
  (l : list A) : List.length (map_enumerate f i l) = List.length l.
Proof. revert i. induction l as [| x l IH]; intros i; cbn; auto. Qed.

Lemma dimension_loop_length (dims : list DimensionSpec) (seen : list string)
  (cs : list Correlation) :
  (List.length cs <= List.length (dimension_loop dims seen cs)
   <= List.length cs + List.length dims)%nat.
Proof.
  revert seen cs. induction dims as [| d dims IH]; intros seen cs; cbn;
    [lia |].
  destruct (PyStr.truthy _ && negb _); [| specialize (IH seen cs); lia].
  destruct (_parse_dimension _) as [len |];
    [| match goal with |- context [dimension_loop dims ?s cs] =>
         specialize (IH s cs); lia end].
  destruct (PyNum.gtb len 50);
    [| match goal with |- context [dimension_loop dims ?s cs] =>
         specialize (IH s cs); lia end].
  match goal with |- context [dimension_loop dims ?s ?c] =>
    specialize (IH s c); rewrite length_app in IH; cbn in IH; lia end.
Qed.

Lemma dimension_loop_long (P : Correlation -> Prop)
  (dims : list DimensionSpec) (seen : list string) (cs : list Correlation) :
  (forall n raw len, 50 < len -> P (dimension_correlation n raw len)) ->
  Forall P cs -> Forall P (dimension_loop dims seen cs).
Proof.
  intros Hd. revert seen cs.
  induction dims as [| d dims IH]; intros seen cs Hcs; cbn; [assumption |].
  destruct (PyStr.truthy _ && negb _); [| auto].
  destruct (_parse_dimension _) as [len |]; [| auto].
  destruct (num_gtb_spec len 50) as [Hlen | Hlen]; [| auto].
  apply IH. apply Forall_app. split; [assumption |]. constructor; auto.
Qed.

Lemma correlate_data_fallback (self : Self) (dxf : DxfData) (pdf : PdfData) :
  has_dxf_of dxf = false ->
  pdf_success pdf = false \/ pdf_bom_items pdf = [] ->
  fst (correlate_data self dxf pdf)
  = fst (_create_fallback_correlations self pdf dxf).
Proof.
  intros Hd Hp. unfold correlate_data. fold (has_dxf_of dxf). rewrite Hd.
  assert (E : pdf_success pdf && Nat.ltb 0 (List.length (pdf_bom_items pdf))
              = false).
  { destruct Hp as [-> | ->]; [reflexivity | apply andb_false_r]. }
  rewrite E. reflexivity.
Qed.

(** X10.  When the geometry is unusable and the bill of materials failed
    or has no row, the correlator synthesizes its correlations from the
    constraints and the dimension texts: at least one (the placeholder
    when nothing else is found) and at most 35 (10 materials, 5
    treatments, 20 dimensions), each with an estimated quantity of 1, no
    geometry, and a confidence between 0.1 and 0.3; a dimension counts
    only above 50 mm.  Every line of the run then has quantity 1 and the
    quantity source 'estimated'. *)
Theorem fallback_is_bounded_and_estimated (self : Self) (dxf : DxfData)
  (pdf : PdfData) (st name now : string) :
  has_dxf_of dxf = false ->
  pdf_success pdf = false \/ pdf_bom_items pdf = [] ->
  let cs := fst (correlate_data self dxf pdf) in
  (1 <= List.length cs <= 35)%nat
  /\ Forall synthesized cs
  /\ Forall (fun l => quantity l = 1%Z /\ quantity_source l = "estimated"
                      /\ specs_source l = "pdf")
       (line_items (snd (calculate_budget self dxf pdf st name now))).
Proof.
  intros Hd Hp cs.
  assert (Hs : Forall synthesized cs).
  { unfold cs. rewrite (@correlate_data_fallback self dxf pdf Hd Hp).
    unfold _create_fallback_correlations. cbn [fst].
    match goal with
    | |- Forall _ (match ?l with _ => _ end) =>
        assert (H : Forall synthesized l);
        [| destruct l; [| exact H]]
    end.
    - apply dimension_loop_long.
      + intros n raw len Hlen. unfold synthesized. cbn.
        repeat split; try lra. eexists. repeat split.
        intros len' [= <-]. exact Hlen.
      + apply Forall_app.
        split; apply map_enumerate_forall; intros i x; unfold synthesized; cbn;
          repeat split; try lra; eexists; repeat split; discriminate.
    - constructor; [| constructor]. unfold synthesized. cbn.
      repeat split; try lra. eexists. repeat split. discriminate. }
  split; [| split; [exact Hs |]].
  - unfold cs. rewrite (@correlate_data_fallback self dxf pdf Hd Hp).
    unfold _create_fallback_correlations. cbn [fst].
    match goal with
    | |- context [dimension_loop ?d ?s ?c] =>
        pose proof (dimension_loop_length d s c) as Hl;
        destruct (dimension_loop d s c) as [| c0 l0] eqn:El
    end; [cbn; lia |].
    rewrite length_app, !map_enumerate_length in Hl.
    pose proof (firstn_le_length 10
                  (group_items "material_grade"
                     (_index_constraints (pdf_constraints pdf)))) as H1.
    pose proof (firstn_le_length 5
                  (group_items "surface_treatment"
                     (_index_constraints (pdf_constraints pdf)))) as H2.
    pose proof (firstn_le_length 20 (pdf_dimension_specs pdf)) as H3.
    pose proof (length_firstn 10
                  (group_items "material_grade"
                     (_index_constraints (pdf_constraints pdf)))) as H4.
    pose proof (length_firstn 5
                  (group_items "surface_treatment"
                     (_index_constraints (pdf_constraints pdf)))) as H5.
    pose proof (length_firstn 20 (pdf_dimension_specs pdf)) as H6.
    cbn [List.length] in *. lia.
  - apply run_lines_forall. intros c id line l Hin Hn Hc.
    fold cs in Hin. rewrite Forall_forall in Hs.
    destruct (Hs c Hin) as (E1 & E2 & E3 & _ & it & E4 & E5 & _).
    destruct (@line_costs_identity _ _ _ _ Hc)
      as (_ & _ & _ & Eq & Esrc & Esp & _).
    rewrite Eq, Esrc, Esp.
    destruct c as [dp mq pit conf meth src specs]. cbn in *. subst.
    unfold new_line in Hn. cbn in Hn. rewrite E5 in Hn.
    unfold apply_pdf_length in Hn. cbn in Hn.
    destruct (PyNum.eqb 0 0); injection Hn as <-; cbn; repeat split;
      reflexivity.
Qed.

(** X10 at a payload with two constraints and three dimension texts. *)
Lemma fallback_is_bounded_and_estimated_witness :
  let cs := fst (correlate_data (__init__ None) no_dxf constraints_only_pdf) in
  (1 <= List.length cs <= 35)%nat
  /\ Forall synthesized cs
  /\ Forall (fun l => quantity l = 1%Z /\ quantity_source l = "estimated"
                      /\ specs_source l = "pdf")
       (line_items
          (snd (calculate_budget (__init__ None) no_dxf constraints_only_pdf
                  "none" "Obra" "2026-01-01"))).
Proof.
  refine (@fallback_is_bounded_and_estimated (__init__ None) no_dxf
            constraints_only_pdf "none" "Obra" "2026-01-01" _ _);
    [reflexivity | right; reflexivity].
Defined.

(** ** Further properties: dimension texts *)

Lemma scan_numbers_started (s : string) (st : scan_state) :
  st <> Idle -> scan_numbers st s <> [].
Proof.
  revert st. induction s as [| c r IH]; intros st Hst; cbn.
  - destruct st; cbn; congruence.
  - destruct (PyStr.is_digit c).
    + destruct st; try congruence; apply IH; discriminate.
    + destruct st as [| n | n | n f k]; try congruence.
      * destruct (is_decimal_mark c); [apply IH; discriminate |].
        cbn. discriminate.
      * cbn. discriminate.
      * cbn. discriminate.
Qed.

Lemma scan_numbers_none (s : string) :
  scan_numbers Idle s = [] <-> has_digit s = false.
Proof.
  induction s as [| c r IH]; cbn; [tauto |].
  destruct (PyStr.is_digit c); cbn.
  - split; [| discriminate].
    intros H. exfalso. revert H. apply scan_numbers_started. discriminate.
  - exact IH.
Qed.

Lemma digit_value_nonneg (c : ascii) :
  PyStr.is_digit c = true -> (0 <= digit_value c)%Z.
Proof.
  unfold PyStr.is_digit, digit_value. intros H.
  apply andb_prop in H as [H _]. apply N.leb_le in H. lia.
Qed.

Lemma number_value_nonneg (n f : Z) (k : nat) :
  (0 <= n)%Z -> (0 <= f)%Z -> 0 <= number_value n f k.
Proof.
  intros Hn Hf. unfold number_value.
  assert (H1 : 0 <= inject_Z n) by (unfold Qle; cbn; lia).
  assert (H2 : 0 <= inject_Z f) by (unfold Qle; cbn; lia).
  assert (H3 : 0 < inject_Z (10 ^ Z.of_nat k)).
  { unfold Qlt. cbn. pose proof (Z.pow_pos_nonneg 10 (Z.of_nat k)). lia. }
  apply add_nonneg; [assumption |]. apply div_nonneg; assumption.
Qed.

Lemma flush_nonneg (st : scan_state) :
  scan_state_ok st -> Forall (fun x => 0 <= x) (flush st).
Proof.
  destruct st as [| n | n | n f k]; cbn; intros H; repeat constructor.
  - unfold Qle; cbn; lia.
  - unfold Qle; cbn; lia.
  - destruct H. now apply number_value_nonneg.
Qed.

Lemma scan_numbers_nonneg (s : string) (st : scan_state) :
  scan_state_ok st -> Forall (fun x => 0 <= x) (scan_numbers st s).
Proof.
  revert st. induction s as [| c r IH]; intros st Hst; cbn [scan_numbers].
  - now apply flush_nonneg.
  - destruct (PyStr.is_digit c) eqn:Ed.
    + pose proof (digit_value_nonneg c Ed) as Hd.
      destruct st as [| n | n | n f k]; apply IH; unfold scan_state_ok in *;
        lia.
    + assert (G : Forall (fun x => 0 <= x) (flush st ++ scan_numbers Idle r)).
      { apply Forall_app. split; [now apply flush_nonneg | apply IH; exact I]. }
      destruct st as [| n | n | n f k]; try exact G.
      destruct (is_decimal_mark c); [apply IH; exact Hst | exact G].
Qed.

Lemma fold_max_spec (l : list Q) (v : Q) :
  In (fold_left PyNum.max l v) (v :: l)
  /\ Forall (fun x => x <= fold_left PyNum.max l v) (v :: l).
Proof.
  revert v. induction l as [| a l IH]; intros v; cbn [fold_left].
  - split; [now left | constructor; [lra | constructor]].
  - destruct (IH (PyNum.max v a)) as (Hin & Hall).
    inversion Hall as [| ? ? Hm Hl]; subst.
    assert (Hva : v <= PyNum.max v a /\ a <= PyNum.max v a).
    { destruct (max_spec v a) as [[? ->] | [? ->]]; lra. }
    split.
    + destruct Hin as [Hin | Hin]; [| right; now right].
      rewrite <- Hin. unfold PyNum.max.
      destruct (PyNum.ltb v a); [right; now left | now left].
    + constructor; [lra |]. constructor; [lra | exact Hl].
Qed.

(** X11.  [_parse_dimension] finds no length exactly in the texts without
    a digit (the empty text among them); otherwise the length is one of
    the numbers written in the text, the largest of them, and it is never
    negative: a sign before a number is not read. *)
Theorem parse_dimension_largest_number (s : string) :
  (_parse_dimension s = None <-> has_digit s = false)
  /\ forall v,
       _parse_dimension s = Some v ->
       0 <= v
       /\ In v (scan_numbers Idle s)
       /\ Forall (fun x => x <= v) (scan_numbers Idle s).
Proof.
  unfold _parse_dimension. split.
  - destruct s as [| c r]; [cbn; tauto |]. cbn [PyStr.is_empty].
    rewrite <- scan_numbers_none.
    destruct (scan_numbers Idle (String c r)); split; congruence.
  - intros v. destruct (PyStr.is_empty s); [discriminate |].
    pose proof (scan_numbers_nonneg s Idle I) as Hpos.
    destruct (scan_numbers Idle s) as [| x l]; [discriminate |].
    intros [= <-]. destruct (fold_max_spec l x) as (Hin & Hall).
    split; [| split; assumption].
    rewrite Forall_forall in Hpos. apply Hpos. exact Hin.
Qed.

(** ** Further properties: the pricer *)

Lemma treatment_rate_unknown (p : PricingParameters) (st : string) :
  known_treatment st = false ->
  treatment_rate p st = treatment_rate p "powder_coating_standard".
Proof.
  unfold known_treatment. cbn [existsb]. intros H.
  repeat (apply orb_false_elim in H as [? H]).
  unfold treatment_rate.
  repeat match goal with
         | E : String.eqb st ?x = false |- _ => rewrite E; clear E
         end.
  reflexivity.
Qed.

(** X12.  What the surface-treatment code does to the price of a line.
    A code the pricer has no rate for is priced as
    'powder_coating_standard'.  On the formula path the code 'none' gives a
    surface-treatment cost of zero.  On the catalog path the code is not
    read at all: the line gets the painting cost of the catalog entry
    under every code, 'none' included. *)
Theorem treatment_code_effects (p : PricingParameters) (line : BudgetLineItem) :
  (forall st,
     known_treatment st = false ->
     _calculate_line_costs p line st
     = _calculate_line_costs p line "powder_coating_standard")
  /\ (forall l,
        _try_calculate_from_cost_db line = None ->
        _calculate_line_costs p line "none" = Return l ->
        surface_treatment_cost l == 0)
  /\ (forall l st st',
        _try_calculate_from_cost_db line <> None ->
        _calculate_line_costs p line st = Return l ->
        _calculate_line_costs p line st' = Return l
        /\ exists s,
             In s (map snd CostDatabase.steel_profiles)
             /\ surface_treatment_cost l ==
                catalog_length_m line * CostDatabase.area_per_meter s
                * CostDatabase.price_painting s
                * inject_Z (Z.max 1 (quantity line))).
Proof.
  split; [| split].
  - intros st Hst. unfold _calculate_line_costs, formula_costs.
    rewrite (treatment_rate_unknown p st Hst). reflexivity.
  - intros l Hnone. unfold _calculate_line_costs. rewrite Hnone.
    unfold formula_costs.
    destruct (py_div _ (eur_to_usd p)) as [price | e]; [| discriminate].
    cbn [bind]. intros [= <-]. cbn.
    change (treatment_rate p "none") with 0. ring.
  - intros l st st' Hsome. unfold _calculate_line_costs.
    destruct (_try_calculate_from_cost_db line) as [l0 |] eqn:E;
      [| congruence].
    intros [= <-]. split; [reflexivity |].
    unfold _try_calculate_from_cost_db in E.
    destruct (find_profile_name (search_terms line)) as [n |]; [| discriminate].
    destruct (CostDatabase.find_profile n) as [s |] eqn:Es; [| discriminate].
    injection E as <-. exists s. split.
    + unfold CostDatabase.find_profile in Es.
      exact (find_profile_in_catalog _ _ Es).
    + unfold catalog_length_m. cbn. ring.
Qed.

Lemma estimate_weight_quantity (q : Z) (line : BudgetLineItem) :
  estimate_weight (with_quantity q line)
  = with_quantity q (estimate_weight line).
Proof.
  unfold estimate_weight. cbn.
  repeat match goal with
         | |- context [if ?b then _ else _] => destruct b
         end; reflexivity.
Qed.

(** X13.  The price of a line is linear in its quantity: a line of
    quantity q (at least 1) has the unit cost of the same line with
    quantity 1, and q times its five cost components and its total.  This
    holds on the catalog path and on the formula path. *)
Theorem price_linear_in_quantity (p : PricingParameters)
  (line l1 lq : BudgetLineItem) (st : string) (q : Z) :
  (1 <= q)%Z ->
  _calculate_line_costs p (with_quantity 1 line) st = Return l1 ->
  _calculate_line_costs p (with_quantity q line) st = Return lq ->
  unit_cost lq == unit_cost l1
  /\ raw_material_cost lq == inject_Z q * raw_material_cost l1
  /\ transformation_cost lq == inject_Z q * transformation_cost l1
  /\ surface_treatment_cost lq == inject_Z q * surface_treatment_cost l1
  /\ labor_cost lq == inject_Z q * labor_cost l1
  /\ accessories_cost lq == inject_Z q * accessories_cost l1
  /\ total_cost lq == inject_Z q * total_cost l1.
Proof.
  intros Hq. unfold _calculate_line_costs, _try_calculate_from_cost_db.
  change (search_terms (with_quantity 1 line)) with (search_terms line).
  change (search_terms (with_quantity q line)) with (search_terms line).
  pose proof (inject_Z_pos Hq) as Hq1.
  assert (F : formula_costs p (with_quantity 1 line) st = Return l1 ->
              formula_costs p (with_quantity q line) st = Return lq ->
              unit_cost lq == unit_cost l1
              /\ raw_material_cost lq == inject_Z q * raw_material_cost l1
              /\ transformation_cost lq == inject_Z q * transformation_cost l1
              /\ surface_treatment_cost lq
                 == inject_Z q * surface_treatment_cost l1
              /\ labor_cost lq == inject_Z q * labor_cost l1
              /\ accessories_cost lq == inject_Z q * accessories_cost l1
              /\ total_cost lq == inject_Z q * total_cost l1).
  { unfold formula_costs. rewrite !estimate_weight_quantity.
    destruct (py_div _ (eur_to_usd p)) as [price | e]; [| discriminate].
    cbn [bind]. intros [= <-] [= <-].
    remember (estimate_weight line) as l0. cbn.
    replace (Z.max q 1) with q by lia.
    change (inject_Z 1) with 1.
    repeat split; field; lra. }
  destruct (find_profile_name (search_terms line)) as [n |]; [| exact F].
  destruct (CostDatabase.find_profile n) as [s |]; [| exact F].
  intros [= <-] [= <-]. cbn.
  replace (Z.max 1 q) with q by lia. change (inject_Z 1) with 1.
  repeat split; ring.
Qed.

(** X13 at a profile of the formula path, priced for 1 and for 7 pieces. *)
Lemma price_linear_in_quantity_witness :
  let line := sample_line "Perfil" "P-01" 1 400 9600 6000 0 1.5 None in
  exists l1 lq,
    _calculate_line_costs default_params (with_quantity 1 line) "none"
    = Return l1
    /\ _calculate_line_costs default_params (with_quantity 7 line) "none"
       = Return lq
    /\ unit_cost lq == unit_cost l1
    /\ raw_material_cost lq == inject_Z 7 * raw_material_cost l1
    /\ transformation_cost lq == inject_Z 7 * transformation_cost l1
    /\ surface_treatment_cost lq == inject_Z 7 * surface_treatment_cost l1
    /\ labor_cost lq == inject_Z 7 * labor_cost l1
    /\ accessories_cost lq == inject_Z 7 * accessories_cost l1
    /\ total_cost lq == inject_Z 7 * total_cost l1.
Proof.
  intro line.
  destruct (_calculate_line_costs default_params (with_quantity 1 line) "none")
    as [l1 | e] eqn:E1; [| vm_compute in E1; discriminate E1].
  destruct (_calculate_line_costs default_params (with_quantity 7 line) "none")
    as [lq | e] eqn:Eq; [| vm_compute in Eq; discriminate Eq].
  exists l1, lq. split; [reflexivity |]. split; [reflexivity |].
  refine (@price_linear_in_quantity default_params line l1 lq "none" 7 _ E1 Eq).
  lia.
Defined.

(** ** Further properties: the specifications of a correlation *)

Lemma take_length (n : nat) (s : string) :
  (String.length (PyStr.take n s) <= n)%nat.
Proof.
  revert s. induction n as [| n IH]; intros s; cbn; [lia |].
  destruct s as [| c r]; cbn; [lia |]. specialize (IH r). lia.
Qed.

Lemma index_constraints_get (cs : list Constraint) (k : string) :
  Dict.get k (_index_constraints cs)
  = match of_type k cs with [] => None | l => Some l end.
Proof.
  pose proof (index_constraints_from k cs []) as H.
  fold (_index_constraints cs) in H. unfold group_items in H. cbn in H.
  fold (of_type k cs) in H.
  assert (G : forall d,
             Dict.get k d = None \/
             (exists c l, Dict.get k d = Some (c :: l)) ->
             let d' := fold_left
                         (fun indexed c => dict_append (constraint_key c) c indexed)
                         cs d in
             Dict.get k d' = None \/ exists c l, Dict.get k d' = Some (c :: l)).
  { clear H. induction cs as [| c cs IH]; intros d Hd; cbn [fold_left];
      [exact Hd |].
    apply IH. unfold dict_append.
    destruct (Dict.get (constraint_key c) d) as [l |] eqn:E;
      rewrite dict_get_set;
      destruct (String.eqb k (constraint_key c)) eqn:Ek; auto.
    - right. destruct l; cbn; eauto.
    - right. eauto. }
  specialize (G [] (or_introl eq_refl)). cbv zeta in G.
  fold (_index_constraints cs) in G.
  destruct G as [G | (c & l & G)]; rewrite G in H; rewrite <- H; exact G.
Qed.

Lemma dict_in_get {V : Type} (k : string) (v : V) (d : Dict.t V) :
  NoDup (map fst d) -> In (k, v) d -> Dict.get k d = Some v.
Proof.
  induction d as [| [k' v'] d IH]; cbn; [tauto |].
  intros Hnd [H | H].
  - injection H as -> ->. now rewrite String.eqb_refl.
  - inversion Hnd as [| ? ? Hk Hd]; subst.
    destruct (String.eqb k k') eqn:E.
    + apply String.eqb_eq in E. subst k'. exfalso. apply Hk.
      change k with (fst (k, v)). now apply in_map.
    + auto.
Qed.

Lemma dict_get_pair {V : Type} (k : string) (v : V) (d : Dict.t V) :
  Dict.get k d = Some v -> In (k, v) d.
Proof.
  induction d as [| [k' v'] d IH]; cbn; [discriminate |].
  destruct (String.eqb k k') eqn:E.
  - apply String.eqb_eq in E. subst. intros [= ->]. now left.
  - intros H. right. auto.
Qed.

Lemma index_constraints_entries (cs : list Constraint) (k : string)
  (l : list Constraint) :
  In (k, l) (_index_constraints cs) <-> l = of_type k cs /\ l <> [].
Proof.
  split.
  - intros Hin.
    apply dict_in_get in Hin;
      [| apply index_constraints_nodup; constructor].
    rewrite index_constraints_get in Hin.
    destruct (of_type k cs); [discriminate |].
    injection Hin as <-. split; [reflexivity | discriminate].
  - intros [-> Hne]. apply dict_get_pair. rewrite index_constraints_get.
    destruct (of_type k cs); [congruence | reflexivity].
Qed.

(** X14.  The specifications of a correlation, in terms of the row and
    of the constraint list.  The thickness comes from the row alone.  The
    material and the finish are those of the row when it has them,
    otherwise the value of the first 'material_grade' or
    'surface_treatment' constraint.  The certifications are the values of
    the 'certification' constraints, in order.  The listed constraints are
    exactly the constraints of high importance, each with its type, its
    value and at most the first 100 characters of its context. *)
Theorem specifications_precedence (it : option PdfItem) (cs : list Constraint) :
  let s := _extract_specifications it (_index_constraints cs) in
  sp_thickness_mm s
  = match it with Some i => pi_thickness_mm i | None => None end
  /\ sp_material s
     = row_then_constraint
         match it with Some i => pi_material i | None => None end
         (of_type "material_grade" cs)
  /\ sp_finish s
     = row_then_constraint
         match it with Some i => pi_finish i | None => None end
         (of_type "surface_treatment" cs)
  /\ sp_certifications s = map tc_value (of_type "certification" cs)
  /\ (forall h,
        In h (sp_constraints s) <->
        exists c,
          In c cs /\ tc_importance c = "high"
          /\ h = {| hc_type := constraint_key c; hc_value := tc_value c;
                    hc_context := PyStr.take 100 (tc_context c) |})
  /\ Forall (fun h => (String.length (hc_context h) <= 100)%nat)
       (sp_constraints s).
Proof.
  intros s. unfold s, _extract_specifications.
  cbn [sp_thickness_mm sp_material sp_finish sp_certifications sp_constraints].
  unfold fill_from. rewrite !index_constraints_get.
  split; [reflexivity |].
  split; [destruct (of_type "material_grade" cs); reflexivity |].
  split; [destruct (of_type "surface_treatment" cs); reflexivity |].
  split; [destruct (of_type "certification" cs); reflexivity |].
  assert (A : forall h,
        In h (high_constraints (_index_constraints cs)) <->
        exists c,
          In c cs /\ tc_importance c = "high"
          /\ h = {| hc_type := constraint_key c; hc_value := tc_value c;
                    hc_context := PyStr.take 100 (tc_context c) |}).
  { intros h. unfold high_constraints. rewrite in_flat_map. split.
    - intros ([k l] & Hkl & Hh).
      apply index_constraints_entries in Hkl as [-> _].
      apply in_map_iff in Hh as (c & <- & Hc).
      apply filter_In in Hc as [Hc Hi].
      unfold of_type in Hc. apply filter_In in Hc as [Hc Hk].
      apply String.eqb_eq in Hi. apply String.eqb_eq in Hk.
      exists c. subst k. auto.
    - intros (c & Hc & Hi & ->).
      exists (constraint_key c, of_type (constraint_key c) cs).
      assert (Hin : In c (of_type (constraint_key c) cs)).
      { unfold of_type. apply filter_In. split; [exact Hc |].
        apply String.eqb_refl. }
      split.
      + apply index_constraints_entries. split; [reflexivity |].
        intros E. rewrite E in Hin. exact Hin.
      + apply in_map_iff. exists c. split; [reflexivity |].
        apply filter_In. split; [exact Hin |]. rewrite Hi. reflexivity. }
  split; [exact A |].
  apply Forall_forall. intros h Hh. apply A in Hh as (c & _ & _ & ->).
  cbn [hc_context]. apply take_length.
Qed.

(** ** Further properties: the lookup of the steel catalog *)

Lemma upper_char_space (c : ascii) :
  PyStr.is_space (PyStr.upper_char c) = PyStr.is_space c.
Proof. destruct c as [[] [] [] [] [] [] [] []]; reflexivity. Qed.

Lemma upper_lower_char (c : ascii) :
  PyStr.upper_char (PyStr.lower_char c) = PyStr.upper_char c.
Proof. destruct c as [[] [] [] [] [] [] [] []]; reflexivity. Qed.

Lemma upper_upper_char (c : ascii) :
  PyStr.upper_char (PyStr.upper_char c) = PyStr.upper_char c.
Proof. destruct c as [[] [] [] [] [] [] [] []]; reflexivity. Qed.

Lemma upper_lower (s : string) : PyStr.upper (PyStr.lower s) = PyStr.upper s.
Proof.
  induction s as [| c r IH]; cbn; [reflexivity |].
  rewrite upper_lower_char. f_equal. exact IH.
Qed.

Lemma upper_upper (s : string) : PyStr.upper (PyStr.upper s) = PyStr.upper s.
Proof.
  induction s as [| c r IH]; cbn; [reflexivity |].
  rewrite upper_upper_char. f_equal. exact IH.
Qed.

Lemma upper_lstrip (s : string) :
  PyStr.lstrip (PyStr.upper s) = PyStr.upper (PyStr.lstrip s).
Proof.
  induction s as [| c r IH]; cbn; [reflexivity |].
  rewrite upper_char_space. destruct (PyStr.is_space c); [exact IH | reflexivity].
Qed.

Lemma upper_rstrip (s : string) :
  PyStr.rstrip (PyStr.upper s) = PyStr.upper (PyStr.rstrip s).
Proof.
  induction s as [| c r IH]; cbn; [reflexivity |].
  fold (PyStr.upper r). rewrite IH, upper_char_space.
  destruct (PyStr.rstrip r); cbn; [| reflexivity].
  destruct (PyStr.is_space c); reflexivity.
Qed.

Lemma upper_strip (s : string) :
  PyStr.strip (PyStr.upper s) = PyStr.upper (PyStr.strip s).
Proof. unfold PyStr.strip. now rewrite upper_lstrip, upper_rstrip. Qed.

Lemma normalize_blank (s : string) :
  PyStr.strip s = "" -> CostDatabase._normalize_profile_name s = "".
Proof.
  intros H. unfold CostDatabase._normalize_profile_name.
  rewrite upper_strip, H. reflexivity.
Qed.

(** X15.  The lookup of the steel catalog does not distinguish capitals
    from small letters, and a term that is empty or blank is not refused:
    it finds the first entry of the catalog, since the empty text is
    contained in every key. *)
Theorem find_profile_case_and_blank (s : string) :
  CostDatabase.find_profile (PyStr.lower s) = CostDatabase.find_profile s
  /\ CostDatabase.find_profile (PyStr.upper s) = CostDatabase.find_profile s
  /\ (PyStr.strip s = "" ->
      CostDatabase.find_profile s
      = option_map snd (hd_error CostDatabase.steel_profiles)
      /\ CostDatabase.find_profile s <> None).
Proof.
  unfold CostDatabase.find_profile, CostDatabase.find_profile_in.
  unfold CostDatabase._normalize_profile_name.
  rewrite upper_lower, upper_upper.
  split; [reflexivity |]. split; [reflexivity |].
  intros H. fold (CostDatabase._normalize_profile_name s).
  rewrite (normalize_blank s H).
  split; [vm_compute; reflexivity | vm_compute; discriminate].
Qed.

Lemma index_profile_values (l : list CostDatabase.SteelProfile)
  (d : Dict.t CostDatabase.SteelProfile) (p : CostDatabase.SteelProfile) :
  In p (map snd (fold_left CostDatabase.index_profile l d)) ->
  In p l \/ In p (map snd d).
Proof.
  revert d. induction l as [| x l IH]; intros d; cbn [fold_left]; [auto |].
  intros H. apply IH in H as [H | H]; [left; now right |].
  unfold CostDatabase.index_profile in H.
  apply dict_set_values in H as [-> | H]; [left; now left |].
  apply dict_set_values in H as [-> | H]; [left; now left | now right].
Qed.

(** X16.  The catalog and its lookup agree: every profile of the table
    is found under its designation and under its code, and whatever the
    term, a profile the lookup returns is one of the table. *)
Theorem catalog_round_trip :
  Forall (fun r =>
            CostDatabase.find_profile (CostDatabase.designation r) = Some r
            /\ CostDatabase.find_profile (CostDatabase.code r) = Some r)
    CostDatabase.profiles_data
  /\ forall term p,
       CostDatabase.find_profile term = Some p ->
       In p CostDatabase.profiles_data.
Proof.
  split.
  - unfold CostDatabase.profiles_data.
    repeat (apply Forall_cons; [split; vm_compute; reflexivity |]).
    apply Forall_nil.
  - intros term p H. unfold CostDatabase.find_profile in H.
    apply find_profile_in_catalog in H.
    assert (E : CostDatabase.steel_profiles
                = fold_left CostDatabase.index_profile
                    CostDatabase.profiles_data [])
      by (vm_compute; reflexivity).
    rewrite E in H. apply index_profile_values in H as [H | []]. exact H.
Qed.

(** ** Further properties: what the price does not depend on *)

Lemma correlate_data_with_params (p : PricingParameters) (self : Self)
  (dxf : DxfData) (pdf : PdfData) :
  correlate_data (with_params p self) dxf pdf
  = (fst (correlate_data self dxf pdf),
     with_params p (snd (correlate_data self dxf pdf))).
Proof.
  unfold correlate_data.
  destruct (dxf_success dxf && Nat.ltb 0 (List.length (dxf_profiles dxf))).
  - cbn.
    destruct (map _ (dxf_profiles dxf) ++ _)%list; reflexivity.
  - destruct (pdf_success pdf && Nat.ltb 0 (List.length (pdf_bom_items pdf))).
    + cbn. destruct (map pdf_only_correlation (pdf_bom_items pdf)); reflexivity.
    + reflexivity.
Qed.

Lemma priced_lines_alloy (a b c : Q) (p : PricingParameters) (st : string)
  (id : Z) (cs : list Correlation) :
  priced_lines (with_alloy_premiums a b c p) st id cs = priced_lines p st id cs.
Proof.
  revert id. induction cs as [| x cs IH]; intros id; cbn [priced_lines];
    [reflexivity |].
  destruct (new_line x (id + 1) st) as [line |]; [| apply IH].
  change (_calculate_line_costs (with_alloy_premiums a b c p) line st)
    with (_calculate_line_costs p line st).
  rewrite IH. reflexivity.
Qed.

(** X17.  The three alloy premiums of the pricing parameters are never
    applied: a run with other premiums has the same outcome, the same
    lines and the same summary. *)
Theorem alloy_premiums_unused (a b c : Q) (self : Self) (dxf : DxfData)
  (pdf : PdfData) (st name now : string) :
  let run := calculate_budget self dxf pdf st name now in
  let run' :=
    calculate_budget (with_params (with_alloy_premiums a b c (params self)) self)
      dxf pdf st name now in
  line_items (snd run') = line_items (snd run)
  /\ summary (snd run') = summary (snd run)
  /\ correlation_log (snd run') = correlation_log (snd run)
  /\ match fst run', fst run with
     | Return r', Return r =>
         r_line_items r' = r_line_items r /\ r_summary r' = r_summary r
     | Raise e', Raise e => e' = e
     | _, _ => False
     end.
Proof.
  intros run run'. unfold run, run'. rewrite !calculate_budget_eq. cbv zeta.
  rewrite correlate_data_with_params. cbn [fst snd].
  rewrite !correlate_data_params.
  cbn [params with_params]. rewrite priced_lines_alloy.
  set (pl := priced_lines (params self) st 0 (fst (correlate_data self dxf pdf))).
  destruct (fst pl) as [[] | e]; [| cbn; auto].
  unfold _calculate_summary. cbn [params set_line_items with_params line_items].
  rewrite !correlate_data_params.
  change (labor_rate_eur_hr (with_alloy_premiums a b c (params self)))
    with (labor_rate_eur_hr (params self)).
  destruct (py_div _ (labor_rate_eur_hr (params self))) as [h | e]; cbn; auto.
Qed.

(** ** Further properties: the amounts of the returned dictionary *)

Lemma round_half_even_error (x : Q) :
  - (1 # 2) <= inject_Z (PyNum.round_half_even x) - x <= 1 # 2.
Proof.
  unfold PyNum.round_half_even.
  pose proof (Qfloor_le x) as H1. pose proof (Qlt_floor x) as H2.
  rewrite inject_Z_plus in H2. change (inject_Z 1) with 1 in H2.
  set (f := Qfloor x) in *.
  destruct (num_ltb_spec (x - inject_Z f) (1 # 2)) as [Ha | Ha]; [lra |].
  destruct (num_ltb_spec (1 # 2) (x - inject_Z f)) as [Hb | Hb].
  - rewrite inject_Z_plus. change (inject_Z 1) with 1. lra.
  - destruct (Z.even f); [lra |].
    rewrite inject_Z_plus. change (inject_Z 1) with 1. lra.
Qed.

Lemma round_error (x : Q) (n : nat) :
  Qabs (PyNum.round x n - x) <= 1 / (2 * inject_Z (10 ^ Z.of_nat n)).
Proof.
  unfold PyNum.round.
  set (scale := inject_Z (10 ^ Z.of_nat n)).
  assert (Hs : 0 < scale).
  { unfold scale, Qlt. cbn. pose proof (Z.pow_pos_nonneg 10 (Z.of_nat n)). lia. }
  pose proof (round_half_even_error (x * scale)) as [Hl Hu].
  set (r := inject_Z (PyNum.round_half_even (x * scale))) in *.
  assert (E : r / scale - x == (r - x * scale) / scale) by (field; lra).
  rewrite E. apply (proj2 (Qabs_Qle_condition _ _)).
  assert (Hi : 0 < / scale) by now apply Qinv_lt_0_compat.
  assert (E2 : 1 / (2 * scale) == (1 # 2) * / scale) by (field; lra).
  rewrite E2. unfold Qdiv. split.
  - setoid_replace (- ((1 # 2) * / scale)) with ((- (1 # 2)) * / scale) by ring.
    apply Qmult_le_compat_r; lra.
  - apply Qmult_le_compat_r; lra.
Qed.

Lemma round_cents (x : Q) : Qabs (PyNum.round x 2 - x) <= 0.005.
Proof.
  pose proof (round_error x 2) as H.
  assert (E : 1 / (2 * inject_Z (10 ^ Z.of_nat 2)) == 0.005) by reflexivity.
  now rewrite E in H.
Qed.

(** X18.  The amounts of the returned dictionary are those of the
    objects rounded to the cent, so they agree only up to the rounding:
    for every returned line the unit cost times the quantity is within
    0.005 x (quantity + 1) of the total shown, and in the summary the
    subtotal plus the margin is within 0.015 of the total quote shown. *)
Theorem displayed_amounts_up_to_rounding (self self' : Self) (dxf : DxfData)
  (pdf : PdfData) (st name now : string) (r : BudgetResult) :
  calculate_budget self dxf pdf st name now = (Return r, self') ->
  Forall (fun d =>
            Qabs (d_unit_cost d * inject_Z (d_quantity d) - d_total_cost d)
            <= 0.005 * (inject_Z (d_quantity d) + 1))
    (r_line_items r)
  /\ exists d,
       r_summary r = Some d
       /\ Qabs (subtotal d + profit_margin d - total_quote d) <= 0.015.
Proof.
  intros Hrun.
  pose proof (run_lines_quantity self dxf pdf st name now) as Hq.
  assert (Hc : Forall (fun l => unit_cost l * inject_Z (quantity l)
                                == total_cost l)
                 (line_items (snd (calculate_budget self dxf pdf st name now)))).
  { apply run_lines_forall. intros c id line l _ Hn Hl.
    apply new_line_provenance in Hn as (Hq1 & _).
    destruct (@line_costs_frame (params self) line l st Hq1 Hl) as (_ & _ & E).
    exact E. }
  destruct (@run_summary_fields _ _ _ _ _ _ _ _ Hrun) as (s & Hs & _).
  pose proof Hrun as Hrun'. apply run_returned_lines in Hrun' as (El & _).
  assert (Er : r_summary r = option_map summary_to_dict (summary self')).
  { rewrite calculate_budget_eq in Hrun. cbv zeta in Hrun.
    destruct (fst (priced_lines _ _ _ _)) as [[] | e]; [| discriminate].
    destruct (_calculate_summary _ _ _ _ _) as [[u | e] self4]; [| discriminate].
    injection Hrun as <- <-. reflexivity. }
  rewrite Hrun in Hq, Hc. cbn [snd] in Hq, Hc.
  split.
  - rewrite El. apply Forall_map.
    rewrite Forall_forall in *. intros l Hl.
    specialize (Hq l Hl). specialize (Hc l Hl).
    cbn [d_unit_cost d_quantity d_total_cost line_to_dict].
    pose proof (round_cents (unit_cost l)) as H1.
    pose proof (round_cents (total_cost l)) as H2.
    apply Qabs_Qle_condition in H1 as [H1a H1b].
    apply Qabs_Qle_condition in H2 as [H2a H2b].
    pose proof (inject_Z_pos Hq) as Hq1.
    set (q := inject_Z (quantity l)) in *.
    set (u := PyNum.round (unit_cost l) 2) in *.
    set (t := PyNum.round (total_cost l) 2) in *.
    apply (proj2 (Qabs_Qle_condition _ _)).
    assert (Hu1 : (u - unit_cost l) * q <= 0.005 * q)
      by (apply Qmult_le_compat_r; lra).
    assert (Hu2 : (- 0.005) * q <= (u - unit_cost l) * q)
      by (apply Qmult_le_compat_r; lra).
    split; lra.
  - exists (summary_to_dict s). rewrite Er, Hs. split; [reflexivity |].
    cbn [summary_to_dict subtotal profit_margin total_quote].
    assert (Et : total_quote s == subtotal s + profit_margin s).
    { rewrite calculate_budget_eq in Hrun. cbv zeta in Hrun.
      destruct (fst (priced_lines _ _ _ _)) as [[] | e]; [| discriminate].
      match type of Hrun with
      | context [_calculate_summary ?a ?b ?c ?d ?e] =>
          destruct (calculate_summary_state a b c d e)
            as (s1 & Hs1 & _ & _ & _ & _ & _ & _ & _ & _ & _ & Hm & Ht);
          destruct (_calculate_summary a b c d e) as [[u | e0] self4];
          [| discriminate]
      end.
      injection Hrun as _ <-. cbn [snd] in *.
      rewrite Hs in Hs1. injection Hs1 as <-. rewrite Ht. reflexivity. }
    pose proof (round_cents (subtotal s)) as H1.
    pose proof (round_cents (profit_margin s)) as H2.
    pose proof (round_cents (total_quote s)) as H3.
    apply Qabs_Qle_condition in H1 as [H1a H1b].
    apply Qabs_Qle_condition in H2 as [H2a H2b].
    apply Qabs_Qle_condition in H3 as [H3a H3b].
    apply (proj2 (Qabs_Qle_condition _ _)). split; lra.
Qed.

(** X18 at a run on one drawn profile and one row of the bill of
    materials. *)
Lemma displayed_amounts_up_to_rounding_witness :
  let run :=
    calculate_budget (__init__ None)
      (dxf_of [sample_profile "PERFIL" (Some 3) 400 9600 6000 0 (Some 1.5)])
      (pdf_of [sample_pdf_item "P1" "Perfil IPE 200" (Some 2)])
      "anodizing_natural" "Obra" "2026-01-01" in
  let r := result_of (snd run) true true in
  Forall (fun d =>
            Qabs (d_unit_cost d * inject_Z (d_quantity d) - d_total_cost d)
            <= 0.005 * (inject_Z (d_quantity d) + 1))
    (r_line_items r)
  /\ exists d,
       r_summary r = Some d
       /\ Qabs (subtotal d + profit_margin d - total_quote d) <= 0.015.
Proof.
  intros run r.
  assert (E : run = (Return r, snd run)) by (vm_compute; reflexivity).
  exact (@displayed_amounts_up_to_rounding (__init__ None) (snd run)
           (dxf_of [sample_profile "PERFIL" (Some 3) 400 9600 6000 0 (Some 1.5)])
           (pdf_of [sample_pdf_item "P1" "Perfil IPE 200" (Some 2)])
           "anodizing_natural" "Obra" "2026-01-01" r E).
Defined.

(** ** Further properties: the cost functions of the database *)

(** X19.  What a length of a steel profile costs: the total is the
    weight at the weight-based price per kg plus the painted area at the
    painting price per m2; weight, area and total are additive in the
    length; and with non-negative rates a non-negative length never has a
    negative cost. *)
Theorem steel_cost_structure (s : CostDatabase.SteelProfile) (a b : Q) :
  let cost := CostDatabase.calculate_cost s in
  CostDatabase.cd_total_cost (cost a) ==
  CostDatabase.cd_weight_kg (cost a) * CostTables.weight_based_price_per_kg s
  + CostDatabase.area_m2 (cost a) * CostTables.painting_price_per_m2 s
  /\ CostDatabase.cd_weight_kg (cost (a + b)) ==
     CostDatabase.cd_weight_kg (cost a) + CostDatabase.cd_weight_kg (cost b)
  /\ CostDatabase.area_m2 (cost (a + b)) ==
     CostDatabase.area_m2 (cost a) + CostDatabase.area_m2 (cost b)
  /\ CostDatabase.cd_total_cost (cost (a + b)) ==
     CostDatabase.cd_total_cost (cost a) + CostDatabase.cd_total_cost (cost b)
  /\ (rates_nonneg s -> 0 <= a -> 0 <= CostDatabase.cd_total_cost (cost a)).
Proof.
  intros cost. unfold cost, CostTables.weight_based_price_per_kg,
    CostTables.painting_price_per_m2. cbn.
  split; [ring |]. split; [ring |]. split; [ring |]. split; [ring |].
  intros (? & ? & ? & ? & ? & ? & ? & ? & ?) Ha. nonneg.
Qed.

Lemma sum_app (l1 l2 : list Q) :
  PyNum.sum (l1 ++ l2) == PyNum.sum l1 + PyNum.sum l2.
Proof.
  induction l1 as [| x l1 IH]; cbn [app].
  - unfold PyNum.sum at 2. cbn. lra.
  - rewrite !sum_cons, IH. lra.
Qed.

Lemma found_profile_in_table (term : string) (p : CostDatabase.SteelProfile) :
  CostDatabase.find_profile term = Some p -> In p CostDatabase.profiles_data.
Proof.
  intros H. unfold CostDatabase.find_profile in H.
  apply find_profile_in_catalog in H.
  assert (E : CostDatabase.steel_profiles
              = fold_left CostDatabase.index_profile
                  CostDatabase.profiles_data [])
    by (vm_compute; reflexivity).
  rewrite E in H. apply index_profile_values in H as [H | []]. exact H.
Qed.

Lemma steel_fold (l : list CostTables.SteelEntry)
  (items0 : list CostDatabase.CostData) (w0 c0 : Q) :
  exists new w c,
    fold_left CostTables.steel_step l (items0, w0, c0)
    = ((items0 ++ new)%list, w, c)
    /\ w == w0 + PyNum.sum (map CostDatabase.cd_weight_kg new)
    /\ c == c0 + PyNum.sum (map CostDatabase.cd_total_cost new)
    /\ (List.length new <= List.length l)%nat
    /\ Forall steel_detail_ok new.
Proof.
  revert items0 w0 c0.
  induction l as [| e l IH]; intros items0 w0 c0; cbn [fold_left].
  - exists [], w0, c0. rewrite app_nil_r. cbn.
    repeat split; try (unfold PyNum.sum; cbn; lra); auto.
  - unfold CostTables.steel_step at 2.
    destruct (CostDatabase.find_profile _) as [p |] eqn:Ep.
    + destruct (num_gtb_spec
                  match CostTables.se_length e with Some v => v | None => 0 end
                  0) as [Hlen | Hlen].
      * match goal with
        | |- context [fold_left _ l (?i, ?w, ?c)] =>
            destruct (IH i w c) as (new & w' & c' & E & Hw & Hc & Hn & Hok)
        end.
        eexists (_ :: new), w', c'. rewrite E, <- app_assoc. cbn [app].
        split; [reflexivity |]. cbn [map]. rewrite !sum_cons.
        split; [rewrite Hw; lra |]. split; [rewrite Hc; lra |].
        split; [cbn; lia |].
        constructor; [| exact Hok]. split; [exact Hlen |].
        exists p. split; [| reflexivity].
        exact (found_profile_in_table _ Ep).
      * destruct (IH items0 w0 c0) as (new & w' & c' & E & Hw & Hc & Hn & Hok).
        exists new, w', c'. rewrite E.
        split; [reflexivity |]. split; [exact Hw |]. split; [exact Hc |].
        split; [cbn; lia | exact Hok].
    + destruct (IH items0 w0 c0) as (new & w' & c' & E & Hw & Hc & Hn & Hok).
      exists new, w', c'. rewrite E.
      split; [reflexivity |]. split; [exact Hw |]. split; [exact Hc |].
      split; [cbn; lia | exact Hok].
Qed.

Lemma table_rates_nonneg :
  Forall rates_nonneg CostDatabase.profiles_data.
Proof.
  apply Forall_forall. intros p Hp.
  apply rates_nonneg_b_sound.
  assert (E : forallb rates_nonneg_b CostDatabase.profiles_data = true)
    by (vm_compute; reflexivity).
  rewrite forallb_forall in E. auto.
Qed.

Lemma steel_details_nonneg (l : list CostDatabase.CostData) :
  Forall steel_detail_ok l ->
  0 <= PyNum.sum (map CostDatabase.cd_total_cost l)
  /\ 0 <= PyNum.sum (map CostDatabase.cd_weight_kg l).
Proof.
  induction 1 as [| c l (Hlen & p & Hp & Ec) _ IH]; cbn [map].
  - unfold PyNum.sum. cbn. lra.
  - rewrite !sum_cons. destruct IH as [IH1 IH2].
    pose proof table_rates_nonneg as Hr. rewrite Forall_forall in Hr.
    destruct (Hr p Hp) as (? & ? & ? & ? & ? & ? & ? & ? & ?).
    rewrite Ec. set (len := CostDatabase.length_m c) in *.
    assert (0 <= len) by lra. cbn. split; nonneg.
Qed.

(** X20.  [calculate_steel_structure_cost] returns one detail per entry
    it accepts and skips the others: every detail is a positive length of
    a profile of the catalog, there are at most as many as entries, the
    total cost and the total weight are the sums over the details, the
    weight in tonnes is the weight in kg over 1000, and no total is
    negative. *)
Theorem steel_structure_totals (l : list CostTables.SteelEntry) :
  let r := CostTables.calculate_steel_structure_cost l in
  CostTables.ss_total_cost r
  == PyNum.sum (map CostDatabase.cd_total_cost (CostTables.ss_items r))
  /\ CostTables.ss_total_weight_kg r
     == PyNum.sum (map CostDatabase.cd_weight_kg (CostTables.ss_items r))
  /\ CostTables.ss_total_weight_ton r * 1000 == CostTables.ss_total_weight_kg r
  /\ (List.length (CostTables.ss_items r) <= List.length l)%nat
  /\ Forall steel_detail_ok (CostTables.ss_items r)
  /\ 0 <= CostTables.ss_total_cost r
  /\ 0 <= CostTables.ss_total_weight_kg r.
Proof.
  intros r. unfold r, CostTables.calculate_steel_structure_cost.
  destruct (steel_fold l [] 0 0) as (new & w & c & E & Hw & Hc & Hn & Hok).
  rewrite E. cbn [app CostTables.ss_items CostTables.ss_total_cost
                  CostTables.ss_total_weight_kg CostTables.ss_total_weight_ton].
  destruct (steel_details_nonneg Hok) as [H1 H2].
  split; [rewrite Hc; lra |]. split; [rewrite Hw; lra |].
  split; [field |]. split; [exact Hn |]. split; [exact Hok |].
  split; [rewrite Hc; lra | rewrite Hw; lra].
Qed.

Lemma blank_term_first_profile (s : string) :
  PyStr.strip s = "" ->
  CostDatabase.find_profile s
  = option_map snd (hd_error CostDatabase.steel_profiles).
Proof.
  intros H. unfold CostDatabase.find_profile, CostDatabase.find_profile_in.
  rewrite (normalize_blank s H). vm_compute. reflexivity.
Qed.

(** X21.  An entry of [calculate_steel_structure_cost] without a profile
    name (the key absent, or an empty or blank text) and with a positive
    length is not skipped: it is priced as the first profile of the
    catalog, 'IPE 300'. *)
Theorem nameless_steel_entry_priced (l : list CostTables.SteelEntry)
  (name : option string) (len : Q) :
  PyStr.strip (match name with Some v => v | None => "" end) = "" ->
  0 < len ->
  exists p,
    option_map snd (hd_error CostDatabase.steel_profiles) = Some p
    /\ CostDatabase.designation p = "IPE 300"
    /\ CostTables.ss_items
         (CostTables.calculate_steel_structure_cost
            (l ++ [ {| CostTables.se_profile := name;
                       CostTables.se_length := Some len |} ]))
       = (CostTables.ss_items (CostTables.calculate_steel_structure_cost l)
          ++ [CostDatabase.calculate_cost p len])%list.
Proof.
  intros Hname Hlen.
  destruct (option_map snd (hd_error CostDatabase.steel_profiles)) as [p |] eqn:Ep;
    [| vm_compute in Ep; discriminate Ep].
  exists p. split; [reflexivity |].
  split; [vm_compute in Ep; injection Ep as <-; reflexivity |].
  unfold CostTables.calculate_steel_structure_cost.
  rewrite fold_left_app. cbn [fold_left].
  destruct (fold_left CostTables.steel_step l ([], 0, 0)) as [[items w] c].
  unfold CostTables.steel_step. cbn [CostTables.se_profile CostTables.se_length].
  rewrite (blank_term_first_profile _ Hname), Ep.
  destruct (num_gtb_spec len 0) as [_ | Hn]; [reflexivity | lra].
Qed.

(** X21 at an entry that has a length and nothing else, after one
    regular entry. *)
Lemma nameless_steel_entry_priced_witness :
  let l := [ {| CostTables.se_profile := Some "HEB 200";
                CostTables.se_length := Some 12 |} ] in
  exists p,
    option_map snd (hd_error CostDatabase.steel_profiles) = Some p
    /\ CostDatabase.designation p = "IPE 300"
    /\ CostTables.ss_items
         (CostTables.calculate_steel_structure_cost
            (l ++ [ {| CostTables.se_profile := None;
                       CostTables.se_length := Some 5 |} ]))
       = (CostTables.ss_items (CostTables.calculate_steel_structure_cost l)
          ++ [CostDatabase.calculate_cost p 5])%list.
Proof.
  intro l.
  refine (@nameless_steel_entry_priced l None 5 _ _); reflexivity.
Defined.

(** ** Further properties: the cladding tables *)

Lemma partial_cladding_in (n : string) (d : Dict.t CostTables.CladdingItem)
  (it : CostTables.CladdingItem) :
  CostTables.partial_cladding n d = Some it -> In it (map snd d).
Proof.
  induction d as [| [k v] d IH]; cbn; [discriminate |].
  destruct (PyStr.str_in n k || PyStr.str_in k n).
  - intros [= ->]. now left.
  - destruct (forallb _ _); [intros [= ->]; now left |].
    intros H. right. auto.
Qed.

Lemma search_sources_in (n : string)
  (sources : list (Dict.t CostTables.CladdingItem))
  (it : CostTables.CladdingItem) :
  CostTables.search_sources n sources = Some it ->
  exists d, In d sources /\ In it (map snd d).
Proof.
  induction sources as [| d sources IH]; cbn; [discriminate |].
  destruct (Dict.get n d) as [x |] eqn:E.
  - intros [= ->]. exists d. split; [now left |].
    eapply dict_get_in; eauto.
  - destruct (CostTables.partial_cladding n d) as [x |] eqn:Ep.
    + intros [= ->]. exists d. split; [now left |].
      eapply partial_cladding_in; eauto.
    + intros H. destruct (IH H) as (d' & Hd & Hi). exists d'. auto.
Qed.

Lemma find_cladding_in_tables (term category : string)
  (it : CostTables.CladdingItem) :
  CostTables.find_cladding term category = Some it -> In it cladding_data.
Proof.
  unfold CostTables.find_cladding. intros H.
  apply search_sources_in in H as (d & Hd & Hi).
  assert (Hs : d = CostTables.facade_items \/ d = CostTables.roof_items
               \/ d = CostTables.accessories).
  { destruct (CostTables.category_in category ["all"; "facade"]),
      (CostTables.category_in category ["all"; "roof"]),
      (CostTables.category_in category ["all"; "accessories"]);
      cbn in Hd; intuition. }
  assert (E1 : map snd CostTables.facade_items = CostTables.facade_data)
    by reflexivity.
  assert (E2 : map snd CostTables.roof_items = CostTables.roof_data)
    by reflexivity.
  assert (E3 : map snd CostTables.accessories = CostTables.accessories_data)
    by reflexivity.
  unfold cladding_data. rewrite !in_app_iff.
  destruct Hs as [-> | [-> | ->]]; [rewrite E1 in Hi | rewrite E2 in Hi
                                    | rewrite E3 in Hi]; auto.
Qed.

(** X22.  The cladding tables and their lookup agree: every item of the
    three tables is found under its designation, in all the tables and
    in its own; an item the lookup returns is one of the tables; a
    category other than 'all', 'facade', 'roof' and 'accessories' finds
    nothing; and an empty or blank term finds the first item of the first
    table searched. *)
Theorem cladding_round_trip :
  Forall (fun it =>
            CostTables.find_cladding (CostTables.ci_designation it) "all"
            = Some it) cladding_data
  /\ Forall (fun it =>
               CostTables.find_cladding (CostTables.ci_designation it) "facade"
               = Some it) CostTables.facade_data
  /\ Forall (fun it =>
               CostTables.find_cladding (CostTables.ci_designation it) "roof"
               = Some it) CostTables.roof_data
  /\ Forall (fun it =>
               CostTables.find_cladding (CostTables.ci_designation it)
                 "accessories" = Some it) CostTables.accessories_data
  /\ (forall term category it,
        CostTables.find_cladding term category = Some it ->
        In it cladding_data)
  /\ (forall term category,
        CostTables.category_in category
          ["all"; "facade"; "roof"; "accessories"] = false ->
        CostTables.find_cladding term category = None)
  /\ (forall term,
        PyStr.strip term = "" ->
        CostTables.find_cladding term "all" = hd_error CostTables.facade_data
        /\ CostTables.find_cladding term "roof" = hd_error CostTables.roof_data
        /\ CostTables.find_cladding term "accessories"
           = hd_error CostTables.accessories_data).
Proof.
  split; [| split; [| split; [| split; [| split; [| split]]]]].
  - unfold cladding_data, CostTables.facade_data, CostTables.roof_data,
      CostTables.accessories_data. cbn [app].
    repeat (apply Forall_cons; [vm_compute; reflexivity |]). apply Forall_nil.
  - unfold CostTables.facade_data.
    repeat (apply Forall_cons; [vm_compute; reflexivity |]). apply Forall_nil.
  - unfold CostTables.roof_data.
    repeat (apply Forall_cons; [vm_compute; reflexivity |]). apply Forall_nil.
  - unfold CostTables.accessories_data.
    repeat (apply Forall_cons; [vm_compute; reflexivity |]). apply Forall_nil.
  - exact find_cladding_in_tables.
  - intros term category H. unfold CostTables.category_in in *.
    cbn [existsb] in *.
    repeat (apply orb_false_elim in H as [? H]).
    unfold CostTables.find_cladding, CostTables.category_in. cbn [existsb].
    repeat match goal with
           | E : String.eqb category ?x = false |- _ => rewrite E; clear E
           end.
    reflexivity.
  - intros term H.
    assert (E : CostTables._normalize_item_name term = "").
    { unfold CostTables._normalize_item_name. rewrite upper_strip, H.
      reflexivity. }
    unfold CostTables.find_cladding. rewrite E.
    repeat split; vm_compute; reflexivity.
Qed.

Lemma cladding_fold (l : list CostTables.CladdingEntry)
  (items0 : list CostTables.CladdingCost) (c0 : Q) :
  exists new c,
    fold_left CostTables.cladding_step l (items0, c0)
    = ((items0 ++ new)%list, c)
    /\ c == c0 + PyNum.sum (map CostTables.cc_total_cost new)
    /\ (List.length new <= List.length l)%nat
    /\ Forall cladding_detail_ok new.
Proof.
  revert items0 c0.
  induction l as [| e l IH]; intros items0 c0; cbn [fold_left].
  - exists [], c0. rewrite app_nil_r. cbn.
    split; [reflexivity |]. split; [unfold PyNum.sum; cbn; lra |].
    split; [lia | constructor].
  - unfold CostTables.cladding_step at 2.
    destruct (CostTables.find_cladding _ "all") as [it |] eqn:Ei.
    + destruct (num_gtb_spec
                  match CostTables.ce_quantity e with Some v => v | None => 0 end
                  0) as [Hq | Hq].
      * match goal with
        | |- context [fold_left _ l (?i, ?c)] =>
            destruct (IH i c) as (new & c' & E & Hc & Hn & Hok)
        end.
        eexists (_ :: new), c'. rewrite E, <- app_assoc. cbn [app].
        split; [reflexivity |]. cbn [map]. rewrite !sum_cons.
        split; [rewrite Hc; lra |].
        split; [cbn; lia |].
        constructor; [| exact Hok]. split; [exact Hq |].
        exists it. split; [| reflexivity].
        exact (find_cladding_in_tables _ _ Ei).
      * destruct (IH items0 c0) as (new & c' & E & Hc & Hn & Hok).
        exists new, c'. rewrite E.
        split; [reflexivity |]. split; [exact Hc |].
        split; [cbn; lia | exact Hok].
    + destruct (IH items0 c0) as (new & c' & E & Hc & Hn & Hok).
      exists new, c'. rewrite E.
      split; [reflexivity |]. split; [exact Hc |].
      split; [cbn; lia | exact Hok].
Qed.

Lemma cladding_prices_nonneg (it : CostTables.CladdingItem) :
  In it cladding_data -> 0 <= CostTables.total_price_per_unit it.
Proof.
  intros Hin.
  assert (E : forallb prices_nonneg_b cladding_data = true)
    by (vm_compute; reflexivity).
  rewrite forallb_forall in E. specialize (E it Hin).
  unfold prices_nonneg_b in E.
  repeat (apply andb_prop in E as [E ?]).
  repeat match goal with
         | H : PyNum.leb 0 _ = true |- _ =>
             apply (reflect_iff _ _ (num_leb_spec _ _)) in H
         end.
  unfold CostTables.total_price_per_unit. lra.
Qed.

(** X23.  [calculate_cladding_cost] returns one detail per entry it
    accepts and skips the others: every detail is a positive quantity of
    an item of the tables, its total is the sum of its seven cost
    components, the total cost is the sum over the details, and it is
    never negative. *)
Theorem cladding_cost_totals (l : list CostTables.CladdingEntry) :
  let r := CostTables.calculate_cladding_cost l in
  CostTables.ct_total_cost r
  == PyNum.sum (map CostTables.cc_total_cost (CostTables.ct_items r))
  /\ (List.length (CostTables.ct_items r) <= List.length l)%nat
  /\ Forall cladding_detail_ok (CostTables.ct_items r)
  /\ Forall (fun c =>
               CostTables.cc_total_cost c ==
               CostTables.cc_cost_material c + CostTables.cc_cost_fabrication c
               + CostTables.cc_cost_assembly c + CostTables.cc_cost_painting c
               + CostTables.cc_cost_lifting c
               + CostTables.cc_cost_consumables c
               + CostTables.cc_cost_transport c
               /\ 0 <= CostTables.cc_total_cost c)
       (CostTables.ct_items r)
  /\ 0 <= CostTables.ct_total_cost r.
Proof.
  intros r. unfold r, CostTables.calculate_cladding_cost.
  destruct (cladding_fold l [] 0) as (new & c & E & Hc & Hn & Hok).
  rewrite E. cbn [app CostTables.ct_items CostTables.ct_total_cost].
  assert (Hd : Forall (fun c =>
               CostTables.cc_total_cost c ==
               CostTables.cc_cost_material c + CostTables.cc_cost_fabrication c
               + CostTables.cc_cost_assembly c + CostTables.cc_cost_painting c
               + CostTables.cc_cost_lifting c
               + CostTables.cc_cost_consumables c
               + CostTables.cc_cost_transport c
               /\ 0 <= CostTables.cc_total_cost c) new).
  { eapply Forall_impl; [| exact Hok].
    intros d (Hq & it & Hin & Ed). rewrite Ed.
    pose proof (@cladding_prices_nonneg it Hin) as Hp.
    set (q := CostTables.cc_quantity d) in *.
    unfold CostTables.item_calculate_cost. cbn.
    split; [unfold CostTables.total_price_per_unit; ring |].
    apply Qmult_le_0_compat; lra. }
  assert (Hs : 0 <= PyNum.sum (map CostTables.cc_total_cost new)).
  { clear - Hd. induction Hd as [| d ds [_ H] _ IH]; cbn [map].
    - unfold PyNum.sum. cbn. lra.
    - rewrite sum_cons. lra. }
  split; [rewrite Hc; lra |]. split; [exact Hn |]. split; [exact Hok |].
  split; [exact Hd |]. rewrite Hc. lra.
Qed.

(** ** Further properties: the quick estimate and the recommendations *)




Lemma quality_recommendation (self : Self) (s : BudgetSummary) :
  summary self = Some s ->
  of_category "Qualidade de Dados" (get_ai_recommendations self)
  = match low_confidence_lines self with
    | [] => []
    | l =>
        [ {| category := "Qualidade de Dados"; priority := "high";
             suggestion := low_confidence_items (List.length l);
             potential_savings := not_applicable |} ]
    end.
Proof.
  intros Hs. unfold get_ai_recommendations. rewrite Hs.
  fold (low_confidence_lines self).
  destruct (PyNum.gtb (waste_percentage_applied s) 12);
    destruct (PyNum.gtb (labor_total s
                         / inject_Z (Z.max (total_quantity s) 1)) 15);
    destruct (PyNum.gtb (total_weight_kg s) 1000);
    destruct (low_confidence_lines self) as [| x xs]; reflexivity.
Qed.

Lemma run_lines_confidence (P : Q -> Prop) (self : Self) (dxf : DxfData)
  (pdf : PdfData) (st name now : string) :
  Forall (fun c => P (co_correlation_confidence c))
    (fst (correlate_data self dxf pdf)) ->
  Forall (fun l => P (correlation_confidence l))
    (line_items (snd (calculate_budget self dxf pdf st name now))).
Proof.
  intros H. rewrite Forall_forall in H.
  apply run_lines_forall. intros c id line l Hin Hn Hc.
  destruct (@line_costs_identity _ _ _ _ Hc)
    as (_ & _ & _ & _ & _ & _ & _ & _ & _ & _ & _ & _ & _ & _ & E & _).
  apply new_line_provenance in Hn as (_ & _ & _ & E').
  rewrite E, E'. auto.
Qed.

Lemma correlate_data_synthesized (self : Self) (dxf : DxfData)
  (pdf : PdfData) :
  has_dxf_of dxf = false ->
  pdf_success pdf = false \/ pdf_bom_items pdf = [] ->
  Forall synthesized (fst (correlate_data self dxf pdf)).
Proof.
  intros Hd Hp. rewrite (@correlate_data_fallback self dxf pdf Hd Hp).
  unfold _create_fallback_correlations. cbn [fst].
  match goal with
  | |- Forall _ (match ?l with _ => _ end) =>
      assert (H : Forall synthesized l);
      [| destruct l; [| exact H]]
  end.
  - apply dimension_loop_long.
    + intros n raw len Hlen. unfold synthesized. cbn.
      repeat split; try lra. eexists. repeat split.
      intros len' [= <-]. exact Hlen.
    + apply Forall_app.
      split; apply map_enumerate_forall; intros i x; unfold synthesized; cbn;
        repeat split; try lra; eexists; repeat split; discriminate.
  - constructor; [| constructor]. unfold synthesized. cbn.
    repeat split; try lra. eexists. repeat split. discriminate.
Qed.

(** X26.  Which runs get the data-quality recommendation when the
    geometry is unusable.  A run priced from the rows of the bill of
    materials never gets it, because the confidence of its lines is
    exactly 0.5; a run on synthesized items always gets it, and it counts
    every line of the run. *)
Theorem data_quality_by_path (self self' : Self) (dxf : DxfData)
  (pdf : PdfData) (st name now : string) (r : BudgetResult) :
  has_dxf_of dxf = false ->
  calculate_budget self dxf pdf st name now = (Return r, self') ->
  let quality :=
    of_category "Qualidade de Dados" (get_ai_recommendations self') in
  (pdf_success pdf = true /\ pdf_bom_items pdf <> [] -> quality = [])
  /\ (pdf_success pdf = false \/ pdf_bom_items pdf = [] ->
      quality
      = [ {| category := "Qualidade de Dados"; priority := "high";
             suggestion :=
               low_confidence_items (List.length (line_items self'));
             potential_savings := not_applicable |} ]).
Proof.
  intros Hd Hrun quality.
  destruct (@run_summary_fields _ _ _ _ _ _ _ _ Hrun)
    as (s & Hs & _ & Hn & _).
  assert (Hls : line_items self'
                = line_items (snd (calculate_budget self dxf pdf st name now)))
    by now rewrite Hrun.
  unfold quality. rewrite (@quality_recommendation self' s Hs).
  unfold low_confidence_lines. split.
  - intros [Hp Hr].
    assert (H : Forall (fun l => correlation_confidence l = 0.5)
                  (line_items self')).
    { rewrite Hls.
      apply (@run_lines_confidence (fun q => q = 0.5)).
      rewrite (@correlate_data_rows self dxf pdf Hd Hp Hr).
      apply Forall_forall. intros c Hc.
      apply in_map_iff in Hc as (it & <- & _). reflexivity. }
    assert (E : filter (fun i => PyNum.ltb (correlation_confidence i) 0.5)
                  (line_items self') = []).
    { clear - H. induction H as [| l ls Hl _ IH]; cbn [filter]; [reflexivity |].
      rewrite Hl. exact IH. }
    rewrite E. reflexivity.
  - intros Hp.
    assert (H : Forall (fun l => correlation_confidence l <= 0.3)
                  (line_items self')).
    { rewrite Hls.
      apply (@run_lines_confidence (fun q => q <= 0.3)).
      pose proof (@correlate_data_synthesized self dxf pdf Hd Hp) as Hsyn.
      eapply Forall_impl; [| exact Hsyn].
      intros c (_ & _ & _ & [_ Hc] & _). exact Hc. }
    assert (E : filter (fun i => PyNum.ltb (correlation_confidence i) 0.5)
                  (line_items self') = line_items self').
    { clear - H. induction H as [| l ls Hl _ IH]; cbn [filter]; [reflexivity |].
      destruct (num_ltb_spec (correlation_confidence l) 0.5) as [_ | Hn];
        [now rewrite IH | lra]. }
    rewrite E.
    assert (Hne : line_items self' <> []).
    { rewrite Hls, run_line_items.
      apply run_returned_lines in Hrun as (_ & _ & Hret).
      apply priced_lines_nonempty;
        [apply correlate_data_nonempty | apply correlate_data_sources
         | exact Hret]. }
    destruct (line_items self'); [congruence | reflexivity].
Qed.

(** X26 at a run on a payload with constraints and dimension texts but
    no row. *)
Lemma data_quality_by_path_witness :
  let run :=
    calculate_budget (__init__ None) no_dxf constraints_only_pdf
      "none" "Obra" "2026-01-01" in
  let quality :=
    of_category "Qualidade de Dados" (get_ai_recommendations (snd run)) in
  (pdf_success constraints_only_pdf = true
   /\ pdf_bom_items constraints_only_pdf <> [] -> quality = [])
  /\ (pdf_success constraints_only_pdf = false
      \/ pdf_bom_items constraints_only_pdf = [] ->
      quality
      = [ {| category := "Qualidade de Dados"; priority := "high";
             suggestion :=
               low_confidence_items (List.length (line_items (snd run)));
             potential_savings := not_applicable |} ]).
Proof.
  intros run.
  assert (E : run = (Return (result_of (snd run) false true), snd run))
    by (vm_compute; reflexivity).
  refine (@data_quality_by_path (__init__ None) (snd run) no_dxf
            constraints_only_pdf "none" "Obra" "2026-01-01"
            (result_of (snd run) false true) _ E).
  reflexivity.
Defined.

(** ** Further properties: the listing of the catalog *)

Lemma insert_by_in {A : Type} (key : A -> string) (x y : A) (l : list A) :
  In y (CostTables.insert_by key x l) <-> y = x \/ In y l.
Proof.
  induction l as [| z l IH]; cbn.
  - intuition.
  - destruct (String.leb (key x) (key z)); cbn; [intuition |].
    rewrite IH. intuition.
Qed.

Lemma sorted_by_in {A : Type} (key : A -> string) (y : A) (l : list A) :
  In y (CostTables.sorted_by key l) <-> In y l.
Proof.
  unfold CostTables.sorted_by. induction l as [| x l IH]; cbn; [tauto |].
  rewrite insert_by_in, IH. intuition.
Qed.

Lemma insert_by_length {A : Type} (key : A -> string) (x : A) (l : list A) :
  List.length (CostTables.insert_by key x l) = S (List.length l).
Proof.
  induction l as [| z l IH]; cbn; [reflexivity |].
  destruct (String.leb (key x) (key z)); cbn; [reflexivity | now rewrite IH].
Qed.

Lemma sorted_by_length {A : Type} (key : A -> string) (l : list A) :
  List.length (CostTables.sorted_by key l) = List.length l.
Proof.
  unfold CostTables.sorted_by. induction l as [| x l IH]; cbn; [reflexivity |].
  now rewrite insert_by_length, IH.
Qed.

Lemma insert_by_ascending {A : Type} (key : A -> string) (x : A) (l : list A) :
  ascending (map key l) = true ->
  ascending (map key (CostTables.insert_by key x l)) = true.
Proof.
  induction l as [| z l IH]; cbn [CostTables.insert_by map]; [reflexivity |].
  intros H. destruct (String.leb (key x) (key z)) eqn:E.
  - cbn [map ascending]. rewrite E. exact H.
  - assert (Hzx : String.leb (key z) (key x) = true).
    { destruct (String.leb_total (key x) (key z)) as [H' | H'];
        [congruence | exact H']. }
    destruct l as [| w l].
    + cbn. now rewrite Hzx.
    + cbn [map ascending] in H. apply andb_prop in H as [Hzw Hr].
      specialize (IH Hr). cbn [CostTables.insert_by] in *.
      destruct (String.leb (key x) (key w)) eqn:Ew; cbn [map ascending] in *.
      * rewrite Hzx. exact IH.
      * rewrite Hzw. exact IH.
Qed.

Lemma sorted_by_ascending {A : Type} (key : A -> string) (l : list A) :
  ascending (map key (CostTables.sorted_by key l)) = true.
Proof.
  unfold CostTables.sorted_by. induction l as [| x l IH]; cbn [fold_right];
    [reflexivity |].
  now apply insert_by_ascending.
Qed.

Lemma unique_by_spec {A : Type} (key : A -> string) (values : list A)
  (seen : list string) :
  let l := CostTables.unique_by key seen values in
  NoDup (map key l)
  /\ (forall y, In y l -> In y values /\ ~ In (key y) seen)
  /\ (forall y, In y values -> In (key y) seen \/ In (key y) (map key l)).
Proof.
  revert seen. induction values as [| v values IH]; intros seen; cbn.
  - split; [constructor |]. split; [tauto | tauto].
  - destruct (existsb (String.eqb (key v)) seen) eqn:E.
    + destruct (IH seen) as (H1 & H2 & H3).
      split; [exact H1 |]. split.
      * intros y Hy. destruct (H2 y Hy). auto.
      * intros y [<- | Hy]; [| auto].
        left. apply existsb_exists in E as (k & Hk & Ek).
        apply String.eqb_eq in Ek. now subst.
    + destruct (IH (key v :: seen)) as (H1 & H2 & H3).
      assert (Hv : ~ In (key v) seen).
      { intros Hin. assert (existsb (String.eqb (key v)) seen = true).
        { apply existsb_exists. exists (key v). split; [exact Hin |].
          apply String.eqb_refl. }
        congruence. }
      split; [| split].
      * cbn [map]. constructor; [| exact H1].
        intros Hin. apply in_map_iff in Hin as (y & Ey & Hy).
        destruct (H2 y Hy) as [_ Hn]. apply Hn. left. now symmetry.
      * intros y [<- | Hy]; [auto |].
        destruct (H2 y Hy) as [Hin Hn]. split; [now right |].
        intros Hs. apply Hn. now right.
      * intros y [<- | Hy]; [right; now left |].
        destruct (H3 y Hy) as [[<- | Hs] | Hm]; cbn [map In]; auto.
Qed.

Lemma nodup_map_sorted {A : Type} (key : A -> string) (l : list A) :
  NoDup (map key l) -> NoDup (map key (CostTables.sorted_by key l)).
Proof.
  unfold CostTables.sorted_by.
  induction l as [| x l IH]; cbn [map fold_right]; [auto |].
  intros H. inversion H as [| ? ? Hx Hl]; subst. specialize (IH Hl).
  assert (Hn : ~ In (key x) (map key (fold_right (CostTables.insert_by key) [] l))).
  { intros Hin. apply in_map_iff in Hin as (y & Ey & Hy).
    apply (sorted_by_in key y l) in Hy. apply Hx. rewrite <- Ey.
    now apply in_map. }
  revert IH Hn. generalize (fold_right (CostTables.insert_by key) [] l).
  clear. intros l. induction l as [| z l IH]; cbn; intros Hnd Hn.
  - constructor; [tauto | constructor].
  - destruct (String.leb (key x) (key z)); cbn [map].
    + constructor; [exact Hn | exact Hnd].
    + inversion Hnd as [| ? ? Hz Hl]; subst.
      constructor.
      * intros Hin. apply in_map_iff in Hin as (y & Ey & Hy).
        apply insert_by_in in Hy as [-> | Hy].
        -- apply Hn. left. now symmetry.
        -- apply Hz. rewrite <- Ey. now apply in_map.
      * apply IH; [exact Hl |]. intros Hin. apply Hn. now right.
Qed.

(** X27.  [get_all_profiles] lists the catalog by designation: in
    ascending order of code points, no designation twice, every profile
    listed is an entry of the catalog, and every entry of the catalog has
    its designation listed.  This holds of any catalog; the one of the
    database lists its 89 profiles. *)
Theorem all_profiles_listing (db : Dict.t CostDatabase.SteelProfile) :
  let l := CostTables.get_all_profiles_in db in
  ascending (map CostDatabase.designation l) = true
  /\ NoDup (map CostDatabase.designation l)
  /\ (forall p, In p l -> In p (map snd db))
  /\ (forall p,
        In p (map snd db) ->
        In (CostDatabase.designation p) (map CostDatabase.designation l))
  /\ List.length CostTables.get_all_profiles = 89%nat.
Proof.
  intros l. unfold l, CostTables.get_all_profiles_in.
  destruct (unique_by_spec CostDatabase.designation (map snd db) [])
    as (H1 & H2 & H3). cbv zeta in *.
  split; [apply sorted_by_ascending |].
  split; [now apply nodup_map_sorted |].
  split.
  - intros p Hp. apply sorted_by_in in Hp. now apply H2.
  - split; [| vm_compute; reflexivity].
    intros p Hp. destruct (H3 p Hp) as [[] | Hm].
    apply in_map_iff in Hm as (y & Ey & Hy).
    rewrite <- Ey. apply in_map. now apply sorted_by_in.
Qed.

(** ** Further properties: the cladding rules *)

Lemma lower_upper_char (c : ascii) :
  PyStr.lower_char (PyStr.upper_char c) = PyStr.lower_char c.
Proof. destruct c as [[] [] [] [] [] [] [] []]; reflexivity. Qed.

Lemma lower_lower_char (c : ascii) :
  PyStr.lower_char (PyStr.lower_char c) = PyStr.lower_char c.
Proof. destruct c as [[] [] [] [] [] [] [] []]; reflexivity. Qed.

Lemma lower_upper (s : string) : PyStr.lower (PyStr.upper s) = PyStr.lower s.
Proof.
  induction s as [| c r IH]; cbn; [reflexivity |].
  rewrite lower_upper_char. f_equal. exact IH.
Qed.

Lemma lower_lower (s : string) : PyStr.lower (PyStr.lower s) = PyStr.lower s.
Proof.
  induction s as [| c r IH]; cbn; [reflexivity |].
  rewrite lower_lower_char. f_equal. exact IH.
Qed.

Lemma first_rule_in (rules : list (string * string)) (text name : string) :
  first_rule rules text = Some name -> In name (map snd rules).
Proof.
  induction rules as [| [p n] rules IH]; cbn; [discriminate |].
  destruct (found p text); [intros [= ->]; now left |].
  intros H. right. auto.
Qed.

Lemma rule_names_resolve (name : string) :
  In name (map snd cladding_patterns) ->
  exists it,
    CostTables.find_cladding name "all" = Some it
    /\ CostTables.ci_designation it = name.
Proof.
  cbn. intros H.
  repeat (destruct H as [<- | H];
          [eexists; split; [vm_compute; reflexivity | reflexivity] |]).
  contradiction.
Qed.

(** X28.  [_try_calculate_cladding_from_cost_db] prices a description
    exactly when one of its rules is found in it: the item every rule
    names is in the tables.  The price is that of the item the first such
    rule names, for the quantity given; capitals and small letters in the
    description are not distinguished, and the unit passed is not read. *)
Theorem cladding_rules_resolve (description unit : string) (quantity : Q) :
  let priced :=
    _try_calculate_cladding_from_cost_db description quantity unit in
  (priced = None
   <-> first_rule cladding_patterns (PyStr.lower description) = None)
  /\ (forall c,
        priced = Some c ->
        exists name it,
          first_rule cladding_patterns (PyStr.lower description) = Some name
          /\ In it cladding_data
          /\ CostTables.ci_designation it = name
          /\ c = CostTables.item_calculate_cost it quantity)
  /\ (forall unit',
        _try_calculate_cladding_from_cost_db description quantity unit'
        = priced)
  /\ _try_calculate_cladding_from_cost_db (PyStr.upper description)
       quantity unit = priced
  /\ _try_calculate_cladding_from_cost_db (PyStr.lower description)
       quantity unit = priced.
Proof.
  intros priced. unfold priced, _try_calculate_cladding_from_cost_db.
  rewrite lower_upper, lower_lower.
  destruct (first_rule cladding_patterns (PyStr.lower description))
    as [name |] eqn:E.
  - destruct (rule_names_resolve (first_rule_in _ _ E)) as (it & Hf & Hd).
    rewrite Hf.
    split; [split; discriminate |].
    split; [| auto].
    intros c [= <-]. exists name, it.
    split; [reflexivity |].
    split; [exact (find_cladding_in_tables _ _ Hf) |]. auto.
  - split; [tauto |]. split; [discriminate | auto].
Qed.

(** ** The run on quantities as received and the run on typed payloads *)

Lemma make_line_int (c : Correlation) (id : Z) (q : Q) (ref desc st : string) :
  make_line c id (inject_Z (PyNum.int q)) ref desc st
  = make_line c id q ref desc st.
Proof. unfold make_line. rewrite int_of_Z. reflexivity. Qed.

Lemma quantity_int (field : option Q) (received : option Received.PyValue) :
  decoded received = Some field ->
  Received.py_int (opt_default received (Received.PyInt 1))
  = Return (PyNum.int (opt_default field 1)).
Proof.
  destruct received as [[| n | x | |] |]; cbn; intros [= <-]; cbn;
    try reflexivity.
  now rewrite int_of_Z.
Qed.

Lemma received_new_line (c : Correlation) (received : option Received.PyValue)
  (id : Z) (st : string) :
  correlation_quantity_ok (c, received) ->
  Received.new_line c received id st = Return (new_line c id st).
Proof.
  unfold correlation_quantity_ok, source_quantity, Received.new_line, new_line.
  cbn [fst snd].
  destruct (co_dxf_profile c) as [dp |].
  { intros H. destruct (H _ eq_refl) as [Hd _]. cbn [bind].
    rewrite (quantity_int _ Hd). cbn [bind]. now rewrite make_line_int. }
  destruct (co_material_quantity c) as [mq |].
  { intros H. destruct (H _ eq_refl) as [Hd _]. cbn [bind].
    rewrite (quantity_int _ Hd). cbn [bind]. now rewrite make_line_int. }
  destruct (co_pdf_item c) as [it |]; [| reflexivity].
  intros H. destruct (H _ eq_refl) as [Hd _].
  rewrite (quantity_int _ Hd). cbn [bind Received.py_int]. reflexivity.
Qed.

Lemma new_line_quantity (c : Correlation) (id : Z) (st : string)
  (line : BudgetLineItem) :
  new_line c id st = Some line ->
  exists field,
    source_quantity c = Some field
    /\ quantity line = Z.max 1 (PyNum.int (opt_default field 1%Q)).
Proof.
  destruct c as [dp mq it conf meth src specs].
  unfold new_line, source_quantity, apply_pdf_length, apply_geometry. cbn.
  destruct dp as [dp |], mq as [mq |], it as [it |]; intros [= <-];
    eexists; (split; [reflexivity |]);
    repeat match goal with
           | |- context [if ?b then _ else _] => destruct b
           end; cbn; rewrite ?int_of_Z; reflexivity.
Qed.

Lemma float_limit_above_one : (1 < Received.float_limit)%Z.
Proof. reflexivity. Qed.

Lemma received_line_costs (p : PricingParameters) (c : Correlation)
  (received : option Received.PyValue) (id : Z) (st : string)
  (line : BudgetLineItem) :
  correlation_quantity_ok (c, received) ->
  new_line c id st = Some line ->
  Received._calculate_line_costs p line st = _calculate_line_costs p line st.
Proof.
  intros Hok Hn. unfold Received._calculate_line_costs.
  destruct (_calculate_line_costs p line st) as [priced | e]; [| reflexivity].
  cbn [bind]. destruct (new_line_quantity _ _ _ Hn) as (field & Hs & Hq).
  destruct (Hok _ Hs) as [_ Hlt]. unfold Received.py_float.
  pose proof float_limit_above_one as H1.
  assert (Hb : (Z.abs (quantity line) <? Received.float_limit)%Z = true).
  { apply Z.ltb_lt. rewrite Hq. lia. }
  rewrite Hb. reflexivity.
Qed.

Lemma received_price_correlations (st : string)
  (cs : list (Correlation * option Received.PyValue)) :
  Forall correlation_quantity_ok cs ->
  forall (self : Self) (id : Z),
    Received.price_correlations self st id cs
    = price_correlations self st id (map fst cs).
Proof.
  induction 1 as [| [c v] r Hc _ IH]; intros self id; [reflexivity |].
  cbn [Received.price_correlations price_correlations map fst].
  rewrite (@received_new_line c v (id + 1)%Z st Hc).
  destruct (new_line c (id + 1) st) as [line |] eqn:Hn; [| apply IH].
  rewrite (@received_line_costs (params self) c v (id + 1)%Z st line Hc Hn).
  destruct (_calculate_line_costs (params self) line st); [apply IH | reflexivity].
Qed.

Lemma map_fst_filter {A B : Type} (f : A -> bool) (l : list (A * B)) :
  map fst (filter (fun entry => f (fst entry)) l) = filter f (map fst l).
Proof.
  induction l as [| [a b] r IH]; [reflexivity |]. cbn.
  destruct (f a); cbn; now rewrite IH.
Qed.

Lemma received_correlate_data (self : Self) (dxf : Received.DxfPayload)
  (pdf : Received.PdfPayload) :
  map fst (fst (Received.correlate_data self dxf pdf))
  = fst (correlate_data self (Received.typed_dxf dxf) (Received.typed_pdf pdf))
  /\ snd (Received.correlate_data self dxf pdf)
     = snd (correlate_data self (Received.typed_dxf dxf) (Received.typed_pdf pdf)).
Proof.
  unfold Received.correlate_data, correlate_data.
  cbn [Received.typed_dxf Received.typed_pdf dxf_success dxf_profiles
       dxf_material_quantities pdf_success pdf_bom_items pdf_constraints].
  rewrite !length_map.
  set (lookup := _build_pdf_lookup (map fst (Received.rp_bom_items pdf))).
  set (constraints := _index_constraints (Received.rp_constraints pdf)).
  assert (F : forall s,
            map fst
              (fst (let '(correlations, self0) :=
                      _create_fallback_correlations s (Received.typed_pdf pdf)
                        (Received.typed_dxf dxf) in
                    (map (fun correlation =>
                            (correlation, Some (Received.PyInt 1))) correlations,
                     self0)))
            = fst (_create_fallback_correlations s (Received.typed_pdf pdf)
                     (Received.typed_dxf dxf))
            /\ snd (let '(correlations, self0) :=
                      _create_fallback_correlations s (Received.typed_pdf pdf)
                        (Received.typed_dxf dxf) in
                    (map (fun correlation =>
                            (correlation, Some (Received.PyInt 1))) correlations,
                     self0))
               = snd (_create_fallback_correlations s (Received.typed_pdf pdf)
                        (Received.typed_dxf dxf))).
  { intros s.
    destruct (_create_fallback_correlations s _ _) as [cs s']. cbn [fst snd].
    split; [| reflexivity]. rewrite map_map. cbn [fst]. apply map_id. }
  destruct (Received.rd_success dxf
            && Nat.ltb 0 (List.length (Received.rd_profiles dxf))).
  - rewrite <- (map_fst_filter (fun m => String.eqb (mq_source m) "block_count")).
    set (ps := map _ (Received.rd_profiles dxf)).
    set (bs := map _ (filter _ (Received.rd_material_quantities dxf))).
    assert (E : map fst (ps ++ bs)%list
                = (map (fun profile =>
                          _correlate_profile_with_pdf profile lookup constraints)
                     (map fst (Received.rd_profiles dxf))
                   ++ map (fun material_qty =>
                             _create_material_correlation material_qty lookup
                               constraints)
                        (map fst
                           (filter (fun entry =>
                                      String.eqb (mq_source (fst entry))
                                        "block_count")
                                   (Received.rd_material_quantities dxf))))%list).
    { unfold ps, bs. rewrite map_app, !map_map. reflexivity. }
    rewrite <- E.
    destruct (ps ++ bs)%list as [| x r]; [apply F | split; reflexivity].
  - destruct (Received.rp_success pdf
              && Nat.ltb 0 (List.length (Received.rp_bom_items pdf))).
    + set (rs := map _ (Received.rp_bom_items pdf)).
      assert (E : map fst rs
                  = map pdf_only_correlation
                      (map fst (Received.rp_bom_items pdf))).
      { unfold rs. rewrite !map_map. reflexivity. }
      rewrite <- E.
      destruct rs as [| x r]; [apply F | split; reflexivity].
    + apply F.
Qed.

Lemma synthesized_quantity_ok (c : Correlation) :
  source_quantity c = Some (Some 1) ->
  correlation_quantity_ok (c, Some (Received.PyInt 1)).
Proof.
  intros Hs field Hf. cbn [fst snd] in *. rewrite Hs in Hf.
  injection Hf as <-. split; reflexivity.
Qed.

Lemma received_correlations_ok (self : Self) (dxf : Received.DxfPayload)
  (pdf : Received.PdfPayload) :
  payloads_ok dxf pdf ->
  Forall correlation_quantity_ok (fst (Received.correlate_data self dxf pdf)).
Proof.
  intros (Hp & Hm & Hr). unfold Received.correlate_data.
  set (lookup := _build_pdf_lookup (map fst (Received.rp_bom_items pdf))).
  set (constraints := _index_constraints (Received.rp_constraints pdf)).
  assert (F : forall s,
            Forall correlation_quantity_ok
              (fst (let '(correlations, self0) :=
                      _create_fallback_correlations s (Received.typed_pdf pdf)
                        (Received.typed_dxf dxf) in
                    (map (fun correlation =>
                            (correlation, Some (Received.PyInt 1))) correlations,
                     self0)))).
  { intros s.
    pose proof (@fallback_forall
                  (fun c => correlation_quantity_ok (c, Some (Received.PyInt 1)))
                  s (Received.typed_pdf pdf) (Received.typed_dxf dxf)) as H.
    destruct (_create_fallback_correlations s _ _) as [cs s']. cbn [fst] in *.
    apply Forall_map. apply H; intros; apply synthesized_quantity_ok; reflexivity. }
  assert (P : Forall correlation_quantity_ok
                (map (fun profile =>
                        (_correlate_profile_with_pdf (fst profile) lookup
                           constraints, snd profile))
                   (Received.rd_profiles dxf))).
  { apply Forall_map. eapply Forall_impl; [| exact Hp].
    intros [profile v] Hq field Hf. cbn [fst snd] in *.
    destruct (correlate_profile_shape profile lookup constraints)
      as (matched & confidence & method & E).
    rewrite E in Hf. injection Hf as <-. exact Hq. }
  assert (B : Forall correlation_quantity_ok
                (map (fun material_qty =>
                        (_create_material_correlation (fst material_qty) lookup
                           constraints, snd material_qty))
                   (filter (fun material_qty =>
                              String.eqb (mq_source (fst material_qty))
                                "block_count")
                           (Received.rd_material_quantities dxf)))).
  { apply Forall_map. apply Forall_forall. intros [mq v] Hin.
    apply filter_In in Hin as [Hin _].
    rewrite Forall_forall in Hm. specialize (Hm _ Hin).
    intros field Hf. cbn [fst snd] in *. injection Hf as <-. exact Hm. }
  assert (R : Forall correlation_quantity_ok
                (map (fun pdf_item =>
                        (pdf_only_correlation (fst pdf_item), snd pdf_item))
                   (Received.rp_bom_items pdf))).
  { apply Forall_map. eapply Forall_impl; [| exact Hr].
    intros [item v] Hq field Hf. cbn [fst snd] in *.
    injection Hf as <-. exact Hq. }
  destruct (Received.rd_success dxf && _).
  - match goal with
    | |- Forall _ (fst (match ?l with _ => _ end)) =>
        assert (H : Forall correlation_quantity_ok l)
          by (apply Forall_app; split; assumption);
        destruct l; [apply F | exact H]
    end.
  - destruct (Received.rp_success pdf && _); [| apply F].
    match goal with
    | |- Forall _ (fst (match ?l with _ => _ end)) =>
        assert (H : Forall correlation_quantity_ok l) by exact R;
        destruct l; [apply F | exact H]
    end.
Qed.

Lemma received_calculate_budget (self : Self) (dxf : Received.DxfPayload)
  (pdf : Received.PdfPayload) (st name now : string) :
  payloads_ok dxf pdf ->
  Received.calculate_budget self dxf pdf st name now
  = calculate_budget self (Received.typed_dxf dxf) (Received.typed_pdf pdf)
      st name now.
Proof.
  intros Hok. unfold Received.calculate_budget, calculate_budget.
  pose proof (received_correlations_ok self Hok) as Hcs.
  destruct (received_correlate_data self dxf pdf) as [Hc Hs].
  destruct (Received.correlate_data self dxf pdf) as [rcs self1].
  destruct (correlate_data self (Received.typed_dxf dxf) (Received.typed_pdf pdf))
    as [cs self2].
  cbn [fst snd] in *. subst cs self2.
  rewrite (received_price_correlations st Hcs).
  cbn [Received.typed_dxf Received.typed_pdf dxf_success dxf_profiles
       pdf_success].
  rewrite length_map. reflexivity.
Qed.

(** ** What a run on typed payloads raises *)

Lemma py_div_raise_inv (a b : Q) (e : PyExc) :
  py_div a b = Raise e -> e = ZeroDivisionError /\ b == 0.
Proof.
  unfold py_div. destruct (num_eqb_spec b 0) as [Hz | Hz]; [| discriminate].
  intros [= <-]. split; [reflexivity | exact Hz].
Qed.

Lemma line_costs_raise_inv (p : PricingParameters) (line : BudgetLineItem)
  (st : string) (e : PyExc) :
  _calculate_line_costs p line st = Raise e ->
  e = ZeroDivisionError /\ eur_to_usd p == 0.
Proof.
  unfold _calculate_line_costs.
  destruct (_try_calculate_from_cost_db line); [discriminate |].
  unfold formula_costs.
  destruct (py_div _ (eur_to_usd p)) as [price | e'] eqn:E; [discriminate |].
  cbn [bind]. intros [= <-]. exact (py_div_raise_inv _ _ E).
Qed.

Lemma priced_lines_raise_inv (p : PricingParameters) (st : string)
  (cs : list Correlation) (e : PyExc) :
  forall id,
    fst (priced_lines p st id cs) = Raise e ->
    e = ZeroDivisionError /\ eur_to_usd p == 0.
Proof.
  induction cs as [| c r IH]; intros id; cbn; [discriminate |].
  destruct (new_line c (id + 1) st) as [line |]; [| apply IH].
  destruct (_calculate_line_costs p line st) as [l | e'] eqn:E.
  - specialize (IH (id + 1)%Z).
    destruct (priced_lines p st (id + 1) r) as [res ls]. exact IH.
  - cbn. intros [= <-]. exact (line_costs_raise_inv _ _ _ E).
Qed.

Lemma calculate_summary_raise_inv (self : Self) (name : string) (hd hp : bool)
  (now : string) (e : PyExc) :
  fst (_calculate_summary self name hd hp now) = Raise e ->
  e = ZeroDivisionError /\ labor_rate_eur_hr (params self) == 0.
Proof.
  unfold _calculate_summary.
  destruct (py_div _ (labor_rate_eur_hr (params self))) as [h | e'] eqn:E;
    [discriminate |].
  cbn. intros [= <-]. exact (py_div_raise_inv _ _ E).
Qed.

Lemma run_raise_inv (self : Self) (dxf : DxfData) (pdf : PdfData)
  (st name now : string) (e : PyExc) :
  fst (calculate_budget self dxf pdf st name now) = Raise e ->
  e = ZeroDivisionError
  /\ (eur_to_usd (params self) == 0 \/ labor_rate_eur_hr (params self) == 0).
Proof.
  rewrite calculate_budget_eq. cbv zeta. rewrite correlate_data_params.
  destruct (fst (priced_lines _ _ _ _)) as [[] | e'] eqn:E.
  - set (self3 := set_line_items _ _).
    pose proof (@calculate_summary_raise_inv self3 name (has_dxf_of dxf)
                  (pdf_success pdf) now e) as H.
    destruct (_calculate_summary self3 name (has_dxf_of dxf) (pdf_success pdf) now)
      as [[u | e''] self4]; [discriminate |].
    cbn [fst] in *. intros [= <-]. destruct (H eq_refl) as [-> Hz].
    split; [reflexivity |]. right.
    unfold self3 in Hz. cbn in Hz. now rewrite correlate_data_params in Hz.
  - cbn [fst]. intros [= <-].
    destruct (priced_lines_raise_inv _ _ _ _ E) as [-> Hz]. auto.
Qed.

Lemma run_raise_labor (self : Self) (dxf : DxfData) (pdf : PdfData)
  (st name now : string) :
  labor_rate_eur_hr (params self) == 0 ->
  fst (calculate_budget self dxf pdf st name now) = Raise ZeroDivisionError.
Proof.
  intros Hz.
  destruct (fst (calculate_budget self dxf pdf st name now)) as [r | e] eqn:E.
  - exfalso.
    destruct (calculate_budget self dxf pdf st name now) as [res self'] eqn:R.
    cbn [fst] in E. subst res.
    destruct (run_return_elim _ _ _ _ _ _ R) as [Hn _]. exact (Hn Hz).
  - destruct (run_raise_inv _ _ _ _ _ _ E) as [-> _]. reflexivity.
Qed.

(** ** A quantity the loop cannot use *)

Lemma received_line_costs_return (p : PricingParameters) (line : BudgetLineItem)
  (st : string) :
  ~ eur_to_usd p == 0 ->
  (Z.abs (quantity line) < Received.float_limit)%Z ->
  exists line',
    Received._calculate_line_costs p line st = Return line'
    /\ _calculate_line_costs p line st = Return line'.
Proof.
  intros Hz Hq. destruct (@line_costs_return p line st Hz) as (l & Hl).
  exists l. split; [| exact Hl].
  unfold Received._calculate_line_costs, Received.py_float.
  rewrite Hl. cbn [bind].
  apply Z.ltb_lt in Hq. rewrite Hq. reflexivity.
Qed.

Lemma received_line_costs_overflow (p : PricingParameters)
  (line : BudgetLineItem) (st : string) :
  ~ eur_to_usd p == 0 ->
  (Received.float_limit <= Z.abs (quantity line))%Z ->
  Received._calculate_line_costs p line st = Raise OverflowError.
Proof.
  intros Hz Hq. destruct (@line_costs_return p line st Hz) as (l & Hl).
  unfold Received._calculate_line_costs, Received.py_float.
  rewrite Hl. cbn [bind].
  apply Z.ltb_ge in Hq. rewrite Hq. reflexivity.
Qed.

Lemma received_new_line_int (c : Correlation)
  (received : option Received.PyValue) (id : Z) (st : string) :
  source_quantity c <> None ->
  match Received.py_int (opt_default received (Received.PyInt 1)) with
  | Raise e => Received.new_line c received id st = Raise e
  | Return n =>
      exists line,
        Received.new_line c received id st = Return (Some line)
        /\ quantity line = Z.max 1 n
  end.
Proof.
  destruct c as [dp mq it conf meth src specs].
  unfold source_quantity, Received.new_line, apply_pdf_length, apply_geometry.
  cbn [co_dxf_profile co_material_quantity co_pdf_item].
  intros Hs.
  destruct (Received.py_int (opt_default received (Received.PyInt 1)))
    as [n | e] eqn:E.
  - destruct dp as [dp |], mq as [mq |], it as [it |];
      try (exfalso; apply Hs; reflexivity);
      cbn [bind]; rewrite ?E; cbn [bind Received.py_int];
      eexists; (split; [reflexivity |]);
      repeat match goal with
             | |- context [if ?b then _ else _] => destruct b
             end; cbn; rewrite ?int_of_Z; reflexivity.
  - destruct dp as [dp |], mq as [mq |], it as [it |];
      try (exfalso; apply Hs; reflexivity);
      cbn [bind]; rewrite ?E; reflexivity.
Qed.

Lemma received_loop_abort (p : PricingParameters) (st : string)
  (good rest : list (Correlation * option Received.PyValue))
  (entry : Correlation * option Received.PyValue) (e : PyExc) :
  ~ eur_to_usd p == 0 ->
  Forall correlation_quantity_ok good ->
  rejected entry e ->
  forall (self : Self) (id : Z),
    params self = p ->
    fst (Received.price_correlations self st id (good ++ entry :: rest)) = Raise e.
Proof.
  intros Hz Hgood [Hs He].
  induction Hgood as [| [c v] r Hc _ IH]; intros self id Hp.
  - destruct entry as [c v]. cbn [app Received.price_correlations fst snd] in *.
    pose proof (@received_new_line_int c v (id + 1)%Z st Hs) as Hn.
    unfold quantity_error in He.
    destruct (Received.py_int (opt_default v (Received.PyInt 1))) as [n | e'].
    + destruct Hn as (line & -> & Hq).
      destruct (Z.max 1 n <? Received.float_limit)%Z eqn:Hb; [discriminate |].
      injection He as <-. apply Z.ltb_ge in Hb.
      rewrite (@received_line_costs_overflow (params self) line st);
        [reflexivity | now rewrite Hp | rewrite Hq; lia].
    + injection He as <-. rewrite Hn. reflexivity.
  - cbn [app Received.price_correlations].
    rewrite (@received_new_line c v (id + 1)%Z st Hc).
    destruct (new_line c (id + 1) st) as [line |] eqn:Hn; [| apply IH; exact Hp].
    rewrite (@received_line_costs (params self) c v (id + 1)%Z st line Hc Hn).
    destruct (@line_costs_return (params self) line st) as (l & ->);
      [now rewrite Hp |].
    apply IH. exact Hp.
Qed.

Lemma received_run_abort (self : Self) (dxf : Received.DxfPayload)
  (pdf : Received.PdfPayload) (st name now : string)
  (good rest : list (Correlation * option Received.PyValue))
  (entry : Correlation * option Received.PyValue) (e : PyExc) :
  ~ eur_to_usd (params self) == 0 ->
  fst (Received.correlate_data self dxf pdf) = (good ++ entry :: rest)%list ->
  Forall correlation_quantity_ok good ->
  rejected entry e ->
  fst (Received.calculate_budget self dxf pdf st name now) = Raise e.
Proof.
  intros Hz Hcs Hgood Hrej. unfold Received.calculate_budget.
  destruct (received_correlate_data self dxf pdf) as [_ Hs].
  pose proof (correlate_data_params self (Received.typed_dxf dxf)
                (Received.typed_pdf pdf)) as Hp.
  rewrite <- Hs in Hp.
  destruct (Received.correlate_data self dxf pdf) as [rcs self1].
  cbn [fst snd] in *. subst rcs.
  pose proof (@received_loop_abort (params self) st good rest entry e Hz Hgood
                Hrej (set_line_items [] self1) 0%Z Hp) as H.
  destruct (Received.price_correlations (set_line_items [] self1) st 0
              (good ++ entry :: rest)) as [[u | e'] self2];
    cbn [fst] in H; [discriminate |].
  injection H as <-. reflexivity.
Qed.

(** ** The line that raises *)

Lemma priced_lines_raise_at (p : PricingParameters) (st : string)
  (cs : list Correlation) (e : PyExc) :
  forall id,
    fst (priced_lines p st id cs) = Raise e ->
    exists before c after line,
      cs = (before ++ c :: after)%list
      /\ new_line c (id + Z.of_nat (List.length before) + 1) st = Some line
      /\ _calculate_line_costs p line st = Raise e.
Proof.
  induction cs as [| c r IH]; intros id; cbn [priced_lines]; [discriminate |].
  assert (Hrec : fst (priced_lines p st (id + 1) r) = Raise e ->
                 exists before c0 after line,
                   (c :: r) = (before ++ c0 :: after)%list
                   /\ new_line c0 (id + Z.of_nat (List.length before) + 1) st
                      = Some line
                   /\ _calculate_line_costs p line st = Raise e).
  { intros H. destruct (IH _ H) as (b & c0 & a & line & -> & Hn & Hc).
    exists (c :: b), c0, a, line. split; [reflexivity |].
    split; [| exact Hc].
    cbn [List.length]. rewrite Nat2Z.inj_succ.
    replace (id + Z.succ (Z.of_nat (List.length b)) + 1)%Z
      with (id + 1 + Z.of_nat (List.length b) + 1)%Z by lia.
    exact Hn. }
  destruct (new_line c (id + 1) st) as [line |] eqn:Hn; [| exact Hrec].
  destruct (_calculate_line_costs p line st) as [l | e'] eqn:E.
  - destruct (priced_lines p st (id + 1) r) as [res ls]. exact Hrec.
  - cbn [fst]. intros [= <-]. exists [], c, r, line.
    split; [reflexivity |]. split; [| exact E].
    cbn [List.length]. now rewrite Z.add_0_r.
Qed.

Lemma priced_lines_formula_raise (p : PricingParameters) (st : string)
  (before after : list Correlation) (c : Correlation) (line : BudgetLineItem) :
  eur_to_usd p == 0 ->
  _try_calculate_from_cost_db line = None ->
  forall id,
    new_line c (id + Z.of_nat (List.length before) + 1) st = Some line ->
    fst (priced_lines p st id (before ++ c :: after)) = Raise ZeroDivisionError.
Proof.
  intros Hz Hdb. induction before as [| c0 r IH]; intros id Hn.
  - cbn [app priced_lines List.length] in *. rewrite Z.add_0_r in Hn.
    rewrite Hn. unfold _calculate_line_costs. rewrite Hdb.
    unfold formula_costs. rewrite (py_div_raise _ Hz). reflexivity.
  - cbn [app priced_lines].
    assert (Hrec : fst (priced_lines p st (id + 1) (r ++ c :: after))
                   = Raise ZeroDivisionError).
    { apply IH. cbn [List.length] in Hn. rewrite Nat2Z.inj_succ in Hn.
      replace (id + 1 + Z.of_nat (List.length r) + 1)%Z
        with (id + Z.succ (Z.of_nat (List.length r)) + 1)%Z by lia.
      exact Hn. }
    destruct (new_line c0 (id + 1) st) as [l0 |]; [| exact Hrec].
    destruct (_calculate_line_costs p l0 st) as [l | e] eqn:E.
    + destruct (priced_lines p st (id + 1) (r ++ c :: after)) as [res ls].
      exact Hrec.
    + destruct (line_costs_raise_inv _ _ _ E) as [-> _]. reflexivity.
Qed.

Lemma run_raises_iff (self : Self) (dxf : DxfData) (pdf : PdfData)
  (st name now : string) (e : PyExc) :
  fst (calculate_budget self dxf pdf st name now) = Raise e
  <-> e = ZeroDivisionError
      /\ (labor_rate_eur_hr (params self) == 0
          \/ (eur_to_usd (params self) == 0
              /\ formula_line (fst (correlate_data self dxf pdf)) st)).
Proof.
  split.
  - intros H. destruct (run_raise_inv _ _ _ _ _ _ H) as [-> Hd].
    split; [reflexivity |].
    destruct (num_eqb_spec (labor_rate_eur_hr (params self)) 0) as [Hl | Hl];
      [left; exact Hl | right].
    revert H. rewrite calculate_budget_eq. cbv zeta.
    rewrite correlate_data_params.
    destruct (fst (priced_lines _ _ _ _)) as [[] | e'] eqn:E.
    + set (self3 := set_line_items _ _).
      assert (Hl3 : ~ labor_rate_eur_hr (params self3) == 0).
      { unfold self3. cbn. now rewrite correlate_data_params. }
      pose proof (@calculate_summary_return self3 name (has_dxf_of dxf)
                    (pdf_success pdf) now Hl3) as Hret.
      destruct (_calculate_summary self3 name (has_dxf_of dxf) (pdf_success pdf)
                  now) as [[[] | e''] self4]; discriminate.
    + intros _.
      destruct (priced_lines_raise_at _ _ _ _ E)
        as (before & c & after & line & Hcs & Hn & Hc).
      destruct (line_costs_raise_inv _ _ _ Hc) as [_ Hz].
      split; [exact Hz |].
      exists before, c, after, line. split; [exact Hcs |].
      split; [exact Hn |].
      unfold _calculate_line_costs in Hc.
      destruct (_try_calculate_from_cost_db line); [discriminate | reflexivity].
  - intros [-> [Hl | [Hz (before & c & after & line & Hcs & Hn & Hdb)]]].
    + apply run_raise_labor. exact Hl.
    + rewrite calculate_budget_eq. cbv zeta. rewrite correlate_data_params.
      rewrite Hcs.
      rewrite (@priced_lines_formula_raise (params self) st before after c line
                 Hz Hdb 0%Z Hn).
      reflexivity.
Qed.

(** ** Failure policy *)

(** C9, as the code has it.  [calculate_budget] catches no exception, so
    what the pricing of a line raises reaches the caller and ends the
    run.  A line the catalog does not resolve is priced by the formulas:
    with a conversion factor that is not zero and a quantity a float
    holds, pricing returns on either path.  When every quantity of the
    payloads is missing or a finite number with an integer part a float
    holds, the run is the run on the typed payloads: it raises nothing
    but [ZeroDivisionError], and raises it exactly when the labor rate is
    zero or the conversion factor is zero and some line takes the formula
    path; it returns when neither is zero.  A quantity the loop reads
    and [int] rejects ([None], an infinity, a NaN), or an integer too
    large for a float, has no fallback: when the lines before it are
    priced, the run raises that exception. *)
Theorem pricing_exceptions (self : Self) (dxf : Received.DxfPayload)
  (pdf : Received.PdfPayload) (st name now : string) :
  let p := params self in
  let run := Received.calculate_budget self dxf pdf st name now in
  let typed_run :=
    calculate_budget self (Received.typed_dxf dxf) (Received.typed_pdf pdf)
      st name now in
  let typed_correlations :=
    fst (correlate_data self (Received.typed_dxf dxf) (Received.typed_pdf pdf)) in
  (forall line,
     ~ eur_to_usd p == 0 ->
     (Z.abs (quantity line) < Received.float_limit)%Z ->
     exists line',
       Received._calculate_line_costs p line st = Return line'
       /\ (_try_calculate_from_cost_db line = None ->
           formula_costs p line st = Return line'))
  /\ (payloads_ok dxf pdf ->
      run = typed_run
      /\ (forall e,
            fst run = Raise e
            <-> e = ZeroDivisionError
                /\ (labor_rate_eur_hr p == 0
                    \/ (eur_to_usd p == 0 /\ formula_line typed_correlations st)))
      /\ (~ eur_to_usd p == 0 -> ~ labor_rate_eur_hr p == 0 ->
          exists r self', run = (Return r, self')))
  /\ (forall good entry rest e,
        ~ eur_to_usd p == 0 ->
        fst (Received.correlate_data self dxf pdf) = (good ++ entry :: rest)%list ->
        Forall correlation_quantity_ok good ->
        rejected entry e ->
        fst run = Raise e).
Proof.
  intros p run typed_run typed_correlations.
  split; [| split].
  - intros line Hz Hq.
    destruct (@received_line_costs_return p line st Hz Hq) as (l & Hr & Hl).
    exists l. split; [exact Hr |].
    intros Hdb. unfold _calculate_line_costs in Hl. now rewrite Hdb in Hl.
  - intros Hok.
    assert (E : run = typed_run)
      by exact (@received_calculate_budget self dxf pdf st name now Hok).
    split; [exact E |]. rewrite E. split.
    + intros e. apply run_raises_iff.
    + intros Hz Hl. apply run_return_intro; [| exact Hl].
      apply priced_lines_return. exact Hz.
  - intros good entry rest e Hz Hcs Hgood Hrej.
    exact (@received_run_abort self dxf pdf st name now good rest entry e
             Hz Hcs Hgood Hrej).
Qed.

(** C9 at the default parameters, on three rows whose quantities are an
    integer, a float and missing. *)
Lemma pricing_exceptions_witness :
  let pdf :=
    received_rows
      [received_row "R1" "Perfil" (Some (Received.PyInt 2));
       received_row "R2" "IPE 200" (Some (Received.PyFloat 2.5));
       received_row "R3" "Perfil" None] in
  exists r self',
    Received.calculate_budget (__init__ None) no_geometry pdf
      "none" "Obra" "2026-01-01"
    = (Return r, self').
Proof.
  intro pdf.
  destruct (@pricing_exceptions (__init__ None) no_geometry pdf
              "none" "Obra" "2026-01-01") as (_ & H & _).
  destruct H as (_ & _ & R).
  - split; [constructor |]. split; [constructor |].
    repeat constructor; vm_compute; reflexivity.
  - apply R; intro H; discriminate H.
Defined.

(** C9, as stated.  At a conversion factor of zero, pricing a line the
    catalog does not resolve raises, and so does the whole calculation.
    At the default parameters, a row whose quantity is [None], an
    infinity, a NaN or the integer [10**400] ends the run with
    [TypeError], [OverflowError], [ValueError] or [OverflowError]: the row
    before it is priced, no other rule is tried and nothing is
    returned. *)
Lemma pricing_raises_counterexample :
  let line := sample_line "Perfil - L1" "L1" 1 400 0 1000 0 1 None in
  let dxf := dxf_of [sample_profile "L1" (Some 1) 400 0 1000 0 (Some 1)] in
  let run received :=
    Received.calculate_budget (__init__ None) no_geometry
      (received_rows [received_row "R1" "Perfil" (Some (Received.PyInt 2));
                      received_row "R2" "Perfil" received;
                      received_row "R3" "Perfil" (Some (Received.PyInt 1))])
      "none" "Obra" "2026-01-01" in
  _calculate_line_costs params_zero_conversion line "none"
  = Raise ZeroDivisionError
  /\ fst (calculate_budget (__init__ (Some params_zero_conversion))
            dxf no_pdf "none" "Obra" "2026-01-01")
     = Raise ZeroDivisionError
  /\ fst (run (Some Received.PyNone)) = Raise TypeError
  /\ fst (run (Some Received.PyInf)) = Raise OverflowError
  /\ fst (run (Some Received.PyNan)) = Raise ValueError
  /\ fst (run (Some (Received.PyInt (10 ^ 400)))) = Raise OverflowError
  /\ List.length (line_items (snd (run (Some Received.PyNone)))) = 1%nat.
Proof. repeat split; vm_compute; reflexivity. Qed.

(** ** Further properties: the extractor and the engine together *)

Lemma round_half_even_lower (y : Q) (k : Z) :
  inject_Z k <= y -> (k <= PyNum.round_half_even y)%Z.
Proof.
  intros H. unfold PyNum.round_half_even.
  assert (Hf : (k <= Qfloor y)%Z).
  { rewrite <- (Qfloor_Z k). now apply Qfloor_resp_le. }
  repeat match goal with
         | |- context [if ?b then _ else _] => destruct b
         end; lia.
Qed.

Lemma round_half_even_upper (y : Q) (k : Z) :
  y <= inject_Z k -> (PyNum.round_half_even y <= k)%Z.
Proof.
  intros H. unfold PyNum.round_half_even.
  pose proof (Qfloor_le y) as H1. pose proof (Qlt_floor y) as H2.
  assert (Hf : (Qfloor y <= k)%Z).
  { rewrite <- (Qfloor_Z k). now apply Qfloor_resp_le. }
  destruct (Z.eq_dec (Qfloor y) k) as [E | E].
  - rewrite E in *. 
    destruct (num_ltb_spec (y - inject_Z k) (1 # 2)) as [Ha | Ha]; [lia | lra].
  - repeat match goal with
           | |- context [if ?b then _ else _] => destruct b
           end; lia.
Qed.

Lemma scale_pos (n : nat) : 0 < inject_Z (10 ^ Z.of_nat n).
Proof.
  unfold Qlt. cbn. pose proof (Z.pow_pos_nonneg 10 (Z.of_nat n)). lia.
Qed.

Lemma round_lower (x : Q) (n : nat) (k : Z) :
  inject_Z k <= x -> inject_Z k <= PyNum.round x n.
Proof.
  intros H. unfold PyNum.round.
  pose proof (scale_pos n) as Hs.
  set (scale := inject_Z (10 ^ Z.of_nat n)) in *.
  assert (Hk : inject_Z (k * 10 ^ Z.of_nat n) <= x * scale).
  { rewrite inject_Z_mult. fold scale. apply Qmult_le_compat_r; lra. }
  apply round_half_even_lower in Hk.
  apply Qle_shift_div_l; [exact Hs |].
  unfold scale. rewrite <- inject_Z_mult.
  rewrite <- Zle_Qle. exact Hk.
Qed.

Lemma round_upper (x : Q) (n : nat) (k : Z) :
  x <= inject_Z k -> PyNum.round x n <= inject_Z k.
Proof.
  intros H. unfold PyNum.round.
  pose proof (scale_pos n) as Hs.
  set (scale := inject_Z (10 ^ Z.of_nat n)) in *.
  assert (Hk : x * scale <= inject_Z (k * 10 ^ Z.of_nat n)).
  { rewrite inject_Z_mult. fold scale. apply Qmult_le_compat_r; lra. }
  apply round_half_even_upper in Hk.
  apply Qle_shift_div_r; [exact Hs |].
  unfold scale. rewrite <- inject_Z_mult.
  rewrite <- Zle_Qle. exact Hk.
Qed.

Lemma product_ge_one (a b : Q) : 1 <= a -> 1 <= b -> 1 <= a * b.
Proof.
  intros Ha Hb.
  assert (H : 0 <= (a - 1) * (b - 1)) by (apply Qmult_le_0_compat; lra).
  lra.
Qed.

Lemma with_complexity_range (features : list DxfParser.GeometricFeature)
  (p : DxfParser.ProfileData) :
  1 <= DxfParser.pd_complexity_score (DxfParser.with_complexity features p) <= 3.
Proof.
  unfold DxfParser.with_complexity. cbn [DxfParser.pd_complexity_score].
  match goal with
  | |- _ <= PyNum.min 3.0 (?vf * ?ff * ?af) <= _ =>
      assert (Hvf : 1 <= vf);
      [| assert (Hff : 1 <= ff);
         [| assert (Haf : 1 <= af);
            [| pose proof (product_ge_one (product_ge_one Hvf Hff) Haf) as Hp;
               destruct (min_spec 3.0 (vf * ff * af)) as [[? ->] | [? ->]];
               lra]]]
  end.
  - match goal with |- _ <= PyNum.max ?a ?b =>
      destruct (max_spec a b) as [[? ->] | [? ->]] end; lra.
  - pose proof (of_nat_nonneg
                  (List.length (filter (DxfParser.near_profile p) features))).
    lra.
  - destruct (num_gtb_spec (height (DxfParser.pd_bounding_box p)) 0) as [Hh | Hh];
      [| cbn; lra].
    destruct (num_gtb_spec (width (DxfParser.pd_bounding_box p)) 0) as [Hw | Hw];
      [| cbn; lra].
    cbn [andb].
    set (w := width (DxfParser.pd_bounding_box p)) in *.
    set (h := height (DxfParser.pd_bounding_box p)) in *.
    assert (Hmin : 0 < PyNum.min w h)
      by (destruct (min_spec w h) as [[? ->] | [? ->]]; assumption).
    assert (Hle : PyNum.min w h <= PyNum.max w h).
    { destruct (min_spec w h) as [[? ->] | [? ->]];
        destruct (max_spec w h) as [[? ->] | [? ->]]; lra. }
    assert (Hasp : 1 <= PyNum.max w h / PyNum.min w h).
    { apply Qle_shift_div_l; [exact Hmin | lra]. }
    match goal with |- _ <= PyNum.min ?a ?b =>
      destruct (min_spec a b) as [[? ->] | [? ->]] end; lra.
Qed.

Lemma round_nonneg (x : Q) (n : nat) : 0 <= x -> 0 <= PyNum.round x n.
Proof. intros H. apply (@round_lower x n 0%Z). exact H. Qed.

Lemma thickness_or_hint_nonneg (p : DxfParser.ProfileData) :
  (forall t, DxfParser.pd_thickness_hint p = Some t -> 0 <= t) ->
  0 <= DxfParser.thickness_or_hint None p.
Proof.
  intros H. unfold DxfParser.thickness_or_hint.
  apply opt_or_nonneg; [exact H | lra].
Qed.

Lemma calculate_weight_nonneg (p : DxfParser.ProfileData) :
  geometry_nonneg p -> 0 <= DxfParser.calculate_weight p 2700 None.
Proof.
  intros (Hper & Harea & _ & _ & _ & Hh).
  pose proof (thickness_or_hint_nonneg p Hh) as Ht.
  unfold DxfParser.calculate_weight.
  set (t := DxfParser.thickness_or_hint None p) in *.
  destruct (negb (DxfParser.pd_is_closed p)
            || PyNum.leb (DxfParser.pd_area_mm2 p) 0).
  - destruct (PyNum.gtb (DxfParser.pd_perimeter_mm p) 0); [| lra].
    apply round_nonneg. nonneg.
  - apply round_nonneg. nonneg.
Qed.

Lemma scale_profile_nonneg (factor : Q) (p : DxfParser.ProfileData) :
  0 <= factor -> geometry_nonneg p ->
  geometry_nonneg (DxfParser.scale_profile factor p).
Proof.
  intros Hf (H1 & H2 & H3 & H4 & H5 & H6).
  unfold geometry_nonneg. cbn. repeat split; nonneg.
Qed.

Lemma to_dict_measures (p : DxfParser.ProfileData) :
  geometry_nonneg p ->
  1 <= DxfParser.pd_complexity_score p ->
  profile_measures_ok (DxfParser.to_dict p).
Proof.
  intros G Hc. pose proof (calculate_weight_nonneg G) as Hw.
  destruct G as (H1 & H2 & H3 & H4 & H5 & H6).
  unfold profile_measures_ok. cbn.
  repeat split; try (apply round_nonneg; assumption); try assumption.
  intros c [= <-]. apply (@round_lower _ 2 1%Z). exact Hc.
Qed.

Lemma material_to_dict_measures (m : DxfParser.MaterialQuantity) :
  material_nonneg m ->
  material_measures_ok (DxfParser.material_to_dict m).
Proof.
  intros (H1 & H2). unfold material_measures_ok. cbn.
  split; apply round_nonneg; assumption.
Qed.

Lemma scale_material_nonneg (factor : Q) (m : DxfParser.MaterialQuantity) :
  0 <= factor -> material_nonneg m ->
  material_nonneg (DxfParser.scale_material factor m).
Proof.
  intros Hf (H1 & H2). unfold material_nonneg. cbn. split; nonneg.
Qed.

Lemma parse_result_profiles (factor : Q) (profiles : list DxfParser.ProfileData)
  (features : list DxfParser.GeometricFeature)
  (mats : list DxfParser.MaterialQuantity) :
  exists ps ms,
    dxf_profiles (DxfParser.parse_result factor profiles features mats)
    = map DxfParser.to_dict ps
    /\ dxf_material_quantities
         (DxfParser.parse_result factor profiles features mats)
       = map DxfParser.material_to_dict ms
    /\ Forall (fun p => 1 <= DxfParser.pd_complexity_score p <= 3) ps
    /\ (0 <= factor -> Forall geometry_nonneg profiles ->
        Forall geometry_nonneg ps)
    /\ (0 <= factor -> Forall material_nonneg mats -> Forall material_nonneg ms).
Proof.
  unfold DxfParser.parse_result, DxfParser._apply_scale_corrections,
    DxfParser._calculate_complexity.
  destruct (PyNum.eqb factor 1.0).
  - exists (map (DxfParser.with_complexity features) profiles), mats.
    split; [reflexivity |]. split; [reflexivity |].
    split; [| split].
    + apply Forall_map. apply Forall_forall. intros p _.
      apply with_complexity_range.
    + intros _ H. apply Forall_map. eapply Forall_impl; [| exact H].
      intros p Hp. exact Hp.
    + intros _ H. exact H.
  - exists (map (DxfParser.scale_profile factor)
              (map (DxfParser.with_complexity features) profiles)),
           (map (DxfParser.scale_material factor) mats).
    split; [reflexivity |]. split; [reflexivity |].
    split; [| split].
    + apply Forall_map. apply Forall_map. apply Forall_forall. intros p _.
      apply (with_complexity_range features p).
    + intros Hf H. apply Forall_map. apply Forall_map.
      eapply Forall_impl; [| exact H].
      intros p Hp. apply scale_profile_nonneg; [exact Hf | exact Hp].
    + intros Hf H. apply Forall_map. eapply Forall_impl; [| exact H].
      intros m Hm. apply scale_material_nonneg; [exact Hf | exact Hm].
Qed.

(** X29.  What the extractor hands to the engine.  Every profile of the
    dictionary [parse] returns has a complexity score between 1 and 3,
    whatever was drawn.  When the measures collected (perimeter, area,
    length, bounding box, thickness hint, unit length and unit area of
    the aggregates) and the unit factor are not negative, the measures
    of the dictionary are not negative either, and a run on it with
    non-negative pricing parameters and non-negative lengths and
    thicknesses in the rows gives every line a non-negative total. *)
Theorem extracted_geometry_priced (self : Self) (factor : Q)
  (profiles : list DxfParser.ProfileData)
  (features : list DxfParser.GeometricFeature)
  (mats : list DxfParser.MaterialQuantity) (pdf : PdfData)
  (st name now : string) :
  let dxf := DxfParser.parse_result factor profiles features mats in
  Forall (fun dp => exists c,
            dp_complexity_score dp = Some c /\ 1 <= c <= 3)
    (dxf_profiles dxf)
  /\ (0 <= factor -> Forall geometry_nonneg profiles ->
      Forall material_nonneg mats ->
      Forall pdf_item_measures_ok (pdf_bom_items pdf) ->
      inputs_ok dxf pdf
      /\ (params_nonneg (params self) ->
          Forall (fun l => 0 <= total_cost l)
            (line_items (snd (calculate_budget self dxf pdf st name now))))).
Proof.
  intros dxf.
  destruct (parse_result_profiles factor profiles features mats)
    as (ps & ms & Ep & Em & Hc & Hg & Hm).
  fold dxf in Ep, Em. split.
  - rewrite Ep. apply Forall_map. eapply Forall_impl; [| exact Hc].
    intros p [H1 H3]. cbn. eexists. split; [reflexivity |].
    split; [apply (@round_lower _ 2 1%Z); exact H1
           | apply (@round_upper _ 2 3%Z); exact H3].
  - intros Hf Hps Hms Hrows.
    assert (Hin : inputs_ok dxf pdf).
    { split; [| split; [| exact Hrows]].
      - rewrite Ep. apply Forall_map.
        specialize (Hg Hf Hps). rewrite Forall_forall in Hg, Hc.
        apply Forall_forall. intros p Hp.
        apply to_dict_measures; [apply Hg; exact Hp | apply Hc; exact Hp].
      - rewrite Em. apply Forall_map.
        eapply Forall_impl; [| exact (Hm Hf Hms)].
        intros m H. exact (material_to_dict_measures H). }
    split; [exact Hin |].
    intros Hp. apply run_lines_forall. intros c id line l Hc' Hn Hl.
    pose proof (correlate_data_ok self Hin) as Hok.
    rewrite Forall_forall in Hok.
    eapply line_costs_nonneg; [exact Hp | | exact Hl].
    eapply new_line_ok; [apply Hok; exact Hc' | exact Hn].
Qed.

(** X29 at a drawing of two rectangles and a hole, in a file whose unit factor is 10. *)
Lemma extracted_geometry_priced_witness :
  let profiles := [sample_drawn "IPE 200" 100 200 4;
                   sample_drawn "L1" 40 400 12] in
  let features := [sample_hole "L1" 20 200] in
  let dxf := DxfParser.parse_result 10 profiles features [] in
  map dp_complexity_score (dxf_profiles dxf) = [Some 1.03; Some 2.04]
  /\ inputs_ok dxf no_pdf
  /\ Forall (fun l => 0 <= total_cost l)
       (line_items
          (snd (calculate_budget (__init__ None) dxf no_pdf
                  "none" "Obra" "2026-01-01"))).
Proof.
  intros profiles features dxf.
  split; [vm_compute; reflexivity |].
  destruct (@extracted_geometry_priced (__init__ None) 10 profiles features []
              no_pdf "none" "Obra" "2026-01-01") as [_ H].
  destruct H as [Hin Hrun].
  - intro H; discriminate H.
  - repeat constructor; cbn; try (intro H; discriminate H);
      intros t [= <-].
  - constructor.
  - constructor.
  - split; [exact Hin |]. apply Hrun. exact default_params_nonneg.
Defined.

(** ** Further properties: a run the service makes *)

(** X30.  A run for a request of the service.  The parameters are the
    defaults with the values the request gives; a request cannot set the
    conversion factor, the cutting time or the assembly time, which stay
    1.08, 2 and 8.  So pricing never raises: the run raises exactly when
    the hourly labor rate is zero, which only a request that sets it to
    zero brings about, and then with [ZeroDivisionError] from the
    summary; and when the values of the request and the measures of the
    payloads are not negative, the complexity scores among them, every
    line has a non-negative total. *)
Theorem service_request_run
  (parameters : option Service.PricingParametersUpdate)
  (dxf : DxfData) (pdf : PdfData) (st name now : string) :
  let params := Service.request_params parameters in
  let run := calculate_budget (__init__ (Some params)) dxf pdf st name now in
  (eur_to_usd params = 1.08 /\ cutting_time_mins params = 2.0
   /\ assembly_time_per_component_mins params = 8.0)
  /\ labor_rate_eur_hr params
     = match parameters with
       | Some u => opt_default (Service.up_labor_rate_eur_hr u) 35.0
       | None => 35.0
       end
  /\ (forall e,
        fst run = Raise e
        <-> e = ZeroDivisionError /\ labor_rate_eur_hr params == 0)
  /\ ((forall u, parameters = Some u -> request_nonneg u) ->
      inputs_nonneg dxf pdf ->
      Forall (fun l => 0 <= total_cost l) (line_items (snd run))).
Proof.
  intros params run.
  destruct (request_params_fixed parameters) as (Hc & Ha & He).
  fold params in Hc, Ha, He.
  split; [repeat split; assumption |].
  split; [destruct parameters; reflexivity |].
  split.
  - intros e. unfold run. rewrite run_raises_iff.
    cbn [__init__ BudgetCalculator.params].
    split.
    + intros [-> [Hl | [Hz _]]]; [split; [reflexivity | exact Hl] |].
      fold params in Hz. rewrite He in Hz. discriminate Hz.
    + intros [-> Hl]. split; [reflexivity | left; exact Hl].
  - intros Hreq Hin.
    assert (Hp : params_nonneg params).
    { unfold params. destruct parameters as [u |].
      - apply request_params_nonneg. apply Hreq. reflexivity.
      - exact default_params_nonneg. }
    assert (Hfix : 5 <= cutting_time_mins params
                        + assembly_time_per_component_mins params).
    { rewrite Hc, Ha. intro H; discriminate H. }
    apply run_lines_forall. intros c id line l Hc' Hn Hl.
    pose proof (correlate_data_nonneg (__init__ (Some params)) Hin) as Hok.
    rewrite Forall_forall in Hok.
    eapply line_costs_nonneg_covered; [exact Hp | | exact Hfix | exact Hl].
    eapply new_line_nonneg; [apply Hok; exact Hc' | exact Hn].
Qed.

(** X30 at a request that sets the labor rate to 50, on a profile whose
    complexity score is 0. *)
Lemma service_request_run_witness :
  let params := Service.request_params (Some (request_labor_rate 50)) in
  let dxf := dxf_of [sample_profile "L1" (Some 1) 0 0 0 0 (Some 0)] in
  Forall (fun l => 0 <= total_cost l)
    (line_items
       (snd (calculate_budget (__init__ (Some params)) dxf no_pdf
               "none" "Obra" "2026-01-01"))).
Proof.
  intros params dxf.
  destruct (@service_request_run (Some (request_labor_rate 50)) dxf no_pdf
              "none" "Obra" "2026-01-01") as (_ & _ & _ & H).
  apply H.
  - intros u [= <-]. cbn. repeat split; try discriminate.
    intros v [= <-]. intro H0; discriminate H0.
  - split; [| split]; cbn; [| constructor | constructor].
    repeat constructor; cbn; try (intro H0; discriminate H0);
      intros c [= <-]; intro H0; discriminate H0.
Defined.

(** ** The placeholder *)

(** C6, as the code has it.  With no profiles, no bill-of-materials rows,
    no constraints and no dimension strings, the correlator yields the
    placeholder alone.  When neither the conversion factor nor the hourly
    labor rate is zero, as with the defaults, [calculate_budget] returns
    exactly one line: method 'placeholder', confidence 0.1, quantity 1,
    quantity source 'estimated'.  When either is zero it raises
    [ZeroDivisionError] and returns no line list. *)
Theorem fallback_placeholder (self : Self) (dxf : DxfData) (pdf : PdfData)
  (st name now : string) :
  dxf_profiles dxf = [] -> pdf_bom_items pdf = [] ->
  pdf_constraints pdf = [] -> pdf_dimension_specs pdf = [] ->
  fst (correlate_data self dxf pdf) = [placeholder_correlation 0 0]
  /\ (~ eur_to_usd (params self) == 0 ->
      ~ labor_rate_eur_hr (params self) == 0 ->
      exists r self' d,
        calculate_budget self dxf pdf st name now = (Return r, self')
        /\ r_line_items r = [d]
        /\ d_correlation_method d = "placeholder"
        /\ d_correlation_confidence d == 0.1
        /\ d_quantity d = 1%Z
        /\ d_quantity_source d = "estimated")
  /\ (eur_to_usd (params self) == 0 \/ labor_rate_eur_hr (params self) == 0 ->
      fst (calculate_budget self dxf pdf st name now) = Raise ZeroDivisionError).
Proof.
  intros Hp Hi Hc Hd.
  pose proof (correlate_data_nothing self dxf pdf Hp Hi Hc Hd) as Hcs.
  split; [rewrite Hcs; reflexivity |]. split.
  - intros He Hl.
    rewrite calculate_budget_eq, Hcs.
    cbv zeta. cbn [fst snd].
    change (params (extend_log [creating_fallback_items] self)) with (params self).
    unfold priced_lines.
    destruct (placeholder_line (0 + 1) st) as (line & Hn & Hdb & Hq).
    rewrite Hn.
    destruct (@line_costs_return (params self) line st He) as (l & Hrun).
    rewrite Hrun. cbn [fst snd].
    apply new_line_provenance in Hn as (Hq1 & Hsrc & Hmeth & Hconf).
    destruct (@line_costs_frame (params self) line l st Hq1 Hrun) as (Eq & Es & _).
    destruct (@line_costs_provenance (params self) line l st Hrun) as (Em & Ec).
    set (self3 := set_line_items [l] (extend_log [creating_fallback_items] self)).
    assert (Hlab : ~ labor_rate_eur_hr (params self3) == 0) by exact Hl.
    pose proof (@calculate_summary_return self3 name (has_dxf_of dxf)
                  (pdf_success pdf) now Hlab) as Hret.
    destruct (calculate_summary_state self3 name (has_dxf_of dxf) (pdf_success pdf) now)
      as (s & _ & _ & Hli & _).
    destruct (_calculate_summary self3 name (has_dxf_of dxf) (pdf_success pdf) now)
      as [[[] | e] self4]; [| discriminate Hret].
    cbn [snd] in Hli.
    exists (result_of self4 (has_dxf_of dxf) (pdf_success pdf)), self4, (line_to_dict l).
    split; [reflexivity |].
    split; [cbn; rewrite Hli; reflexivity |].
    cbn [line_to_dict d_correlation_method d_correlation_confidence d_quantity
         d_quantity_source].
    rewrite Em, Ec, Eq, Es, Hmeth, Hconf, Hsrc, Hq.
    repeat split; try reflexivity.
  - intros Hz. apply run_raises_iff. split; [reflexivity |].
    destruct Hz as [Hz | Hz]; [right | left; exact Hz].
    split; [exact Hz |]. rewrite Hcs. cbn [fst].
    destruct (placeholder_line (0 + 1) st) as (line & Hn & Hdb & _).
    exists [], (placeholder_correlation 0 0), [], line.
    split; [reflexivity |]. split; [exact Hn | exact Hdb].
Qed.

(** C6 at the default parameters. *)
Lemma fallback_placeholder_witness :
  fst (correlate_data (__init__ None) no_dxf no_pdf) = [placeholder_correlation 0 0]
  /\ exists r self' d,
       calculate_budget (__init__ None) no_dxf no_pdf
         "powder_coating_standard" "Obra" "2026-01-01" = (Return r, self')
       /\ r_line_items r = [d]
       /\ d_correlation_method d = "placeholder"
       /\ d_correlation_confidence d == 0.1
       /\ d_quantity d = 1%Z
       /\ d_quantity_source d = "estimated".
Proof.
  destruct (@fallback_placeholder (__init__ None) no_dxf no_pdf
              "powder_coating_standard" "Obra" "2026-01-01"
              eq_refl eq_refl eq_refl eq_refl) as (Hc & Hr & _).
  split; [exact Hc |].
  apply Hr; intro H; discriminate H.
Defined.

(** C6, as stated, at an hourly labor rate of zero, which a request of
    the service can set, and at a conversion factor of zero: on the empty
    input the correlator yields the placeholder, and the calculation
    raises and returns no line list. *)
Lemma fallback_zero_divisor_counterexample :
  let run p :=
    calculate_budget (__init__ (Some p)) no_dxf no_pdf
      "powder_coating_standard" "Obra" "2026-01-01" in
  Service.request_params (Some (request_labor_rate 0)) = params_zero_labor_rate
  /\ fst (correlate_data (__init__ (Some params_zero_labor_rate)) no_dxf no_pdf)
     = [placeholder_correlation 0 0]
  /\ fst (run params_zero_labor_rate) = Raise ZeroDivisionError
  /\ fst (run params_zero_conversion) = Raise ZeroDivisionError.
Proof. repeat split; vm_compute; reflexivity. Qed.
